(** * State tracking and finalization of the ilo driver (ilo_state.c)

    A shallow embedding of [src/gallium/drivers/ilo/ilo_state.c]: the
    context is a record, every C function that mutates it is a function on
    that record, and the ways a call can stop early (a failed [assert], a
    null dereference, a division by zero, an array access out of bounds)
    are results of the error monad [result].  [LoopBoundExceeded] is not a
    behaviour of the C code: a bounded loop of the model returns it if its
    bound was too small, and the lemmas below show that it does not occur. *)

From Stdlib Require Import ZArith List Bool Lia.
From stdpp Require Import base decidable option list.
Import ListNotations.

Local Open Scope Z_scope.

(** ** Results of a call *)

Inductive fault : Set :=
| AssertionFailed
| NullDereference
| DivisionByZero
| OutOfBounds
| LoopBoundExceeded.

Inductive result (A : Type) : Type :=
| Ok (a : A)
| Abort (f : fault).

Arguments Ok {A} a.
Arguments Abort {A} f.

Definition bind {A B : Type} (m : result A) (k : A -> result B) : result B :=
  match m with
  | Ok a => k a
  | Abort f => Abort f
  end.

Notation "'let*' x ':=' m 'in' k" := (bind m (fun x => k))
  (at level 10, x pattern, m at level 100, k at level 200).

(** [assert(c)] *)
Definition assert (c : bool) : result unit :=
  if c then Ok tt else Abort AssertionFailed.

(** ** Machine integers

    [unsigned], [uint32_t] and [uint] are 32 bits wide; a value is a [Z] in
    [0, 2^32) and the operations wrap. *)

Definition UINT_RANGE : Z := 2 ^ 32.

Definition wrap32 (z : Z) : Z := z mod UINT_RANGE.

Definition uadd (a b : Z) : Z := wrap32 (a + b).
Definition umul (a b : Z) : Z := wrap32 (a * b).

Definition is_uint (z : Z) : Prop := 0 <= z < UINT_RANGE.

(** [a % b] and [a / b] on unsigned operands trap when [b] is zero. *)
Definition umod (a b : Z) : result Z :=
  if b =? 0 then Abort DivisionByZero else Ok (a mod b).

Definition udiv (a b : Z) : result Z :=
  if b =? 0 then Abort DivisionByZero else Ok (a / b).

(** ** Arrays

    A C array of fixed size is a list whose length never changes;
    [Elements(a)] is its length.  An access outside it aborts. *)

Definition Elements {A : Type} (l : list A) : Z := Z.of_nat (length l).

Definition load {A : Type} (l : list A) (i : Z) : result A :=
  if i <? 0 then Abort OutOfBounds
  else match l !! Z.to_nat i with
       | Some x => Ok x
       | None => Abort OutOfBounds
       end.

Definition store {A : Type} (l : list A) (i : Z) (x : A) : result (list A) :=
  if (0 <=? i) && (i <? Elements l)
  then Ok (<[Z.to_nat i := x]> l)
  else Abort OutOfBounds.

(** [for (; i < hi; i++) body(i)], from the current value of [i]; the result
    carries the value of [i] at exit, since consecutive loops of the source
    share their counter. *)
Fixpoint iterate {S : Type} (n : nat) (i : Z) (body : Z -> S -> result S) (s : S)
  : result (Z * S) :=
  match n with
  | O => Ok (i, s)
  | S n' => let* s' := body i s in iterate n' (i + 1) body s'
  end.

Definition for_lt {S : Type} (i hi : Z) (body : Z -> S -> result S) (s : S)
  : result (Z * S) :=
  iterate (Z.to_nat (hi - i)) i body s.

(** ** Dirty flags

    Modelled from the spec: [enum ilo_state] and the [ILO_DIRTY_*] masks are
    declared in [ilo_context.h], which is not among the sources.  One bit
    per state category, fewer than 32 categories
    ([STATIC_ASSERT(ILO_STATE_COUNT <= 32)] in [ilo_init_state_functions]),
    and [ILO_DIRTY_ALL] has every bit of the 32-bit word set.  The position
    of a category is its rank in the enumeration below. *)

Inductive ilo_state : Set :=
| ILO_STATE_BLEND
| ILO_STATE_FRAGMENT_SAMPLERS
| ILO_STATE_VERTEX_SAMPLERS
| ILO_STATE_GEOMETRY_SAMPLERS
| ILO_STATE_COMPUTE_SAMPLERS
| ILO_STATE_RASTERIZER
| ILO_STATE_DEPTH_STENCIL_ALPHA
| ILO_STATE_FS
| ILO_STATE_VS
| ILO_STATE_GS
| ILO_STATE_VERTEX_ELEMENTS
| ILO_STATE_BLEND_COLOR
| ILO_STATE_STENCIL_REF
| ILO_STATE_SAMPLE_MASK
| ILO_STATE_CLIP
| ILO_STATE_CONSTANT_BUFFER
| ILO_STATE_FRAMEBUFFER
| ILO_STATE_POLY_STIPPLE
| ILO_STATE_SCISSOR
| ILO_STATE_VIEWPORT
| ILO_STATE_FRAGMENT_SAMPLER_VIEWS
| ILO_STATE_VERTEX_SAMPLER_VIEWS
| ILO_STATE_GEOMETRY_SAMPLER_VIEWS
| ILO_STATE_COMPUTE_SAMPLER_VIEWS
| ILO_STATE_SHADER_RESOURCES
| ILO_STATE_VERTEX_BUFFERS
| ILO_STATE_INDEX_BUFFER
| ILO_STATE_STREAM_OUTPUT_TARGETS
| ILO_STATE_COMPUTE
| ILO_STATE_COMPUTE_RESOURCES
| ILO_STATE_GLOBAL_BINDING.

#[global] Instance ilo_state_eq_dec : EqDecision ilo_state.
Proof. solve_decision. Defined.

Definition ilo_state_index (s : ilo_state) : Z :=
  match s with
  | ILO_STATE_BLEND => 0
  | ILO_STATE_FRAGMENT_SAMPLERS => 1
  | ILO_STATE_VERTEX_SAMPLERS => 2
  | ILO_STATE_GEOMETRY_SAMPLERS => 3
  | ILO_STATE_COMPUTE_SAMPLERS => 4
  | ILO_STATE_RASTERIZER => 5
  | ILO_STATE_DEPTH_STENCIL_ALPHA => 6
  | ILO_STATE_FS => 7
  | ILO_STATE_VS => 8
  | ILO_STATE_GS => 9
  | ILO_STATE_VERTEX_ELEMENTS => 10
  | ILO_STATE_BLEND_COLOR => 11
  | ILO_STATE_STENCIL_REF => 12
  | ILO_STATE_SAMPLE_MASK => 13
  | ILO_STATE_CLIP => 14
  | ILO_STATE_CONSTANT_BUFFER => 15
  | ILO_STATE_FRAMEBUFFER => 16
  | ILO_STATE_POLY_STIPPLE => 17
  | ILO_STATE_SCISSOR => 18
  | ILO_STATE_VIEWPORT => 19
  | ILO_STATE_FRAGMENT_SAMPLER_VIEWS => 20
  | ILO_STATE_VERTEX_SAMPLER_VIEWS => 21
  | ILO_STATE_GEOMETRY_SAMPLER_VIEWS => 22
  | ILO_STATE_COMPUTE_SAMPLER_VIEWS => 23
  | ILO_STATE_SHADER_RESOURCES => 24
  | ILO_STATE_VERTEX_BUFFERS => 25
  | ILO_STATE_INDEX_BUFFER => 26
  | ILO_STATE_STREAM_OUTPUT_TARGETS => 27
  | ILO_STATE_COMPUTE => 28
  | ILO_STATE_COMPUTE_RESOURCES => 29
  | ILO_STATE_GLOBAL_BINDING => 30
  end.

Definition ILO_DIRTY (s : ilo_state) : Z := Z.shiftl 1 (ilo_state_index s).

Arguments ILO_DIRTY : simpl never.

Definition ILO_DIRTY_ALL : Z := 0xffffffff.

(** [dirty & mask] as a C condition *)
Definition dirty_test (dirty mask : Z) : bool := negb (Z.land dirty mask =? 0).

(** The category [s] is marked in [dirty]. *)
Definition is_dirty (dirty : Z) (s : ilo_state) : bool :=
  Z.testbit dirty (ilo_state_index s).

(** Every category marked in [a] is marked in [b]. *)
Definition dirty_subset (a b : Z) : Prop :=
  forall n : Z, Z.testbit a n = true -> Z.testbit b n = true.

(** ** Gallium objects

    Modelled from the spec: the gallium structures come from [p_state.h] and
    [p_defines.h], which are not among the sources.  A pointer to a heap
    object is the object it points to, identified by its address ([*_id]),
    together with the fields this file reads through the pointer; two
    pointers are equal when they denote the same object.  A null pointer is
    [None]. *)

Inductive pipe_texture_target : Set :=
| PIPE_BUFFER
| PIPE_TEXTURE_1D
| PIPE_TEXTURE_2D
| PIPE_TEXTURE_3D
| PIPE_TEXTURE_CUBE
| PIPE_TEXTURE_RECT
| PIPE_TEXTURE_1D_ARRAY
| PIPE_TEXTURE_2D_ARRAY
| PIPE_TEXTURE_CUBE_ARRAY.

Record pipe_resource : Set := {
  res_id : Z;
  target : pipe_texture_target;
  width0 : Z;
  nr_samples : Z
}.

Record pipe_sampler_view : Set := {
  view_id : Z;
  view_texture : option pipe_resource
}.

Record pipe_surface : Set := {
  surf_id : Z;
  surf_texture : option pipe_resource
}.

Record pipe_stream_output_target : Set := {
  target_id : Z;
  target_buffer : option pipe_resource
}.

(** The four shader types, in the order of their numbering
    ([PIPE_SHADER_TYPES] is 4). *)
Inductive pipe_shader_type : Set :=
| PIPE_SHADER_VERTEX
| PIPE_SHADER_FRAGMENT
| PIPE_SHADER_GEOMETRY
| PIPE_SHADER_COMPUTE.

Definition PIPE_SHADER_TYPES : list pipe_shader_type :=
  [PIPE_SHADER_VERTEX; PIPE_SHADER_FRAGMENT; PIPE_SHADER_GEOMETRY;
   PIPE_SHADER_COMPUTE].

Definition shader_type_index (sh : pipe_shader_type) : Z :=
  match sh with
  | PIPE_SHADER_VERTEX => 0
  | PIPE_SHADER_FRAGMENT => 1
  | PIPE_SHADER_GEOMETRY => 2
  | PIPE_SHADER_COMPUTE => 3
  end.

Definition shader_type_of_index (i : Z) : option pipe_shader_type :=
  if i =? 0 then Some PIPE_SHADER_VERTEX
  else if i =? 1 then Some PIPE_SHADER_FRAGMENT
  else if i =? 2 then Some PIPE_SHADER_GEOMETRY
  else if i =? 3 then Some PIPE_SHADER_COMPUTE
  else None.

#[global] Instance pipe_texture_target_eq_dec : EqDecision pipe_texture_target.
Proof. solve_decision. Defined.
#[global] Instance pipe_resource_eq_dec : EqDecision pipe_resource.
Proof. solve_decision. Defined.
#[global] Instance pipe_sampler_view_eq_dec : EqDecision pipe_sampler_view.
Proof. solve_decision. Defined.
#[global] Instance pipe_surface_eq_dec : EqDecision pipe_surface.
Proof. solve_decision. Defined.
#[global] Instance pipe_stream_output_target_eq_dec :
  EqDecision pipe_stream_output_target.
Proof. solve_decision. Defined.
#[global] Instance pipe_shader_type_eq_dec : EqDecision pipe_shader_type.
Proof. solve_decision. Defined.

(** Client memory is not modelled: a [const void *] into it is an address. *)
Definition user_pointer : Set := Z.

Record pipe_vertex_buffer : Set := {
  vb_stride : Z;
  vb_buffer_offset : Z;
  vb_buffer : option pipe_resource;
  vb_user_buffer : option user_pointer
}.

Record pipe_index_buffer : Set := {
  index_size : Z;
  ib_offset : Z;
  ib_buffer : option pipe_resource;
  ib_user_buffer : option user_pointer
}.

Record pipe_constant_buffer : Set := {
  cb_buffer : option pipe_resource;
  cb_buffer_offset : Z;
  cb_buffer_size : Z;
  cb_user_buffer : option user_pointer
}.

Record pipe_draw_info : Set := {
  indexed : bool;
  draw_start : Z;
  draw_count : Z
}.

Record pipe_framebuffer_state : Set := {
  fb_width : Z;
  fb_height : Z;
  nr_cbufs : Z;
  cbufs : list (option pipe_surface);
  zsbuf : option pipe_surface
}.

(** Plain data copied by value; floats are kept as their 32-bit patterns. *)
Definition pipe_blend_color : Set := list Z.
Definition pipe_stencil_ref : Set := list Z.
Definition pipe_clip_state : Set := list (list Z).
Definition pipe_poly_stipple : Set := list Z.

Record pipe_viewport_state : Set := {
  vp_scale : list Z;
  vp_translate : list Z
}.

Record pipe_scissor_state : Set := {
  minx : Z; miny : Z; maxx : Z; maxy : Z
}.

(** State objects made by the [create_*] entry points and handed back as
    [void *]: only their address is used here. *)
Definition cso_pointer : Set := Z.
Definition ilo_shader_state : Set := Z.
Definition ilo_sampler_cso : Set := Z.

(** ** Reference counts

    Modelled from the spec: [pipe_resource_reference] and its siblings for
    sampler views, surfaces and stream-output targets are inline helpers of
    [u_inlines.h], not among the sources.  All handles are reference
    counted; assigning through the helper references the new occupant and
    releases the previous one.  What happens to an object whose count
    reaches zero is outside this model. *)

Inductive object : Set :=
| ObjResource (r : pipe_resource)
| ObjSamplerView (v : pipe_sampler_view)
| ObjSurface (s : pipe_surface)
| ObjSoTarget (t : pipe_stream_output_target).

#[global] Instance object_eq_dec : EqDecision object.
Proof. solve_decision. Defined.

Definition refcounts : Type := object -> Z.

Definition ref_adjust (refs : refcounts) (o : object) (d : Z) : refcounts :=
  fun o' => if decide (o' = o) then refs o' + d else refs o'.

Definition ref_acquire (refs : refcounts) (o : option object) : refcounts :=
  match o with
  | Some x => ref_adjust refs x 1
  | None => refs
  end.

Definition ref_release (refs : refcounts) (o : option object) : refcounts :=
  match o with
  | Some x => ref_adjust refs x (-1)
  | None => refs
  end.

(** The effect on the counts of [pipe_*_reference(&ptr, new)], where [old]
    is the value of [ptr] before the call; the caller stores [new] in
    [ptr]. *)
Definition pipe_reference (refs : refcounts) (old new : option object) : refcounts :=
  ref_release (ref_acquire refs new) old.

(** ** The context

    Modelled from the spec: [struct ilo_context] and the structures of its
    bindings are declared in [ilo_context.h] and [ilo_gpe.h], which are not
    among the sources; the fields below are the ones [ilo_state.c] reads
    and writes, under their C names.  The descriptors that the [ilo_gpe_*]
    helpers compute are pure functions of their arguments and are kept as
    those arguments. *)

Inductive pipe_format : Set :=
| PIPE_FORMAT_NONE
| PIPE_FORMAT_R32G32B32A32_FLOAT.

(** The size in bytes of one element: four 32-bit components. *)
Definition util_format_get_blocksize (f : pipe_format) : Z :=
  match f with
  | PIPE_FORMAT_NONE => 1
  | PIPE_FORMAT_R32G32B32A32_FLOAT => 16
  end.

Record buffer_view : Set := {
  bv_buffer : option pipe_resource;
  bv_offset : Z;
  bv_size : Z;
  bv_struct_size : Z;
  bv_format : pipe_format;
  bv_is_rt : bool;
  bv_render_cache_rw : bool
}.

Record ilo_view_surface : Set := {
  surface_payload : option buffer_view;
  surface_bo : option pipe_resource
}.

Definition ilo_gpe_init_view_surface_for_buffer (buf : option pipe_resource)
    (offset size struct_size : Z) (elem_format : pipe_format)
    (is_rt render_cache_rw : bool) : ilo_view_surface :=
  {| surface_payload :=
       Some {| bv_buffer := buf; bv_offset := offset; bv_size := size;
               bv_struct_size := struct_size; bv_format := elem_format;
               bv_is_rt := is_rt; bv_render_cache_rw := render_cache_rw |};
     surface_bo := buf |}.

Inductive ilo_viewport_cso : Set :=
| viewport_cso_unset
| viewport_cso_of (v : pipe_viewport_state).

Definition ilo_gpe_set_viewport_cso (v : pipe_viewport_state) : ilo_viewport_cso :=
  viewport_cso_of v.

Inductive ilo_scissor_state : Set :=
| scissor_unset
| scissor_null
| scissor_set (start_slot num_scissors : Z)
    (scissors : option (list pipe_scissor_state)) (prev : ilo_scissor_state).

Definition ilo_gpe_set_scissor (start_slot num_scissors : Z)
    (scissors : option (list pipe_scissor_state)) (scissor : ilo_scissor_state)
  : ilo_scissor_state :=
  scissor_set start_slot num_scissors scissors scissor.

Definition ilo_gpe_set_scissor_null (scissor : ilo_scissor_state)
  : ilo_scissor_state :=
  scissor_null.

Inductive ilo_zs_surface : Set :=
| zs_unset
| zs_surface (tex : option pipe_resource) (format : pipe_format)
    (level first_layer num_layers : Z).

Definition ilo_gpe_init_zs_surface (tex : option pipe_resource)
    (format : pipe_format) (level first_layer num_layers : Z) : ilo_zs_surface :=
  zs_surface tex format level first_layer num_layers.

(** [ilo->sampler[sh]] *)
Record ilo_sampler_state : Set := {
  sampler_cso : list (option ilo_sampler_cso);
  sampler_count : Z
}.

(** [ilo->view[sh]] *)
Record ilo_view_state : Set := {
  view_states : list (option pipe_sampler_view);
  view_count : Z
}.

Record ilo_cbuf_cso : Set := {
  cbuf_resource : option pipe_resource;
  cbuf_surface : ilo_view_surface;
  cbuf_user_buffer : option user_pointer;
  cbuf_user_buffer_size : Z
}.

(** [ilo->cbuf[sh]] *)
Record ilo_cbuf_state : Set := {
  cbuf_cso : list ilo_cbuf_cso;
  cbuf_enabled_mask : Z;
  cbuf_count : Z
}.

(** [ilo->resource] and [ilo->cs_resource] *)
Record ilo_resource_state : Set := {
  resource_states : list (option pipe_surface);
  resource_count : Z
}.

(** [ilo->global_binding] *)
Record ilo_global_binding_state : Set := {
  gb_resources : list (option pipe_resource);
  gb_count : Z
}.

(** [ilo->vb] *)
Record ilo_vb_state : Set := {
  vb_states : list pipe_vertex_buffer;
  vb_enabled_mask : Z
}.

(** [ilo->ib].  [draw_start_offset] is a signed 64-bit integer: it holds
    the difference of two unsigned 32-bit values without wrapping (the
    source notes that it "could be negative"). *)
Record ilo_ib_state : Set := {
  ib_state : pipe_index_buffer;
  ib_resource : option pipe_resource;
  draw_start_offset : Z
}.

(** [ilo->so] *)
Record ilo_so_state : Set := {
  so_states : list (option pipe_stream_output_target);
  so_count : Z;
  so_append_bitmask : Z;
  so_enabled : bool
}.

(** [ilo->fb] *)
Record ilo_fb_state : Set := {
  fb_state : pipe_framebuffer_state;
  fb_null_zs : ilo_zs_surface;
  fb_num_samples : Z
}.

(** [ilo->viewport] *)
Record ilo_viewport_state : Set := {
  viewport_cso : list ilo_viewport_cso;
  viewport_count : Z;
  viewport0 : pipe_viewport_state
}.

(** An array indexed by shader type, [a[PIPE_SHADER_TYPES]]. *)
Record per_shader (A : Type) : Type := {
  of_vertex : A;
  of_fragment : A;
  of_geometry : A;
  of_compute : A
}.

Arguments of_vertex {A} _.
Arguments of_fragment {A} _.
Arguments of_geometry {A} _.
Arguments of_compute {A} _.

Definition sh_get {A : Type} (a : per_shader A) (sh : pipe_shader_type) : A :=
  match sh with
  | PIPE_SHADER_VERTEX => of_vertex a
  | PIPE_SHADER_FRAGMENT => of_fragment a
  | PIPE_SHADER_GEOMETRY => of_geometry a
  | PIPE_SHADER_COMPUTE => of_compute a
  end.

Definition sh_set {A : Type} (a : per_shader A) (sh : pipe_shader_type) (x : A)
  : per_shader A :=
  match sh with
  | PIPE_SHADER_VERTEX =>
      {| of_vertex := x; of_fragment := of_fragment a;
         of_geometry := of_geometry a; of_compute := of_compute a |}
  | PIPE_SHADER_FRAGMENT =>
      {| of_vertex := of_vertex a; of_fragment := x;
         of_geometry := of_geometry a; of_compute := of_compute a |}
  | PIPE_SHADER_GEOMETRY =>
      {| of_vertex := of_vertex a; of_fragment := of_fragment a;
         of_geometry := x; of_compute := of_compute a |}
  | PIPE_SHADER_COMPUTE =>
      {| of_vertex := of_vertex a; of_fragment := of_fragment a;
         of_geometry := of_geometry a; of_compute := x |}
  end.

(** ** Collaborators

    The upload manager and the kernel selection of the shaders are not part
    of this file.  Each is represented in the context by the calls it has
    received, oldest first; what it answers is a parameter of the
    development (Section [Collaborators]). *)

Inductive upload_call : Set :=
| UploadData (min_out_offset size : Z) (data : user_pointer)
| UploadBuffer (min_out_offset offset size : Z) (inbuf : option pipe_resource)
| UploadUnmap.

Inductive shader_call : Set :=
| SelectKernel (shader : ilo_shader_state) (dirty : Z)
| SelectKernelRouting (shader : ilo_shader_state)
    (source : option ilo_shader_state) (rasterizer : option cso_pointer).

(** [kernels] and [refcnt] are not fields of the C structure: [kernels] is
    the kernel-selection collaborator and [refcnt] the reference counts kept
    inside the heap objects. *)
Record ilo_context : Type := {
  ilo_uploader : list upload_call;
  ilo_kernels : list shader_call;
  ilo_refcnt : refcounts;
  ilo_draw : option pipe_draw_info;
  ilo_dirty : Z;
  ilo_vb : ilo_vb_state;
  ilo_ve : option cso_pointer;
  ilo_ib : ilo_ib_state;
  ilo_vs : option ilo_shader_state;
  ilo_gs : option ilo_shader_state;
  ilo_fs : option ilo_shader_state;
  ilo_cs : option ilo_shader_state;
  ilo_so : ilo_so_state;
  ilo_clip : pipe_clip_state;
  ilo_viewport : ilo_viewport_state;
  ilo_scissor : ilo_scissor_state;
  ilo_rasterizer : option cso_pointer;
  ilo_poly_stipple : pipe_poly_stipple;
  ilo_sample_mask : Z;
  ilo_dsa : option cso_pointer;
  ilo_stencil_ref : pipe_stencil_ref;
  ilo_blend : option cso_pointer;
  ilo_blend_color : pipe_blend_color;
  ilo_fb : ilo_fb_state;
  ilo_sampler : per_shader ilo_sampler_state;
  ilo_view : per_shader ilo_view_state;
  ilo_cbuf : per_shader ilo_cbuf_state;
  ilo_resource : ilo_resource_state;
  ilo_cs_resource : ilo_resource_state;
  ilo_global_binding : ilo_global_binding_state
}.

(** Field updates, [ilo->f = v]. *)
Definition set_uploader (v : list upload_call) (ilo : ilo_context) : ilo_context :=
  {| ilo_uploader := v; ilo_kernels := ilo_kernels ilo;
     ilo_refcnt := ilo_refcnt ilo; ilo_draw := ilo_draw ilo;
     ilo_dirty := ilo_dirty ilo; ilo_vb := ilo_vb ilo;
     ilo_ve := ilo_ve ilo; ilo_ib := ilo_ib ilo; ilo_vs := ilo_vs ilo;
     ilo_gs := ilo_gs ilo; ilo_fs := ilo_fs ilo; ilo_cs := ilo_cs ilo;
     ilo_so := ilo_so ilo; ilo_clip := ilo_clip ilo;
     ilo_viewport := ilo_viewport ilo; ilo_scissor := ilo_scissor ilo;
     ilo_rasterizer := ilo_rasterizer ilo;
     ilo_poly_stipple := ilo_poly_stipple ilo;
     ilo_sample_mask := ilo_sample_mask ilo; ilo_dsa := ilo_dsa ilo;
     ilo_stencil_ref := ilo_stencil_ref ilo; ilo_blend := ilo_blend ilo;
     ilo_blend_color := ilo_blend_color ilo; ilo_fb := ilo_fb ilo;
     ilo_sampler := ilo_sampler ilo; ilo_view := ilo_view ilo;
     ilo_cbuf := ilo_cbuf ilo; ilo_resource := ilo_resource ilo;
     ilo_cs_resource := ilo_cs_resource ilo;
     ilo_global_binding := ilo_global_binding ilo |}.

Definition set_kernels (v : list shader_call) (ilo : ilo_context) : ilo_context :=
  {| ilo_uploader := ilo_uploader ilo; ilo_kernels := v;
     ilo_refcnt := ilo_refcnt ilo; ilo_draw := ilo_draw ilo;
     ilo_dirty := ilo_dirty ilo; ilo_vb := ilo_vb ilo;
     ilo_ve := ilo_ve ilo; ilo_ib := ilo_ib ilo; ilo_vs := ilo_vs ilo;
     ilo_gs := ilo_gs ilo; ilo_fs := ilo_fs ilo; ilo_cs := ilo_cs ilo;
     ilo_so := ilo_so ilo; ilo_clip := ilo_clip ilo;
     ilo_viewport := ilo_viewport ilo; ilo_scissor := ilo_scissor ilo;
     ilo_rasterizer := ilo_rasterizer ilo;
     ilo_poly_stipple := ilo_poly_stipple ilo;
     ilo_sample_mask := ilo_sample_mask ilo; ilo_dsa := ilo_dsa ilo;
     ilo_stencil_ref := ilo_stencil_ref ilo; ilo_blend := ilo_blend ilo;
     ilo_blend_color := ilo_blend_color ilo; ilo_fb := ilo_fb ilo;
     ilo_sampler := ilo_sampler ilo; ilo_view := ilo_view ilo;
     ilo_cbuf := ilo_cbuf ilo; ilo_resource := ilo_resource ilo;
     ilo_cs_resource := ilo_cs_resource ilo;
     ilo_global_binding := ilo_global_binding ilo |}.

Definition set_refcnt (v : refcounts) (ilo : ilo_context) : ilo_context :=
  {| ilo_uploader := ilo_uploader ilo; ilo_kernels := ilo_kernels ilo;
     ilo_refcnt := v; ilo_draw := ilo_draw ilo;
     ilo_dirty := ilo_dirty ilo; ilo_vb := ilo_vb ilo;
     ilo_ve := ilo_ve ilo; ilo_ib := ilo_ib ilo; ilo_vs := ilo_vs ilo;
     ilo_gs := ilo_gs ilo; ilo_fs := ilo_fs ilo; ilo_cs := ilo_cs ilo;
     ilo_so := ilo_so ilo; ilo_clip := ilo_clip ilo;
     ilo_viewport := ilo_viewport ilo; ilo_scissor := ilo_scissor ilo;
     ilo_rasterizer := ilo_rasterizer ilo;
     ilo_poly_stipple := ilo_poly_stipple ilo;
     ilo_sample_mask := ilo_sample_mask ilo; ilo_dsa := ilo_dsa ilo;
     ilo_stencil_ref := ilo_stencil_ref ilo; ilo_blend := ilo_blend ilo;
     ilo_blend_color := ilo_blend_color ilo; ilo_fb := ilo_fb ilo;
     ilo_sampler := ilo_sampler ilo; ilo_view := ilo_view ilo;
     ilo_cbuf := ilo_cbuf ilo; ilo_resource := ilo_resource ilo;
     ilo_cs_resource := ilo_cs_resource ilo;
     ilo_global_binding := ilo_global_binding ilo |}.

Definition set_draw (v : option pipe_draw_info) (ilo : ilo_context) : ilo_context :=
  {| ilo_uploader := ilo_uploader ilo; ilo_kernels := ilo_kernels ilo;
     ilo_refcnt := ilo_refcnt ilo; ilo_draw := v;
     ilo_dirty := ilo_dirty ilo; ilo_vb := ilo_vb ilo;
     ilo_ve := ilo_ve ilo; ilo_ib := ilo_ib ilo; ilo_vs := ilo_vs ilo;
     ilo_gs := ilo_gs ilo; ilo_fs := ilo_fs ilo; ilo_cs := ilo_cs ilo;
     ilo_so := ilo_so ilo; ilo_clip := ilo_clip ilo;
     ilo_viewport := ilo_viewport ilo; ilo_scissor := ilo_scissor ilo;
     ilo_rasterizer := ilo_rasterizer ilo;
     ilo_poly_stipple := ilo_poly_stipple ilo;
     ilo_sample_mask := ilo_sample_mask ilo; ilo_dsa := ilo_dsa ilo;
     ilo_stencil_ref := ilo_stencil_ref ilo; ilo_blend := ilo_blend ilo;
     ilo_blend_color := ilo_blend_color ilo; ilo_fb := ilo_fb ilo;
     ilo_sampler := ilo_sampler ilo; ilo_view := ilo_view ilo;
     ilo_cbuf := ilo_cbuf ilo; ilo_resource := ilo_resource ilo;
     ilo_cs_resource := ilo_cs_resource ilo;
     ilo_global_binding := ilo_global_binding ilo |}.

Definition set_dirty (v : Z) (ilo : ilo_context) : ilo_context :=
  {| ilo_uploader := ilo_uploader ilo; ilo_kernels := ilo_kernels ilo;
     ilo_refcnt := ilo_refcnt ilo; ilo_draw := ilo_draw ilo;
     ilo_dirty := v; ilo_vb := ilo_vb ilo; ilo_ve := ilo_ve ilo;
     ilo_ib := ilo_ib ilo; ilo_vs := ilo_vs ilo; ilo_gs := ilo_gs ilo;
     ilo_fs := ilo_fs ilo; ilo_cs := ilo_cs ilo; ilo_so := ilo_so ilo;
     ilo_clip := ilo_clip ilo; ilo_viewport := ilo_viewport ilo;
     ilo_scissor := ilo_scissor ilo;
     ilo_rasterizer := ilo_rasterizer ilo;
     ilo_poly_stipple := ilo_poly_stipple ilo;
     ilo_sample_mask := ilo_sample_mask ilo; ilo_dsa := ilo_dsa ilo;
     ilo_stencil_ref := ilo_stencil_ref ilo; ilo_blend := ilo_blend ilo;
     ilo_blend_color := ilo_blend_color ilo; ilo_fb := ilo_fb ilo;
     ilo_sampler := ilo_sampler ilo; ilo_view := ilo_view ilo;
     ilo_cbuf := ilo_cbuf ilo; ilo_resource := ilo_resource ilo;
     ilo_cs_resource := ilo_cs_resource ilo;
     ilo_global_binding := ilo_global_binding ilo |}.

Definition set_vb (v : ilo_vb_state) (ilo : ilo_context) : ilo_context :=
  {| ilo_uploader := ilo_uploader ilo; ilo_kernels := ilo_kernels ilo;
     ilo_refcnt := ilo_refcnt ilo; ilo_draw := ilo_draw ilo;
     ilo_dirty := ilo_dirty ilo; ilo_vb := v; ilo_ve := ilo_ve ilo;
     ilo_ib := ilo_ib ilo; ilo_vs := ilo_vs ilo; ilo_gs := ilo_gs ilo;
     ilo_fs := ilo_fs ilo; ilo_cs := ilo_cs ilo; ilo_so := ilo_so ilo;
     ilo_clip := ilo_clip ilo; ilo_viewport := ilo_viewport ilo;
     ilo_scissor := ilo_scissor ilo;
     ilo_rasterizer := ilo_rasterizer ilo;
     ilo_poly_stipple := ilo_poly_stipple ilo;
     ilo_sample_mask := ilo_sample_mask ilo; ilo_dsa := ilo_dsa ilo;
     ilo_stencil_ref := ilo_stencil_ref ilo; ilo_blend := ilo_blend ilo;
     ilo_blend_color := ilo_blend_color ilo; ilo_fb := ilo_fb ilo;
     ilo_sampler := ilo_sampler ilo; ilo_view := ilo_view ilo;
     ilo_cbuf := ilo_cbuf ilo; ilo_resource := ilo_resource ilo;
     ilo_cs_resource := ilo_cs_resource ilo;
     ilo_global_binding := ilo_global_binding ilo |}.

Definition set_ve (v : option cso_pointer) (ilo : ilo_context) : ilo_context :=
  {| ilo_uploader := ilo_uploader ilo; ilo_kernels := ilo_kernels ilo;
     ilo_refcnt := ilo_refcnt ilo; ilo_draw := ilo_draw ilo;
     ilo_dirty := ilo_dirty ilo; ilo_vb := ilo_vb ilo; ilo_ve := v;
     ilo_ib := ilo_ib ilo; ilo_vs := ilo_vs ilo; ilo_gs := ilo_gs ilo;
     ilo_fs := ilo_fs ilo; ilo_cs := ilo_cs ilo; ilo_so := ilo_so ilo;
     ilo_clip := ilo_clip ilo; ilo_viewport := ilo_viewport ilo;
     ilo_scissor := ilo_scissor ilo;
     ilo_rasterizer := ilo_rasterizer ilo;
     ilo_poly_stipple := ilo_poly_stipple ilo;
     ilo_sample_mask := ilo_sample_mask ilo; ilo_dsa := ilo_dsa ilo;
     ilo_stencil_ref := ilo_stencil_ref ilo; ilo_blend := ilo_blend ilo;
     ilo_blend_color := ilo_blend_color ilo; ilo_fb := ilo_fb ilo;
     ilo_sampler := ilo_sampler ilo; ilo_view := ilo_view ilo;
     ilo_cbuf := ilo_cbuf ilo; ilo_resource := ilo_resource ilo;
     ilo_cs_resource := ilo_cs_resource ilo;
     ilo_global_binding := ilo_global_binding ilo |}.

Definition set_ib (v : ilo_ib_state) (ilo : ilo_context) : ilo_context :=
  {| ilo_uploader := ilo_uploader ilo; ilo_kernels := ilo_kernels ilo;
     ilo_refcnt := ilo_refcnt ilo; ilo_draw := ilo_draw ilo;
     ilo_dirty := ilo_dirty ilo; ilo_vb := ilo_vb ilo;
     ilo_ve := ilo_ve ilo; ilo_ib := v; ilo_vs := ilo_vs ilo;
     ilo_gs := ilo_gs ilo; ilo_fs := ilo_fs ilo; ilo_cs := ilo_cs ilo;
     ilo_so := ilo_so ilo; ilo_clip := ilo_clip ilo;
     ilo_viewport := ilo_viewport ilo; ilo_scissor := ilo_scissor ilo;
     ilo_rasterizer := ilo_rasterizer ilo;
     ilo_poly_stipple := ilo_poly_stipple ilo;
     ilo_sample_mask := ilo_sample_mask ilo; ilo_dsa := ilo_dsa ilo;
     ilo_stencil_ref := ilo_stencil_ref ilo; ilo_blend := ilo_blend ilo;
     ilo_blend_color := ilo_blend_color ilo; ilo_fb := ilo_fb ilo;
     ilo_sampler := ilo_sampler ilo; ilo_view := ilo_view ilo;
     ilo_cbuf := ilo_cbuf ilo; ilo_resource := ilo_resource ilo;
     ilo_cs_resource := ilo_cs_resource ilo;
     ilo_global_binding := ilo_global_binding ilo |}.

Definition set_vs (v : option ilo_shader_state) (ilo : ilo_context) : ilo_context :=
  {| ilo_uploader := ilo_uploader ilo; ilo_kernels := ilo_kernels ilo;
     ilo_refcnt := ilo_refcnt ilo; ilo_draw := ilo_draw ilo;
     ilo_dirty := ilo_dirty ilo; ilo_vb := ilo_vb ilo;
     ilo_ve := ilo_ve ilo; ilo_ib := ilo_ib ilo; ilo_vs := v;
     ilo_gs := ilo_gs ilo; ilo_fs := ilo_fs ilo; ilo_cs := ilo_cs ilo;
     ilo_so := ilo_so ilo; ilo_clip := ilo_clip ilo;
     ilo_viewport := ilo_viewport ilo; ilo_scissor := ilo_scissor ilo;
     ilo_rasterizer := ilo_rasterizer ilo;
     ilo_poly_stipple := ilo_poly_stipple ilo;
     ilo_sample_mask := ilo_sample_mask ilo; ilo_dsa := ilo_dsa ilo;
     ilo_stencil_ref := ilo_stencil_ref ilo; ilo_blend := ilo_blend ilo;
     ilo_blend_color := ilo_blend_color ilo; ilo_fb := ilo_fb ilo;
     ilo_sampler := ilo_sampler ilo; ilo_view := ilo_view ilo;
     ilo_cbuf := ilo_cbuf ilo; ilo_resource := ilo_resource ilo;
     ilo_cs_resource := ilo_cs_resource ilo;
     ilo_global_binding := ilo_global_binding ilo |}.

Definition set_gs (v : option ilo_shader_state) (ilo : ilo_context) : ilo_context :=
  {| ilo_uploader := ilo_uploader ilo; ilo_kernels := ilo_kernels ilo;
     ilo_refcnt := ilo_refcnt ilo; ilo_draw := ilo_draw ilo;
     ilo_dirty := ilo_dirty ilo; ilo_vb := ilo_vb ilo;
     ilo_ve := ilo_ve ilo; ilo_ib := ilo_ib ilo; ilo_vs := ilo_vs ilo;
     ilo_gs := v; ilo_fs := ilo_fs ilo; ilo_cs := ilo_cs ilo;
     ilo_so := ilo_so ilo; ilo_clip := ilo_clip ilo;
     ilo_viewport := ilo_viewport ilo; ilo_scissor := ilo_scissor ilo;
     ilo_rasterizer := ilo_rasterizer ilo;
     ilo_poly_stipple := ilo_poly_stipple ilo;
     ilo_sample_mask := ilo_sample_mask ilo; ilo_dsa := ilo_dsa ilo;
     ilo_stencil_ref := ilo_stencil_ref ilo; ilo_blend := ilo_blend ilo;
     ilo_blend_color := ilo_blend_color ilo; ilo_fb := ilo_fb ilo;
     ilo_sampler := ilo_sampler ilo; ilo_view := ilo_view ilo;
     ilo_cbuf := ilo_cbuf ilo; ilo_resource := ilo_resource ilo;
     ilo_cs_resource := ilo_cs_resource ilo;
     ilo_global_binding := ilo_global_binding ilo |}.

Definition set_fs (v : option ilo_shader_state) (ilo : ilo_context) : ilo_context :=
  {| ilo_uploader := ilo_uploader ilo; ilo_kernels := ilo_kernels ilo;
     ilo_refcnt := ilo_refcnt ilo; ilo_draw := ilo_draw ilo;
     ilo_dirty := ilo_dirty ilo; ilo_vb := ilo_vb ilo;
     ilo_ve := ilo_ve ilo; ilo_ib := ilo_ib ilo; ilo_vs := ilo_vs ilo;
     ilo_gs := ilo_gs ilo; ilo_fs := v; ilo_cs := ilo_cs ilo;
     ilo_so := ilo_so ilo; ilo_clip := ilo_clip ilo;
     ilo_viewport := ilo_viewport ilo; ilo_scissor := ilo_scissor ilo;
     ilo_rasterizer := ilo_rasterizer ilo;
     ilo_poly_stipple := ilo_poly_stipple ilo;
     ilo_sample_mask := ilo_sample_mask ilo; ilo_dsa := ilo_dsa ilo;
     ilo_stencil_ref := ilo_stencil_ref ilo; ilo_blend := ilo_blend ilo;
     ilo_blend_color := ilo_blend_color ilo; ilo_fb := ilo_fb ilo;
     ilo_sampler := ilo_sampler ilo; ilo_view := ilo_view ilo;
     ilo_cbuf := ilo_cbuf ilo; ilo_resource := ilo_resource ilo;
     ilo_cs_resource := ilo_cs_resource ilo;
     ilo_global_binding := ilo_global_binding ilo |}.

Definition set_cs (v : option ilo_shader_state) (ilo : ilo_context) : ilo_context :=
  {| ilo_uploader := ilo_uploader ilo; ilo_kernels := ilo_kernels ilo;
     ilo_refcnt := ilo_refcnt ilo; ilo_draw := ilo_draw ilo;
     ilo_dirty := ilo_dirty ilo; ilo_vb := ilo_vb ilo;
     ilo_ve := ilo_ve ilo; ilo_ib := ilo_ib ilo; ilo_vs := ilo_vs ilo;
     ilo_gs := ilo_gs ilo; ilo_fs := ilo_fs ilo; ilo_cs := v;
     ilo_so := ilo_so ilo; ilo_clip := ilo_clip ilo;
     ilo_viewport := ilo_viewport ilo; ilo_scissor := ilo_scissor ilo;
     ilo_rasterizer := ilo_rasterizer ilo;
     ilo_poly_stipple := ilo_poly_stipple ilo;
     ilo_sample_mask := ilo_sample_mask ilo; ilo_dsa := ilo_dsa ilo;
     ilo_stencil_ref := ilo_stencil_ref ilo; ilo_blend := ilo_blend ilo;
     ilo_blend_color := ilo_blend_color ilo; ilo_fb := ilo_fb ilo;
     ilo_sampler := ilo_sampler ilo; ilo_view := ilo_view ilo;
     ilo_cbuf := ilo_cbuf ilo; ilo_resource := ilo_resource ilo;
     ilo_cs_resource := ilo_cs_resource ilo;
     ilo_global_binding := ilo_global_binding ilo |}.

Definition set_so (v : ilo_so_state) (ilo : ilo_context) : ilo_context :=
  {| ilo_uploader := ilo_uploader ilo; ilo_kernels := ilo_kernels ilo;
     ilo_refcnt := ilo_refcnt ilo; ilo_draw := ilo_draw ilo;
     ilo_dirty := ilo_dirty ilo; ilo_vb := ilo_vb ilo;
     ilo_ve := ilo_ve ilo; ilo_ib := ilo_ib ilo; ilo_vs := ilo_vs ilo;
     ilo_gs := ilo_gs ilo; ilo_fs := ilo_fs ilo; ilo_cs := ilo_cs ilo;
     ilo_so := v; ilo_clip := ilo_clip ilo;
     ilo_viewport := ilo_viewport ilo; ilo_scissor := ilo_scissor ilo;
     ilo_rasterizer := ilo_rasterizer ilo;
     ilo_poly_stipple := ilo_poly_stipple ilo;
     ilo_sample_mask := ilo_sample_mask ilo; ilo_dsa := ilo_dsa ilo;
     ilo_stencil_ref := ilo_stencil_ref ilo; ilo_blend := ilo_blend ilo;
     ilo_blend_color := ilo_blend_color ilo; ilo_fb := ilo_fb ilo;
     ilo_sampler := ilo_sampler ilo; ilo_view := ilo_view ilo;
     ilo_cbuf := ilo_cbuf ilo; ilo_resource := ilo_resource ilo;
     ilo_cs_resource := ilo_cs_resource ilo;
     ilo_global_binding := ilo_global_binding ilo |}.

Definition set_clip (v : pipe_clip_state) (ilo : ilo_context) : ilo_context :=
  {| ilo_uploader := ilo_uploader ilo; ilo_kernels := ilo_kernels ilo;
     ilo_refcnt := ilo_refcnt ilo; ilo_draw := ilo_draw ilo;
     ilo_dirty := ilo_dirty ilo; ilo_vb := ilo_vb ilo;
     ilo_ve := ilo_ve ilo; ilo_ib := ilo_ib ilo; ilo_vs := ilo_vs ilo;
     ilo_gs := ilo_gs ilo; ilo_fs := ilo_fs ilo; ilo_cs := ilo_cs ilo;
     ilo_so := ilo_so ilo; ilo_clip := v;
     ilo_viewport := ilo_viewport ilo; ilo_scissor := ilo_scissor ilo;
     ilo_rasterizer := ilo_rasterizer ilo;
     ilo_poly_stipple := ilo_poly_stipple ilo;
     ilo_sample_mask := ilo_sample_mask ilo; ilo_dsa := ilo_dsa ilo;
     ilo_stencil_ref := ilo_stencil_ref ilo; ilo_blend := ilo_blend ilo;
     ilo_blend_color := ilo_blend_color ilo; ilo_fb := ilo_fb ilo;
     ilo_sampler := ilo_sampler ilo; ilo_view := ilo_view ilo;
     ilo_cbuf := ilo_cbuf ilo; ilo_resource := ilo_resource ilo;
     ilo_cs_resource := ilo_cs_resource ilo;
     ilo_global_binding := ilo_global_binding ilo |}.

Definition set_viewport (v : ilo_viewport_state) (ilo : ilo_context) : ilo_context :=
  {| ilo_uploader := ilo_uploader ilo; ilo_kernels := ilo_kernels ilo;
     ilo_refcnt := ilo_refcnt ilo; ilo_draw := ilo_draw ilo;
     ilo_dirty := ilo_dirty ilo; ilo_vb := ilo_vb ilo;
     ilo_ve := ilo_ve ilo; ilo_ib := ilo_ib ilo; ilo_vs := ilo_vs ilo;
     ilo_gs := ilo_gs ilo; ilo_fs := ilo_fs ilo; ilo_cs := ilo_cs ilo;
     ilo_so := ilo_so ilo; ilo_clip := ilo_clip ilo; ilo_viewport := v;
     ilo_scissor := ilo_scissor ilo;
     ilo_rasterizer := ilo_rasterizer ilo;
     ilo_poly_stipple := ilo_poly_stipple ilo;
     ilo_sample_mask := ilo_sample_mask ilo; ilo_dsa := ilo_dsa ilo;
     ilo_stencil_ref := ilo_stencil_ref ilo; ilo_blend := ilo_blend ilo;
     ilo_blend_color := ilo_blend_color ilo; ilo_fb := ilo_fb ilo;
     ilo_sampler := ilo_sampler ilo; ilo_view := ilo_view ilo;
     ilo_cbuf := ilo_cbuf ilo; ilo_resource := ilo_resource ilo;
     ilo_cs_resource := ilo_cs_resource ilo;
     ilo_global_binding := ilo_global_binding ilo |}.

Definition set_scissor (v : ilo_scissor_state) (ilo : ilo_context) : ilo_context :=
  {| ilo_uploader := ilo_uploader ilo; ilo_kernels := ilo_kernels ilo;
     ilo_refcnt := ilo_refcnt ilo; ilo_draw := ilo_draw ilo;
     ilo_dirty := ilo_dirty ilo; ilo_vb := ilo_vb ilo;
     ilo_ve := ilo_ve ilo; ilo_ib := ilo_ib ilo; ilo_vs := ilo_vs ilo;
     ilo_gs := ilo_gs ilo; ilo_fs := ilo_fs ilo; ilo_cs := ilo_cs ilo;
     ilo_so := ilo_so ilo; ilo_clip := ilo_clip ilo;
     ilo_viewport := ilo_viewport ilo; ilo_scissor := v;
     ilo_rasterizer := ilo_rasterizer ilo;
     ilo_poly_stipple := ilo_poly_stipple ilo;
     ilo_sample_mask := ilo_sample_mask ilo; ilo_dsa := ilo_dsa ilo;
     ilo_stencil_ref := ilo_stencil_ref ilo; ilo_blend := ilo_blend ilo;
     ilo_blend_color := ilo_blend_color ilo; ilo_fb := ilo_fb ilo;
     ilo_sampler := ilo_sampler ilo; ilo_view := ilo_view ilo;
     ilo_cbuf := ilo_cbuf ilo; ilo_resource := ilo_resource ilo;
     ilo_cs_resource := ilo_cs_resource ilo;
     ilo_global_binding := ilo_global_binding ilo |}.

Definition set_rasterizer (v : option cso_pointer) (ilo : ilo_context) : ilo_context :=
  {| ilo_uploader := ilo_uploader ilo; ilo_kernels := ilo_kernels ilo;
     ilo_refcnt := ilo_refcnt ilo; ilo_draw := ilo_draw ilo;
     ilo_dirty := ilo_dirty ilo; ilo_vb := ilo_vb ilo;
     ilo_ve := ilo_ve ilo; ilo_ib := ilo_ib ilo; ilo_vs := ilo_vs ilo;
     ilo_gs := ilo_gs ilo; ilo_fs := ilo_fs ilo; ilo_cs := ilo_cs ilo;
     ilo_so := ilo_so ilo; ilo_clip := ilo_clip ilo;
     ilo_viewport := ilo_viewport ilo; ilo_scissor := ilo_scissor ilo;
     ilo_rasterizer := v; ilo_poly_stipple := ilo_poly_stipple ilo;
     ilo_sample_mask := ilo_sample_mask ilo; ilo_dsa := ilo_dsa ilo;
     ilo_stencil_ref := ilo_stencil_ref ilo; ilo_blend := ilo_blend ilo;
     ilo_blend_color := ilo_blend_color ilo; ilo_fb := ilo_fb ilo;
     ilo_sampler := ilo_sampler ilo; ilo_view := ilo_view ilo;
     ilo_cbuf := ilo_cbuf ilo; ilo_resource := ilo_resource ilo;
     ilo_cs_resource := ilo_cs_resource ilo;
     ilo_global_binding := ilo_global_binding ilo |}.

Definition set_poly_stipple (v : pipe_poly_stipple) (ilo : ilo_context) : ilo_context :=
  {| ilo_uploader := ilo_uploader ilo; ilo_kernels := ilo_kernels ilo;
     ilo_refcnt := ilo_refcnt ilo; ilo_draw := ilo_draw ilo;
     ilo_dirty := ilo_dirty ilo; ilo_vb := ilo_vb ilo;
     ilo_ve := ilo_ve ilo; ilo_ib := ilo_ib ilo; ilo_vs := ilo_vs ilo;
     ilo_gs := ilo_gs ilo; ilo_fs := ilo_fs ilo; ilo_cs := ilo_cs ilo;
     ilo_so := ilo_so ilo; ilo_clip := ilo_clip ilo;
     ilo_viewport := ilo_viewport ilo; ilo_scissor := ilo_scissor ilo;
     ilo_rasterizer := ilo_rasterizer ilo; ilo_poly_stipple := v;
     ilo_sample_mask := ilo_sample_mask ilo; ilo_dsa := ilo_dsa ilo;
     ilo_stencil_ref := ilo_stencil_ref ilo; ilo_blend := ilo_blend ilo;
     ilo_blend_color := ilo_blend_color ilo; ilo_fb := ilo_fb ilo;
     ilo_sampler := ilo_sampler ilo; ilo_view := ilo_view ilo;
     ilo_cbuf := ilo_cbuf ilo; ilo_resource := ilo_resource ilo;
     ilo_cs_resource := ilo_cs_resource ilo;
     ilo_global_binding := ilo_global_binding ilo |}.

Definition set_sample_mask (v : Z) (ilo : ilo_context) : ilo_context :=
  {| ilo_uploader := ilo_uploader ilo; ilo_kernels := ilo_kernels ilo;
     ilo_refcnt := ilo_refcnt ilo; ilo_draw := ilo_draw ilo;
     ilo_dirty := ilo_dirty ilo; ilo_vb := ilo_vb ilo;
     ilo_ve := ilo_ve ilo; ilo_ib := ilo_ib ilo; ilo_vs := ilo_vs ilo;
     ilo_gs := ilo_gs ilo; ilo_fs := ilo_fs ilo; ilo_cs := ilo_cs ilo;
     ilo_so := ilo_so ilo; ilo_clip := ilo_clip ilo;
     ilo_viewport := ilo_viewport ilo; ilo_scissor := ilo_scissor ilo;
     ilo_rasterizer := ilo_rasterizer ilo;
     ilo_poly_stipple := ilo_poly_stipple ilo; ilo_sample_mask := v;
     ilo_dsa := ilo_dsa ilo; ilo_stencil_ref := ilo_stencil_ref ilo;
     ilo_blend := ilo_blend ilo; ilo_blend_color := ilo_blend_color ilo;
     ilo_fb := ilo_fb ilo; ilo_sampler := ilo_sampler ilo;
     ilo_view := ilo_view ilo; ilo_cbuf := ilo_cbuf ilo;
     ilo_resource := ilo_resource ilo;
     ilo_cs_resource := ilo_cs_resource ilo;
     ilo_global_binding := ilo_global_binding ilo |}.

Definition set_dsa (v : option cso_pointer) (ilo : ilo_context) : ilo_context :=
  {| ilo_uploader := ilo_uploader ilo; ilo_kernels := ilo_kernels ilo;
     ilo_refcnt := ilo_refcnt ilo; ilo_draw := ilo_draw ilo;
     ilo_dirty := ilo_dirty ilo; ilo_vb := ilo_vb ilo;
     ilo_ve := ilo_ve ilo; ilo_ib := ilo_ib ilo; ilo_vs := ilo_vs ilo;
     ilo_gs := ilo_gs ilo; ilo_fs := ilo_fs ilo; ilo_cs := ilo_cs ilo;
     ilo_so := ilo_so ilo; ilo_clip := ilo_clip ilo;
     ilo_viewport := ilo_viewport ilo; ilo_scissor := ilo_scissor ilo;
     ilo_rasterizer := ilo_rasterizer ilo;
     ilo_poly_stipple := ilo_poly_stipple ilo;
     ilo_sample_mask := ilo_sample_mask ilo; ilo_dsa := v;
     ilo_stencil_ref := ilo_stencil_ref ilo; ilo_blend := ilo_blend ilo;
     ilo_blend_color := ilo_blend_color ilo; ilo_fb := ilo_fb ilo;
     ilo_sampler := ilo_sampler ilo; ilo_view := ilo_view ilo;
     ilo_cbuf := ilo_cbuf ilo; ilo_resource := ilo_resource ilo;
     ilo_cs_resource := ilo_cs_resource ilo;
     ilo_global_binding := ilo_global_binding ilo |}.

Definition set_stencil_ref (v : pipe_stencil_ref) (ilo : ilo_context) : ilo_context :=
  {| ilo_uploader := ilo_uploader ilo; ilo_kernels := ilo_kernels ilo;
     ilo_refcnt := ilo_refcnt ilo; ilo_draw := ilo_draw ilo;
     ilo_dirty := ilo_dirty ilo; ilo_vb := ilo_vb ilo;
     ilo_ve := ilo_ve ilo; ilo_ib := ilo_ib ilo; ilo_vs := ilo_vs ilo;
     ilo_gs := ilo_gs ilo; ilo_fs := ilo_fs ilo; ilo_cs := ilo_cs ilo;
     ilo_so := ilo_so ilo; ilo_clip := ilo_clip ilo;
     ilo_viewport := ilo_viewport ilo; ilo_scissor := ilo_scissor ilo;
     ilo_rasterizer := ilo_rasterizer ilo;
     ilo_poly_stipple := ilo_poly_stipple ilo;
     ilo_sample_mask := ilo_sample_mask ilo; ilo_dsa := ilo_dsa ilo;
     ilo_stencil_ref := v; ilo_blend := ilo_blend ilo;
     ilo_blend_color := ilo_blend_color ilo; ilo_fb := ilo_fb ilo;
     ilo_sampler := ilo_sampler ilo; ilo_view := ilo_view ilo;
     ilo_cbuf := ilo_cbuf ilo; ilo_resource := ilo_resource ilo;
     ilo_cs_resource := ilo_cs_resource ilo;
     ilo_global_binding := ilo_global_binding ilo |}.

Definition set_blend (v : option cso_pointer) (ilo : ilo_context) : ilo_context :=
  {| ilo_uploader := ilo_uploader ilo; ilo_kernels := ilo_kernels ilo;
     ilo_refcnt := ilo_refcnt ilo; ilo_draw := ilo_draw ilo;
     ilo_dirty := ilo_dirty ilo; ilo_vb := ilo_vb ilo;
     ilo_ve := ilo_ve ilo; ilo_ib := ilo_ib ilo; ilo_vs := ilo_vs ilo;
     ilo_gs := ilo_gs ilo; ilo_fs := ilo_fs ilo; ilo_cs := ilo_cs ilo;
     ilo_so := ilo_so ilo; ilo_clip := ilo_clip ilo;
     ilo_viewport := ilo_viewport ilo; ilo_scissor := ilo_scissor ilo;
     ilo_rasterizer := ilo_rasterizer ilo;
     ilo_poly_stipple := ilo_poly_stipple ilo;
     ilo_sample_mask := ilo_sample_mask ilo; ilo_dsa := ilo_dsa ilo;
     ilo_stencil_ref := ilo_stencil_ref ilo; ilo_blend := v;
     ilo_blend_color := ilo_blend_color ilo; ilo_fb := ilo_fb ilo;
     ilo_sampler := ilo_sampler ilo; ilo_view := ilo_view ilo;
     ilo_cbuf := ilo_cbuf ilo; ilo_resource := ilo_resource ilo;
     ilo_cs_resource := ilo_cs_resource ilo;
     ilo_global_binding := ilo_global_binding ilo |}.

Definition set_blend_color (v : pipe_blend_color) (ilo : ilo_context) : ilo_context :=
  {| ilo_uploader := ilo_uploader ilo; ilo_kernels := ilo_kernels ilo;
     ilo_refcnt := ilo_refcnt ilo; ilo_draw := ilo_draw ilo;
     ilo_dirty := ilo_dirty ilo; ilo_vb := ilo_vb ilo;
     ilo_ve := ilo_ve ilo; ilo_ib := ilo_ib ilo; ilo_vs := ilo_vs ilo;
     ilo_gs := ilo_gs ilo; ilo_fs := ilo_fs ilo; ilo_cs := ilo_cs ilo;
     ilo_so := ilo_so ilo; ilo_clip := ilo_clip ilo;
     ilo_viewport := ilo_viewport ilo; ilo_scissor := ilo_scissor ilo;
     ilo_rasterizer := ilo_rasterizer ilo;
     ilo_poly_stipple := ilo_poly_stipple ilo;
     ilo_sample_mask := ilo_sample_mask ilo; ilo_dsa := ilo_dsa ilo;
     ilo_stencil_ref := ilo_stencil_ref ilo; ilo_blend := ilo_blend ilo;
     ilo_blend_color := v; ilo_fb := ilo_fb ilo;
     ilo_sampler := ilo_sampler ilo; ilo_view := ilo_view ilo;
     ilo_cbuf := ilo_cbuf ilo; ilo_resource := ilo_resource ilo;
     ilo_cs_resource := ilo_cs_resource ilo;
     ilo_global_binding := ilo_global_binding ilo |}.

Definition set_fb (v : ilo_fb_state) (ilo : ilo_context) : ilo_context :=
  {| ilo_uploader := ilo_uploader ilo; ilo_kernels := ilo_kernels ilo;
     ilo_refcnt := ilo_refcnt ilo; ilo_draw := ilo_draw ilo;
     ilo_dirty := ilo_dirty ilo; ilo_vb := ilo_vb ilo;
     ilo_ve := ilo_ve ilo; ilo_ib := ilo_ib ilo; ilo_vs := ilo_vs ilo;
     ilo_gs := ilo_gs ilo; ilo_fs := ilo_fs ilo; ilo_cs := ilo_cs ilo;
     ilo_so := ilo_so ilo; ilo_clip := ilo_clip ilo;
     ilo_viewport := ilo_viewport ilo; ilo_scissor := ilo_scissor ilo;
     ilo_rasterizer := ilo_rasterizer ilo;
     ilo_poly_stipple := ilo_poly_stipple ilo;
     ilo_sample_mask := ilo_sample_mask ilo; ilo_dsa := ilo_dsa ilo;
     ilo_stencil_ref := ilo_stencil_ref ilo; ilo_blend := ilo_blend ilo;
     ilo_blend_color := ilo_blend_color ilo; ilo_fb := v;
     ilo_sampler := ilo_sampler ilo; ilo_view := ilo_view ilo;
     ilo_cbuf := ilo_cbuf ilo; ilo_resource := ilo_resource ilo;
     ilo_cs_resource := ilo_cs_resource ilo;
     ilo_global_binding := ilo_global_binding ilo |}.

Definition set_sampler (v : per_shader ilo_sampler_state) (ilo : ilo_context) : ilo_context :=
  {| ilo_uploader := ilo_uploader ilo; ilo_kernels := ilo_kernels ilo;
     ilo_refcnt := ilo_refcnt ilo; ilo_draw := ilo_draw ilo;
     ilo_dirty := ilo_dirty ilo; ilo_vb := ilo_vb ilo;
     ilo_ve := ilo_ve ilo; ilo_ib := ilo_ib ilo; ilo_vs := ilo_vs ilo;
     ilo_gs := ilo_gs ilo; ilo_fs := ilo_fs ilo; ilo_cs := ilo_cs ilo;
     ilo_so := ilo_so ilo; ilo_clip := ilo_clip ilo;
     ilo_viewport := ilo_viewport ilo; ilo_scissor := ilo_scissor ilo;
     ilo_rasterizer := ilo_rasterizer ilo;
     ilo_poly_stipple := ilo_poly_stipple ilo;
     ilo_sample_mask := ilo_sample_mask ilo; ilo_dsa := ilo_dsa ilo;
     ilo_stencil_ref := ilo_stencil_ref ilo; ilo_blend := ilo_blend ilo;
     ilo_blend_color := ilo_blend_color ilo; ilo_fb := ilo_fb ilo;
     ilo_sampler := v; ilo_view := ilo_view ilo;
     ilo_cbuf := ilo_cbuf ilo; ilo_resource := ilo_resource ilo;
     ilo_cs_resource := ilo_cs_resource ilo;
     ilo_global_binding := ilo_global_binding ilo |}.

Definition set_view (v : per_shader ilo_view_state) (ilo : ilo_context) : ilo_context :=
  {| ilo_uploader := ilo_uploader ilo; ilo_kernels := ilo_kernels ilo;
     ilo_refcnt := ilo_refcnt ilo; ilo_draw := ilo_draw ilo;
     ilo_dirty := ilo_dirty ilo; ilo_vb := ilo_vb ilo;
     ilo_ve := ilo_ve ilo; ilo_ib := ilo_ib ilo; ilo_vs := ilo_vs ilo;
     ilo_gs := ilo_gs ilo; ilo_fs := ilo_fs ilo; ilo_cs := ilo_cs ilo;
     ilo_so := ilo_so ilo; ilo_clip := ilo_clip ilo;
     ilo_viewport := ilo_viewport ilo; ilo_scissor := ilo_scissor ilo;
     ilo_rasterizer := ilo_rasterizer ilo;
     ilo_poly_stipple := ilo_poly_stipple ilo;
     ilo_sample_mask := ilo_sample_mask ilo; ilo_dsa := ilo_dsa ilo;
     ilo_stencil_ref := ilo_stencil_ref ilo; ilo_blend := ilo_blend ilo;
     ilo_blend_color := ilo_blend_color ilo; ilo_fb := ilo_fb ilo;
     ilo_sampler := ilo_sampler ilo; ilo_view := v;
     ilo_cbuf := ilo_cbuf ilo; ilo_resource := ilo_resource ilo;
     ilo_cs_resource := ilo_cs_resource ilo;
     ilo_global_binding := ilo_global_binding ilo |}.

Definition set_cbuf (v : per_shader ilo_cbuf_state) (ilo : ilo_context) : ilo_context :=
  {| ilo_uploader := ilo_uploader ilo; ilo_kernels := ilo_kernels ilo;
     ilo_refcnt := ilo_refcnt ilo; ilo_draw := ilo_draw ilo;
     ilo_dirty := ilo_dirty ilo; ilo_vb := ilo_vb ilo;
     ilo_ve := ilo_ve ilo; ilo_ib := ilo_ib ilo; ilo_vs := ilo_vs ilo;
     ilo_gs := ilo_gs ilo; ilo_fs := ilo_fs ilo; ilo_cs := ilo_cs ilo;
     ilo_so := ilo_so ilo; ilo_clip := ilo_clip ilo;
     ilo_viewport := ilo_viewport ilo; ilo_scissor := ilo_scissor ilo;
     ilo_rasterizer := ilo_rasterizer ilo;
     ilo_poly_stipple := ilo_poly_stipple ilo;
     ilo_sample_mask := ilo_sample_mask ilo; ilo_dsa := ilo_dsa ilo;
     ilo_stencil_ref := ilo_stencil_ref ilo; ilo_blend := ilo_blend ilo;
     ilo_blend_color := ilo_blend_color ilo; ilo_fb := ilo_fb ilo;
     ilo_sampler := ilo_sampler ilo; ilo_view := ilo_view ilo;
     ilo_cbuf := v; ilo_resource := ilo_resource ilo;
     ilo_cs_resource := ilo_cs_resource ilo;
     ilo_global_binding := ilo_global_binding ilo |}.

Definition set_resource (v : ilo_resource_state) (ilo : ilo_context) : ilo_context :=
  {| ilo_uploader := ilo_uploader ilo; ilo_kernels := ilo_kernels ilo;
     ilo_refcnt := ilo_refcnt ilo; ilo_draw := ilo_draw ilo;
     ilo_dirty := ilo_dirty ilo; ilo_vb := ilo_vb ilo;
     ilo_ve := ilo_ve ilo; ilo_ib := ilo_ib ilo; ilo_vs := ilo_vs ilo;
     ilo_gs := ilo_gs ilo; ilo_fs := ilo_fs ilo; ilo_cs := ilo_cs ilo;
     ilo_so := ilo_so ilo; ilo_clip := ilo_clip ilo;
     ilo_viewport := ilo_viewport ilo; ilo_scissor := ilo_scissor ilo;
     ilo_rasterizer := ilo_rasterizer ilo;
     ilo_poly_stipple := ilo_poly_stipple ilo;
     ilo_sample_mask := ilo_sample_mask ilo; ilo_dsa := ilo_dsa ilo;
     ilo_stencil_ref := ilo_stencil_ref ilo; ilo_blend := ilo_blend ilo;
     ilo_blend_color := ilo_blend_color ilo; ilo_fb := ilo_fb ilo;
     ilo_sampler := ilo_sampler ilo; ilo_view := ilo_view ilo;
     ilo_cbuf := ilo_cbuf ilo; ilo_resource := v;
     ilo_cs_resource := ilo_cs_resource ilo;
     ilo_global_binding := ilo_global_binding ilo |}.

Definition set_cs_resource (v : ilo_resource_state) (ilo : ilo_context) : ilo_context :=
  {| ilo_uploader := ilo_uploader ilo; ilo_kernels := ilo_kernels ilo;
     ilo_refcnt := ilo_refcnt ilo; ilo_draw := ilo_draw ilo;
     ilo_dirty := ilo_dirty ilo; ilo_vb := ilo_vb ilo;
     ilo_ve := ilo_ve ilo; ilo_ib := ilo_ib ilo; ilo_vs := ilo_vs ilo;
     ilo_gs := ilo_gs ilo; ilo_fs := ilo_fs ilo; ilo_cs := ilo_cs ilo;
     ilo_so := ilo_so ilo; ilo_clip := ilo_clip ilo;
     ilo_viewport := ilo_viewport ilo; ilo_scissor := ilo_scissor ilo;
     ilo_rasterizer := ilo_rasterizer ilo;
     ilo_poly_stipple := ilo_poly_stipple ilo;
     ilo_sample_mask := ilo_sample_mask ilo; ilo_dsa := ilo_dsa ilo;
     ilo_stencil_ref := ilo_stencil_ref ilo; ilo_blend := ilo_blend ilo;
     ilo_blend_color := ilo_blend_color ilo; ilo_fb := ilo_fb ilo;
     ilo_sampler := ilo_sampler ilo; ilo_view := ilo_view ilo;
     ilo_cbuf := ilo_cbuf ilo; ilo_resource := ilo_resource ilo;
     ilo_cs_resource := v;
     ilo_global_binding := ilo_global_binding ilo |}.

Definition set_global_binding (v : ilo_global_binding_state) (ilo : ilo_context) : ilo_context :=
  {| ilo_uploader := ilo_uploader ilo; ilo_kernels := ilo_kernels ilo;
     ilo_refcnt := ilo_refcnt ilo; ilo_draw := ilo_draw ilo;
     ilo_dirty := ilo_dirty ilo; ilo_vb := ilo_vb ilo;
     ilo_ve := ilo_ve ilo; ilo_ib := ilo_ib ilo; ilo_vs := ilo_vs ilo;
     ilo_gs := ilo_gs ilo; ilo_fs := ilo_fs ilo; ilo_cs := ilo_cs ilo;
     ilo_so := ilo_so ilo; ilo_clip := ilo_clip ilo;
     ilo_viewport := ilo_viewport ilo; ilo_scissor := ilo_scissor ilo;
     ilo_rasterizer := ilo_rasterizer ilo;
     ilo_poly_stipple := ilo_poly_stipple ilo;
     ilo_sample_mask := ilo_sample_mask ilo; ilo_dsa := ilo_dsa ilo;
     ilo_stencil_ref := ilo_stencil_ref ilo; ilo_blend := ilo_blend ilo;
     ilo_blend_color := ilo_blend_color ilo; ilo_fb := ilo_fb ilo;
     ilo_sampler := ilo_sampler ilo; ilo_view := ilo_view ilo;
     ilo_cbuf := ilo_cbuf ilo; ilo_resource := ilo_resource ilo;
     ilo_cs_resource := ilo_cs_resource ilo; ilo_global_binding := v |}.

(** [ilo->dirty |= bits] *)
Definition mark_dirty (bits : Z) (ilo : ilo_context) : ilo_context :=
  set_dirty (Z.lor (ilo_dirty ilo) bits) ilo.

(** ** Slot arrays *)

(** [dst[i] = new] on an array of plain pointers *)
Definition slot_assign {A : Type} (new : option A) (i : Z)
    (dst : list (option A)) : result (list (option A)) :=
  store dst i new.

(** [pipe_*_reference(&dst[i], new)] on an array of counted pointers; [obj]
    says which heap object an entry is.

    The sparse modes below advance the pointer first ([dst += start]) and
    then write [dst[i]]: slot [start + i] of the array, a sum of pointer
    arithmetic and not of [unsigned]s. *)
Definition slot_reference {A : Type} (obj : A -> object) (new : option A) (i : Z)
    (st : list (option A) * refcounts) : result (list (option A) * refcounts) :=
  let* old := load (fst st) i in
  let* dst := store (fst st) i new in
  Ok (dst, pipe_reference (snd st) (obj <$> old) (obj <$> new)).

(** [while (count > 0 && !slots[count - 1]) count--;] *)
Fixpoint trim_trailing {A : Type} (slots : list (option A)) (count : nat)
  : result Z :=
  match count with
  | O => Ok 0
  | S n =>
      match slots !! n with
      | None => Abort OutOfBounds
      | Some None => trim_trailing slots n
      | Some (Some _) => Ok (Z.of_nat count)
      end
  end.

Definition bind_samplers (ilo : ilo_context) (shader : pipe_shader_type)
    (start count : Z) (samplers : option (list (option ilo_sampler_cso)))
    (unbind_old : bool) : result ilo_context :=
  let cur := sh_get (ilo_sampler ilo) shader in
  let dst := sampler_cso cur in
  let* _ := assert (uadd start count <=? Elements dst) in
  if unbind_old then
    let '(start, count) :=
      match samplers with
      | None => (0, 0)
      | Some _ => (start, count)
      end in
    let* (i, dst) := for_lt 0 start (slot_assign None) dst in
    let* (i, dst) :=
      for_lt i (uadd start count)
        (fun i dst =>
           let* s := load (default [] samplers) (i - start) in
           slot_assign s i dst)
        dst in
    let* (i, dst) := for_lt i (sampler_count cur) (slot_assign None) dst in
    Ok (set_sampler
          (sh_set (ilo_sampler ilo) shader
             {| sampler_cso := dst; sampler_count := uadd start count |})
          ilo)
  else
    let* (_, dst) :=
      match samplers with
      | Some src =>
          for_lt 0 count
            (fun i dst => let* s := load src i in slot_assign s (start + i) dst)
            dst
      | None =>
          for_lt 0 count (fun i dst => slot_assign None (start + i) dst) dst
      end in
    if sampler_count cur <=? uadd start count then
      let* count := trim_trailing dst (Z.to_nat (uadd count start)) in
      Ok (set_sampler
            (sh_set (ilo_sampler ilo) shader
               {| sampler_cso := dst; sampler_count := count |})
            ilo)
    else
      Ok (set_sampler
            (sh_set (ilo_sampler ilo) shader
               {| sampler_cso := dst; sampler_count := sampler_count cur |})
            ilo).

Definition ilo_bind_fragment_sampler_states (ilo : ilo_context)
    (num_samplers : Z) (samplers : option (list (option ilo_sampler_cso)))
  : result ilo_context :=
  let* ilo := bind_samplers ilo PIPE_SHADER_FRAGMENT 0 num_samplers samplers true in
  Ok (mark_dirty (ILO_DIRTY ILO_STATE_FRAGMENT_SAMPLERS) ilo).

Definition ilo_bind_vertex_sampler_states (ilo : ilo_context)
    (num_samplers : Z) (samplers : option (list (option ilo_sampler_cso)))
  : result ilo_context :=
  let* ilo := bind_samplers ilo PIPE_SHADER_VERTEX 0 num_samplers samplers true in
  Ok (mark_dirty (ILO_DIRTY ILO_STATE_VERTEX_SAMPLERS) ilo).

Definition ilo_bind_geometry_sampler_states (ilo : ilo_context)
    (num_samplers : Z) (samplers : option (list (option ilo_sampler_cso)))
  : result ilo_context :=
  let* ilo := bind_samplers ilo PIPE_SHADER_GEOMETRY 0 num_samplers samplers true in
  Ok (mark_dirty (ILO_DIRTY ILO_STATE_GEOMETRY_SAMPLERS) ilo).

Definition ilo_bind_compute_sampler_states (ilo : ilo_context)
    (start_slot num_samplers : Z)
    (samplers : option (list (option ilo_sampler_cso))) : result ilo_context :=
  let* ilo :=
    bind_samplers ilo PIPE_SHADER_COMPUTE start_slot num_samplers samplers false in
  Ok (mark_dirty (ILO_DIRTY ILO_STATE_COMPUTE_SAMPLERS) ilo).

Definition set_sampler_views (ilo : ilo_context) (shader : pipe_shader_type)
    (start count : Z) (views : option (list (option pipe_sampler_view)))
    (unset_old : bool) : result ilo_context :=
  let cur := sh_get (ilo_view ilo) shader in
  let dst := (view_states cur, ilo_refcnt ilo) in
  let* _ := assert (uadd start count <=? Elements (view_states cur)) in
  if unset_old then
    let '(start, count) :=
      match views with
      | None => (0, 0)
      | Some _ => (start, count)
      end in
    let* (i, dst) := for_lt 0 start (slot_reference ObjSamplerView None) dst in
    let* (i, dst) :=
      for_lt i (uadd start count)
        (fun i dst =>
           let* v := load (default [] views) (i - start) in
           slot_reference ObjSamplerView v i dst)
        dst in
    let* (i, dst) :=
      for_lt i (view_count cur) (slot_reference ObjSamplerView None) dst in
    Ok (set_view
          (sh_set (ilo_view ilo) shader
             {| view_states := fst dst; view_count := uadd start count |})
          (set_refcnt (snd dst) ilo))
  else
    let* (_, dst) :=
      match views with
      | Some src =>
          for_lt 0 count
            (fun i dst =>
               let* v := load src i in
               slot_reference ObjSamplerView v (start + i) dst)
            dst
      | None =>
          for_lt 0 count
            (fun i dst => slot_reference ObjSamplerView None (start + i) dst) dst
      end in
    if view_count cur <=? uadd start count then
      let* count := trim_trailing (fst dst) (Z.to_nat (uadd count start)) in
      Ok (set_view
            (sh_set (ilo_view ilo) shader
               {| view_states := fst dst; view_count := count |})
            (set_refcnt (snd dst) ilo))
    else
      Ok (set_view
            (sh_set (ilo_view ilo) shader
               {| view_states := fst dst; view_count := view_count cur |})
            (set_refcnt (snd dst) ilo)).

Definition ilo_set_fragment_sampler_views (ilo : ilo_context) (num_views : Z)
    (views : option (list (option pipe_sampler_view))) : result ilo_context :=
  let* ilo := set_sampler_views ilo PIPE_SHADER_FRAGMENT 0 num_views views true in
  Ok (mark_dirty (ILO_DIRTY ILO_STATE_FRAGMENT_SAMPLER_VIEWS) ilo).

Definition ilo_set_vertex_sampler_views (ilo : ilo_context) (num_views : Z)
    (views : option (list (option pipe_sampler_view))) : result ilo_context :=
  let* ilo := set_sampler_views ilo PIPE_SHADER_VERTEX 0 num_views views true in
  Ok (mark_dirty (ILO_DIRTY ILO_STATE_VERTEX_SAMPLER_VIEWS) ilo).

Definition ilo_set_geometry_sampler_views (ilo : ilo_context) (num_views : Z)
    (views : option (list (option pipe_sampler_view))) : result ilo_context :=
  let* ilo := set_sampler_views ilo PIPE_SHADER_GEOMETRY 0 num_views views true in
  Ok (mark_dirty (ILO_DIRTY ILO_STATE_GEOMETRY_SAMPLER_VIEWS) ilo).

Definition ilo_set_compute_sampler_views (ilo : ilo_context)
    (start_slot num_views : Z)
    (views : option (list (option pipe_sampler_view))) : result ilo_context :=
  let* ilo :=
    set_sampler_views ilo PIPE_SHADER_COMPUTE start_slot num_views views false in
  Ok (mark_dirty (ILO_DIRTY ILO_STATE_COMPUTE_SAMPLER_VIEWS) ilo).

(** The update shared by [ilo_set_shader_resources],
    [ilo_set_compute_resources] and [ilo_set_global_binding], which repeat
    the same statements on three different arrays: write
    [[start, start + count)], then trim the count if the range reaches it. *)
Definition sparse_update {A : Type} (obj : A -> object)
    (states : list (option A)) (cur_count : Z) (refs : refcounts)
    (start count : Z) (src : option (list (option A)))
  : result (list (option A) * Z * refcounts) :=
  let* _ := assert (uadd start count <=? Elements states) in
  let* (_, dst) :=
    match src with
    | Some src =>
        for_lt 0 count
          (fun i dst =>
             let* s := load src i in slot_reference obj s (start + i) dst)
          (states, refs)
    | None =>
        for_lt 0 count
          (fun i dst => slot_reference obj None (start + i) dst) (states, refs)
    end in
  if cur_count <=? uadd start count then
    let* count := trim_trailing (fst dst) (Z.to_nat (uadd count start)) in
    Ok (fst dst, count, snd dst)
  else
    Ok (fst dst, cur_count, snd dst).

Definition ilo_set_shader_resources (ilo : ilo_context) (start count : Z)
    (surfaces : option (list (option pipe_surface))) : result ilo_context :=
  let* (states, count, refs) :=
    sparse_update ObjSurface (resource_states (ilo_resource ilo))
      (resource_count (ilo_resource ilo)) (ilo_refcnt ilo) start count surfaces in
  Ok (mark_dirty (ILO_DIRTY ILO_STATE_SHADER_RESOURCES)
        (set_resource {| resource_states := states; resource_count := count |}
           (set_refcnt refs ilo))).

Definition ilo_set_compute_resources (ilo : ilo_context) (start count : Z)
    (surfaces : option (list (option pipe_surface))) : result ilo_context :=
  let* (states, count, refs) :=
    sparse_update ObjSurface (resource_states (ilo_cs_resource ilo))
      (resource_count (ilo_cs_resource ilo)) (ilo_refcnt ilo) start count
      surfaces in
  Ok (mark_dirty (ILO_DIRTY ILO_STATE_COMPUTE_RESOURCES)
        (set_cs_resource {| resource_states := states; resource_count := count |}
           (set_refcnt refs ilo))).

(** The [handles] argument of the C function is never read. *)
Definition ilo_set_global_binding (ilo : ilo_context) (start count : Z)
    (resources : option (list (option pipe_resource))) : result ilo_context :=
  let* (states, count, refs) :=
    sparse_update ObjResource (gb_resources (ilo_global_binding ilo))
      (gb_count (ilo_global_binding ilo)) (ilo_refcnt ilo) start count
      resources in
  Ok (mark_dirty (ILO_DIRTY ILO_STATE_GLOBAL_BINDING)
        (set_global_binding {| gb_resources := states; gb_count := count |}
           (set_refcnt refs ilo))).

(** ** Binding mutators *)

Definition ilo_bind_blend_state (ilo : ilo_context) (state : option cso_pointer)
  : ilo_context :=
  mark_dirty (ILO_DIRTY ILO_STATE_BLEND) (set_blend state ilo).

Definition ilo_bind_rasterizer_state (ilo : ilo_context)
    (state : option cso_pointer) : ilo_context :=
  mark_dirty (ILO_DIRTY ILO_STATE_RASTERIZER) (set_rasterizer state ilo).

Definition ilo_bind_depth_stencil_alpha_state (ilo : ilo_context)
    (state : option cso_pointer) : ilo_context :=
  mark_dirty (ILO_DIRTY ILO_STATE_DEPTH_STENCIL_ALPHA) (set_dsa state ilo).

Definition ilo_bind_fs_state (ilo : ilo_context) (state : option ilo_shader_state)
  : ilo_context :=
  mark_dirty (ILO_DIRTY ILO_STATE_FS) (set_fs state ilo).

Definition ilo_bind_vs_state (ilo : ilo_context) (state : option ilo_shader_state)
  : ilo_context :=
  mark_dirty (ILO_DIRTY ILO_STATE_VS) (set_vs state ilo).

Definition ilo_bind_gs_state (ilo : ilo_context) (state : option ilo_shader_state)
  : ilo_context :=
  mark_dirty (ILO_DIRTY ILO_STATE_GS) (set_gs state ilo).

Definition ilo_bind_vertex_elements_state (ilo : ilo_context)
    (state : option cso_pointer) : ilo_context :=
  mark_dirty (ILO_DIRTY ILO_STATE_VERTEX_ELEMENTS) (set_ve state ilo).

Definition ilo_set_blend_color (ilo : ilo_context) (state : pipe_blend_color)
  : ilo_context :=
  mark_dirty (ILO_DIRTY ILO_STATE_BLEND_COLOR) (set_blend_color state ilo).

Definition ilo_set_stencil_ref (ilo : ilo_context) (state : pipe_stencil_ref)
  : ilo_context :=
  mark_dirty (ILO_DIRTY ILO_STATE_STENCIL_REF) (set_stencil_ref state ilo).

Definition ilo_set_sample_mask (ilo : ilo_context) (sample_mask : Z)
  : ilo_context :=
  mark_dirty (ILO_DIRTY ILO_STATE_SAMPLE_MASK) (set_sample_mask sample_mask ilo).

Definition ilo_set_clip_state (ilo : ilo_context) (state : pipe_clip_state)
  : ilo_context :=
  mark_dirty (ILO_DIRTY ILO_STATE_CLIP) (set_clip state ilo).

Definition ilo_set_polygon_stipple (ilo : ilo_context) (state : pipe_poly_stipple)
  : ilo_context :=
  mark_dirty (ILO_DIRTY ILO_STATE_POLY_STIPPLE) (set_poly_stipple state ilo).

Definition ilo_bind_compute_state (ilo : ilo_context)
    (state : option ilo_shader_state) : ilo_context :=
  mark_dirty (ILO_DIRTY ILO_STATE_COMPUTE) (set_cs state ilo).

Definition ilo_set_scissor_states (ilo : ilo_context)
    (start_slot num_scissors : Z) (scissors : option (list pipe_scissor_state))
  : ilo_context :=
  mark_dirty (ILO_DIRTY ILO_STATE_SCISSOR)
    (set_scissor
       (ilo_gpe_set_scissor start_slot num_scissors scissors (ilo_scissor ilo))
       ilo).

(** [1 << index] as an unsigned value *)
Definition bit (index : Z) : Z := wrap32 (Z.shiftl 1 index).

Definition ilo_set_constant_buffer (ilo : ilo_context) (shader index : Z)
    (state : option pipe_constant_buffer) : result ilo_context :=
  match shader_type_of_index shader with
  | None => Abort AssertionFailed
  | Some sh =>
      let cur := sh_get (ilo_cbuf ilo) sh in
      let* _ := assert (index <? Elements (cbuf_cso cur)) in
      let* cbuf := load (cbuf_cso cur) index in
      match state with
      | Some state =>
          let refs :=
            pipe_reference (ilo_refcnt ilo)
              (ObjResource <$> cbuf_resource cbuf)
              (ObjResource <$> cb_buffer state) in
          let* cbuf :=
            match cb_buffer state with
            | Some _ =>
                let elem_format := PIPE_FORMAT_R32G32B32A32_FLOAT in
                Ok {| cbuf_resource := cb_buffer state;
                      cbuf_surface :=
                        ilo_gpe_init_view_surface_for_buffer (cb_buffer state)
                          (cb_buffer_offset state) (cb_buffer_size state)
                          (util_format_get_blocksize elem_format) elem_format
                          false false;
                      cbuf_user_buffer := None;
                      cbuf_user_buffer_size := 0 |}
            | None =>
                let* _ := assert (bool_decide (cb_user_buffer state <> None)) in
                Ok {| cbuf_resource := cb_buffer state;
                      cbuf_surface :=
                        {| surface_payload := surface_payload (cbuf_surface cbuf);
                           surface_bo := None |};
                      cbuf_user_buffer := cb_user_buffer state;
                      cbuf_user_buffer_size := cb_buffer_size state |}
            end in
          let* cso := store (cbuf_cso cur) index cbuf in
          Ok (mark_dirty (ILO_DIRTY ILO_STATE_CONSTANT_BUFFER)
                (set_cbuf
                   (sh_set (ilo_cbuf ilo) sh
                      {| cbuf_cso := cso;
                         cbuf_enabled_mask :=
                           Z.lor (cbuf_enabled_mask cur) (bit index);
                         cbuf_count := cbuf_count cur |})
                   (set_refcnt refs ilo)))
      | None =>
          let refs :=
            pipe_reference (ilo_refcnt ilo)
              (ObjResource <$> cbuf_resource cbuf) None in
          let cbuf :=
            {| cbuf_resource := None;
               cbuf_surface :=
                 {| surface_payload := surface_payload (cbuf_surface cbuf);
                    surface_bo := None |};
               cbuf_user_buffer := None;
               cbuf_user_buffer_size := 0 |} in
          let* cso := store (cbuf_cso cur) index cbuf in
          Ok (mark_dirty (ILO_DIRTY ILO_STATE_CONSTANT_BUFFER)
                (set_cbuf
                   (sh_set (ilo_cbuf ilo) sh
                      {| cbuf_cso := cso;
                         cbuf_enabled_mask :=
                           Z.ldiff (cbuf_enabled_mask cur) (bit index);
                         cbuf_count := cbuf_count cur |})
                   (set_refcnt refs ilo)))
      end
  end.

Definition ilo_set_viewport_states (ilo : ilo_context)
    (start_slot num_viewports : Z) (viewports : option (list pipe_viewport_state))
  : result ilo_context :=
  let cur := ilo_viewport ilo in
  let* viewport :=
    match viewports with
    | Some vps =>
        let* (_, cso) :=
          for_lt 0 num_viewports
            (fun i cso =>
               let* v := load vps i in
               store cso (uadd start_slot i) (ilo_gpe_set_viewport_cso v))
            (viewport_cso cur) in
        let count :=
          if viewport_count cur <? uadd start_slot num_viewports
          then uadd start_slot num_viewports
          else viewport_count cur in
        (* need to save viewport 0 for util_blitter *)
        if (start_slot =? 0) && negb (num_viewports =? 0) then
          let* v0 := load vps 0 in
          Ok {| viewport_cso := cso; viewport_count := count; viewport0 := v0 |}
        else
          Ok {| viewport_cso := cso; viewport_count := count;
                viewport0 := viewport0 cur |}
    | None =>
        if (viewport_count cur <=? uadd start_slot num_viewports)
           && (start_slot <? viewport_count cur)
        then Ok {| viewport_cso := viewport_cso cur;
                   viewport_count := start_slot;
                   viewport0 := viewport0 cur |}
        else Ok cur
    end in
  Ok (mark_dirty (ILO_DIRTY ILO_STATE_VIEWPORT) (set_viewport viewport ilo)).

Definition ilo_set_index_buffer (ilo : ilo_context)
    (state : option pipe_index_buffer) : result ilo_context :=
  let cur := ilo_ib ilo in
  match state with
  | Some state =>
      let refs :=
        pipe_reference (ilo_refcnt ilo)
          (ObjResource <$> ib_buffer (ib_state cur))
          (ObjResource <$> ib_buffer state) in
      (* when there is no state->buffer or state->offset is misaligned,
         ilo_finalize_3d_states() will set these to the valid values *)
      let refs :=
        pipe_reference refs
          (ObjResource <$> ib_resource cur) (ObjResource <$> ib_buffer state) in
      let* start_offset := udiv (ib_offset state) (index_size state) in
      Ok (mark_dirty (ILO_DIRTY ILO_STATE_INDEX_BUFFER)
            (set_ib
               {| ib_state :=
                    {| index_size := index_size state;
                       ib_offset := ib_offset state;
                       ib_buffer := ib_buffer state;
                       ib_user_buffer := ib_user_buffer state |};
                  ib_resource := ib_buffer state;
                  draw_start_offset := start_offset |}
               (set_refcnt refs ilo)))
  | None =>
      let refs :=
        pipe_reference (ilo_refcnt ilo)
          (ObjResource <$> ib_buffer (ib_state cur)) None in
      let refs := pipe_reference refs (ObjResource <$> ib_resource cur) None in
      Ok (mark_dirty (ILO_DIRTY ILO_STATE_INDEX_BUFFER)
            (set_ib
               {| ib_state :=
                    {| index_size := 0; ib_offset := 0; ib_buffer := None;
                       ib_user_buffer := None |};
                  ib_resource := None;
                  draw_start_offset := 0 |}
               (set_refcnt refs ilo)))
  end.

Definition ilo_set_stream_output_targets (ilo : ilo_context) (num_targets : Z)
    (targets : option (list (option pipe_stream_output_target)))
    (append_bitmask : Z) : result ilo_context :=
  let cur := ilo_so ilo in
  let num_targets :=
    match targets with
    | None => 0
    | Some _ => num_targets
    end in
  let* (i, st) :=
    for_lt 0 num_targets
      (fun i st =>
         let* t := load (default [] targets) i in
         slot_reference ObjSoTarget t i st)
      (so_states cur, ilo_refcnt ilo) in
  let* (i, st) :=
    for_lt i (so_count cur) (slot_reference ObjSoTarget None) st in
  Ok (mark_dirty (ILO_DIRTY ILO_STATE_STREAM_OUTPUT_TARGETS)
        (set_so
           {| so_states := fst st; so_count := num_targets;
              so_append_bitmask := append_bitmask;
              so_enabled := 0 <? num_targets |}
           (set_refcnt (snd st) ilo))).

(** ** Bit scans

    Modelled from the spec: [u_bit_scan] and [util_last_bit] are inline
    helpers of [u_math.h], not among the sources (the spec treats the bit
    scan as a pure function).  [u_bit_scan(&mask)] returns the index of the
    lowest set bit of [mask] and clears it; [util_last_bit(u)] is the index
    of the highest set bit plus one, and 0 when [u] is 0. *)

Fixpoint ctz (p : positive) : Z :=
  match p with
  | xO q => Z.succ (ctz q)
  | _ => 0
  end.

Definition ffs (mask : Z) : Z :=
  match mask with
  | Zpos p => ctz p + 1
  | _ => 0
  end.

Definition u_bit_scan (mask : Z) : Z * Z :=
  let i := ffs mask - 1 in
  (i, Z.ldiff mask (bit i)).

Arguments u_bit_scan : simpl never.

Definition util_last_bit (u : Z) : Z :=
  if u =? 0 then 0 else Z.log2 u + 1.

(** The bound of the loops over the bits of an [unsigned]: one turn per
    bit. *)
Definition UINT_BITS : nat := 32.

(** [while (mask) { i = u_bit_scan(&mask); body(i); }].  A loop that has not
    emptied its mask after [n] turns stops with [LoopBoundExceeded];
    [bit_scan_loop_total] shows that no 32-bit mask does that. *)
Fixpoint bit_scan_loop {S : Type} (n : nat) (mask : Z)
    (body : Z -> S -> result S) (s : S) : result S :=
  if mask =? 0 then Ok s
  else
    match n with
    | O => Abort LoopBoundExceeded
    | S n' =>
        let '(i, mask) := u_bit_scan mask in
        let* s' := body i s in
        bit_scan_loop n' mask body s'
    end.

(** [while (mask) { i = u_bit_scan(&mask); if (test(i)) { hit; break; } }] *)
Fixpoint bit_scan_any (n : nat) (mask : Z) (test : Z -> result bool)
  : result bool :=
  if mask =? 0 then Ok false
  else
    match n with
    | O => Abort LoopBoundExceeded
    | S n' =>
        let '(i, mask) := u_bit_scan mask in
        let* hit := test i in
        if hit then Ok true else bit_scan_any n' mask test
    end.

(** [for (; i < hi; i++) { if (test(i)) { hit; break; } }], with a body that
    may change the state before it tests. *)
Fixpoint scan_until {S : Type} (n : nat) (i : Z)
    (test : Z -> S -> result (bool * S)) (s : S) : result (bool * S) :=
  match n with
  | O => Ok (false, s)
  | S n' =>
      let* (hit, s') := test i s in
      if hit then Ok (true, s') else scan_until n' (i + 1) test s'
  end.

Definition any_lt {S : Type} (hi : Z) (test : Z -> S -> result (bool * S)) (s : S)
  : result (bool * S) :=
  scan_until (Z.to_nat hi) 0 test s.

(** The same for a test that only reads. *)
Definition any_lt_pure (hi : Z) (test : Z -> result bool) : result bool :=
  let* (hit, _) :=
    any_lt hi (fun i (_ : unit) => let* b := test i in Ok (b, tt)) tt in
  Ok hit.

(** [p->field] through a pointer that may be null *)
Definition deref {A : Type} (p : option A) : result A :=
  match p with
  | Some x => Ok x
  | None => Abort NullDereference
  end.

(** [for (sh = 0; sh < PIPE_SHADER_TYPES; sh++) body(sh)] *)
Fixpoint for_each {X S : Type} (xs : list X) (body : X -> S -> result S) (s : S)
  : result S :=
  match xs with
  | [] => Ok s
  | x :: xs' => let* s' := body x s in for_each xs' body s'
  end.

(** ** Finalization and resource tracking *)

Section Collaborators.

(** What [ilo_shader_select_kernel(shader, ilo, dirty)] returns: whether a
    different kernel was selected. *)
Variable kernel_changed : ilo_context -> ilo_shader_state -> Z -> bool.

(** What [ilo_shader_select_kernel_routing(shader, source, rasterizer)]
    returns: whether the routing changed. *)
Variable routing_changed :
  ilo_context -> ilo_shader_state -> option ilo_shader_state ->
  option cso_pointer -> bool.

(** What the upload manager hands out for a request, given the requests it
    served before: the offset and the resource of the staged range. *)
Variable staged : list upload_call -> upload_call -> Z * pipe_resource.

(** [util_copy_framebuffer_state(dst, src)] of [u_framebuffer.c] and
    [util_set_vertex_buffers_mask(dst, enabled, src, start, count)] of
    [u_helpers.c], not among the sources: any functions of their
    arguments and of the reference counts. *)
Variable util_copy_framebuffer_state :
  pipe_framebuffer_state -> pipe_framebuffer_state -> refcounts ->
  pipe_framebuffer_state * refcounts.

Variable util_set_vertex_buffers_mask :
  list pipe_vertex_buffer -> Z -> option (list pipe_vertex_buffer) -> Z -> Z ->
  refcounts -> list pipe_vertex_buffer * Z * refcounts.

Definition ilo_shader_select_kernel (shader : ilo_shader_state)
    (ilo : ilo_context) (dirty : Z) : bool * ilo_context :=
  (kernel_changed ilo shader dirty,
   set_kernels (ilo_kernels ilo ++ [SelectKernel shader dirty]) ilo).

Definition ilo_shader_select_kernel_routing (shader : ilo_shader_state)
    (source : option ilo_shader_state) (rasterizer : option cso_pointer)
    (ilo : ilo_context) : bool * ilo_context :=
  (routing_changed ilo shader source rasterizer,
   set_kernels
     (ilo_kernels ilo ++ [SelectKernelRouting shader source rasterizer]) ilo).

(** A request to the upload manager: it is recorded, and the out pointer
    [outbuf] (whose previous value is [old]) receives a reference to the
    staged resource. *)
Definition upload (call : upload_call) (old : option pipe_resource)
    (ilo : ilo_context) : Z * pipe_resource * ilo_context :=
  let offset := fst (staged (ilo_uploader ilo) call) in
  let res := snd (staged (ilo_uploader ilo) call) in
  (offset, res,
   set_uploader (ilo_uploader ilo ++ [call])
     (set_refcnt
        (pipe_reference (ilo_refcnt ilo) (ObjResource <$> old)
           (Some (ObjResource res)))
        ilo)).

Definition u_upload_data (ilo : ilo_context) (min_out_offset size : Z)
    (data : user_pointer) (old : option pipe_resource)
  : Z * pipe_resource * ilo_context :=
  upload (UploadData min_out_offset size data) old ilo.

Definition u_upload_buffer (ilo : ilo_context) (min_out_offset offset size : Z)
    (inbuf : option pipe_resource) (old : option pipe_resource)
  : Z * pipe_resource * ilo_context :=
  upload (UploadBuffer min_out_offset offset size inbuf) old ilo.

Definition u_upload_unmap (ilo : ilo_context) : ilo_context :=
  set_uploader (ilo_uploader ilo ++ [UploadUnmap]) ilo.

(** One turn of the loop of [finalize_shader_states]. *)
Definition finalize_shader_state (type : pipe_shader_type) (ilo : ilo_context)
  : ilo_context :=
  let '(shader, state) :=
    match type with
    | PIPE_SHADER_VERTEX => (ilo_vs ilo, ILO_DIRTY ILO_STATE_VS)
    | PIPE_SHADER_GEOMETRY => (ilo_gs ilo, ILO_DIRTY ILO_STATE_GS)
    | PIPE_SHADER_FRAGMENT => (ilo_fs ilo, ILO_DIRTY ILO_STATE_FS)
    | _ => (None, 0)
    end in
  match shader with
  | None => ilo
  | Some shader =>
      (* compile if the shader or the states it depends on changed *)
      let ilo :=
        if dirty_test (ilo_dirty ilo) state then
          snd (ilo_shader_select_kernel shader ilo ILO_DIRTY_ALL)
        else
          let '(changed, ilo) :=
            ilo_shader_select_kernel shader ilo (ilo_dirty ilo) in
          (* mark the state dirty if a new kernel is selected *)
          if changed then mark_dirty state ilo else ilo in
      (* need to setup SBE for FS *)
      if bool_decide (type = PIPE_SHADER_FRAGMENT)
         && dirty_test (ilo_dirty ilo)
              (Z.lor (Z.lor (Z.lor state (ILO_DIRTY ILO_STATE_GS))
                        (ILO_DIRTY ILO_STATE_VS))
                 (ILO_DIRTY ILO_STATE_RASTERIZER))
      then
        let '(changed, ilo) :=
          ilo_shader_select_kernel_routing shader
            (match ilo_gs ilo with
             | Some gs => Some gs
             | None => ilo_vs ilo
             end)
            (ilo_rasterizer ilo) ilo in
        if changed then mark_dirty state ilo else ilo
      else ilo
  end.

Definition finalize_shader_states (ilo : ilo_context) : ilo_context :=
  fold_left (fun ilo type => finalize_shader_state type ilo)
    PIPE_SHADER_TYPES ilo.

(** The body of the inner loop of [finalize_constant_buffers], for slot
    [i] of shader [sh]. *)
Definition upload_user_cbuf (sh : pipe_shader_type) (i : Z) (ilo : ilo_context)
  : result ilo_context :=
  let cur := sh_get (ilo_cbuf ilo) sh in
  let* cbuf := load (cbuf_cso cur) i in
  (* upload user buffer *)
  match cbuf_user_buffer cbuf with
  | Some user_buffer =>
      let elem_format := PIPE_FORMAT_R32G32B32A32_FLOAT in
      let '(offset, res, ilo) :=
        u_upload_data ilo 0 (cbuf_user_buffer_size cbuf) user_buffer
          (cbuf_resource cbuf) in
      let* cso :=
        store (cbuf_cso cur) i
          {| cbuf_resource := Some res;
             cbuf_surface :=
               ilo_gpe_init_view_surface_for_buffer (Some res) offset
                 (cbuf_user_buffer_size cbuf)
                 (util_format_get_blocksize elem_format) elem_format
                 false false;
             cbuf_user_buffer := None;
             cbuf_user_buffer_size := 0 |} in
      Ok (set_cbuf
            (sh_set (ilo_cbuf ilo) sh
               {| cbuf_cso := cso;
                  cbuf_enabled_mask := cbuf_enabled_mask cur;
                  cbuf_count := cbuf_count cur |})
            ilo)
  | None => Ok ilo
  end.

Definition finalize_constant_buffers (ilo : ilo_context) : result ilo_context :=
  if negb (dirty_test (ilo_dirty ilo) (ILO_DIRTY ILO_STATE_CONSTANT_BUFFER))
  then Ok ilo
  else
    for_each PIPE_SHADER_TYPES
      (fun sh ilo =>
         let enabled_mask := cbuf_enabled_mask (sh_get (ilo_cbuf ilo) sh) in
         let* ilo :=
           bit_scan_loop UINT_BITS enabled_mask (upload_user_cbuf sh) ilo in
         let cur := sh_get (ilo_cbuf ilo) sh in
         Ok (set_cbuf
               (sh_set (ilo_cbuf ilo) sh
                  {| cbuf_cso := cbuf_cso cur;
                     cbuf_enabled_mask := cbuf_enabled_mask cur;
                     cbuf_count := util_last_bit (cbuf_enabled_mask cur) |})
               ilo))
      ilo.

Definition finalize_index_buffer (ilo : ilo_context) : result ilo_context :=
  let* draw := deref (ilo_draw ilo) in
  if negb (indexed draw) then Ok ilo
  else
    let ib := ilo_ib ilo in
    let res := ib_resource ib in
    let offset := umul (index_size (ib_state ib)) (draw_start draw) in
    let size := umul (index_size (ib_state ib)) (draw_count draw) in
    let* uploaded :=
      match ib_user_buffer (ib_state ib) with
      | Some user_buffer =>
          Ok (Some (u_upload_data ilo 0 size (user_buffer + offset) res))
      | None =>
          let* misaligned :=
            umod (ib_offset (ib_state ib)) (index_size (ib_state ib)) in
          if negb (misaligned =? 0) then
            Ok (Some
                  (u_upload_buffer ilo 0
                     (uadd (ib_offset (ib_state ib)) offset) size
                     (ib_buffer (ib_state ib)) res))
          else Ok None
      end in
    match uploaded with
    | Some (offset, res, ilo) =>
        let* rest := umod offset (index_size (ib_state ib)) in
        let* _ := assert (rest =? 0) in
        let* start_offset := udiv offset (index_size (ib_state ib)) in
        Ok (mark_dirty (ILO_DIRTY ILO_STATE_INDEX_BUFFER)
              (set_ib
                 {| ib_state := ib_state ib;
                    ib_resource := Some res;
                    (* could be negative *)
                    draw_start_offset := start_offset - draw_start draw |}
                 ilo))
    | None => Ok ilo
    end.

(** Finalize states.  Some states depend on other states and are
    incomplete/invalid until finalized. *)
Definition ilo_finalize_3d_states (ilo : ilo_context) (draw : pipe_draw_info)
  : result ilo_context :=
  let ilo := set_draw (Some draw) ilo in
  let ilo := finalize_shader_states ilo in
  let* ilo := finalize_constant_buffers ilo in
  let* ilo := finalize_index_buffer ilo in
  Ok (u_upload_unmap ilo).

Definition ilo_set_framebuffer_state (ilo : ilo_context)
    (state : pipe_framebuffer_state) : result ilo_context :=
  let '(fbs, refs) :=
    util_copy_framebuffer_state (fb_state (ilo_fb ilo)) state (ilo_refcnt ilo) in
  let* num_samples :=
    if negb (nr_cbufs state =? 0) then
      let* cbuf0 := load (cbufs state) 0 in
      let* surf := deref cbuf0 in
      let* tex := deref (surf_texture surf) in
      Ok (nr_samples tex)
    else
      match zsbuf state with
      | Some surf =>
          let* tex := deref (surf_texture surf) in
          Ok (nr_samples tex)
      | None => Ok 1
      end in
  let num_samples := if num_samples =? 0 then 1 else num_samples in
  Ok (mark_dirty (ILO_DIRTY ILO_STATE_FRAMEBUFFER)
        (set_fb
           {| fb_state := fbs; fb_null_zs := fb_null_zs (ilo_fb ilo);
              fb_num_samples := num_samples |}
           (set_refcnt refs ilo))).

Definition ilo_set_vertex_buffers (ilo : ilo_context)
    (start_slot num_buffers : Z) (buffers : option (list pipe_vertex_buffer))
  : result ilo_context :=
  (* no PIPE_CAP_USER_VERTEX_BUFFERS *)
  let* _ :=
    match buffers with
    | Some bufs =>
        for_lt 0 num_buffers
          (fun i (_ : unit) =>
             let* b := load bufs i in
             assert (bool_decide (vb_user_buffer b = None)))
          tt
    | None => Ok (0, tt)
    end in
  let '(states, enabled_mask, refs) :=
    util_set_vertex_buffers_mask (vb_states (ilo_vb ilo))
      (vb_enabled_mask (ilo_vb ilo)) buffers start_slot num_buffers
      (ilo_refcnt ilo) in
  Ok (mark_dirty (ILO_DIRTY ILO_STATE_VERTEX_BUFFERS)
        (set_vb {| vb_states := states; vb_enabled_mask := enabled_mask |}
           (set_refcnt refs ilo))).

Definition ilo_init_states (ilo : ilo_context) : ilo_context :=
  set_dirty ILO_DIRTY_ALL
    (set_fb
       {| fb_state := fb_state (ilo_fb ilo);
          fb_null_zs := ilo_gpe_init_zs_surface None PIPE_FORMAT_NONE 0 0 1;
          fb_num_samples := fb_num_samples (ilo_fb ilo) |}
       (set_scissor (ilo_gpe_set_scissor_null (ilo_scissor ilo)) ilo)).

End Collaborators.

Definition view_dirty_bits (sh : pipe_shader_type) : Z :=
  match sh with
  | PIPE_SHADER_VERTEX => ILO_DIRTY ILO_STATE_VERTEX_SAMPLER_VIEWS
  | PIPE_SHADER_FRAGMENT => ILO_DIRTY ILO_STATE_FRAGMENT_SAMPLER_VIEWS
  | PIPE_SHADER_GEOMETRY => ILO_DIRTY ILO_STATE_GEOMETRY_SAMPLER_VIEWS
  | PIPE_SHADER_COMPUTE => ILO_DIRTY ILO_STATE_COMPUTE_SAMPLER_VIEWS
  end.

(** [states |= bits] when the scan hit *)
Definition raise_if (hit : bool) (bits states : Z) : Z :=
  if hit then Z.lor states bits else states.

(** The scan of the vertex buffers: the first part of
    [ilo_mark_states_with_resource_dirty]. *)
Definition mark_vertex_buffers (ilo : ilo_context) (res : pipe_resource)
  : result bool :=
  bit_scan_any UINT_BITS (vb_enabled_mask (ilo_vb ilo))
    (fun idx =>
       let* vb := load (vb_states (ilo_vb ilo)) idx in
       Ok (bool_decide (vb_buffer vb = Some res))).

(** The scan of the compute resources, as the source has it: the slot is
    released and cleared, then read through. *)
Definition mark_compute_resources (ilo : ilo_context) (res : pipe_resource)
  : result (bool * ilo_context) :=
  any_lt (resource_count (ilo_cs_resource ilo))
    (fun i ilo =>
       let cur := ilo_cs_resource ilo in
       let* (states, refs) :=
         slot_reference ObjSurface None i (resource_states cur, ilo_refcnt ilo) in
       let ilo :=
         set_cs_resource
           {| resource_states := states; resource_count := resource_count cur |}
           (set_refcnt refs ilo) in
       let* slot := load (resource_states (ilo_cs_resource ilo)) i in
       let* surf := deref slot in
       Ok (bool_decide (surf_texture surf = Some res), ilo))
    ilo.

(** Mark all states that have the resource dirty. *)
Definition ilo_mark_states_with_resource_dirty (ilo : ilo_context)
    (res : pipe_resource) : result ilo_context :=
  let states := 0 in
  let* states :=
    if bool_decide (target res = PIPE_BUFFER) then
      let* hit := mark_vertex_buffers ilo res in
      let states := raise_if hit (ILO_DIRTY ILO_STATE_VERTEX_BUFFERS) states in
      let states :=
        raise_if (bool_decide (ib_buffer (ib_state (ilo_ib ilo)) = Some res))
          (ILO_DIRTY ILO_STATE_INDEX_BUFFER) states in
      let* hit :=
        any_lt_pure (so_count (ilo_so ilo))
          (fun i =>
             let* slot := load (so_states (ilo_so ilo)) i in
             let* t := deref slot in
             Ok (bool_decide (target_buffer t = Some res))) in
      Ok (raise_if hit (ILO_DIRTY ILO_STATE_STREAM_OUTPUT_TARGETS) states)
    else Ok states in
  let* states :=
    for_each PIPE_SHADER_TYPES
      (fun sh states =>
         let* hit :=
           any_lt_pure (view_count (sh_get (ilo_view ilo) sh))
             (fun i =>
                let* slot := load (view_states (sh_get (ilo_view ilo) sh)) i in
                let* view := deref slot in
                Ok (bool_decide (view_texture view = Some res))) in
         let states := raise_if hit (view_dirty_bits sh) states in
         if bool_decide (target res = PIPE_BUFFER) then
           let* hit :=
             any_lt_pure (Elements (cbuf_cso (sh_get (ilo_cbuf ilo) sh)))
               (fun i =>
                  let* cbuf := load (cbuf_cso (sh_get (ilo_cbuf ilo) sh)) i in
                  Ok (bool_decide (cbuf_resource cbuf = Some res))) in
           Ok (raise_if hit (ILO_DIRTY ILO_STATE_CONSTANT_BUFFER) states)
         else Ok states)
      states in
  let* hit :=
    any_lt_pure (resource_count (ilo_resource ilo))
      (fun i =>
         let* slot := load (resource_states (ilo_resource ilo)) i in
         let* surf := deref slot in
         Ok (bool_decide (surf_texture surf = Some res))) in
  let states := raise_if hit (ILO_DIRTY ILO_STATE_SHADER_RESOURCES) states in
  (* for now? *)
  let* states :=
    if negb (bool_decide (target res = PIPE_BUFFER)) then
      let fbs := fb_state (ilo_fb ilo) in
      let* hit :=
        any_lt_pure (nr_cbufs fbs)
          (fun i =>
             let* slot := load (cbufs fbs) i in
             let* surf := deref slot in
             Ok (bool_decide (surf_texture surf = Some res))) in
      let states := raise_if hit (ILO_DIRTY ILO_STATE_FRAMEBUFFER) states in
      Ok (raise_if
            (match zsbuf fbs with
             | Some surf => bool_decide (surf_texture surf = Some res)
             | None => false
             end)
            (ILO_DIRTY ILO_STATE_FRAMEBUFFER) states)
    else Ok states in
  let* (hit, ilo) := mark_compute_resources ilo res in
  let states := raise_if hit (ILO_DIRTY ILO_STATE_COMPUTE_RESOURCES) states in
  let* hit :=
    any_lt_pure (gb_count (ilo_global_binding ilo))
      (fun i =>
         let* slot := load (gb_resources (ilo_global_binding ilo)) i in
         Ok (bool_decide (slot = Some res))) in
  let states := raise_if hit (ILO_DIRTY ILO_STATE_GLOBAL_BINDING) states in
  Ok (mark_dirty states ilo).

(** ** A context to compute with

    The context as [CALLOC_STRUCT] leaves it (every pointer null, every
    count zero), with [cap] entries in each array; and collaborators that
    always give the same answer. *)

Definition zero_vertex_buffer : pipe_vertex_buffer :=
  {| vb_stride := 0; vb_buffer_offset := 0; vb_buffer := None;
     vb_user_buffer := None |}.

Definition zero_cbuf_cso : ilo_cbuf_cso :=
  {| cbuf_resource := None;
     cbuf_surface := {| surface_payload := None; surface_bo := None |};
     cbuf_user_buffer := None; cbuf_user_buffer_size := 0 |}.

Definition zero_viewport : pipe_viewport_state :=
  {| vp_scale := [0; 0; 0; 0]; vp_translate := [0; 0; 0; 0] |}.

Definition all_shaders {A : Type} (x : A) : per_shader A :=
  {| of_vertex := x; of_fragment := x; of_geometry := x; of_compute := x |}.

Definition calloc_context (cap : nat) : ilo_context :=
  {| ilo_uploader := [];
     ilo_kernels := [];
     ilo_refcnt := fun _ => 0;
     ilo_draw := None;
     ilo_dirty := 0;
     ilo_vb := {| vb_states := replicate cap zero_vertex_buffer;
                  vb_enabled_mask := 0 |};
     ilo_ve := None;
     ilo_ib := {| ib_state := {| index_size := 0; ib_offset := 0;
                                 ib_buffer := None; ib_user_buffer := None |};
                  ib_resource := None; draw_start_offset := 0 |};
     ilo_vs := None; ilo_gs := None; ilo_fs := None; ilo_cs := None;
     ilo_so := {| so_states := replicate cap None; so_count := 0;
                  so_append_bitmask := 0; so_enabled := false |};
     ilo_clip := [];
     ilo_viewport := {| viewport_cso := replicate cap viewport_cso_unset;
                        viewport_count := 0; viewport0 := zero_viewport |};
     ilo_scissor := scissor_unset;
     ilo_rasterizer := None;
     ilo_poly_stipple := [];
     ilo_sample_mask := 0;
     ilo_dsa := None;
     ilo_stencil_ref := [];
     ilo_blend := None;
     ilo_blend_color := [];
     ilo_fb := {| fb_state := {| fb_width := 0; fb_height := 0; nr_cbufs := 0;
                                 cbufs := replicate cap None; zsbuf := None |};
                  fb_null_zs := zs_unset; fb_num_samples := 0 |};
     ilo_sampler :=
       all_shaders {| sampler_cso := replicate cap None; sampler_count := 0 |};
     ilo_view :=
       all_shaders {| view_states := replicate cap None; view_count := 0 |};
     ilo_cbuf :=
       all_shaders {| cbuf_cso := replicate cap zero_cbuf_cso;
                      cbuf_enabled_mask := 0; cbuf_count := 0 |};
     ilo_resource := {| resource_states := replicate cap None;
                        resource_count := 0 |};
     ilo_cs_resource := {| resource_states := replicate cap None;
                           resource_count := 0 |};
     ilo_global_binding := {| gb_resources := replicate cap None;
                              gb_count := 0 |} |}.

Definition buffer_resource (id : Z) : pipe_resource :=
  {| res_id := id; target := PIPE_BUFFER; width0 := 4096; nr_samples := 0 |}.

Definition texture_resource (id : Z) : pipe_resource :=
  {| res_id := id; target := PIPE_TEXTURE_2D; width0 := 64; nr_samples := 1 |}.

(** No kernel ever changes; every upload lands at offset [off] of the
    buffer [100]. *)
Definition steady_kernel : ilo_context -> ilo_shader_state -> Z -> bool :=
  fun _ _ _ => false.

Definition steady_routing :
  ilo_context -> ilo_shader_state -> option ilo_shader_state ->
  option cso_pointer -> bool :=
  fun _ _ _ _ => false.

Definition staged_at (off : Z) : list upload_call -> upload_call -> Z * pipe_resource :=
  fun _ _ => (off, buffer_resource 100).

(** * The vocabulary of the properties *)

(** The number of references to [o] that the pointer [p] holds. *)
Definition holds (p : option pipe_resource) (o : object) : Z :=
  if decide (ObjResource <$> p = Some o) then 1 else 0.

(** The request that [finalize_index_buffer] sends for a device buffer
    whose offset is misaligned: the window of the draw, moved by the offset
    of the binding. *)
Definition restage_call (ilo : ilo_context) (draw : pipe_draw_info) : upload_call :=
  let st := ib_state (ilo_ib ilo) in
  UploadBuffer 0
    (uadd (ib_offset st) (umul (index_size st) (draw_start draw)))
    (umul (index_size st) (draw_count draw))
    (ib_buffer st).

(** An indexed draw over a device buffer bound at a misaligned offset. *)
Definition misaligned_draw (ilo : ilo_context) (draw : pipe_draw_info) : Prop :=
  ilo_draw ilo = Some draw /\
  indexed draw = true /\
  ib_user_buffer (ib_state (ilo_ib ilo)) = None /\
  ib_offset (ib_state (ilo_ib ilo)) mod index_size (ib_state (ilo_ib ilo)) <> 0.

(** The scenario of the spec: a buffer bound at offset 3 with 4-byte
    indices, and an indexed draw of 5 indices from index 10. *)
Definition misaligned_context : ilo_context :=
  set_draw (Some {| indexed := true; draw_start := 10; draw_count := 5 |})
    (set_ib
       {| ib_state := {| index_size := 4; ib_offset := 3;
                         ib_buffer := Some (buffer_resource 9);
                         ib_user_buffer := None |};
          ib_resource := Some (buffer_resource 9);
          draw_start_offset := 0 |}
       (calloc_context 4)).

(** The shader bound to a stage and the dirty category of the stage, as the
    [switch] of [finalize_shader_states] picks them. *)
Definition stage_shader (type : pipe_shader_type) (ilo : ilo_context)
  : option ilo_shader_state :=
  match type with
  | PIPE_SHADER_VERTEX => ilo_vs ilo
  | PIPE_SHADER_GEOMETRY => ilo_gs ilo
  | PIPE_SHADER_FRAGMENT => ilo_fs ilo
  | PIPE_SHADER_COMPUTE => None
  end.

Definition stage_state (type : pipe_shader_type) : option ilo_state :=
  match type with
  | PIPE_SHADER_VERTEX => Some ILO_STATE_VS
  | PIPE_SHADER_GEOMETRY => Some ILO_STATE_GS
  | PIPE_SHADER_FRAGMENT => Some ILO_STATE_FS
  | PIPE_SHADER_COMPUTE => None
  end.

Definition is_routing_call (c : shader_call) : Prop :=
  match c with
  | SelectKernel _ _ => False
  | SelectKernelRouting _ _ _ => True
  end.

(** The entry points of the core: the binding mutators that
    [ilo_init_state_functions] installs, the resource-change propagator and
    the finalizer. *)
Inductive operation : Type :=
| BindBlendState (state : option cso_pointer)
| BindFragmentSamplerStates (num_samplers : Z)
    (samplers : option (list (option ilo_sampler_cso)))
| BindVertexSamplerStates (num_samplers : Z)
    (samplers : option (list (option ilo_sampler_cso)))
| BindGeometrySamplerStates (num_samplers : Z)
    (samplers : option (list (option ilo_sampler_cso)))
| BindComputeSamplerStates (start_slot num_samplers : Z)
    (samplers : option (list (option ilo_sampler_cso)))
| BindRasterizerState (state : option cso_pointer)
| BindDepthStencilAlphaState (state : option cso_pointer)
| BindFsState (state : option ilo_shader_state)
| BindVsState (state : option ilo_shader_state)
| BindGsState (state : option ilo_shader_state)
| BindVertexElementsState (state : option cso_pointer)
| SetBlendColor (state : pipe_blend_color)
| SetStencilRef (state : pipe_stencil_ref)
| SetSampleMask (sample_mask : Z)
| SetClipState (state : pipe_clip_state)
| SetConstantBuffer (shader index : Z) (state : option pipe_constant_buffer)
| SetFramebufferState (state : pipe_framebuffer_state)
| SetPolygonStipple (state : pipe_poly_stipple)
| SetScissorStates (start_slot num_scissors : Z)
    (scissors : option (list pipe_scissor_state))
| SetViewportStates (start_slot num_viewports : Z)
    (viewports : option (list pipe_viewport_state))
| SetFragmentSamplerViews (num_views : Z)
    (views : option (list (option pipe_sampler_view)))
| SetVertexSamplerViews (num_views : Z)
    (views : option (list (option pipe_sampler_view)))
| SetGeometrySamplerViews (num_views : Z)
    (views : option (list (option pipe_sampler_view)))
| SetComputeSamplerViews (start_slot num_views : Z)
    (views : option (list (option pipe_sampler_view)))
| SetShaderResources (start count : Z)
    (surfaces : option (list (option pipe_surface)))
| SetVertexBuffers (start_slot num_buffers : Z)
    (buffers : option (list pipe_vertex_buffer))
| SetIndexBuffer (state : option pipe_index_buffer)
| SetStreamOutputTargets (num_targets : Z)
    (targets : option (list (option pipe_stream_output_target)))
    (append_bitmask : Z)
| BindComputeState (state : option ilo_shader_state)
| SetComputeResources (start count : Z)
    (surfaces : option (list (option pipe_surface)))
| SetGlobalBinding (start count : Z)
    (resources : option (list (option pipe_resource)))
| MarkStatesWithResourceDirty (res : pipe_resource)
| Finalize3dStates (draw : pipe_draw_info).

(** The category of a binding mutator. *)
Definition own_state (op : operation) : option ilo_state :=
  match op with
  | BindBlendState _ => Some ILO_STATE_BLEND
  | BindFragmentSamplerStates _ _ => Some ILO_STATE_FRAGMENT_SAMPLERS
  | BindVertexSamplerStates _ _ => Some ILO_STATE_VERTEX_SAMPLERS
  | BindGeometrySamplerStates _ _ => Some ILO_STATE_GEOMETRY_SAMPLERS
  | BindComputeSamplerStates _ _ _ => Some ILO_STATE_COMPUTE_SAMPLERS
  | BindRasterizerState _ => Some ILO_STATE_RASTERIZER
  | BindDepthStencilAlphaState _ => Some ILO_STATE_DEPTH_STENCIL_ALPHA
  | BindFsState _ => Some ILO_STATE_FS
  | BindVsState _ => Some ILO_STATE_VS
  | BindGsState _ => Some ILO_STATE_GS
  | BindVertexElementsState _ => Some ILO_STATE_VERTEX_ELEMENTS
  | SetBlendColor _ => Some ILO_STATE_BLEND_COLOR
  | SetStencilRef _ => Some ILO_STATE_STENCIL_REF
  | SetSampleMask _ => Some ILO_STATE_SAMPLE_MASK
  | SetClipState _ => Some ILO_STATE_CLIP
  | SetConstantBuffer _ _ _ => Some ILO_STATE_CONSTANT_BUFFER
  | SetFramebufferState _ => Some ILO_STATE_FRAMEBUFFER
  | SetPolygonStipple _ => Some ILO_STATE_POLY_STIPPLE
  | SetScissorStates _ _ _ => Some ILO_STATE_SCISSOR
  | SetViewportStates _ _ _ => Some ILO_STATE_VIEWPORT
  | SetFragmentSamplerViews _ _ => Some ILO_STATE_FRAGMENT_SAMPLER_VIEWS
  | SetVertexSamplerViews _ _ => Some ILO_STATE_VERTEX_SAMPLER_VIEWS
  | SetGeometrySamplerViews _ _ => Some ILO_STATE_GEOMETRY_SAMPLER_VIEWS
  | SetComputeSamplerViews _ _ _ => Some ILO_STATE_COMPUTE_SAMPLER_VIEWS
  | SetShaderResources _ _ _ => Some ILO_STATE_SHADER_RESOURCES
  | SetVertexBuffers _ _ _ => Some ILO_STATE_VERTEX_BUFFERS
  | SetIndexBuffer _ => Some ILO_STATE_INDEX_BUFFER
  | SetStreamOutputTargets _ _ _ => Some ILO_STATE_STREAM_OUTPUT_TARGETS
  | BindComputeState _ => Some ILO_STATE_COMPUTE
  | SetComputeResources _ _ _ => Some ILO_STATE_COMPUTE_RESOURCES
  | SetGlobalBinding _ _ _ => Some ILO_STATE_GLOBAL_BINDING
  | MarkStatesWithResourceDirty _ => None
  | Finalize3dStates _ => None
  end.

(** The set bits of [mask] lie in [[lo, hi)]. *)
Definition bits_in (mask lo hi : Z) : Prop :=
  forall j, Z.testbit mask j = true -> lo <= j < hi.

(** An enabled vertex-buffer slot references [res]. *)
Definition vertex_buffer_bound (ilo : ilo_context) (res : pipe_resource) : Prop :=
  exists (idx : Z) (vb : pipe_vertex_buffer),
    Z.testbit (vb_enabled_mask (ilo_vb ilo)) idx = true /\
    vb_states (ilo_vb ilo) !! Z.to_nat idx = Some vb /\
    vb_buffer vb = Some res.

(** A context in which slot 1 of the vertex buffers is enabled and
    references the buffer [9]. *)
Definition vertex_buffer_context : ilo_context :=
  set_vb
    {| vb_states :=
         [zero_vertex_buffer;
          {| vb_stride := 16; vb_buffer_offset := 0;
             vb_buffer := Some (buffer_resource 9); vb_user_buffer := None |};
          zero_vertex_buffer; zero_vertex_buffer];
       vb_enabled_mask := 2 |}
    (calloc_context 4).

Definition compute_surface : pipe_surface :=
  {| surf_id := 1; surf_texture := Some (texture_resource 5) |}.

(** The context after [ilo_set_compute_resources(0, 1, {surface})]; the
    surface is over the texture [5]. *)
Definition compute_bound_context : ilo_context :=
  set_cs_resource
    {| resource_states := [Some compute_surface; None; None; None];
       resource_count := 1 |}
    (set_refcnt (fun o => if decide (o = ObjSurface compute_surface) then 1 else 0)
       (mark_dirty (ILO_DIRTY ILO_STATE_COMPUTE_RESOURCES) (calloc_context 4))).

(** What the finalizer does to a slot that is enabled: a pending client
    span is replaced by a resource, a slot without one is left alone. *)
Definition cbuf_slot_resolved (cb cb' : ilo_cbuf_cso) : Prop :=
  match cbuf_user_buffer cb with
  | Some _ =>
      cbuf_resource cb' <> None /\
      cbuf_user_buffer cb' = None /\
      cbuf_user_buffer_size cb' = 0
  | None => cb' = cb
  end.

Definition cbufs_resolved (mask : Z) (cso cso' : list ilo_cbuf_cso) : Prop :=
  length cso' = length cso /\
  forall (j : nat) (cb : ilo_cbuf_cso),
    cso !! j = Some cb ->
    exists cb',
      cso' !! j = Some cb' /\
      if Z.testbit mask (Z.of_nat j) then cbuf_slot_resolved cb cb' else cb' = cb.

(** The slots of shader [sh] are resolved along [mask]; nothing else of the
    constant buffers changes. *)
Definition cbuf_step (sh : pipe_shader_type) (mask : Z) (ilo ilo' : ilo_context)
  : Prop :=
  (forall sh', sh' <> sh ->
     sh_get (ilo_cbuf ilo') sh' = sh_get (ilo_cbuf ilo) sh') /\
  cbuf_enabled_mask (sh_get (ilo_cbuf ilo') sh) =
    cbuf_enabled_mask (sh_get (ilo_cbuf ilo) sh) /\
  cbuf_count (sh_get (ilo_cbuf ilo') sh) = cbuf_count (sh_get (ilo_cbuf ilo) sh) /\
  cbufs_resolved mask (cbuf_cso (sh_get (ilo_cbuf ilo) sh))
    (cbuf_cso (sh_get (ilo_cbuf ilo') sh)).

(** The enabled mask of a stage is an [unsigned] whose set bits are slots
    of the stage, as [ilo_set_constant_buffer] leaves it. *)
Definition cbuf_wf (st : ilo_cbuf_state) : Prop :=
  is_uint (cbuf_enabled_mask st) /\
  bits_in (cbuf_enabled_mask st) 0 (Elements (cbuf_cso st)).

(** A stage after the resolution: same mask, every enabled slot resolved,
    and the count recomputed. *)
Definition cbuf_stage_resolved (old new : ilo_cbuf_state) : Prop :=
  cbuf_enabled_mask new = cbuf_enabled_mask old /\
  cbuf_count new = util_last_bit (cbuf_enabled_mask old) /\
  cbufs_resolved (cbuf_enabled_mask old) (cbuf_cso old) (cbuf_cso new).

(** The scenario of the spec: slot 2 of the fragment stage is set to a
    client span of 64 bytes, with no backing buffer. *)
Definition pending_cbuf_context : ilo_context :=
  match
    ilo_set_constant_buffer (calloc_context 4) 1 2
      (Some {| cb_buffer := None; cb_buffer_offset := 0; cb_buffer_size := 64;
               cb_user_buffer := Some 4096 |})
  with
  | Ok ilo => ilo
  | Abort _ => calloc_context 4
  end.

(** Slot [i] holds a handle. *)
Definition occupied {A : Type} (slots : list (option A)) (i : Z) : Prop :=
  0 <= i /\ exists x : A, slots !! Z.to_nat i = Some (Some x).

(** No slot at or above [count] is occupied; [count] lies within the array,
    whose size fits an [unsigned]. *)
Definition slots_bounded {A : Type} (slots : list (option A)) (count : Z) : Prop :=
  0 <= count <= Elements slots /\
  Elements slots < UINT_RANGE /\
  forall i : Z, count <= i -> ~ occupied slots i.

(** The count is 0 or the slot just below it is occupied. *)
Definition slots_trimmed {A : Type} (slots : list (option A)) (count : Z) : Prop :=
  count = 0 \/ occupied slots (count - 1).

(** The body of a loop writes, at turn [j], the slot [off + j] of the array
    [proj s] with a value that [val j] describes, and nothing else of the
    array. *)
Definition writes_slot {S A : Type} (proj : S -> list (option A)) (off : Z)
    (val : Z -> option A -> Prop) (body : Z -> S -> result S) : Prop :=
  forall j s s',
    body j s = Ok s' ->
    0 <= off + j < Elements (proj s) /\
    exists v, val j v /\ proj s' = <[Z.to_nat (off + j) := v]> (proj s).

(** A replace-range call ends on a handle: its handle array is null, or the
    new count is 0, or the last slot it writes, [start + count - 1],
    receives a handle. *)
Definition replace_ends_on_handle {A : Type} (start count : Z)
    (src : option (list (option A))) : Prop :=
  match src with
  | None => True
  | Some l =>
      uadd start count = 0 \/
      (start + count < UINT_RANGE /\ 0 < count /\
       exists x : A, l !! Z.to_nat (count - 1) = Some (Some x))
  end.

(** The calls that update a slot array: the two modes of [bind_samplers]
    and [set_sampler_views], and the three sparse updates. *)
Inductive slot_call : Type :=
| CallBindSamplers (shader : pipe_shader_type) (start count : Z)
    (samplers : option (list (option ilo_sampler_cso))) (unbind_old : bool)
| CallSetSamplerViews (shader : pipe_shader_type) (start count : Z)
    (views : option (list (option pipe_sampler_view))) (unset_old : bool)
| CallSetShaderResources (start count : Z)
    (surfaces : option (list (option pipe_surface)))
| CallSetComputeResources (start count : Z)
    (surfaces : option (list (option pipe_surface)))
| CallSetGlobalBinding (start count : Z)
    (resources : option (list (option pipe_resource))).

Definition slot_run (call : slot_call) (ilo : ilo_context) : result ilo_context :=
  match call with
  | CallBindSamplers shader start count samplers unbind_old =>
      bind_samplers ilo shader start count samplers unbind_old
  | CallSetSamplerViews shader start count views unset_old =>
      set_sampler_views ilo shader start count views unset_old
  | CallSetShaderResources start count surfaces =>
      ilo_set_shader_resources ilo start count surfaces
  | CallSetComputeResources start count surfaces =>
      ilo_set_compute_resources ilo start count surfaces
  | CallSetGlobalBinding start count resources =>
      ilo_set_global_binding ilo start count resources
  end.

(** [start] and [count] are values of the C type [unsigned]. *)
Definition unsigned_args (call : slot_call) : Prop :=
  match call with
  | CallBindSamplers _ start count _ _
  | CallSetSamplerViews _ start count _ _
  | CallSetShaderResources start count _
  | CallSetComputeResources start count _
  | CallSetGlobalBinding start count _ => is_uint start /\ is_uint count
  end.

Definition ends_on_handle (call : slot_call) : Prop :=
  match call with
  | CallBindSamplers _ start count samplers true =>
      replace_ends_on_handle start count samplers
  | CallSetSamplerViews _ start count views true =>
      replace_ends_on_handle start count views
  | _ => True
  end.

(** A property of all the slot arrays of the context with their counts. *)
Definition slot_categories
    (P : forall A : Type, list (option A) -> Z -> Prop) (ilo : ilo_context) : Prop :=
  (forall sh,
      P _ (sampler_cso (sh_get (ilo_sampler ilo) sh))
        (sampler_count (sh_get (ilo_sampler ilo) sh))) /\
  (forall sh,
      P _ (view_states (sh_get (ilo_view ilo) sh))
        (view_count (sh_get (ilo_view ilo) sh))) /\
  P _ (resource_states (ilo_resource ilo)) (resource_count (ilo_resource ilo)) /\
  P _ (resource_states (ilo_cs_resource ilo))
    (resource_count (ilo_cs_resource ilo)) /\
  P _ (gb_resources (ilo_global_binding ilo)) (gb_count (ilo_global_binding ilo)).

(** The scenario of the spec, [sparse_update(2, 2, {A, B})] on an empty
    category of 8 slots, followed by a replace-range call and a sparse
    clear. *)
Definition slot_demo_calls : list slot_call :=
  [CallSetComputeResources 2 2
     (Some [Some {| surf_id := 1; surf_texture := Some (texture_resource 5) |};
            Some {| surf_id := 2; surf_texture := Some (texture_resource 6) |}]);
   CallBindSamplers PIPE_SHADER_FRAGMENT 0 2 (Some [None; Some 7]) true;
   CallSetComputeResources 3 1 None].

Section Operations.

Variable kernel_changed : ilo_context -> ilo_shader_state -> Z -> bool.
Variable routing_changed :
  ilo_context -> ilo_shader_state -> option ilo_shader_state ->
  option cso_pointer -> bool.
Variable staged : list upload_call -> upload_call -> Z * pipe_resource.
Variable util_copy_framebuffer_state :
  pipe_framebuffer_state -> pipe_framebuffer_state -> refcounts ->
  pipe_framebuffer_state * refcounts.
Variable util_set_vertex_buffers_mask :
  list pipe_vertex_buffer -> Z -> option (list pipe_vertex_buffer) -> Z -> Z ->
  refcounts -> list pipe_vertex_buffer * Z * refcounts.

(** The context when the loop of [finalize_shader_states] reaches the
    stage [type]: the stages numbered below it have been resolved. *)
Definition shader_stage_entry (type : pipe_shader_type) (ilo : ilo_context)
  : ilo_context :=
  fold_left
    (fun ilo t => finalize_shader_state kernel_changed routing_changed t ilo)
    (take (Z.to_nat (shader_type_index type)) PIPE_SHADER_TYPES) ilo.

(** One call of an entry point. *)
Definition run (op : operation) (ilo : ilo_context) : result ilo_context :=
  match op with
  | BindBlendState state => Ok (ilo_bind_blend_state ilo state)
  | BindFragmentSamplerStates n samplers =>
      ilo_bind_fragment_sampler_states ilo n samplers
  | BindVertexSamplerStates n samplers =>
      ilo_bind_vertex_sampler_states ilo n samplers
  | BindGeometrySamplerStates n samplers =>
      ilo_bind_geometry_sampler_states ilo n samplers
  | BindComputeSamplerStates start n samplers =>
      ilo_bind_compute_sampler_states ilo start n samplers
  | BindRasterizerState state => Ok (ilo_bind_rasterizer_state ilo state)
  | BindDepthStencilAlphaState state =>
      Ok (ilo_bind_depth_stencil_alpha_state ilo state)
  | BindFsState state => Ok (ilo_bind_fs_state ilo state)
  | BindVsState state => Ok (ilo_bind_vs_state ilo state)
  | BindGsState state => Ok (ilo_bind_gs_state ilo state)
  | BindVertexElementsState state =>
      Ok (ilo_bind_vertex_elements_state ilo state)
  | SetBlendColor state => Ok (ilo_set_blend_color ilo state)
  | SetStencilRef state => Ok (ilo_set_stencil_ref ilo state)
  | SetSampleMask sample_mask => Ok (ilo_set_sample_mask ilo sample_mask)
  | SetClipState state => Ok (ilo_set_clip_state ilo state)
  | SetConstantBuffer shader index state =>
      ilo_set_constant_buffer ilo shader index state
  | SetFramebufferState state =>
      ilo_set_framebuffer_state util_copy_framebuffer_state ilo state
  | SetPolygonStipple state => Ok (ilo_set_polygon_stipple ilo state)
  | SetScissorStates start n scissors =>
      Ok (ilo_set_scissor_states ilo start n scissors)
  | SetViewportStates start n viewports =>
      ilo_set_viewport_states ilo start n viewports
  | SetFragmentSamplerViews n views =>
      ilo_set_fragment_sampler_views ilo n views
  | SetVertexSamplerViews n views => ilo_set_vertex_sampler_views ilo n views
  | SetGeometrySamplerViews n views =>
      ilo_set_geometry_sampler_views ilo n views
  | SetComputeSamplerViews start n views =>
      ilo_set_compute_sampler_views ilo start n views
  | SetShaderResources start count surfaces =>
      ilo_set_shader_resources ilo start count surfaces
  | SetVertexBuffers start n buffers =>
      ilo_set_vertex_buffers util_set_vertex_buffers_mask ilo start n buffers
  | SetIndexBuffer state => ilo_set_index_buffer ilo state
  | SetStreamOutputTargets n targets append_bitmask =>
      ilo_set_stream_output_targets ilo n targets append_bitmask
  | BindComputeState state => Ok (ilo_bind_compute_state ilo state)
  | SetComputeResources start count surfaces =>
      ilo_set_compute_resources ilo start count surfaces
  | SetGlobalBinding start count resources =>
      ilo_set_global_binding ilo start count resources
  | MarkStatesWithResourceDirty res =>
      ilo_mark_states_with_resource_dirty ilo res
  | Finalize3dStates draw =>
      ilo_finalize_3d_states kernel_changed routing_changed staged ilo draw
  end.

End Operations.

(** A context with two fragment samplers bound. *)
Definition fragment_samplers_context : ilo_context :=
  set_sampler
    (sh_set (ilo_sampler (calloc_context 4)) PIPE_SHADER_FRAGMENT
       {| sampler_cso := [Some 7; Some 8; None; None]; sampler_count := 2 |})
    (calloc_context 4).

(** ** Ownership

    A counted pointer that holds the object [o] accounts for one of its
    references. *)
Definition held_by {A : Type} (obj : A -> object) (p : option A) (o : object) : Z :=
  if decide (obj <$> p = Some o) then 1 else 0.

(** The number of slots of an array that hold [o]. *)
Fixpoint count_held {A : Type} (obj : A -> object) (slots : list (option A))
    (o : object) : Z :=
  match slots with
  | [] => 0
  | p :: rest => held_by obj p o + count_held obj rest o
  end.

(** A context with two compute resources bound, over the textures [5] and
    [6], each referenced once. *)
Definition surface_a : pipe_surface :=
  {| surf_id := 1; surf_texture := Some (texture_resource 5) |}.

Definition surface_b : pipe_surface :=
  {| surf_id := 2; surf_texture := Some (texture_resource 6) |}.

(** A context with two buffers in the global binding, slots 1 and 2, each
    referenced once. *)
Definition global_binding_context : ilo_context :=
  set_global_binding
    {| gb_resources := [None; Some (buffer_resource 9); Some (buffer_resource 10);
                        None];
       gb_count := 3 |}
    (set_refcnt
       (fun o =>
          if decide (o = ObjResource (buffer_resource 9)) then 1
          else if decide (o = ObjResource (buffer_resource 10)) then 1
          else 0)
       (calloc_context 4)).

Definition view_a : pipe_sampler_view :=
  {| view_id := 1; view_texture := Some (texture_resource 5) |}.

Definition view_b : pipe_sampler_view :=
  {| view_id := 2; view_texture := Some (texture_resource 6) |}.

(** A context with the views [view_a] and [view_b] bound to the fragment
    stage, each referenced once. *)
Definition fragment_views_context : ilo_context :=
  set_view
    (sh_set (ilo_view (calloc_context 4)) PIPE_SHADER_FRAGMENT
       {| view_states := [Some view_a; Some view_b; None; None];
          view_count := 2 |})
    (set_refcnt
       (fun o =>
          if decide (o = ObjSamplerView view_a) then 1
          else if decide (o = ObjSamplerView view_b) then 1
          else 0)
       (calloc_context 4)).

(** What [ilo_set_constant_buffer] leaves in the slot it sets. *)
Definition cbuf_slot_set (state : option pipe_constant_buffer) (cb : ilo_cbuf_cso)
  : Prop :=
  match state with
  | Some st =>
      cbuf_resource cb = cb_buffer st /\
      match cb_buffer st with
      | Some _ => cbuf_user_buffer cb = None /\ cbuf_user_buffer_size cb = 0
      | None =>
          cbuf_user_buffer cb = cb_user_buffer st /\
          cbuf_user_buffer_size cb = cb_buffer_size st
      end
  | None =>
      cbuf_resource cb = None /\ cbuf_user_buffer cb = None /\
      cbuf_user_buffer_size cb = 0
  end.

(** The conditions that [ilo_set_constant_buffer] asserts. *)
Definition cbuf_args_ok (ilo : ilo_context) (shader index : Z)
    (state : option pipe_constant_buffer) : Prop :=
  exists sh,
    shader_type_of_index shader = Some sh /\
    index < Elements (cbuf_cso (sh_get (ilo_cbuf ilo) sh)) /\
    match state with
    | Some st => cb_buffer st = None -> cb_user_buffer st <> None
    | None => True
    end.

(** A client span of 64 bytes with no backing buffer. *)
Definition client_span : pipe_constant_buffer :=
  {| cb_buffer := None; cb_buffer_offset := 0; cb_buffer_size := 64;
     cb_user_buffer := Some 4096 |}.

(** ** The bindings that finalization reads

    Everything of the context that [ilo_finalize_3d_states] leaves as the
    mutators set it: all the bindings but the resolved parts of the
    constant buffers and of the index buffer. *)
Definition client_bindings (ilo : ilo_context) :=
  (ilo_vb ilo, ilo_ve ilo, ilo_vs ilo, ilo_gs ilo, ilo_fs ilo, ilo_cs ilo,
   ilo_so ilo, ilo_clip ilo, ilo_viewport ilo, ilo_scissor ilo,
   ilo_rasterizer ilo, ilo_poly_stipple ilo, ilo_sample_mask ilo, ilo_dsa ilo,
   ilo_stencil_ref ilo, ilo_blend ilo, ilo_blend_color ilo, ilo_fb ilo,
   ilo_sampler ilo, ilo_view ilo, ilo_resource ilo, ilo_cs_resource ilo,
   ilo_global_binding ilo, ib_state (ilo_ib ilo),
   (cbuf_enabled_mask (of_vertex (ilo_cbuf ilo)),
    cbuf_enabled_mask (of_fragment (ilo_cbuf ilo)),
    cbuf_enabled_mask (of_geometry (ilo_cbuf ilo)),
    cbuf_enabled_mask (of_compute (ilo_cbuf ilo)))).

(** A request that stages data, as opposed to the final unmap. *)
Definition is_staging_call (c : upload_call) : Prop :=
  match c with
  | UploadData _ _ _ | UploadBuffer _ _ _ _ => True
  | UploadUnmap => False
  end.

(** An index buffer given as client memory: 2-byte indices at address
    [8192]. *)
Definition user_index_context : ilo_context :=
  set_draw (Some {| indexed := true; draw_start := 10; draw_count := 5 |})
    (set_ib
       {| ib_state := {| index_size := 2; ib_offset := 0; ib_buffer := None;
                         ib_user_buffer := Some 8192 |};
          ib_resource := None;
          draw_start_offset := 0 |}
       (calloc_context 4)).

(** A device index buffer bound at an aligned offset. *)
Definition aligned_index_context : ilo_context :=
  set_draw (Some {| indexed := true; draw_start := 10; draw_count := 5 |})
    (set_ib
       {| ib_state := {| index_size := 4; ib_offset := 8;
                         ib_buffer := Some (buffer_resource 9);
                         ib_user_buffer := None |};
          ib_resource := Some (buffer_resource 9);
          draw_start_offset := 2 |}
       (calloc_context 4)).

Definition target_a : pipe_stream_output_target :=
  {| target_id := 1; target_buffer := Some (buffer_resource 9) |}.

Definition target_b : pipe_stream_output_target :=
  {| target_id := 2; target_buffer := Some (buffer_resource 10) |}.

(** A context with the targets [target_a] and [target_b] bound, each
    referenced once. *)
Definition stream_output_context : ilo_context :=
  set_so
    {| so_states := [Some target_a; Some target_b; None; None]; so_count := 2;
       so_append_bitmask := 0; so_enabled := true |}
    (set_refcnt
       (fun o =>
          if decide (o = ObjSoTarget target_a) then 1
          else if decide (o = ObjSoTarget target_b) then 1
          else 0)
       (calloc_context 4)).

(** Collaborators that copy their argument and leave the counts alone. *)
Definition copy_fb_plain (dst src : pipe_framebuffer_state) (refs : refcounts)
  : pipe_framebuffer_state * refcounts :=
  (src, refs).

Definition set_vb_plain (dst : list pipe_vertex_buffer) (mask : Z)
    (src : option (list pipe_vertex_buffer)) (start count : Z) (refs : refcounts)
  : list pipe_vertex_buffer * Z * refcounts :=
  (dst, mask, refs).

(** A framebuffer with one colour buffer over a texture of 4 samples and a
    depth buffer over a texture of 1 sample. *)
Definition multisampled_surface : pipe_surface :=
  {| surf_id := 3;
     surf_texture :=
       Some {| res_id := 7; target := PIPE_TEXTURE_2D; width0 := 64;
               nr_samples := 4 |} |}.

Definition multisampled_framebuffer : pipe_framebuffer_state :=
  {| fb_width := 64; fb_height := 64; nr_cbufs := 1;
     cbufs := [Some multisampled_surface; None; None; None];
     zsbuf := Some surface_a |}.

(** ** What references a resource

    The category of the sampler views of a stage, and the conditions under
    which [ilo_mark_states_with_resource_dirty] finds [res] in a
    category. *)
Definition view_state_of (sh : pipe_shader_type) : ilo_state :=
  match sh with
  | PIPE_SHADER_VERTEX => ILO_STATE_VERTEX_SAMPLER_VIEWS
  | PIPE_SHADER_FRAGMENT => ILO_STATE_FRAGMENT_SAMPLER_VIEWS
  | PIPE_SHADER_GEOMETRY => ILO_STATE_GEOMETRY_SAMPLER_VIEWS
  | PIPE_SHADER_COMPUTE => ILO_STATE_COMPUTE_SAMPLER_VIEWS
  end.

(** A slot below [count] holds an object whose resource is [res]. *)
Definition slot_over {A : Type} (resource_of : A -> option pipe_resource)
    (slots : list (option A)) (count : Z) (res : pipe_resource) : Prop :=
  exists (i : Z) (x : A),
    0 <= i < count /\ slots !! Z.to_nat i = Some (Some x) /\
    resource_of x = Some res.

Definition resource_referenced (ilo : ilo_context) (res : pipe_resource)
    (s : ilo_state) : Prop :=
  (s = ILO_STATE_VERTEX_BUFFERS /\ target res = PIPE_BUFFER /\
   vertex_buffer_bound ilo res) \/
  (s = ILO_STATE_INDEX_BUFFER /\ target res = PIPE_BUFFER /\
   ib_buffer (ib_state (ilo_ib ilo)) = Some res) \/
  (s = ILO_STATE_STREAM_OUTPUT_TARGETS /\ target res = PIPE_BUFFER /\
   slot_over target_buffer (so_states (ilo_so ilo)) (so_count (ilo_so ilo)) res) \/
  (exists sh,
     s = view_state_of sh /\
     slot_over view_texture (view_states (sh_get (ilo_view ilo) sh))
       (view_count (sh_get (ilo_view ilo) sh)) res) \/
  (s = ILO_STATE_CONSTANT_BUFFER /\ target res = PIPE_BUFFER /\
   exists sh (i : nat) cb,
     cbuf_cso (sh_get (ilo_cbuf ilo) sh) !! i = Some cb /\
     cbuf_resource cb = Some res) \/
  (s = ILO_STATE_SHADER_RESOURCES /\
   slot_over surf_texture (resource_states (ilo_resource ilo))
     (resource_count (ilo_resource ilo)) res) \/
  (s = ILO_STATE_FRAMEBUFFER /\ target res <> PIPE_BUFFER /\
   (slot_over surf_texture (cbufs (fb_state (ilo_fb ilo)))
      (nr_cbufs (fb_state (ilo_fb ilo))) res \/
    exists surf, zsbuf (fb_state (ilo_fb ilo)) = Some surf /\
                 surf_texture surf = Some res)) \/
  (s = ILO_STATE_GLOBAL_BINDING /\
   slot_over Some (gb_resources (ilo_global_binding ilo))
     (gb_count (ilo_global_binding ilo)) res).

(** A context with the texture [5] behind a fragment sampler view and
    behind the depth buffer of the framebuffer. *)
Definition textured_context : ilo_context :=
  set_fb
    {| fb_state := {| fb_width := 64; fb_height := 64; nr_cbufs := 0;
                      cbufs := [None; None; None; None];
                      zsbuf := Some surface_a |};
       fb_null_zs := zs_unset; fb_num_samples := 1 |}
    (set_view
       (sh_set (ilo_view (calloc_context 4)) PIPE_SHADER_FRAGMENT
          {| view_states := [Some view_a; None; None; None]; view_count := 1 |})
       (calloc_context 4)).

(** ** Teardown *)

(** [for (i = 0; i < count; i++) pipe_*_reference(&slots[i], NULL);] *)
Definition release_slots {A : Type} (obj : A -> object) (count : Z)
    (st : list (option A) * refcounts) : result (list (option A) * refcounts) :=
  let* (_, st) := for_lt 0 count (slot_reference obj None) st in
  Ok st.

(** The body of the loop over the shader stages in [ilo_cleanup_states].
    A sampler view is released through a local copy of the slot, which
    keeps its pointer; the resource of a constant buffer is released in
    place. *)
Definition cleanup_shader_stage (sh : pipe_shader_type) (ilo : ilo_context)
  : result ilo_context :=
  let views := sh_get (ilo_view ilo) sh in
  let* (_, refs) :=
    for_lt 0 (view_count views)
      (fun i refs =>
         let* view := load (view_states views) i in
         Ok (pipe_reference refs (ObjSamplerView <$> view) None))
      (ilo_refcnt ilo) in
  let cur := sh_get (ilo_cbuf ilo) sh in
  let* (_, (cso, refs)) :=
    for_lt 0 (Elements (cbuf_cso cur))
      (fun i (st : list ilo_cbuf_cso * refcounts) =>
         let* cbuf := load (fst st) i in
         let* cso :=
           store (fst st) i
             {| cbuf_resource := None;
                cbuf_surface := cbuf_surface cbuf;
                cbuf_user_buffer := cbuf_user_buffer cbuf;
                cbuf_user_buffer_size := cbuf_user_buffer_size cbuf |} in
         Ok (cso, pipe_reference (snd st) (ObjResource <$> cbuf_resource cbuf) None))
      (cbuf_cso cur, refs) in
  Ok (set_cbuf
        (sh_set (ilo_cbuf ilo) sh
           {| cbuf_cso := cso;
              cbuf_enabled_mask := cbuf_enabled_mask cur;
              cbuf_count := cbuf_count cur |})
        (set_refcnt refs ilo)).

Definition ilo_cleanup_states (ilo : ilo_context) : result ilo_context :=
  let vb := ilo_vb ilo in
  let* (_, (states, refs)) :=
    for_lt 0 (Elements (vb_states vb))
      (fun i (st : list pipe_vertex_buffer * refcounts) =>
         if negb (Z.land (vb_enabled_mask vb) (bit i) =? 0) then
           let* b := load (fst st) i in
           let* states :=
             store (fst st) i
               {| vb_stride := vb_stride b;
                  vb_buffer_offset := vb_buffer_offset b;
                  vb_buffer := None;
                  vb_user_buffer := vb_user_buffer b |} in
           Ok (states, pipe_reference (snd st) (ObjResource <$> vb_buffer b) None)
         else Ok st)
      (vb_states vb, ilo_refcnt ilo) in
  let ilo :=
    set_vb {| vb_states := states; vb_enabled_mask := vb_enabled_mask vb |}
      (set_refcnt refs ilo) in
  let ib := ilo_ib ilo in
  let refs :=
    pipe_reference (ilo_refcnt ilo) (ObjResource <$> ib_buffer (ib_state ib)) None in
  let refs := pipe_reference refs (ObjResource <$> ib_resource ib) None in
  let ilo :=
    set_ib
      {| ib_state :=
           {| index_size := index_size (ib_state ib);
              ib_offset := ib_offset (ib_state ib);
              ib_buffer := None;
              ib_user_buffer := ib_user_buffer (ib_state ib) |};
         ib_resource := None;
         draw_start_offset := draw_start_offset ib |}
      (set_refcnt refs ilo) in
  let so := ilo_so ilo in
  let* (states, refs) :=
    release_slots ObjSoTarget (so_count so) (so_states so, ilo_refcnt ilo) in
  let ilo :=
    set_so
      {| so_states := states; so_count := so_count so;
         so_append_bitmask := so_append_bitmask so;
         so_enabled := so_enabled so |}
      (set_refcnt refs ilo) in
  let* ilo := for_each PIPE_SHADER_TYPES cleanup_shader_stage ilo in
  let cur := ilo_resource ilo in
  let* (states, refs) :=
    release_slots ObjSurface (resource_count cur)
      (resource_states cur, ilo_refcnt ilo) in
  let ilo :=
    set_resource
      {| resource_states := states; resource_count := resource_count cur |}
      (set_refcnt refs ilo) in
  let fb := ilo_fb ilo in
  let* (surfaces, refs) :=
    release_slots ObjSurface (nr_cbufs (fb_state fb))
      (cbufs (fb_state fb), ilo_refcnt ilo) in
  let '(zs, refs) :=
    match zsbuf (fb_state fb) with
    | Some surf => (None, pipe_reference refs (Some (ObjSurface surf)) None)
    | None => (zsbuf (fb_state fb), refs)
    end in
  let ilo :=
    set_fb
      {| fb_state :=
           {| fb_width := fb_width (fb_state fb);
              fb_height := fb_height (fb_state fb);
              nr_cbufs := nr_cbufs (fb_state fb);
              cbufs := surfaces;
              zsbuf := zs |};
         fb_null_zs := fb_null_zs fb;
         fb_num_samples := fb_num_samples fb |}
      (set_refcnt refs ilo) in
  let cur := ilo_cs_resource ilo in
  let* (states, refs) :=
    release_slots ObjSurface (resource_count cur)
      (resource_states cur, ilo_refcnt ilo) in
  let ilo :=
    set_cs_resource
      {| resource_states := states; resource_count := resource_count cur |}
      (set_refcnt refs ilo) in
  let gb := ilo_global_binding ilo in
  let* (resources, refs) :=
    release_slots ObjResource (gb_count gb) (gb_resources gb, ilo_refcnt ilo) in
  Ok (set_global_binding
        {| gb_resources := resources; gb_count := gb_count gb |}
        (set_refcnt refs ilo)).

(** ** What the context holds

    [sum_range n i f] is [f i + ... + f (i + n - 1)]. *)
Fixpoint sum_range (n : nat) (i : Z) (f : Z -> Z) : Z :=
  match n with
  | O => 0
  | S n' => f i + sum_range n' (i + 1) f
  end.

(** [f x] summed over the entries [x] of a list. *)
Definition sum_over {X : Type} (xs : list X) (f : X -> Z) : Z :=
  foldr (fun x acc => f x + acc) 0 xs.

(** How many of the first [count] slots hold [o]. *)
Definition slots_held {A : Type} (obj : A -> object) (slots : list (option A))
    (count : Z) (o : object) : Z :=
  sum_range (Z.to_nat count) 0
    (fun i => held_by obj (default None (slots !! Z.to_nat i)) o).

(** How many pointers an array of structures holds on [o]; [ptr i x] is
    the pointer of the entry [x] at index [i]. *)
Definition fields_held {A : Type} (ptr : Z -> A -> option pipe_resource)
    (l : list A) (o : object) : Z :=
  sum_range (length l) 0
    (fun i =>
       match l !! Z.to_nat i with
       | Some x => held_by ObjResource (ptr i x) o
       | None => 0
       end).

(** The buffer of a vertex-buffer slot when the slot is enabled. *)
Definition enabled_buffer (mask : Z) (i : Z) (vb : pipe_vertex_buffer)
  : option pipe_resource :=
  if Z.testbit mask i then vb_buffer vb else None.

(** The references the sampler-view slots hold on [o]. *)
Definition views_held (ilo : ilo_context) (o : object) : Z :=
  sum_over PIPE_SHADER_TYPES
    (fun sh =>
       slots_held ObjSamplerView (view_states (sh_get (ilo_view ilo) sh))
         (view_count (sh_get (ilo_view ilo) sh)) o).

(** The references every other pointer that [ilo_cleanup_states] visits
    holds on [o]. *)
Definition bindings_held (ilo : ilo_context) (o : object) : Z :=
  fields_held (enabled_buffer (vb_enabled_mask (ilo_vb ilo)))
    (vb_states (ilo_vb ilo)) o
  + held_by ObjResource (ib_buffer (ib_state (ilo_ib ilo))) o
  + held_by ObjResource (ib_resource (ilo_ib ilo)) o
  + slots_held ObjSoTarget (so_states (ilo_so ilo)) (so_count (ilo_so ilo)) o
  + sum_over PIPE_SHADER_TYPES
      (fun sh =>
         fields_held (fun _ => cbuf_resource)
           (cbuf_cso (sh_get (ilo_cbuf ilo) sh)) o)
  + slots_held ObjSurface (resource_states (ilo_resource ilo))
      (resource_count (ilo_resource ilo)) o
  + slots_held ObjSurface (cbufs (fb_state (ilo_fb ilo)))
      (nr_cbufs (fb_state (ilo_fb ilo))) o
  + held_by ObjSurface (zsbuf (fb_state (ilo_fb ilo))) o
  + slots_held ObjSurface (resource_states (ilo_cs_resource ilo))
      (resource_count (ilo_cs_resource ilo)) o
  + slots_held ObjResource (gb_resources (ilo_global_binding ilo))
      (gb_count (ilo_global_binding ilo)) o.

(** Every count is within its array, and the vertex-buffer array has a bit
    of the enabled mask for each of its slots. *)
Definition counts_bounded (ilo : ilo_context) : Prop :=
  Elements (vb_states (ilo_vb ilo)) <= 32 /\
  0 <= so_count (ilo_so ilo) <= Elements (so_states (ilo_so ilo)) /\
  (forall sh,
     0 <= view_count (sh_get (ilo_view ilo) sh)
       <= Elements (view_states (sh_get (ilo_view ilo) sh))) /\
  0 <= resource_count (ilo_resource ilo)
    <= Elements (resource_states (ilo_resource ilo)) /\
  0 <= nr_cbufs (fb_state (ilo_fb ilo))
    <= Elements (cbufs (fb_state (ilo_fb ilo))) /\
  0 <= resource_count (ilo_cs_resource ilo)
    <= Elements (resource_states (ilo_cs_resource ilo)) /\
  0 <= gb_count (ilo_global_binding ilo)
    <= Elements (gb_resources (ilo_global_binding ilo)).

(** A slot with a pending client span after its upload: [log'] is the
    record of the upload manager afterwards and [log0] the record before
    the phase.  The span was sent in one [u_upload_data] request, made
    when the record was [log0 ++ before]; the slot holds the resource the
    manager answered with, a view rebuilt over that resource at the
    answered offset, and no span. *)
Definition cbuf_slot_committed
    (staged : list upload_call -> upload_call -> Z * pipe_resource)
    (log0 log' : list upload_call) (cb cb' : ilo_cbuf_cso) : Prop :=
  exists (user_buffer : user_pointer) (before after : list upload_call),
    cbuf_user_buffer cb = Some user_buffer /\
    let call := UploadData 0 (cbuf_user_buffer_size cb) user_buffer in
    let log := log0 ++ before in
    let offset := fst (staged log call) in
    let res := snd (staged log call) in
    log' = log ++ call :: after /\
    cb' =
      {| cbuf_resource := Some res;
         cbuf_surface :=
           ilo_gpe_init_view_surface_for_buffer (Some res) offset
             (cbuf_user_buffer_size cb)
             (util_format_get_blocksize PIPE_FORMAT_R32G32B32A32_FLOAT)
             PIPE_FORMAT_R32G32B32A32_FLOAT false false;
         cbuf_user_buffer := None;
         cbuf_user_buffer_size := 0 |}.

(** From [ilo] to [ilo'], the record of the upload manager has only grown
    and every constant-buffer slot is as it was or has been committed. *)
Definition cbufs_committed
    (staged : list upload_call -> upload_call -> Z * pipe_resource)
    (ilo ilo' : ilo_context) : Prop :=
  (exists sent, ilo_uploader ilo' = ilo_uploader ilo ++ sent) /\
  forall sh (j : nat) cb,
    cbuf_cso (sh_get (ilo_cbuf ilo) sh) !! j = Some cb ->
    exists cb',
      cbuf_cso (sh_get (ilo_cbuf ilo') sh) !! j = Some cb' /\
      (cb' = cb \/
       cbuf_slot_committed staged (ilo_uploader ilo) (ilo_uploader ilo') cb cb').

(** * Properties *)

(** ** The error monad *)

Lemma bind_Ok {A B : Type} (m : result A) (k : A -> result B) (b : B) :
  bind m k = Ok b <-> exists a, m = Ok a /\ k a = Ok b.
Proof.
  destruct m as [a|f]; simpl; split.
  - intros H. exists a. auto.
  - intros (a' & Ha & Hk). congruence.
  - discriminate.
  - intros (a' & Ha & _). discriminate.
Qed.

Lemma assert_Ok (c : bool) (u : unit) : assert c = Ok u <-> c = true.
Proof. destruct c, u; simpl; split; congruence. Qed.

(** Split a hypothesis [let* x := m in k = Ok b] into its steps. *)
Ltac monad_inv H :=
  lazymatch type of H with
  | bind _ _ = Ok _ =>
      let a := fresh "a" in
      let Ha := fresh "Hstep" in
      apply bind_Ok in H; destruct H as (a & Ha & H);
      try (monad_inv Ha); try (monad_inv H)
  | assert _ = Ok _ => apply assert_Ok in H
  | Ok _ = Ok _ => injection H as H; try subst
  | Abort _ = Ok _ => discriminate H
  | _ => idtac
  end.

(** ** Arrays *)

Lemma load_Ok {A : Type} (l : list A) (i : Z) (x : A) :
  load l i = Ok x <-> 0 <= i /\ l !! Z.to_nat i = Some x.
Proof.
  unfold load. destruct (Z.ltb_spec i 0) as [Hneg|Hpos].
  - split; [discriminate | lia].
  - destruct (l !! Z.to_nat i) as [y|]; split.
    + intros H. injection H as <-. auto.
    + intros [_ H]. congruence.
    + discriminate.
    + intros [_ H]. discriminate H.
Qed.

Lemma store_Ok {A : Type} (l l' : list A) (i : Z) (x : A) :
  store l i x = Ok l' -> 0 <= i < Elements l /\ l' = <[Z.to_nat i := x]> l.
Proof.
  unfold store.
  destruct (Z.leb_spec 0 i) as [Hlo|Hlo];
    destruct (Z.ltb_spec i (Elements l)) as [Hhi|Hhi];
    simpl; intros Hst; try discriminate Hst.
  injection Hst as <-. split; [lia | reflexivity].
Qed.

(** ** Dirty flags *)

Lemma ilo_state_index_range (s : ilo_state) : 0 <= ilo_state_index s < 32.
Proof. destruct s; simpl; lia. Qed.

Lemma ilo_state_index_inj (s t : ilo_state) :
  ilo_state_index s = ilo_state_index t -> s = t.
Proof. destruct s, t; simpl; intros H; try reflexivity; discriminate H. Qed.

Lemma testbit_ILO_DIRTY (s : ilo_state) (n : Z) :
  Z.testbit (ILO_DIRTY s) n = (n =? ilo_state_index s).
Proof.
  unfold ILO_DIRTY.
  pose proof (ilo_state_index_range s) as Hr.
  destruct (Z.eqb_spec n (ilo_state_index s)) as [->|Hne].
  - rewrite Z.shiftl_spec by lia. rewrite Z.sub_diag. reflexivity.
  - destruct (Z.ltb_spec n 0) as [Hneg|Hpos].
    + apply Z.testbit_neg_r. exact Hneg.
    + rewrite Z.shiftl_spec by lia.
      destruct (Z.ltb_spec (n - ilo_state_index s) 0) as [Hlt|Hge].
      * apply Z.testbit_neg_r. exact Hlt.
      * change 1 with (2 ^ 0). apply Z.pow2_bits_false. lia.
Qed.

Lemma is_dirty_lor (d bits : Z) (s : ilo_state) :
  is_dirty (Z.lor d bits) s = is_dirty d s || is_dirty bits s.
Proof. unfold is_dirty. apply Z.lor_spec. Qed.

Lemma is_dirty_ILO_DIRTY (s t : ilo_state) :
  is_dirty (ILO_DIRTY s) t = bool_decide (s = t).
Proof.
  unfold is_dirty. rewrite testbit_ILO_DIRTY.
  destruct (Z.eqb_spec (ilo_state_index t) (ilo_state_index s)) as [He|Hne].
  - apply ilo_state_index_inj in He. subst. symmetry. apply bool_decide_eq_true.
    reflexivity.
  - symmetry. apply bool_decide_eq_false. intros ->. apply Hne. reflexivity.
Qed.

Lemma is_dirty_mark (d : Z) (s : ilo_state) :
  is_dirty (Z.lor d (ILO_DIRTY s)) s = true.
Proof.
  rewrite is_dirty_lor, is_dirty_ILO_DIRTY.
  rewrite bool_decide_eq_true_2 by reflexivity. apply orb_true_r.
Qed.

Lemma dirty_test_ILO_DIRTY (d : Z) (s : ilo_state) :
  dirty_test d (ILO_DIRTY s) = is_dirty d s.
Proof.
  unfold dirty_test, is_dirty.
  destruct (Z.testbit d (ilo_state_index s)) eqn:Hb.
  - apply negb_true_iff. apply Z.eqb_neq. intros Hz.
    assert (Ht : Z.testbit (Z.land d (ILO_DIRTY s)) (ilo_state_index s) = true).
    { rewrite Z.land_spec, Hb, testbit_ILO_DIRTY, Z.eqb_refl. reflexivity. }
    rewrite Hz, Z.bits_0 in Ht. discriminate Ht.
  - apply negb_false_iff. apply Z.eqb_eq. apply Z.bits_inj'. intros n Hn.
    rewrite Z.land_spec, testbit_ILO_DIRTY, Z.bits_0.
    destruct (Z.eqb_spec n (ilo_state_index s)) as [->|Hne].
    + rewrite Hb. reflexivity.
    + apply andb_false_r.
Qed.

Lemma dirty_subset_refl (a : Z) : dirty_subset a a.
Proof. intros n H. exact H. Qed.

Lemma dirty_subset_trans (a b c : Z) :
  dirty_subset a b -> dirty_subset b c -> dirty_subset a c.
Proof. intros Hab Hbc n H. apply Hbc, Hab, H. Qed.

Lemma dirty_subset_lor (a bits : Z) : dirty_subset a (Z.lor a bits).
Proof. intros n H. rewrite Z.lor_spec, H. reflexivity. Qed.

Lemma dirty_subset_is_dirty (a b : Z) (s : ilo_state) :
  dirty_subset a b -> is_dirty a s = true -> is_dirty b s = true.
Proof. intros Hs. apply Hs. Qed.

(** ** Reference counts *)

Lemma ref_release_count (refs : refcounts) (p : option pipe_resource) (o : object) :
  ref_release refs (ObjResource <$> p) o = refs o - holds p o.
Proof.
  unfold ref_release, ref_adjust, holds.
  destruct p as [r|]; cbn [fmap option_fmap option_map].
  - destruct (decide (o = ObjResource r)) as [He|Hne];
      destruct (decide (Some (ObjResource r) = Some o)) as [He'|Hn];
      try lia; congruence.
  - destruct (decide (None = Some o)) as [He|Hn]; [discriminate He | lia].
Qed.

Lemma pipe_reference_null (refs : refcounts) (p : option pipe_resource) (o : object) :
  pipe_reference refs (ObjResource <$> p) None o = refs o - holds p o.
Proof. unfold pipe_reference. simpl. apply ref_release_count. Qed.

(** ** The index buffer binding *)

(** C10: setting the index buffer with a null descriptor completes and
    resets the whole binding: the persistent buffer pointer is released and
    null, offset and index size are 0, the pending client span is cleared,
    the resolved resource is released and null, the resolved draw-start
    offset is 0, and the index-buffer dirty bit is raised.  "Released" is
    read on the reference counts: each object loses one reference per
    pointer of the binding that held it. *)
Theorem ilo_set_index_buffer_null (ilo : ilo_context) :
  exists ilo',
    ilo_set_index_buffer ilo None = Ok ilo' /\
    ib_buffer (ib_state (ilo_ib ilo')) = None /\
    ib_offset (ib_state (ilo_ib ilo')) = 0 /\
    index_size (ib_state (ilo_ib ilo')) = 0 /\
    ib_user_buffer (ib_state (ilo_ib ilo')) = None /\
    ib_resource (ilo_ib ilo') = None /\
    draw_start_offset (ilo_ib ilo') = 0 /\
    is_dirty (ilo_dirty ilo') ILO_STATE_INDEX_BUFFER = true /\
    forall o : object,
      ilo_refcnt ilo' o =
      ilo_refcnt ilo o - holds (ib_buffer (ib_state (ilo_ib ilo))) o
      - holds (ib_resource (ilo_ib ilo)) o.
Proof.
  eexists. split; [reflexivity |]. simpl.
  repeat (split; [reflexivity |]).
  split; [apply is_dirty_mark |].
  intros o. rewrite !pipe_reference_null. reflexivity.
Qed.

(** ** Viewports *)

(** The loop over the viewports indexes the array with the unsigned sum
    [start_slot + i].  When it completes no sum has wrapped: every slot
    from [start_slot + i] on was written in turn, so the range of the
    call lies within the array. *)
Lemma viewport_loop_range (vps : list pipe_viewport_state) (start_slot : Z)
    (n : nat) (i k : Z) (cso cso' : list ilo_viewport_cso) :
  iterate n i
    (fun i cso =>
       let* v := load vps i in
       store cso (uadd start_slot i) (ilo_gpe_set_viewport_cso v))
    cso = Ok (k, cso') ->
  0 <= start_slot + i < UINT_RANGE ->
  Elements cso < UINT_RANGE ->
  n = O \/ start_slot + i + Z.of_nat n <= Elements cso.
Proof.
  revert i cso. induction n as [|n IH]; intros i cso H Hi Hsize; [left; reflexivity |].
  right. cbn [iterate] in H.
  apply bind_Ok in H. destruct H as (cso1 & Hbody & H).
  apply bind_Ok in Hbody. destruct Hbody as (v & _ & Hst).
  apply store_Ok in Hst. destruct Hst as [Hr ->].
  assert (Hsum : uadd start_slot i = start_slot + i)
    by (unfold uadd, wrap32; apply Z.mod_small; exact Hi).
  rewrite Hsum in Hr.
  assert (Hlen : Elements (<[Z.to_nat (uadd start_slot i) :=
                            ilo_gpe_set_viewport_cso v]> cso) = Elements cso)
    by (unfold Elements; rewrite length_insert; reflexivity).
  destruct (IH (i + 1) _ H) as [->|Hle].
  - lia.
  - rewrite Hlen. exact Hsize.
  - lia.
  - rewrite Hlen in Hle. lia.
Qed.

Lemma uadd_le (a b : Z) : 0 <= a -> 0 <= b -> uadd a b <= a + b.
Proof.
  intros Ha Hb. unfold uadd, wrap32, UINT_RANGE.
  apply Z.mod_le; lia.
Qed.

(** C9: [start_slot] and [num_viewports] are [unsigned] and the array has
    fewer than 2^32 entries.  With a null array the count is left alone or
    becomes [start_slot], the latter only when it was above [start_slot]
    and at most [start_slot + num_viewports]; it does shrink when it was
    above [start_slot] and at most that sum as the code computes it, on 32
    bits.  With an array, a call that completes leaves the count at
    [start_slot + num_viewports] when that exceeds it and unchanged
    otherwise, so it never shrinks.  In both cases the viewport dirty bit
    is raised. *)
Theorem ilo_set_viewport_states_count (ilo ilo' : ilo_context)
    (start_slot num_viewports : Z) (viewports : option (list pipe_viewport_state)) :
  is_uint start_slot -> is_uint num_viewports ->
  Elements (viewport_cso (ilo_viewport ilo)) < UINT_RANGE ->
  ilo_set_viewport_states ilo start_slot num_viewports viewports = Ok ilo' ->
  let count := viewport_count (ilo_viewport ilo) in
  let count' := viewport_count (ilo_viewport ilo') in
  match viewports with
  | None =>
      (count' = start_slot \/ count' = count) /\
      (count' <> count -> start_slot < count <= start_slot + num_viewports) /\
      (~ start_slot < count <= start_slot + num_viewports -> count' = count) /\
      (start_slot < count <= uadd start_slot num_viewports -> count' = start_slot)
  | Some _ =>
      count' = (if count <? start_slot + num_viewports
                then start_slot + num_viewports else count) /\
      count <= count'
  end /\
  is_dirty (ilo_dirty ilo') ILO_STATE_VIEWPORT = true.
Proof.
  intros Hstart Hnum Hsize H. unfold ilo_set_viewport_states in H.
  apply bind_Ok in H. destruct H as (vp & Hvp & H).
  injection H as <-. simpl. split; [| apply is_dirty_mark].
  pose proof (uadd_le start_slot num_viewports (proj1 Hstart) (proj1 Hnum)) as Hle.
  destruct viewports as [vps|].
  - apply bind_Ok in Hvp. destruct Hvp as ([i cso] & Hloop & Hvp).
    assert (Hsum : uadd start_slot num_viewports = start_slot + num_viewports).
    { unfold for_lt in Hloop. apply viewport_loop_range in Hloop.
      - unfold uadd, wrap32. apply Z.mod_small.
        destruct Hstart, Hnum, Hloop as [Hz|Hr]; lia.
      - destruct Hstart. lia.
      - exact Hsize. }
    rewrite Hsum in Hvp.
    assert (Hc : viewport_count vp =
                 if viewport_count (ilo_viewport ilo) <? start_slot + num_viewports
                 then start_slot + num_viewports
                 else viewport_count (ilo_viewport ilo)).
    { destruct ((start_slot =? 0) && negb (num_viewports =? 0)).
      - apply bind_Ok in Hvp. destruct Hvp as (v0 & _ & Hvp).
        injection Hvp as <-. reflexivity.
      - injection Hvp as <-. reflexivity. }
    split; [exact Hc |]. rewrite Hc.
    destruct (Z.ltb_spec (viewport_count (ilo_viewport ilo))
                (start_slot + num_viewports)); lia.
  - destruct (Z.leb_spec (viewport_count (ilo_viewport ilo))
                (uadd start_slot num_viewports)) as [Hc1|Hc1];
      destruct (Z.ltb_spec start_slot (viewport_count (ilo_viewport ilo)))
        as [Hc2|Hc2];
      simpl in Hvp; injection Hvp as <-; simpl;
      repeat split; try (left; reflexivity); try (right; reflexivity);
      intros; lia.
Qed.

Lemma ilo_set_viewport_states_count_witness :
  exists ilo',
    ilo_set_viewport_states (calloc_context 4) 1 2
      (Some [zero_viewport; zero_viewport]) = Ok ilo' /\
    (viewport_count (ilo_viewport ilo') = 3 /\
     0 <= viewport_count (ilo_viewport ilo')) /\
    is_dirty (ilo_dirty ilo') ILO_STATE_VIEWPORT = true.
Proof.
  assert (H1 : is_uint 1) by (unfold is_uint, UINT_RANGE; lia).
  assert (H2 : is_uint 2) by (unfold is_uint, UINT_RANGE; lia).
  assert (H3 : Elements (viewport_cso (ilo_viewport (calloc_context 4)))
               < UINT_RANGE) by reflexivity.
  eexists. split; [reflexivity |].
  exact (ilo_set_viewport_states_count (calloc_context 4) _ 1 2
           (Some [zero_viewport; zero_viewport]) H1 H2 H3 eq_refl).
Defined.

(** A null array over the slots 1 and 2 of three viewports in use shrinks
    the count to 1. *)
Example ilo_set_viewport_states_null_shrinks :
  let ilo :=
    set_viewport
      {| viewport_cso := replicate 4 viewport_cso_unset; viewport_count := 3;
         viewport0 := zero_viewport |}
      (calloc_context 4) in
  exists ilo',
    ilo_set_viewport_states ilo 1 2 None = Ok ilo' /\
    viewport_count (ilo_viewport ilo') = 1.
Proof. eexists. split; reflexivity. Qed.

(** The bound of the shrinking test is the sum on 32 bits: past 2^32 it
    wraps, and a count of 2 is then left alone. *)
Example ilo_set_viewport_states_null_wraps :
  let ilo :=
    set_viewport
      {| viewport_cso := replicate 4 viewport_cso_unset; viewport_count := 2;
         viewport0 := zero_viewport |}
      (calloc_context 4) in
  exists ilo',
    ilo_set_viewport_states ilo 1 4294967295 None = Ok ilo' /\
    uadd 1 4294967295 = 0 /\
    viewport_count (ilo_viewport ilo') = 2.
Proof. eexists. repeat split; reflexivity. Qed.

(** ** Index buffer resolution *)

Section IndexBuffer.

Variable staged : list upload_call -> upload_call -> Z * pipe_resource.

(** What a completed restaging leaves behind. *)
Lemma finalize_index_buffer_restage (ilo ilo' : ilo_context)
    (draw : pipe_draw_info) :
  misaligned_draw ilo draw ->
  finalize_index_buffer staged ilo = Ok ilo' ->
  let st := ib_state (ilo_ib ilo) in
  let call := restage_call ilo draw in
  let offset := fst (staged (ilo_uploader ilo) call) in
  let res := snd (staged (ilo_uploader ilo) call) in
  index_size st <> 0 /\
  offset mod index_size st = 0 /\
  ilo_uploader ilo' = ilo_uploader ilo ++ [call] /\
  ilo_dirty ilo' = Z.lor (ilo_dirty ilo) (ILO_DIRTY ILO_STATE_INDEX_BUFFER) /\
  ilo_ib ilo' =
    {| ib_state := st; ib_resource := Some res;
       draw_start_offset := offset / index_size st - draw_start draw |}.
Proof.
  intros (Hdraw & Hidx & Huser & Hmis) H. cbv zeta.
  unfold finalize_index_buffer in H.
  rewrite Hdraw in H. simpl in H. rewrite Hidx in H. simpl in H.
  rewrite Huser in H.
  unfold umod at 1 in H.
  destruct (Z.eqb_spec (index_size (ib_state (ilo_ib ilo))) 0) as [Hz|Hnz];
    [discriminate H |].
  simpl in H.
  destruct (Z.eqb_spec
              (ib_offset (ib_state (ilo_ib ilo))
               mod index_size (ib_state (ilo_ib ilo))) 0) as [He|_];
    [contradiction |].
  simpl in H.
  unfold u_upload_buffer, upload in H.
  fold (restage_call ilo draw) in H. cbv zeta in H.
  destruct (staged (ilo_uploader ilo) (restage_call ilo draw)) as [offset res].
  unfold umod, udiv in H. simpl fst in *. simpl snd in *.
  destruct (Z.eqb_spec (index_size (ib_state (ilo_ib ilo))) 0) as [Hz|_];
    [contradiction |].
  simpl in H.
  destruct (Z.eqb_spec (offset mod index_size (ib_state (ilo_ib ilo))) 0)
    as [Hrest|Hrest]; [| discriminate H].
  simpl in H. injection H as <-. simpl.
  repeat split; auto.
Qed.

(** C1, amended: for an indexed draw over a device buffer bound at a
    misaligned offset, a finalization that completes has staged, through
    one [u_upload_buffer] request, the window of the draw (the bytes
    [offset + index_size * start] and the [index_size * count] after it,
    in unsigned arithmetic) and not the buffer from its base offset; and
    it has raised the index-buffer dirty bit. *)
Theorem finalize_index_buffer_stages_window (ilo ilo' : ilo_context)
    (draw : pipe_draw_info) :
  misaligned_draw ilo draw ->
  finalize_index_buffer staged ilo = Ok ilo' ->
  let st := ib_state (ilo_ib ilo) in
  ilo_uploader ilo' =
    ilo_uploader ilo ++
    [UploadBuffer 0
       (uadd (ib_offset st) (umul (index_size st) (draw_start draw)))
       (umul (index_size st) (draw_count draw))
       (ib_buffer st)] /\
  is_dirty (ilo_dirty ilo') ILO_STATE_INDEX_BUFFER = true.
Proof.
  intros Hmis H.
  destruct (finalize_index_buffer_restage ilo ilo' draw Hmis H)
    as (_ & _ & Hup & Hdirty & _).
  split; [exact Hup |]. rewrite Hdirty. apply is_dirty_mark.
Qed.

(** C5: when a finalization restages a misaligned device buffer, the
    resolved draw-start offset is the byte offset that the upload manager
    returned, divided by the index size, minus the start of the draw (a
    difference of integers, possibly negative); added to the start of the
    draw it gives the offset of the staged window in elements, and that
    division is exact. *)
Theorem finalize_index_buffer_draw_start_offset (ilo ilo' : ilo_context)
    (draw : pipe_draw_info) :
  misaligned_draw ilo draw ->
  finalize_index_buffer staged ilo = Ok ilo' ->
  let isz := index_size (ib_state (ilo_ib ilo)) in
  let offset := fst (staged (ilo_uploader ilo) (restage_call ilo draw)) in
  draw_start_offset (ilo_ib ilo') = offset / isz - draw_start draw /\
  draw_start_offset (ilo_ib ilo') + draw_start draw = offset / isz /\
  isz * (draw_start_offset (ilo_ib ilo') + draw_start draw) = offset.
Proof.
  intros Hmis H.
  destruct (finalize_index_buffer_restage ilo ilo' draw Hmis H)
    as (Hnz & Hrest & _ & _ & Hib).
  rewrite Hib. simpl.
  split; [reflexivity |]. split; [lia |].
  replace (fst (staged (ilo_uploader ilo) (restage_call ilo draw))
           / index_size (ib_state (ilo_ib ilo)) - draw_start draw
           + draw_start draw)
    with (fst (staged (ilo_uploader ilo) (restage_call ilo draw))
          / index_size (ib_state (ilo_ib ilo))) by lia.
  symmetry. apply Z.div_exact; assumption.
Qed.

End IndexBuffer.

Lemma misaligned_context_draw :
  misaligned_draw misaligned_context
    {| indexed := true; draw_start := 10; draw_count := 5 |}.
Proof. repeat split. discriminate. Qed.

(** C1 does not hold as stated: the request covers the 20 bytes of the
    draw's window from byte 43, not the buffer from its base offset 3. *)
Lemma finalize_index_buffer_not_full_restage :
  exists ilo',
    finalize_index_buffer (staged_at 64) misaligned_context = Ok ilo' /\
    ilo_uploader ilo' = [UploadBuffer 0 43 20 (Some (buffer_resource 9))] /\
    ~ (exists size : Z,
         ilo_uploader ilo' =
         ilo_uploader misaligned_context ++
         [UploadBuffer 0 (ib_offset (ib_state (ilo_ib misaligned_context))) size
            (ib_buffer (ib_state (ilo_ib misaligned_context)))]).
Proof.
  eexists. split; [reflexivity |]. split; [reflexivity |].
  intros (size & Hsize). discriminate Hsize.
Qed.

Lemma finalize_index_buffer_stages_window_witness :
  exists ilo',
    misaligned_draw misaligned_context
      {| indexed := true; draw_start := 10; draw_count := 5 |} /\
    finalize_index_buffer (staged_at 64) misaligned_context = Ok ilo' /\
    ilo_uploader ilo' = [UploadBuffer 0 43 20 (Some (buffer_resource 9))] /\
    is_dirty (ilo_dirty ilo') ILO_STATE_INDEX_BUFFER = true.
Proof.
  eexists. split; [exact misaligned_context_draw |].
  split; [reflexivity |].
  exact (finalize_index_buffer_stages_window (staged_at 64) misaligned_context _
           _ misaligned_context_draw eq_refl).
Defined.

Lemma finalize_index_buffer_draw_start_offset_witness :
  exists ilo',
    misaligned_draw misaligned_context
      {| indexed := true; draw_start := 10; draw_count := 5 |} /\
    finalize_index_buffer (staged_at 64) misaligned_context = Ok ilo' /\
    draw_start_offset (ilo_ib ilo') = 16 - 10 /\
    draw_start_offset (ilo_ib ilo') + 10 = 16 /\
    4 * (draw_start_offset (ilo_ib ilo') + 10) = 64.
Proof.
  eexists. split; [exact misaligned_context_draw |].
  split; [reflexivity |].
  exact (finalize_index_buffer_draw_start_offset (staged_at 64)
           misaligned_context _ _ misaligned_context_draw eq_refl).
Defined.

(** ** Shader resolution *)

Section ShaderStates.

Variable kernel_changed : ilo_context -> ilo_shader_state -> Z -> bool.
Variable routing_changed :
  ilo_context -> ilo_shader_state -> option ilo_shader_state ->
  option cso_pointer -> bool.

Let step := finalize_shader_state kernel_changed routing_changed.

Lemma finalize_shader_states_split (type : pipe_shader_type) (ilo : ilo_context) :
  finalize_shader_states kernel_changed routing_changed ilo =
  fold_left (fun ilo t => step t ilo)
    (drop (S (Z.to_nat (shader_type_index type))) PIPE_SHADER_TYPES)
    (step type (shader_stage_entry kernel_changed routing_changed type ilo)).
Proof. destruct type; reflexivity. Qed.

Lemma finalize_shader_state_bindings (type : pipe_shader_type)
    (ilo : ilo_context) :
  ilo_vs (step type ilo) = ilo_vs ilo /\
  ilo_gs (step type ilo) = ilo_gs ilo /\
  ilo_fs (step type ilo) = ilo_fs ilo.
Proof.
  unfold step, finalize_shader_state.
  destruct type; simpl;
    repeat match goal with
           | |- context [match ?x with _ => _ end] => destruct x eqn:?; simpl
           end;
    repeat split; congruence.
Qed.

(** One stage raises at most the bit of its own category. *)
Lemma finalize_shader_state_dirty (type : pipe_shader_type) (ilo : ilo_context) :
  ilo_dirty (step type ilo) = ilo_dirty ilo \/
  exists s, stage_state type = Some s /\
            ilo_dirty (step type ilo) = Z.lor (ilo_dirty ilo) (ILO_DIRTY s).
Proof.
  unfold step, finalize_shader_state.
  destruct type; simpl;
    repeat match goal with
           | |- context [match ?x with _ => _ end] => destruct x; simpl
           end;
    try (left; reflexivity);
    try (right; eexists; split; [reflexivity |];
         rewrite <- ?Z.lor_assoc, ?Z.lor_diag; reflexivity).
Qed.

Lemma finalize_shader_state_subset (type : pipe_shader_type) (ilo : ilo_context) :
  dirty_subset (ilo_dirty ilo) (ilo_dirty (step type ilo)).
Proof.
  destruct (finalize_shader_state_dirty type ilo) as [->|(s & _ & ->)].
  - apply dirty_subset_refl.
  - apply dirty_subset_lor.
Qed.

Lemma finalize_shader_state_other (type : pipe_shader_type) (ilo : ilo_context)
    (s : ilo_state) :
  stage_state type <> Some s ->
  is_dirty (ilo_dirty (step type ilo)) s = is_dirty (ilo_dirty ilo) s.
Proof.
  intros Hne.
  destruct (finalize_shader_state_dirty type ilo) as [->|(s' & Hs' & ->)];
    [reflexivity |].
  rewrite is_dirty_lor, is_dirty_ILO_DIRTY.
  rewrite bool_decide_eq_false_2 by congruence. apply orb_false_r.
Qed.

Lemma fold_step_subset (types : list pipe_shader_type) (ilo : ilo_context) :
  dirty_subset (ilo_dirty ilo)
    (ilo_dirty (fold_left (fun ilo t => step t ilo) types ilo)).
Proof.
  revert ilo. induction types as [|t types IH]; intros ilo; simpl.
  - apply dirty_subset_refl.
  - eapply dirty_subset_trans; [apply finalize_shader_state_subset | apply IH].
Qed.

Lemma finalize_shader_states_subset (ilo : ilo_context) :
  dirty_subset (ilo_dirty ilo)
    (ilo_dirty (finalize_shader_states kernel_changed routing_changed ilo)).
Proof. apply fold_step_subset. Qed.

(** What one stage with a bound shader does. *)
Lemma finalize_shader_state_select (type : pipe_shader_type) (ilo : ilo_context)
    (s : ilo_state) (shader : ilo_shader_state) :
  stage_state type = Some s ->
  stage_shader type ilo = Some shader ->
  exists rest,
    Forall is_routing_call rest /\
    ilo_kernels (step type ilo) =
      ilo_kernels ilo ++
      SelectKernel shader
        (if is_dirty (ilo_dirty ilo) s then ILO_DIRTY_ALL else ilo_dirty ilo)
      :: rest /\
    (is_dirty (ilo_dirty ilo) s = false ->
     kernel_changed ilo shader (ilo_dirty ilo) = true ->
     is_dirty (ilo_dirty (step type ilo)) s = true).
Proof.
  unfold step, finalize_shader_state.
  destruct type; simpl; intros Hs Hsh; try discriminate Hs;
    injection Hs as <-; rewrite Hsh; rewrite dirty_test_ILO_DIRTY;
    destruct (is_dirty (ilo_dirty ilo) _) eqn:Hd; simpl;
    repeat match goal with
           | |- context [kernel_changed ?a ?b ?c] =>
               destruct (kernel_changed a b c) eqn:?; simpl
           | |- context [dirty_test ?d ?m] =>
               destruct (dirty_test d m) eqn:?; simpl
           | |- context [routing_changed ?a ?b ?c ?d] =>
               destruct (routing_changed a b c d) eqn:?; simpl
           end;
    rewrite <- ?app_assoc; simpl;
    (eexists; split;
     [| split;
        [reflexivity
        | intros Hf Hk; try discriminate;
          rewrite ?is_dirty_lor, ?is_dirty_mark, ?orb_true_r; reflexivity]]);
    repeat constructor.
Qed.

Lemma finalize_shader_state_kernels (type : pipe_shader_type)
    (ilo : ilo_context) :
  exists calls, ilo_kernels (step type ilo) = ilo_kernels ilo ++ calls.
Proof.
  unfold step, finalize_shader_state.
  destruct type; simpl;
    repeat match goal with
           | |- context [match ?x with _ => _ end] => destruct x eqn:?; simpl
           end;
    rewrite <- ?app_assoc;
    try (eexists; reflexivity);
    exists []; symmetry; apply app_nil_r.
Qed.

Lemma fold_step_kernels (types : list pipe_shader_type) (ilo : ilo_context) :
  exists calls,
    ilo_kernels (fold_left (fun ilo t => step t ilo) types ilo) =
    ilo_kernels ilo ++ calls.
Proof.
  revert ilo. induction types as [|t types IH]; intros ilo; simpl.
  - exists []. symmetry. apply app_nil_r.
  - destruct (IH (step t ilo)) as (l2 & ->).
    destruct (finalize_shader_state_kernels t ilo) as (l1 & ->).
    exists (l1 ++ l2). symmetry. apply app_assoc.
Qed.

Lemma shader_stage_entry_shader (type : pipe_shader_type) (ilo : ilo_context) :
  stage_shader type (shader_stage_entry kernel_changed routing_changed type ilo)
  = stage_shader type ilo.
Proof.
  destruct type; simpl; try reflexivity.
  - unfold shader_stage_entry. simpl.
    change (finalize_shader_state kernel_changed routing_changed) with step.
    apply (finalize_shader_state_bindings PIPE_SHADER_VERTEX ilo).
  - unfold shader_stage_entry. simpl.
    change (finalize_shader_state kernel_changed routing_changed) with step.
    destruct (finalize_shader_state_bindings PIPE_SHADER_FRAGMENT
                (step PIPE_SHADER_VERTEX ilo)) as (_ & -> & _).
    apply (finalize_shader_state_bindings PIPE_SHADER_VERTEX ilo).
Qed.

Lemma shader_stage_entry_dirty (type : pipe_shader_type) (ilo : ilo_context)
    (s : ilo_state) :
  stage_state type = Some s ->
  is_dirty (ilo_dirty (shader_stage_entry kernel_changed routing_changed type ilo)) s =
  is_dirty (ilo_dirty ilo) s.
Proof.
  unfold shader_stage_entry.
  destruct type; simpl; intros Hs; try discriminate Hs; injection Hs as <-;
    change (finalize_shader_state kernel_changed routing_changed) with step.
  - reflexivity.
  - apply finalize_shader_state_other. discriminate.
  - rewrite finalize_shader_state_other by discriminate.
    apply finalize_shader_state_other. discriminate.
Qed.

(** C4: in the shader-resolution phase, for each graphics stage with a
    shader bound, the kernel selection of that shader is called once in
    the turn of the stage: against [ILO_DIRTY_ALL] if the dirty bit of the
    stage was set, and otherwise against the dirty bits as they are when
    the stage is reached, in which case a selection that reports a change
    raises the bit of the stage.  A bit of a stage that is set before the
    phase is set after it. *)
Theorem finalize_shader_states_selection (ilo : ilo_context)
    (type : pipe_shader_type) (s : ilo_state) (shader : ilo_shader_state) :
  stage_state type = Some s ->
  stage_shader type ilo = Some shader ->
  let pre := shader_stage_entry kernel_changed routing_changed type ilo in
  let post := finalize_shader_state kernel_changed routing_changed type pre in
  let final := finalize_shader_states kernel_changed routing_changed ilo in
  dirty_subset (ilo_dirty ilo) (ilo_dirty pre) /\
  is_dirty (ilo_dirty pre) s = is_dirty (ilo_dirty ilo) s /\
  (exists rest later,
      Forall is_routing_call rest /\
      ilo_kernels post =
        ilo_kernels pre ++
        SelectKernel shader
          (if is_dirty (ilo_dirty ilo) s then ILO_DIRTY_ALL else ilo_dirty pre)
        :: rest /\
      ilo_kernels final = ilo_kernels post ++ later) /\
  (is_dirty (ilo_dirty ilo) s = false ->
   kernel_changed pre shader (ilo_dirty pre) = true ->
   is_dirty (ilo_dirty final) s = true) /\
  (is_dirty (ilo_dirty ilo) s = true -> is_dirty (ilo_dirty final) s = true).
Proof.
  intros Hs Hsh pre post final.
  assert (Hpre : is_dirty (ilo_dirty pre) s = is_dirty (ilo_dirty ilo) s)
    by (apply shader_stage_entry_dirty; exact Hs).
  assert (Hfinal : final =
                   fold_left (fun ilo t => step t ilo)
                     (drop (S (Z.to_nat (shader_type_index type)))
                        PIPE_SHADER_TYPES) post)
    by (apply finalize_shader_states_split).
  assert (Hsub : dirty_subset (ilo_dirty post) (ilo_dirty final))
    by (rewrite Hfinal; apply fold_step_subset).
  destruct (finalize_shader_state_select type pre s shader Hs)
    as (rest & Hrest & Hk & Hraise).
  { unfold pre. rewrite shader_stage_entry_shader. exact Hsh. }
  change (step type pre) with post in Hk, Hraise.
  split; [apply fold_step_subset |].
  split; [exact Hpre |].
  split.
  - destruct (fold_step_kernels
                (drop (S (Z.to_nat (shader_type_index type))) PIPE_SHADER_TYPES)
                post) as (later & Hlater).
    exists rest, later. rewrite Hfinal.
    split; [exact Hrest |]. split; [| exact Hlater].
    rewrite Hk, Hpre. reflexivity.
  - split.
    + intros Hd Hc. apply (dirty_subset_is_dirty _ _ s Hsub).
      apply Hraise; [rewrite Hpre; exact Hd | exact Hc].
    + intros Hd. apply (dirty_subset_is_dirty (ilo_dirty ilo)); [| exact Hd].
      apply finalize_shader_states_subset.
Qed.

End ShaderStates.

(** The scenario of the spec: a fragment shader has just been bound, so the
    dirty set is the bit of the fragment stage. *)
Lemma finalize_shader_states_selection_witness :
  let ilo := ilo_bind_fs_state (calloc_context 4) (Some 1) in
  let pre := shader_stage_entry steady_kernel steady_routing PIPE_SHADER_FRAGMENT ilo in
  let post :=
    finalize_shader_state steady_kernel steady_routing PIPE_SHADER_FRAGMENT pre in
  let final := finalize_shader_states steady_kernel steady_routing ilo in
  stage_state PIPE_SHADER_FRAGMENT = Some ILO_STATE_FS /\
  stage_shader PIPE_SHADER_FRAGMENT ilo = Some 1 /\
  dirty_subset (ilo_dirty ilo) (ilo_dirty pre) /\
  is_dirty (ilo_dirty pre) ILO_STATE_FS = is_dirty (ilo_dirty ilo) ILO_STATE_FS /\
  (exists rest later,
      Forall is_routing_call rest /\
      ilo_kernels post = ilo_kernels pre ++ SelectKernel 1 ILO_DIRTY_ALL :: rest /\
      ilo_kernels final = ilo_kernels post ++ later) /\
  (is_dirty (ilo_dirty ilo) ILO_STATE_FS = false ->
   steady_kernel pre 1 (ilo_dirty pre) = true ->
   is_dirty (ilo_dirty final) ILO_STATE_FS = true) /\
  (is_dirty (ilo_dirty ilo) ILO_STATE_FS = true ->
   is_dirty (ilo_dirty final) ILO_STATE_FS = true).
Proof.
  intros ilo pre post final.
  split; [reflexivity |]. split; [reflexivity |].
  exact (finalize_shader_states_selection steady_kernel steady_routing ilo
           PIPE_SHADER_FRAGMENT ILO_STATE_FS 1 eq_refl eq_refl).
Defined.

(** ** Loops keep what their bodies keep *)

Lemma iterate_preserves {S : Type} (P : S -> Prop) (body : Z -> S -> result S)
    (n : nat) (i k : Z) (s s' : S) :
  (forall j t t', body j t = Ok t' -> P t -> P t') ->
  iterate n i body s = Ok (k, s') -> P s -> P s'.
Proof.
  intros Hbody. revert i s. induction n as [|n IH]; intros i s H Hs; simpl in H.
  - injection H as _ <-. exact Hs.
  - apply bind_Ok in H. destruct H as (t & Ht & H).
    apply (IH _ _ H). apply (Hbody _ _ _ Ht Hs).
Qed.

Lemma scan_until_preserves {S : Type} (P : S -> Prop)
    (test : Z -> S -> result (bool * S)) (n : nat) (i : Z) (s s' : S) (b : bool) :
  (forall j t h t', test j t = Ok (h, t') -> P t -> P t') ->
  scan_until n i test s = Ok (b, s') -> P s -> P s'.
Proof.
  intros Htest. revert i s. induction n as [|n IH]; intros i s H Hs; simpl in H.
  - injection H as _ <-. exact Hs.
  - apply bind_Ok in H. destruct H as ([h t] & Ht & H).
    pose proof (Htest _ _ _ _ Ht Hs) as Pt.
    destruct h.
    + injection H as _ <-. exact Pt.
    + apply (IH _ _ H Pt).
Qed.

Lemma bit_scan_loop_preserves {S : Type} (P : S -> Prop)
    (body : Z -> S -> result S) (n : nat) (mask : Z) (s s' : S) :
  (forall j t t', body j t = Ok t' -> P t -> P t') ->
  bit_scan_loop n mask body s = Ok s' -> P s -> P s'.
Proof.
  intros Hbody. revert mask s.
  induction n as [|n IH]; intros mask s H Hs; simpl in H;
    destruct (mask =? 0).
  - injection H as <-. exact Hs.
  - discriminate H.
  - injection H as <-. exact Hs.
  - destruct (u_bit_scan mask) as [i mask'].
    apply bind_Ok in H. destruct H as (t & Ht & H).
    apply (IH _ _ H). apply (Hbody _ _ _ Ht Hs).
Qed.

Lemma for_each_preserves {X S : Type} (P : S -> Prop) (body : X -> S -> result S)
    (xs : list X) (s s' : S) :
  (forall x t t', body x t = Ok t' -> P t -> P t') ->
  for_each xs body s = Ok s' -> P s -> P s'.
Proof.
  intros Hbody. revert s. induction xs as [|x xs IH]; intros s H Hs; simpl in H.
  - injection H as <-. exact Hs.
  - apply bind_Ok in H. destruct H as (t & Ht & H).
    apply (IH _ H). apply (Hbody _ _ _ Ht Hs).
Qed.

(** Take the hypotheses [f ... = Ok r] apart along the branches and the
    steps of [f]. *)
Ltac result_inv :=
  repeat match goal with
         | H : bind _ _ = Ok _ |- _ =>
             apply bind_Ok in H; destruct H as (? & ? & H)
         | H : assert _ = Ok _ |- _ => apply assert_Ok in H
         | H : Ok _ = Ok _ |- _ => inversion H; clear H; subst
         | H : Abort _ = Ok _ |- _ => discriminate H
         | H : (if ?b then _ else _) = Ok _ |- _ => destruct b eqn:?
         | H : (match ?x with _ => _ end) = Ok _ |- _ => destruct x eqn:?
         end.

(** ** The dirty set only grows *)

Lemma bind_samplers_dirty ilo shader start count samplers unbind_old ilo' :
  bind_samplers ilo shader start count samplers unbind_old = Ok ilo' ->
  ilo_dirty ilo' = ilo_dirty ilo.
Proof. unfold bind_samplers. intros H. result_inv; reflexivity. Qed.

Lemma set_sampler_views_dirty ilo shader start count views unset_old ilo' :
  set_sampler_views ilo shader start count views unset_old = Ok ilo' ->
  ilo_dirty ilo' = ilo_dirty ilo.
Proof. unfold set_sampler_views. intros H. result_inv; reflexivity. Qed.

Section DirtySet.

Variable kernel_changed : ilo_context -> ilo_shader_state -> Z -> bool.
Variable routing_changed :
  ilo_context -> ilo_shader_state -> option ilo_shader_state ->
  option cso_pointer -> bool.
Variable staged : list upload_call -> upload_call -> Z * pipe_resource.
Variable util_copy_framebuffer_state :
  pipe_framebuffer_state -> pipe_framebuffer_state -> refcounts ->
  pipe_framebuffer_state * refcounts.
Variable util_set_vertex_buffers_mask :
  list pipe_vertex_buffer -> Z -> option (list pipe_vertex_buffer) -> Z -> Z ->
  refcounts -> list pipe_vertex_buffer * Z * refcounts.

Lemma upload_user_cbuf_dirty sh i ilo ilo' :
  upload_user_cbuf staged sh i ilo = Ok ilo' -> ilo_dirty ilo' = ilo_dirty ilo.
Proof.
  unfold upload_user_cbuf, u_upload_data, upload. intros H.
  result_inv; reflexivity.
Qed.

Lemma finalize_constant_buffers_dirty ilo ilo' :
  finalize_constant_buffers staged ilo = Ok ilo' ->
  ilo_dirty ilo' = ilo_dirty ilo.
Proof.
  unfold finalize_constant_buffers. intros H.
  destruct (negb _); [injection H as <-; reflexivity |].
  apply (for_each_preserves (fun c => ilo_dirty c = ilo_dirty ilo) _ _ _ _)
    with (3 := eq_refl) in H; [exact H |].
  intros sh t t' Ht Hd.
  apply bind_Ok in Ht. destruct Ht as (u & Hu & Ht). injection Ht as <-.
  simpl.
  apply (bit_scan_loop_preserves (fun c => ilo_dirty c = ilo_dirty ilo) _ _ _ _ _)
    with (3 := Hd) in Hu; [exact Hu |].
  intros j v v' Hv Hdv. rewrite (upload_user_cbuf_dirty _ _ _ _ Hv). exact Hdv.
Qed.

Lemma finalize_index_buffer_dirty ilo ilo' :
  finalize_index_buffer staged ilo = Ok ilo' ->
  dirty_subset (ilo_dirty ilo) (ilo_dirty ilo').
Proof.
  unfold finalize_index_buffer, u_upload_data, u_upload_buffer, upload.
  intros H.
  result_inv; simpl; try apply dirty_subset_refl; apply dirty_subset_lor.
Qed.

Lemma ilo_finalize_3d_states_dirty ilo draw ilo' :
  ilo_finalize_3d_states kernel_changed routing_changed staged ilo draw = Ok ilo' ->
  dirty_subset (ilo_dirty ilo) (ilo_dirty ilo').
Proof.
  unfold ilo_finalize_3d_states. intros H.
  apply bind_Ok in H. destruct H as (c1 & H1 & H).
  apply bind_Ok in H. destruct H as (c2 & H2 & H).
  injection H as <-. simpl.
  apply finalize_constant_buffers_dirty in H1.
  apply finalize_index_buffer_dirty in H2.
  eapply dirty_subset_trans; [| exact H2]. rewrite H1.
  apply (finalize_shader_states_subset kernel_changed routing_changed
           (set_draw (Some draw) ilo)).
Qed.

Lemma mark_compute_resources_dirty ilo res hit ilo' :
  mark_compute_resources ilo res = Ok (hit, ilo') ->
  ilo_dirty ilo' = ilo_dirty ilo.
Proof.
  unfold mark_compute_resources, any_lt. intros H.
  apply (scan_until_preserves (fun c => ilo_dirty c = ilo_dirty ilo) _ _ _ _ _ _)
    with (3 := eq_refl) in H; [exact H |].
  intros j t h t' Ht Hd. result_inv. exact Hd.
Qed.

Lemma ilo_mark_states_with_resource_dirty_dirty ilo res ilo' :
  ilo_mark_states_with_resource_dirty ilo res = Ok ilo' ->
  dirty_subset (ilo_dirty ilo) (ilo_dirty ilo').
Proof.
  unfold ilo_mark_states_with_resource_dirty. intros H.
  repeat (apply bind_Ok in H; destruct H as (? & ? & H)).
  destruct x3 as [hit c].
  repeat (apply bind_Ok in H; destruct H as (? & ? & H)).
  injection H as <-. simpl.
  match goal with
  | Hc : mark_compute_resources _ _ = Ok _ |- _ =>
      rewrite (mark_compute_resources_dirty _ _ _ _ Hc)
  end.
  apply dirty_subset_lor.
Qed.

(** A binding mutator that completes has added the bit of its category to
    the dirty set, and nothing else. *)
Lemma run_mutator_dirty (op : operation) (s : ilo_state)
    (ilo ilo' : ilo_context) :
  own_state op = Some s ->
  run kernel_changed routing_changed staged util_copy_framebuffer_state
    util_set_vertex_buffers_mask op ilo = Ok ilo' ->
  ilo_dirty ilo' = Z.lor (ilo_dirty ilo) (ILO_DIRTY s).
Proof.
  destruct op; simpl; intros Hs H; inversion Hs; subst; clear Hs;
    try (inversion H; reflexivity);
    unfold ilo_bind_fragment_sampler_states, ilo_bind_vertex_sampler_states,
      ilo_bind_geometry_sampler_states, ilo_bind_compute_sampler_states,
      ilo_set_fragment_sampler_views, ilo_set_vertex_sampler_views,
      ilo_set_geometry_sampler_views, ilo_set_compute_sampler_views,
      ilo_set_shader_resources, ilo_set_compute_resources,
      ilo_set_global_binding, ilo_set_constant_buffer,
      ilo_set_framebuffer_state, ilo_set_viewport_states,
      ilo_set_vertex_buffers, ilo_set_index_buffer,
      ilo_set_stream_output_targets in H;
    result_inv; simpl;
    repeat match goal with
           | Hb : bind_samplers _ _ _ _ _ _ = Ok _ |- _ =>
               rewrite (bind_samplers_dirty _ _ _ _ _ _ _ Hb); clear Hb
           | Hv : set_sampler_views _ _ _ _ _ _ = Ok _ |- _ =>
               rewrite (set_sampler_views_dirty _ _ _ _ _ _ _ Hv); clear Hv
           end;
    reflexivity.
Qed.

(** C8: [ilo_init_states] leaves every category dirty; an operation of
    the core that completes (a binding mutator, the resource-change
    propagator, the finalizer) leaves a dirty set that contains the one
    it started from; and a binding mutator that completes has raised the
    bit of its own category, whatever its arguments and whatever was
    bound before. *)
Theorem dirty_set_only_grows (op : operation) (ilo ilo' : ilo_context) :
  run kernel_changed routing_changed staged util_copy_framebuffer_state
    util_set_vertex_buffers_mask op ilo = Ok ilo' ->
  ilo_dirty (ilo_init_states ilo) = ILO_DIRTY_ALL /\
  (forall s : ilo_state, is_dirty (ilo_dirty (ilo_init_states ilo)) s = true) /\
  dirty_subset (ilo_dirty ilo) (ilo_dirty ilo') /\
  (forall s : ilo_state,
      own_state op = Some s -> is_dirty (ilo_dirty ilo') s = true).
Proof.
  intros H.
  split; [reflexivity |].
  split; [intros s; destruct s; reflexivity |].
  destruct (own_state op) as [s|] eqn:Hown.
  - rewrite (run_mutator_dirty op s ilo ilo' Hown H).
    split; [apply dirty_subset_lor |].
    intros s' Hs'. injection Hs' as <-. apply is_dirty_mark.
  - split; [| discriminate].
    destruct op; try discriminate Hown; simpl in H.
    + eapply ilo_mark_states_with_resource_dirty_dirty. exact H.
    + eapply ilo_finalize_3d_states_dirty. exact H.
Qed.

End DirtySet.

(** ** Bit scans *)

Lemma ctz_spec (p : positive) :
  0 <= ctz p /\
  Z.testbit (Zpos p) (ctz p) = true /\
  forall j, 0 <= j < ctz p -> Z.testbit (Zpos p) j = false.
Proof.
  induction p as [q IH|q IH|]; simpl ctz.
  - split; [lia |]. split; [reflexivity |]. intros j Hj. lia.
  - destruct IH as (Hnn & Hset & Hlow).
    split; [lia |]. split.
    + change (Zpos q~0) with (2 * Zpos q).
      rewrite Z.testbit_even_succ by exact Hnn. exact Hset.
    + intros j Hj. change (Zpos q~0) with (2 * Zpos q).
      destruct (Z.eq_dec j 0) as [->|Hne].
      * apply Z.testbit_even_0.
      * replace j with (Z.succ (j - 1)) by lia.
        rewrite Z.testbit_even_succ by lia. apply Hlow. lia.
  - split; [lia |]. split; [reflexivity |]. intros j Hj. lia.
Qed.

Lemma is_uint_bits_in (mask : Z) : is_uint mask -> bits_in mask 0 32.
Proof.
  intros [Hlo Hhi] j Hj.
  destruct (Z.ltb_spec j 0) as [Hneg|Hpos].
  { rewrite Z.testbit_neg_r in Hj by exact Hneg. discriminate Hj. }
  split; [exact Hpos |].
  destruct (Z.ltb_spec j 32) as [Hlt|Hge]; [exact Hlt |].
  assert (Ha : mask = 0 \/ 0 < mask) by lia. destruct Ha as [->|Ha].
  { rewrite Z.bits_0 in Hj. discriminate Hj. }
  rewrite Z.bits_above_log2 in Hj; [discriminate Hj | lia |].
  apply Z.log2_lt_pow2; [exact Ha |].
  apply Z.lt_le_trans with (2 ^ 32); [exact Hhi |].
  apply Z.pow_le_mono_r; lia.
Qed.

Lemma bits_in_empty (mask lo : Z) : 0 <= mask -> bits_in mask lo lo -> mask = 0.
Proof.
  intros Hnn Hin. apply Z.bits_inj_0. intros j.
  destruct (Z.testbit mask j) eqn:Hj; [| reflexivity].
  apply Hin in Hj. lia.
Qed.

Lemma bit_pow2 (i : Z) : 0 <= i < 32 -> bit i = 2 ^ i.
Proof.
  intros Hi. unfold bit, wrap32, UINT_RANGE.
  rewrite Z.shiftl_1_l. apply Z.mod_small. split.
  - apply Z.pow_nonneg. lia.
  - apply Z.pow_lt_mono_r; lia.
Qed.

(** One step of a scan over a non-empty mask whose bits lie below bit 32:
    the index is that of the lowest set bit, and the mask loses exactly
    that bit. *)
Lemma u_bit_scan_spec (mask lo hi : Z) :
  0 <= mask -> mask <> 0 -> 0 <= lo -> hi <= 32 -> bits_in mask lo hi ->
  let i := fst (u_bit_scan mask) in
  let mask' := snd (u_bit_scan mask) in
  lo <= i < hi /\
  Z.testbit mask i = true /\
  0 <= mask' /\
  bits_in mask' (lo + 1) hi /\
  forall j, Z.testbit mask' j = Z.testbit mask j && negb (j =? i).
Proof.
  intros Hnn Hnz Hlo Hhi Hin. unfold u_bit_scan. cbn [fst snd].
  destruct mask as [|p|p]; [contradiction | | lia].
  simpl ffs. replace (ctz p + 1 - 1) with (ctz p) by lia.
  destruct (ctz_spec p) as (Hc & Hset & Hlow).
  pose proof (Hin _ Hset) as Hrange.
  assert (Hbits : forall j,
             Z.testbit (Z.ldiff (Zpos p) (bit (ctz p))) j =
             Z.testbit (Zpos p) j && negb (j =? ctz p)).
  { intros j. rewrite bit_pow2 by lia.
    destruct (Z.ltb_spec j 0) as [Hneg|Hpos].
    - rewrite !Z.testbit_neg_r by exact Hneg. reflexivity.
    - rewrite Z.ldiff_spec, Z.pow2_bits_eqb by lia.
      rewrite (Z.eqb_sym (ctz p) j). reflexivity. }
  split; [exact Hrange |]. split; [exact Hset |].
  split; [apply Z.ldiff_nonneg; left; lia |].
  split; [| exact Hbits].
  intros j Hj. rewrite Hbits in Hj. apply andb_true_iff in Hj.
  destruct Hj as [Hj Hne]. apply negb_true_iff, Z.eqb_neq in Hne.
  pose proof (Hin _ Hj) as Hjr.
  destruct (Z.ltb_spec j (ctz p)) as [Hlt|Hge].
  - rewrite Hlow in Hj by lia. discriminate Hj.
  - lia.
Qed.

Lemma bit_scan_any_S (test : Z -> result bool) (n : nat) (mask : Z) :
  bit_scan_any (S n) mask test =
  if mask =? 0 then Ok false
  else
    let* hit := test (fst (u_bit_scan mask)) in
    if hit then Ok true else bit_scan_any n (snd (u_bit_scan mask)) test.
Proof. simpl. destruct (u_bit_scan mask). reflexivity. Qed.

Lemma bit_scan_loop_S {S : Type} (body : Z -> S -> result S) (n : nat)
    (mask : Z) (s : S) :
  bit_scan_loop (Datatypes.S n) mask body s =
  if mask =? 0 then Ok s
  else
    let* s' := body (fst (u_bit_scan mask)) s in
    bit_scan_loop n (snd (u_bit_scan mask)) body s'.
Proof. simpl. destruct (u_bit_scan mask). reflexivity. Qed.

(** The scan with a test: a completed scan hit exactly when the test
    succeeds on a set bit. *)
Lemma bit_scan_any_Ok (test : Z -> result bool) (n : nat) (lo mask : Z) (b : bool) :
  0 <= lo -> lo + Z.of_nat n <= 32 -> 0 <= mask ->
  bits_in mask lo (lo + Z.of_nat n) ->
  bit_scan_any n mask test = Ok b ->
  (b = true <-> exists j, Z.testbit mask j = true /\ test j = Ok true).
Proof.
  revert lo mask b.
  induction n as [|n IH]; intros lo mask b Hlo Hhi Hnn Hin H.
  - replace (lo + Z.of_nat 0) with lo in Hin by lia.
    apply bits_in_empty in Hin; [| exact Hnn]. subst mask.
    simpl in H. injection H as <-. split; [discriminate |].
    intros (j & Hj & _). rewrite Z.bits_0 in Hj. discriminate Hj.
  - rewrite bit_scan_any_S in H. destruct (Z.eqb_spec mask 0) as [->|Hnz].
    { injection H as <-. split; [discriminate |].
      intros (j & Hj & _). rewrite Z.bits_0 in Hj. discriminate Hj. }
    destruct (u_bit_scan_spec mask lo (lo + Z.of_nat (S n)) Hnn Hnz Hlo Hhi Hin)
      as (Hi & Hset & Hnn' & Hin' & Hbits).
    destruct (u_bit_scan mask) as [i mask']. cbn [fst snd] in *.
    apply bind_Ok in H. destruct H as (hit & Hhit & H).
    destruct hit.
    + injection H as <-. split; [| reflexivity].
      intros _. exists i. split; assumption.
    + apply (IH (lo + 1) mask') in H; [| lia | lia | exact Hnn' |].
      * rewrite H. split.
        -- intros (j & Hj & Ht). exists j. split; [| exact Ht].
           rewrite Hbits in Hj. apply andb_true_iff in Hj. apply Hj.
        -- intros (j & Hj & Ht). exists j. split; [| exact Ht].
           rewrite Hbits, Hj. simpl. apply negb_true_iff, Z.eqb_neq.
           intros ->. congruence.
      * replace (lo + 1 + Z.of_nat n) with (lo + Z.of_nat (S n)) by lia.
        exact Hin'.
Qed.

(** The bound of the scan is enough for a 32-bit mask. *)
Lemma bit_scan_any_bound (test : Z -> result bool) (n : nat) (lo mask : Z) :
  0 <= lo -> lo + Z.of_nat n <= 32 -> 0 <= mask ->
  bits_in mask lo (lo + Z.of_nat n) ->
  (forall j, test j <> Abort LoopBoundExceeded) ->
  bit_scan_any n mask test <> Abort LoopBoundExceeded.
Proof.
  intros Hlo Hhi Hnn Hin Htest. revert lo mask Hlo Hhi Hnn Hin.
  induction n as [|n IH]; intros lo mask Hlo Hhi Hnn Hin.
  - replace (lo + Z.of_nat 0) with lo in Hin by lia.
    apply bits_in_empty in Hin; [| exact Hnn]. subst mask. discriminate.
  - rewrite bit_scan_any_S.
    destruct (Z.eqb_spec mask 0) as [->|Hnz]; [discriminate |].
    destruct (u_bit_scan_spec mask lo (lo + Z.of_nat (S n)) Hnn Hnz Hlo Hhi Hin)
      as (Hi & Hset & Hnn' & Hin' & Hbits).
    destruct (u_bit_scan mask) as [i mask']. cbn [fst snd] in *.
    specialize (Htest i) as Hti.
    destruct (test i) as [[|]|f]; simpl.
    + discriminate.
    + apply (IH (lo + 1)); try lia.
      replace (lo + 1 + Z.of_nat n) with (lo + Z.of_nat (S n)) by lia.
      exact Hin'.
    + congruence.
Qed.

(** ** Resource tracking: vertex buffers *)

Lemma is_dirty_raise_if (hit : bool) (s t : ilo_state) (states : Z) :
  is_dirty (raise_if hit (ILO_DIRTY s) states) t =
  is_dirty states t || (hit && bool_decide (s = t)).
Proof.
  unfold raise_if. destruct hit; simpl.
  - rewrite is_dirty_lor, is_dirty_ILO_DIRTY. reflexivity.
  - rewrite orb_false_r. reflexivity.
Qed.

Lemma is_dirty_0 (s : ilo_state) : is_dirty 0 s = false.
Proof. unfold is_dirty. apply Z.bits_0. Qed.

Lemma mark_vertex_buffers_spec (ilo : ilo_context) (res : pipe_resource)
    (hit : bool) :
  is_uint (vb_enabled_mask (ilo_vb ilo)) ->
  mark_vertex_buffers ilo res = Ok hit ->
  (hit = true <-> vertex_buffer_bound ilo res).
Proof.
  intros Hu H. unfold mark_vertex_buffers in H.
  assert (H32 : 0 + Z.of_nat UINT_BITS <= 32) by (unfold UINT_BITS; lia).
  apply (bit_scan_any_Ok _ UINT_BITS 0 _ _ (Z.le_refl 0) H32 (proj1 Hu)
           (is_uint_bits_in _ Hu)) in H.
  rewrite H. unfold vertex_buffer_bound. split.
  - intros (j & Hj & Ht). apply bind_Ok in Ht. destruct Ht as (vb & Hvb & Ht).
    apply load_Ok in Hvb. destruct Hvb as [_ Hvb].
    injection Ht as Ht. apply bool_decide_eq_true in Ht.
    exists j, vb. auto.
  - intros (j & vb & Hj & Hvb & Hb). exists j. split; [exact Hj |].
    assert (Hl : load (vb_states (ilo_vb ilo)) j = Ok vb).
    { apply load_Ok. split; [| exact Hvb].
      destruct (Z.ltb_spec j 0) as [Hneg|Hpos]; [| exact Hpos].
      rewrite Z.testbit_neg_r in Hj by exact Hneg. discriminate Hj. }
    rewrite Hl. simpl. f_equal. apply bool_decide_eq_true. exact Hb.
Qed.

(** The scan always ends within its bound. *)
Lemma mark_vertex_buffers_bound (ilo : ilo_context) (res : pipe_resource) :
  is_uint (vb_enabled_mask (ilo_vb ilo)) ->
  mark_vertex_buffers ilo res <> Abort LoopBoundExceeded.
Proof.
  intros Hu. unfold mark_vertex_buffers.
  assert (H32 : 0 + Z.of_nat UINT_BITS <= 32) by (unfold UINT_BITS; lia).
  apply (bit_scan_any_bound _ UINT_BITS 0 _ (Z.le_refl 0) H32 (proj1 Hu)
           (is_uint_bits_in _ Hu)).
  intros j. unfold load.
  destruct (j <? 0); [discriminate |].
  destruct (vb_states (ilo_vb ilo) !! Z.to_nat j); discriminate.
Qed.

(** The scan of the vertex buffers on a call that completes: the bits
    the propagator ORs into the dirty set contain the vertex-buffer bit if
    and only if [res] is a buffer and a vertex-buffer slot whose enabled
    bit is set references it. *)
Theorem ilo_mark_states_with_resource_dirty_vertex_buffers
    (ilo ilo' : ilo_context) (res : pipe_resource) :
  is_uint (vb_enabled_mask (ilo_vb ilo)) ->
  ilo_mark_states_with_resource_dirty ilo res = Ok ilo' ->
  exists states : Z,
    ilo_dirty ilo' = Z.lor (ilo_dirty ilo) states /\
    (is_dirty states ILO_STATE_VERTEX_BUFFERS = true <->
     target res = PIPE_BUFFER /\ vertex_buffer_bound ilo res).
Proof.
  intros Hu H. unfold ilo_mark_states_with_resource_dirty in H.
  apply bind_Ok in H. destruct H as (st1 & H1 & H).
  apply bind_Ok in H. destruct H as (st2 & H2 & H).
  apply bind_Ok in H. destruct H as (hit3 & H3 & H).
  apply bind_Ok in H. destruct H as (st4 & H4 & H).
  apply bind_Ok in H. destruct H as ([hit5 c5] & H5 & H).
  apply bind_Ok in H. destruct H as (hit6 & H6 & H).
  injection H as <-.
  eexists. split.
  { simpl. rewrite (mark_compute_resources_dirty _ _ _ _ H5). reflexivity. }
  rewrite !is_dirty_raise_if.
  rewrite !(bool_decide_eq_false_2 (_ = ILO_STATE_VERTEX_BUFFERS)) by discriminate.
  rewrite !andb_false_r, !orb_false_r.
  assert (E4 : is_dirty st4 ILO_STATE_VERTEX_BUFFERS =
               is_dirty st2 ILO_STATE_VERTEX_BUFFERS).
  { destruct (negb (bool_decide (target res = PIPE_BUFFER))).
    - apply bind_Ok in H4. destruct H4 as (hit & _ & H4). injection H4 as <-.
      rewrite !is_dirty_raise_if.
      rewrite !(bool_decide_eq_false_2 (_ = ILO_STATE_VERTEX_BUFFERS))
        by discriminate.
      rewrite !andb_false_r, !orb_false_r. reflexivity.
    - injection H4 as <-. rewrite is_dirty_raise_if.
      rewrite bool_decide_eq_false_2 by discriminate.
      rewrite andb_false_r, orb_false_r. reflexivity. }
  assert (E2 : is_dirty st2 ILO_STATE_VERTEX_BUFFERS =
               is_dirty st1 ILO_STATE_VERTEX_BUFFERS).
  { apply (for_each_preserves
             (fun st => is_dirty st ILO_STATE_VERTEX_BUFFERS =
                        is_dirty st1 ILO_STATE_VERTEX_BUFFERS) _ _ _ _)
      with (3 := eq_refl) in H2; [exact H2 |].
    intros sh t t' Ht Hd.
    apply bind_Ok in Ht. destruct Ht as (hit & _ & Ht).
    assert (Ev : is_dirty (raise_if hit (view_dirty_bits sh) t)
                   ILO_STATE_VERTEX_BUFFERS =
                 is_dirty t ILO_STATE_VERTEX_BUFFERS).
    { destruct sh; unfold view_dirty_bits; rewrite is_dirty_raise_if;
        rewrite bool_decide_eq_false_2 by discriminate;
        rewrite andb_false_r, orb_false_r; reflexivity. }
    destruct (bool_decide (target res = PIPE_BUFFER)).
    - apply bind_Ok in Ht. destruct Ht as (hit' & _ & Ht). injection Ht as <-.
      rewrite is_dirty_raise_if.
      rewrite bool_decide_eq_false_2 by discriminate.
      rewrite andb_false_r, orb_false_r, Ev. exact Hd.
    - injection Ht as <-. rewrite Ev. exact Hd. }
  rewrite E4, E2.
  destruct (decide (target res = PIPE_BUFFER)) as [Hbuf|Hnbuf].
  - rewrite bool_decide_eq_true_2 in H1 by exact Hbuf.
    apply bind_Ok in H1. destruct H1 as (hit & Hhit & H1).
    apply bind_Ok in H1. destruct H1 as (hit' & _ & H1). injection H1 as <-.
    rewrite !is_dirty_raise_if, is_dirty_0.
    rewrite (bool_decide_eq_true_2
               (ILO_STATE_VERTEX_BUFFERS = ILO_STATE_VERTEX_BUFFERS))
      by reflexivity.
    rewrite !(bool_decide_eq_false_2 (_ = ILO_STATE_VERTEX_BUFFERS))
      by discriminate.
    rewrite !andb_false_r, !orb_false_r, andb_true_r. simpl.
    rewrite (mark_vertex_buffers_spec ilo res hit Hu Hhit).
    split; [intros Hb; split; assumption | intros [_ Hb]; exact Hb].
  - rewrite bool_decide_eq_false_2 in H1 by exact Hnbuf.
    injection H1 as <-. rewrite is_dirty_0.
    split; [discriminate | intros [Hb _]; contradiction].
Qed.

Lemma ilo_mark_states_with_resource_dirty_vertex_buffers_witness :
  exists ilo',
    is_uint (vb_enabled_mask (ilo_vb vertex_buffer_context)) /\
    ilo_mark_states_with_resource_dirty vertex_buffer_context (buffer_resource 9)
    = Ok ilo' /\
    exists states : Z,
      ilo_dirty ilo' = Z.lor (ilo_dirty vertex_buffer_context) states /\
      (is_dirty states ILO_STATE_VERTEX_BUFFERS = true <->
       target (buffer_resource 9) = PIPE_BUFFER /\
       vertex_buffer_bound vertex_buffer_context (buffer_resource 9)).
Proof.
  assert (Hu : is_uint (vb_enabled_mask (ilo_vb vertex_buffer_context)))
    by (unfold is_uint, UINT_RANGE; simpl; lia).
  eexists. split; [exact Hu |]. split; [reflexivity |].
  exact (ilo_mark_states_with_resource_dirty_vertex_buffers
           vertex_buffer_context _ (buffer_resource 9) Hu eq_refl).
Defined.

(** ** Resource tracking: compute resources *)

(** The scan of the compute resources never completes on a slot: it clears
    the slot and then reads through it. *)
Lemma mark_compute_resources_Ok (ilo ilo' : ilo_context) (res : pipe_resource)
    (hit : bool) :
  mark_compute_resources ilo res = Ok (hit, ilo') ->
  resource_count (ilo_cs_resource ilo) <= 0 /\ hit = false /\ ilo' = ilo.
Proof.
  unfold mark_compute_resources, any_lt. intros H.
  destruct (Z.to_nat (resource_count (ilo_cs_resource ilo))) as [|n] eqn:Hn.
  - simpl in H. injection H as <- <-. split; [lia | auto].
  - exfalso. simpl in H.
    apply bind_Ok in H. destruct H as ([h c] & Hbody & _).
    apply bind_Ok in Hbody. destruct Hbody as ([states refs] & Href & Hbody).
    unfold slot_reference in Href. simpl in Href.
    apply bind_Ok in Href. destruct Href as (old & _ & Href).
    apply bind_Ok in Href. destruct Href as (dst & Hst & Href).
    injection Href as <- <-.
    unfold store in Hst.
    destruct ((0 <=? 0) && (0 <? Elements (resource_states (ilo_cs_resource ilo))))
      eqn:Hin; [| discriminate Hst].
    injection Hst as <-. simpl in Hbody.
    apply andb_true_iff in Hin. destruct Hin as [_ Hlen].
    apply Z.ltb_lt in Hlen. unfold Elements in Hlen.
    unfold load in Hbody. simpl in Hbody.
    rewrite list_lookup_insert_eq in Hbody by lia.
    simpl in Hbody. discriminate Hbody.
Qed.

(** C2 fails on the code: with the texture [5] bound as compute resource 0,
    the propagator called for that texture does not raise the
    compute-resources bit; it stops on a null dereference, after it has
    released and cleared the slot it was about to compare. *)
Theorem ilo_mark_states_with_resource_dirty_compute_aborts :
  (exists ilo',
      ilo_set_compute_resources (calloc_context 4) 0 1 (Some [Some compute_surface])
      = Ok ilo' /\
      ilo_cs_resource ilo' = ilo_cs_resource compute_bound_context /\
      ilo_dirty ilo' = ilo_dirty compute_bound_context) /\
  ilo_mark_states_with_resource_dirty compute_bound_context (texture_resource 5)
  = Abort NullDereference.
Proof.
  split; [| reflexivity].
  eexists. split; [reflexivity |]. split; reflexivity.
Qed.

(** C7 fails on the code, by the same stray release as C2: when a compute
    resource is bound, the propagator never reaches the statement that
    ORs the collected bits into the dirty set.  Slot 1 of the vertex
    buffers is enabled and references the buffer [9], and
    [ilo_set_compute_resources(0, 1, {surface})] has bound a surface; the
    propagator called for the buffer [9] has found it among the vertex
    buffers, yet it stops on the null dereference of the compute scan and
    the vertex-buffer bit, clear before the call, is not raised. *)
Theorem ilo_mark_states_with_resource_dirty_vertex_buffers_aborts :
  exists ilo,
    ilo_set_compute_resources vertex_buffer_context 0 1
      (Some [Some compute_surface]) = Ok ilo /\
    target (buffer_resource 9) = PIPE_BUFFER /\
    vertex_buffer_bound ilo (buffer_resource 9) /\
    mark_vertex_buffers ilo (buffer_resource 9) = Ok true /\
    is_dirty (ilo_dirty ilo) ILO_STATE_VERTEX_BUFFERS = false /\
    ilo_mark_states_with_resource_dirty ilo (buffer_resource 9)
    = Abort NullDereference.
Proof.
  eexists. split; [vm_compute; reflexivity |].
  split; [reflexivity |]. split.
  - exists 1, {| vb_stride := 16; vb_buffer_offset := 0;
                 vb_buffer := Some (buffer_resource 9);
                 vb_user_buffer := None |}.
    repeat split; reflexivity.
  - split; [vm_compute; reflexivity |].
    split; vm_compute; reflexivity.
Qed.

(** ** Constant buffer resolution *)

Lemma sh_get_set_eq {A : Type} (a : per_shader A) (sh : pipe_shader_type) (x : A) :
  sh_get (sh_set a sh x) sh = x.
Proof. destruct sh; reflexivity. Qed.

Lemma sh_get_set_ne {A : Type} (a : per_shader A) (sh sh' : pipe_shader_type)
    (x : A) :
  sh' <> sh -> sh_get (sh_set a sh x) sh' = sh_get a sh'.
Proof. destruct sh, sh'; intros H; try reflexivity; contradiction. Qed.

Lemma util_last_bit_spec (u : Z) :
  0 <= u ->
  (u = 0 -> util_last_bit u = 0) /\
  (u <> 0 ->
   Z.testbit u (util_last_bit u - 1) = true /\
   forall j, util_last_bit u <= j -> Z.testbit u j = false).
Proof.
  intros Hnn. unfold util_last_bit.
  destruct (Z.eqb_spec u 0) as [->|Hnz].
  - split; [reflexivity | contradiction].
  - split; [contradiction |]. intros _.
    replace (Z.log2 u + 1 - 1) with (Z.log2 u) by lia. split.
    + apply Z.bit_log2. lia.
    + intros j Hj. apply Z.bits_above_log2; lia.
Qed.

Section ConstantBuffers.

Variable staged : list upload_call -> upload_call -> Z * pipe_resource.

(** One turn of the inner loop, on a slot that exists. *)
Lemma upload_user_cbuf_spec (sh : pipe_shader_type) (i : Z) (ilo : ilo_context) :
  0 <= i < Elements (cbuf_cso (sh_get (ilo_cbuf ilo) sh)) ->
  exists ilo',
    upload_user_cbuf staged sh i ilo = Ok ilo' /\
    cbuf_step sh (2 ^ i) ilo ilo'.
Proof.
  intros Hi. unfold upload_user_cbuf.
  set (cur := sh_get (ilo_cbuf ilo) sh) in *.
  unfold Elements in Hi.
  destruct (cbuf_cso cur !! Z.to_nat i) as [cb|] eqn:Hcb;
    [| apply lookup_ge_None in Hcb; lia].
  assert (Hload : load (cbuf_cso cur) i = Ok cb)
    by (apply load_Ok; split; [lia | exact Hcb]).
  rewrite Hload. simpl.
  assert (Hbit : forall j : nat,
             Z.testbit (2 ^ i) (Z.of_nat j) = bool_decide (j = Z.to_nat i)).
  { intros j. rewrite Z.pow2_bits_eqb by lia.
    destruct (Z.eqb_spec i (Z.of_nat j)) as [He|Hne].
    - symmetry. apply bool_decide_eq_true. lia.
    - symmetry. apply bool_decide_eq_false. lia. }
  destruct (cbuf_user_buffer cb) as [user_buffer|] eqn:Huser.
  - unfold u_upload_data, upload. cbv zeta. unfold store.
    change (Elements (cbuf_cso cur)) with (Z.of_nat (length (cbuf_cso cur))).
    destruct (Z.leb_spec 0 i) as [_|Hneg]; [| lia].
    destruct (Z.ltb_spec i (Z.of_nat (length (cbuf_cso cur)))) as [_|Hge];
      [| lia].
    simpl. eexists. split; [reflexivity |].
    unfold cbuf_step. simpl.
    split; [intros sh' Hne; apply sh_get_set_ne; exact Hne |].
    rewrite !sh_get_set_eq. simpl.
    split; [reflexivity |]. split; [reflexivity |].
    split; [apply length_insert |].
    intros j cb0 Hj. rewrite Hbit.
    destruct (decide (j = Z.to_nat i)) as [->|Hne].
    + rewrite bool_decide_eq_true_2 by reflexivity.
      rewrite list_lookup_insert_eq by lia.
      eexists. split; [reflexivity |].
      assert (cb0 = cb) as -> by (fold cur in Hj; congruence).
      unfold cbuf_slot_resolved. rewrite Huser. simpl.
      split; [discriminate | auto].
    + rewrite bool_decide_eq_false_2 by exact Hne.
      rewrite list_lookup_insert_ne by congruence.
      exists cb0. auto.
  - eexists. split; [reflexivity |].
    unfold cbuf_step.
    split; [reflexivity |]. split; [reflexivity |]. split; [reflexivity |].
    split; [reflexivity |].
    intros j cb0 Hj. exists cb0. split; [exact Hj |]. rewrite Hbit.
    destruct (decide (j = Z.to_nat i)) as [->|Hne].
    + rewrite bool_decide_eq_true_2 by reflexivity.
      assert (cb0 = cb) as -> by (fold cur in Hj; congruence).
      unfold cbuf_slot_resolved. rewrite Huser. reflexivity.
    + rewrite bool_decide_eq_false_2 by exact Hne. reflexivity.
Qed.

(** The inner loop over the enabled mask completes and resolves every
    enabled slot. *)
Lemma upload_loop_spec (sh : pipe_shader_type) (n : nat) (lo mask : Z)
    (ilo : ilo_context) :
  0 <= lo -> lo + Z.of_nat n <= 32 -> 0 <= mask ->
  bits_in mask lo (lo + Z.of_nat n) ->
  bits_in mask 0 (Elements (cbuf_cso (sh_get (ilo_cbuf ilo) sh))) ->
  exists ilo',
    bit_scan_loop n mask (upload_user_cbuf staged sh) ilo = Ok ilo' /\
    cbuf_step sh mask ilo ilo'.
Proof.
  revert lo mask ilo.
  induction n as [|n IH]; intros lo mask ilo Hlo Hhi Hnn Hin Hslots.
  - replace (lo + Z.of_nat 0) with lo in Hin by lia.
    apply bits_in_empty in Hin; [| exact Hnn]. subst mask.
    exists ilo. split; [reflexivity |].
    unfold cbuf_step, cbufs_resolved.
    repeat (split; [reflexivity |]).
    intros j cb Hj. exists cb. rewrite Z.bits_0. auto.
  - rewrite bit_scan_loop_S.
    destruct (Z.eqb_spec mask 0) as [->|Hnz].
    { exists ilo. split; [reflexivity |].
      unfold cbuf_step, cbufs_resolved.
      repeat (split; [reflexivity |]).
      intros j cb Hj. exists cb. rewrite Z.bits_0. auto. }
    destruct (u_bit_scan_spec mask lo (lo + Z.of_nat (S n)) Hnn Hnz Hlo Hhi Hin)
      as (Hi & Hset & Hnn' & Hin' & Hbits).
    destruct (u_bit_scan mask) as [i mask']. cbn [fst snd] in *.
    destruct (upload_user_cbuf_spec sh i ilo) as (ilo1 & Hbody & Hstep1).
    { pose proof (Hslots _ Hset). lia. }
    rewrite Hbody. simpl.
    destruct Hstep1 as (Hother1 & Hmask1 & Hcount1 & Hlen1 & Hres1).
    destruct (IH (lo + 1) mask' ilo1) as (ilo' & Hloop & Hstep2);
      [lia | lia | exact Hnn' | | |].
    { replace (lo + 1 + Z.of_nat n) with (lo + Z.of_nat (S n)) by lia.
      exact Hin'. }
    { intros j Hj. unfold Elements. rewrite Hlen1.
      rewrite Hbits in Hj. apply andb_true_iff in Hj.
      apply (Hslots j). apply Hj. }
    exists ilo'. split; [exact Hloop |].
    destruct Hstep2 as (Hother2 & Hmask2 & Hcount2 & Hlen2 & Hres2).
    split; [intros sh' Hne; rewrite Hother2, Hother1 by exact Hne; reflexivity |].
    split; [congruence |]. split; [congruence |].
    split; [congruence |].
    intros j cb Hj.
    destruct (Hres1 j cb Hj) as (cb1 & Hj1 & Hcb1).
    destruct (Hres2 j cb1 Hj1) as (cb' & Hj' & Hcb').
    exists cb'. split; [exact Hj' |].
    rewrite Hbits in Hcb'.
    rewrite Z.pow2_bits_eqb in Hcb1 by lia.
    destruct (Z.eqb_spec i (Z.of_nat j)) as [He|Hne].
    + subst i. rewrite Hset. rewrite Hset in Hcb'.
      rewrite Z.eqb_refl in Hcb'. simpl in Hcb'. subst cb'. exact Hcb1.
    + subst cb1.
      destruct (Z.eqb_spec (Z.of_nat j) i) as [He|_]; [congruence |].
      rewrite andb_true_r in Hcb'. exact Hcb'.
Qed.

End ConstantBuffers.

Section ConstantBufferPhase.

Variable staged : list upload_call -> upload_call -> Z * pipe_resource.

(** The body of the outer loop of [finalize_constant_buffers]. *)
Let stage (sh : pipe_shader_type) (ilo : ilo_context) : result ilo_context :=
  let enabled_mask := cbuf_enabled_mask (sh_get (ilo_cbuf ilo) sh) in
  let* ilo :=
    bit_scan_loop UINT_BITS enabled_mask (upload_user_cbuf staged sh) ilo in
  let cur := sh_get (ilo_cbuf ilo) sh in
  Ok (set_cbuf
        (sh_set (ilo_cbuf ilo) sh
           {| cbuf_cso := cbuf_cso cur;
              cbuf_enabled_mask := cbuf_enabled_mask cur;
              cbuf_count := util_last_bit (cbuf_enabled_mask cur) |})
        ilo).

Lemma stage_spec (sh : pipe_shader_type) (ilo : ilo_context) :
  cbuf_wf (sh_get (ilo_cbuf ilo) sh) ->
  exists ilo',
    stage sh ilo = Ok ilo' /\
    cbuf_stage_resolved (sh_get (ilo_cbuf ilo) sh) (sh_get (ilo_cbuf ilo') sh) /\
    forall sh', sh' <> sh ->
      sh_get (ilo_cbuf ilo') sh' = sh_get (ilo_cbuf ilo) sh'.
Proof.
  intros [Hu Hslots]. unfold stage.
  assert (H32 : 0 + Z.of_nat UINT_BITS <= 32) by (unfold UINT_BITS; lia).
  destruct (upload_loop_spec staged sh UINT_BITS 0 _ ilo (Z.le_refl 0) H32
              (proj1 Hu) (is_uint_bits_in _ Hu) Hslots)
    as (ilo1 & Hloop & Hother & Hmask & Hcount & Hres).
  rewrite Hloop. simpl. eexists. split; [reflexivity |]. simpl. split.
  - rewrite sh_get_set_eq. unfold cbuf_stage_resolved. simpl.
    rewrite Hmask. auto.
  - intros sh' Hne. rewrite sh_get_set_ne by exact Hne. apply Hother, Hne.
Qed.

Lemma cbufs_resolved_length (mask : Z) (cso cso' : list ilo_cbuf_cso) :
  cbufs_resolved mask cso cso' -> length cso' = length cso.
Proof. intros [H _]. exact H. Qed.

Lemma for_each_stage_spec (shs : list pipe_shader_type) (ilo : ilo_context) :
  NoDup shs ->
  (forall sh, cbuf_wf (sh_get (ilo_cbuf ilo) sh)) ->
  exists ilo',
    for_each shs stage ilo = Ok ilo' /\
    (forall sh, In sh shs ->
       cbuf_stage_resolved (sh_get (ilo_cbuf ilo) sh)
         (sh_get (ilo_cbuf ilo') sh)) /\
    (forall sh, ~ In sh shs ->
       sh_get (ilo_cbuf ilo') sh = sh_get (ilo_cbuf ilo) sh).
Proof.
  revert ilo. induction shs as [|x xs IH]; intros ilo Hnd Hwf.
  - exists ilo. split; [reflexivity |]. split; [intros sh [] | reflexivity].
  - apply NoDup_cons in Hnd. destruct Hnd as [Hx Hnd].
    destruct (stage_spec x ilo (Hwf x)) as (ilo1 & Hstage & Hres & Hother).
    destruct (IH ilo1 Hnd) as (ilo' & Hrest & Hin & Hout).
    { intros sh. destruct (decide (sh = x)) as [->|Hne].
      - destruct Hres as (Hmask & _ & Hcso).
        destruct (Hwf x) as [Hu Hslots].
        unfold cbuf_wf. rewrite Hmask. split; [exact Hu |].
        unfold Elements. rewrite (cbufs_resolved_length _ _ _ Hcso).
        exact Hslots.
      - rewrite Hother by exact Hne. apply Hwf. }
    exists ilo'. split; [simpl; rewrite Hstage; exact Hrest |]. split.
    + intros sh [<-|Hsh].
      * rewrite Hout; [exact Hres |].
        intros Hc. apply Hx. apply list_elem_of_In. exact Hc.
      * rewrite <- (Hother sh); [apply Hin; exact Hsh |].
        intros ->. apply Hx. apply list_elem_of_In. exact Hsh.
    + intros sh Hsh. rewrite Hout by (intros Hc; apply Hsh; right; exact Hc).
      apply Hother. intros ->. apply Hsh. left. reflexivity.
Qed.

Lemma cbufs_committed_refl (ilo : ilo_context) : cbufs_committed staged ilo ilo.
Proof.
  split; [exists []; symmetry; apply app_nil_r |].
  intros sh j cb Hcb. exists cb. auto.
Qed.

Lemma cbufs_committed_trans (a b c : ilo_context) :
  cbufs_committed staged a b -> cbufs_committed staged b c ->
  cbufs_committed staged a c.
Proof.
  intros [[s1 Hs1] H1] [[s2 Hs2] H2]. split.
  - exists (s1 ++ s2). rewrite Hs2, Hs1. symmetry. apply app_assoc.
  - intros sh j cb Hcb.
    destruct (H1 sh j cb Hcb) as (cb1 & Hcb1 & Hstep1).
    destruct (H2 sh j cb1 Hcb1) as (cb2 & Hcb2 & Hstep2).
    exists cb2. split; [exact Hcb2 |].
    destruct Hstep1 as [->|(p & before & after & Hp & Hlog & Heq)].
    + destruct Hstep2 as [->|(p & before & after & Hp & Hlog & Heq)];
        [left; reflexivity |].
      right. exists p, (s1 ++ before), after.
      split; [exact Hp |]. cbv zeta in *.
      rewrite Hs1 in Hlog, Heq.
      repeat rewrite <- app_assoc in Hlog. repeat rewrite <- app_assoc in Heq.
      repeat rewrite <- app_assoc. split; [exact Hlog | exact Heq].
    + destruct Hstep2 as [->|(p' & _ & _ & Hp' & _)].
      * right. exists p, before, (after ++ s2).
        split; [exact Hp |]. cbv zeta in *.
        split; [| exact Heq].
        rewrite Hs2, Hlog. repeat rewrite <- app_assoc. reflexivity.
      * rewrite Heq in Hp'. discriminate Hp'.
Qed.

(** One turn of the inner loop commits the slot it visits, if its span is
    pending, and touches no other. *)
Lemma upload_user_cbuf_commits (sh : pipe_shader_type) (i : Z)
    (ilo ilo' : ilo_context) :
  upload_user_cbuf staged sh i ilo = Ok ilo' -> cbufs_committed staged ilo ilo'.
Proof.
  unfold upload_user_cbuf. intros H.
  apply bind_Ok in H. destruct H as (cbuf & Hload & H).
  apply load_Ok in Hload. destruct Hload as [Hi Hcbuf].
  destruct (cbuf_user_buffer cbuf) as [p|] eqn:Hp.
  - unfold u_upload_data, upload in H. cbv zeta in H.
    apply bind_Ok in H. destruct H as (cso & Hstore & H).
    apply store_Ok in Hstore. destruct Hstore as [_ ->].
    injection H as <-. split.
    + exists [UploadData 0 (cbuf_user_buffer_size cbuf) p]. reflexivity.
    + intros sh' j cb Hcb.
      cbn [ilo_cbuf ilo_uploader set_cbuf set_uploader set_refcnt].
      destruct (decide (sh' = sh)) as [->|Hne].
      * rewrite sh_get_set_eq. cbn [cbuf_cso].
        destruct (decide (j = Z.to_nat i)) as [->|Hj].
        -- rewrite Hcbuf in Hcb. injection Hcb as <-.
           eexists. split.
           ++ apply list_lookup_insert_eq. apply lookup_lt_Some in Hcbuf.
              exact Hcbuf.
           ++ right. exists p, [], []. split; [exact Hp |]. cbv zeta.
              rewrite app_nil_r. split; reflexivity.
        -- exists cb. split; [| left; reflexivity].
           rewrite list_lookup_insert_ne by congruence. exact Hcb.
      * rewrite sh_get_set_ne by exact Hne. exists cb. auto.
  - injection H as <-. apply cbufs_committed_refl.
Qed.

Lemma stage_commits (sh : pipe_shader_type) (ilo ilo' : ilo_context) :
  stage sh ilo = Ok ilo' -> cbufs_committed staged ilo ilo'.
Proof.
  unfold stage. intros H.
  apply bind_Ok in H. destruct H as (ilo1 & Hloop & H). injection H as <-.
  apply (cbufs_committed_trans ilo ilo1).
  - apply (bit_scan_loop_preserves (cbufs_committed staged ilo) _ _ _ _ _)
      with (2 := Hloop); [| apply cbufs_committed_refl].
    intros j t t' Ht Pt.
    apply (cbufs_committed_trans ilo t t' Pt).
    apply (upload_user_cbuf_commits sh j t t' Ht).
  - split; [exists []; symmetry; apply app_nil_r |].
    intros sh' j cb Hcb. exists cb. split; [| left; reflexivity].
    cbn [ilo_cbuf set_cbuf].
    destruct (decide (sh' = sh)) as [->|Hne].
    + rewrite sh_get_set_eq. exact Hcb.
    + rewrite sh_get_set_ne by exact Hne. exact Hcb.
Qed.

Lemma stages_commit (shs : list pipe_shader_type) (ilo ilo' : ilo_context) :
  for_each shs stage ilo = Ok ilo' -> cbufs_committed staged ilo ilo'.
Proof.
  intros H.
  apply (for_each_preserves (cbufs_committed staged ilo) _ _ _ _)
    with (2 := H); [| apply cbufs_committed_refl].
  intros sh t t' Ht Pt.
  apply (cbufs_committed_trans ilo t t' Pt). apply (stage_commits sh t t' Ht).
Qed.

(** C6: when the constant-buffer dirty bit is set and every enabled mask
    is an [unsigned] whose set bits are slots of its stage, the
    constant-buffer phase completes and, for every shader stage, each
    enabled slot that held a pending client span has been committed: its
    span went to the upload manager in one [u_upload_data] request that
    is in the record, the slot holds the resource the manager answered
    with and a view rebuilt over it at the answered offset, and the span
    is cleared (null pointer, size 0).  Every other slot is as before.
    The count of the stage is 0 when the mask is empty and otherwise one
    more than the index of the highest set bit of the mask. *)
Theorem finalize_constant_buffers_resolves (ilo : ilo_context) :
  is_dirty (ilo_dirty ilo) ILO_STATE_CONSTANT_BUFFER = true ->
  (forall sh, cbuf_wf (sh_get (ilo_cbuf ilo) sh)) ->
  exists ilo',
    finalize_constant_buffers staged ilo = Ok ilo' /\
    forall sh : pipe_shader_type,
      let old := sh_get (ilo_cbuf ilo) sh in
      let new := sh_get (ilo_cbuf ilo') sh in
      let mask := cbuf_enabled_mask old in
      cbuf_enabled_mask new = mask /\
      (forall (i : nat) (cb : ilo_cbuf_cso),
          Z.testbit mask (Z.of_nat i) = true ->
          cbuf_cso old !! i = Some cb ->
          cbuf_user_buffer cb <> None ->
          exists cb',
            cbuf_cso new !! i = Some cb' /\
            cbuf_slot_committed staged (ilo_uploader ilo) (ilo_uploader ilo')
              cb cb') /\
      (forall (i : nat) (cb : ilo_cbuf_cso),
          cbuf_cso old !! i = Some cb ->
          Z.testbit mask (Z.of_nat i) = false \/ cbuf_user_buffer cb = None ->
          cbuf_cso new !! i = Some cb) /\
      (mask = 0 -> cbuf_count new = 0) /\
      (mask <> 0 ->
       Z.testbit mask (cbuf_count new - 1) = true /\
       forall j, cbuf_count new <= j -> Z.testbit mask j = false).
Proof.
  intros Hdirty Hwf. unfold finalize_constant_buffers.
  rewrite dirty_test_ILO_DIRTY, Hdirty. cbn [negb].
  destruct (for_each_stage_spec PIPE_SHADER_TYPES ilo)
    as (ilo' & Hrun & Hin & _).
  { unfold PIPE_SHADER_TYPES.
    repeat (apply NoDup_cons_2;
            [rewrite list_elem_of_In; simpl; intuition discriminate |]).
    apply NoDup_nil_2. }
  { exact Hwf. }
  exists ilo'. split; [exact Hrun |].
  destruct (stages_commit PIPE_SHADER_TYPES ilo ilo' Hrun) as [_ Hcommit].
  intros sh. cbv zeta.
  assert (Hsh : In sh PIPE_SHADER_TYPES) by (destruct sh; simpl; auto).
  destruct (Hin sh Hsh) as (Hmask & Hcount & _ & Hres).
  destruct (util_last_bit_spec (cbuf_enabled_mask (sh_get (ilo_cbuf ilo) sh))
              (proj1 (proj1 (Hwf sh)))) as [Hzero Hlast].
  split; [exact Hmask |]. split; [| split].
  - intros i cb Hbit Hcb Huser.
    destruct (Hres i cb Hcb) as (cb' & Hcb' & Hslot).
    destruct (Hcommit sh i cb Hcb) as (cb'' & Hcb'' & Hstep).
    rewrite Hcb' in Hcb''. injection Hcb'' as <-.
    exists cb'. split; [exact Hcb' |].
    destruct Hstep as [->|Hstep]; [| exact Hstep].
    rewrite Hbit in Hslot. unfold cbuf_slot_resolved in Hslot.
    destruct (cbuf_user_buffer cb) eqn:Hp; [| contradiction].
    destruct Hslot as (_ & Hnone & _). discriminate Hnone.
  - intros i cb Hcb Hcase.
    destruct (Hres i cb Hcb) as (cb' & Hcb' & Hslot).
    rewrite Hcb'. f_equal.
    destruct (Z.testbit _ (Z.of_nat i)); [| exact Hslot].
    destruct Hcase as [Hf|Hnone]; [discriminate Hf |].
    unfold cbuf_slot_resolved in Hslot. rewrite Hnone in Hslot. exact Hslot.
  - rewrite Hcount. split; [exact Hzero | exact Hlast].
Qed.

End ConstantBufferPhase.

Lemma bits_below (mask n : Z) : 0 <= n -> 0 <= mask < 2 ^ n -> bits_in mask 0 n.
Proof.
  intros Hn [Hlo Hhi] j Hj.
  destruct (Z.ltb_spec j 0) as [Hneg|Hpos].
  { rewrite Z.testbit_neg_r in Hj by exact Hneg. discriminate Hj. }
  split; [exact Hpos |].
  destruct (Z.ltb_spec j n) as [Hlt|Hge]; [exact Hlt |].
  assert (Ha : mask = 0 \/ 0 < mask) by lia. destruct Ha as [->|Ha].
  { rewrite Z.bits_0 in Hj. discriminate Hj. }
  rewrite Z.bits_above_log2 in Hj; [discriminate Hj | lia |].
  apply Z.log2_lt_pow2; [exact Ha |].
  apply Z.lt_le_trans with (2 ^ n); [exact Hhi |].
  apply Z.pow_le_mono_r; lia.
Qed.

Lemma pending_cbuf_context_wf (sh : pipe_shader_type) :
  cbuf_wf (sh_get (ilo_cbuf pending_cbuf_context) sh).
Proof.
  destruct sh; (split; [| apply bits_below]);
    vm_compute; repeat split; (discriminate || reflexivity).
Qed.

Lemma finalize_constant_buffers_resolves_witness :
  is_dirty (ilo_dirty pending_cbuf_context) ILO_STATE_CONSTANT_BUFFER = true /\
  (forall sh, cbuf_wf (sh_get (ilo_cbuf pending_cbuf_context) sh)) /\
  exists ilo',
    finalize_constant_buffers (staged_at 0) pending_cbuf_context = Ok ilo' /\
    forall sh : pipe_shader_type,
      let old := sh_get (ilo_cbuf pending_cbuf_context) sh in
      let new := sh_get (ilo_cbuf ilo') sh in
      let mask := cbuf_enabled_mask old in
      cbuf_enabled_mask new = mask /\
      (forall (i : nat) (cb : ilo_cbuf_cso),
          Z.testbit mask (Z.of_nat i) = true ->
          cbuf_cso old !! i = Some cb ->
          cbuf_user_buffer cb <> None ->
          exists cb',
            cbuf_cso new !! i = Some cb' /\
            cbuf_slot_committed (staged_at 0)
              (ilo_uploader pending_cbuf_context) (ilo_uploader ilo') cb cb') /\
      (forall (i : nat) (cb : ilo_cbuf_cso),
          cbuf_cso old !! i = Some cb ->
          Z.testbit mask (Z.of_nat i) = false \/ cbuf_user_buffer cb = None ->
          cbuf_cso new !! i = Some cb) /\
      (mask = 0 -> cbuf_count new = 0) /\
      (mask <> 0 ->
       Z.testbit mask (cbuf_count new - 1) = true /\
       forall j, cbuf_count new <= j -> Z.testbit mask j = false).
Proof.
  split; [reflexivity |]. split; [exact pending_cbuf_context_wf |].
  exact (finalize_constant_buffers_resolves (staged_at 0) pending_cbuf_context
           eq_refl pending_cbuf_context_wf).
Defined.

(** On that scenario the count of the fragment stage becomes 3 and slot 2
    holds the staged resource. *)
Example finalize_constant_buffers_scenario :
  exists ilo',
    finalize_constant_buffers (staged_at 0) pending_cbuf_context = Ok ilo' /\
    cbuf_count (sh_get (ilo_cbuf ilo') PIPE_SHADER_FRAGMENT) = 3 /\
    (cbuf_resource <$>
     cbuf_cso (sh_get (ilo_cbuf ilo') PIPE_SHADER_FRAGMENT) !! 2%nat)
    = Some (Some (buffer_resource 100)).
Proof. eexists. split; [vm_compute; reflexivity |]. split; reflexivity. Qed.

(** On that scenario the one request is the 64 bytes of the span, and slot
    2 of the fragment stage holds what the manager answered. *)
Example finalize_constant_buffers_scenario_request :
  exists ilo',
    finalize_constant_buffers (staged_at 0) pending_cbuf_context = Ok ilo' /\
    ilo_uploader ilo' = [UploadData 0 64 4096] /\
    cbuf_cso (sh_get (ilo_cbuf ilo') PIPE_SHADER_FRAGMENT) !! 2%nat
    = Some {| cbuf_resource := Some (buffer_resource 100);
              cbuf_surface :=
                ilo_gpe_init_view_surface_for_buffer
                  (Some (buffer_resource 100)) 0 64 16
                  PIPE_FORMAT_R32G32B32A32_FLOAT false false;
              cbuf_user_buffer := None;
              cbuf_user_buffer_size := 0 |}.
Proof. eexists. split; [vm_compute; reflexivity |]. split; reflexivity. Qed.

Lemma dirty_set_only_grows_witness :
  let copy_fb :=
    fun (dst src : pipe_framebuffer_state) (refs : refcounts) => (src, refs) in
  let set_vb :=
    fun (dst : list pipe_vertex_buffer) (mask : Z)
        (src : option (list pipe_vertex_buffer)) (start count : Z)
        (refs : refcounts) => (dst, mask, refs) in
  let ilo := ilo_bind_blend_state (calloc_context 4) (Some 5) in
  let op := BindBlendState (Some 5) in
  exists ilo',
    run steady_kernel steady_routing (staged_at 0) copy_fb set_vb op ilo = Ok ilo' /\
    ilo_dirty (ilo_init_states ilo) = ILO_DIRTY_ALL /\
    (forall s : ilo_state, is_dirty (ilo_dirty (ilo_init_states ilo)) s = true) /\
    dirty_subset (ilo_dirty ilo) (ilo_dirty ilo') /\
    (forall s : ilo_state,
        own_state op = Some s -> is_dirty (ilo_dirty ilo') s = true).
Proof.
  intros copy_fb set_vb ilo op.
  eexists. split; [reflexivity |].
  exact (dirty_set_only_grows steady_kernel steady_routing (staged_at 0)
           copy_fb set_vb op ilo _ eq_refl).
Defined.

(** ** Slot arrays *)

Lemma slot_assign_writes {A : Type} (off : Z) (new : option A) :
  writes_slot (fun l : list (option A) => l) off (fun _ v => v = new)
    (fun i dst => slot_assign new (off + i) dst).
Proof.
  intros j s s' H. apply store_Ok in H. destruct H as [Hr ->].
  split; [exact Hr |]. exists new. auto.
Qed.

Lemma slot_assign_load_writes {A : Type} (off : Z) (f : Z -> Z)
    (src : list (option A)) :
  writes_slot (fun l : list (option A) => l) off
    (fun j v => load src (f j) = Ok v)
    (fun i dst => let* s := load src (f i) in slot_assign s (off + i) dst).
Proof.
  intros j s s' H. apply bind_Ok in H. destruct H as (v & Hv & H).
  apply store_Ok in H. destruct H as [Hr ->].
  split; [exact Hr |]. exists v. auto.
Qed.

Lemma slot_reference_writes {A : Type} (obj : A -> object) (off : Z)
    (new : option A) :
  writes_slot (fun st : list (option A) * refcounts => fst st) off
    (fun _ v => v = new)
    (fun i st => slot_reference obj new (off + i) st).
Proof.
  intros j s s' H. unfold slot_reference in H.
  apply bind_Ok in H. destruct H as (old & _ & H).
  apply bind_Ok in H. destruct H as (dst & Hst & H).
  injection H as <-. apply store_Ok in Hst. destruct Hst as [Hr ->].
  split; [exact Hr |]. exists new. auto.
Qed.

Lemma slot_reference_load_writes {A : Type} (obj : A -> object) (off : Z)
    (f : Z -> Z) (src : list (option A)) :
  writes_slot (fun st : list (option A) * refcounts => fst st) off
    (fun j v => load src (f j) = Ok v)
    (fun i st =>
       let* s := load src (f i) in slot_reference obj s (off + i) st).
Proof.
  intros j s s' H. apply bind_Ok in H. destruct H as (v & Hv & H).
  unfold slot_reference in H.
  apply bind_Ok in H. destruct H as (old & _ & H).
  apply bind_Ok in H. destruct H as (dst & Hst & H).
  injection H as <-. apply store_Ok in Hst. destruct Hst as [Hr ->].
  split; [exact Hr |]. exists v. auto.
Qed.

(** What a completed loop of such a body leaves: the slots of its range
    hold the values written, the others are untouched, and the range lies
    within the array. *)
Lemma iterate_writes {S A : Type} (proj : S -> list (option A)) (off : Z)
    (val : Z -> option A -> Prop) (body : Z -> S -> result S)
    (n : nat) (i k : Z) (s s' : S) :
  writes_slot proj off val body ->
  iterate n i body s = Ok (k, s') ->
  0 <= off + i ->
  k = i + Z.of_nat n /\
  length (proj s') = length (proj s) /\
  (forall x : Z,
      0 <= x -> x < off + i \/ off + i + Z.of_nat n <= x ->
      proj s' !! Z.to_nat x = proj s !! Z.to_nat x) /\
  (forall j : Z,
      i <= j < i + Z.of_nat n ->
      exists v, val j v /\ proj s' !! Z.to_nat (off + j) = Some v) /\
  (0 < Z.of_nat n -> off + i + Z.of_nat n <= Elements (proj s)).
Proof.
  intros Hw. revert i s.
  induction n as [|n IH]; intros i s H Hoff.
  - simpl in H. injection H as <- <-.
    split; [lia |]. split; [reflexivity |]. split; [reflexivity |].
    split; [intros j Hj; lia | lia].
  - simpl in H. apply bind_Ok in H. destruct H as (t & Ht & H).
    destruct (Hw _ _ _ Ht) as (Hr & v & Hv & Hproj).
    destruct (IH (i + 1) t H) as (Hk & Hlen & Hout & Hin & Hbound); [lia |].
    assert (Hlt : length (proj t) = length (proj s))
      by (rewrite Hproj; apply length_insert).
    unfold Elements in *.
    split; [lia |]. split; [congruence |]. split; [| split].
    + intros x Hx Hrange. rewrite Hout by lia. rewrite Hproj.
      apply list_lookup_insert_ne. lia.
    + intros j Hj. destruct (Z.eq_dec j i) as [->|Hne].
      * exists v. split; [exact Hv |].
        rewrite Hout by lia. rewrite Hproj.
        apply list_lookup_insert_eq. lia.
      * apply Hin. lia.
    + intros _. destruct n as [|n]; [lia |].
      rewrite <- Hlt. specialize (Hbound ltac:(lia)). lia.
Qed.

Lemma for_lt_writes {S A : Type} (proj : S -> list (option A)) (off : Z)
    (val : Z -> option A -> Prop) (body : Z -> S -> result S)
    (i hi k : Z) (s s' : S) :
  writes_slot proj off val body ->
  for_lt i hi body s = Ok (k, s') ->
  0 <= off + i ->
  k = Z.max i hi /\
  length (proj s') = length (proj s) /\
  (forall x : Z,
      0 <= x -> x < off + i \/ off + Z.max i hi <= x ->
      proj s' !! Z.to_nat x = proj s !! Z.to_nat x) /\
  (forall j : Z,
      i <= j < hi -> exists v, val j v /\ proj s' !! Z.to_nat (off + j) = Some v) /\
  (i < hi -> off + hi <= Elements (proj s)).
Proof.
  intros Hw H Hoff. unfold for_lt in H.
  destruct (iterate_writes proj off val body _ _ _ _ _ Hw H Hoff)
    as (Hk & Hlen & Hout & Hin & Hbound).
  split; [lia |]. split; [exact Hlen |]. split; [| split].
  - intros x Hx Hrange. apply Hout; lia.
  - intros j Hj. apply Hin. lia.
  - intros Hlt. specialize (Hbound ltac:(lia)). lia.
Qed.

Lemma trim_trailing_Ok {A : Type} (slots : list (option A)) (n : nat) (c : Z) :
  trim_trailing slots n = Ok c ->
  0 <= c <= Z.of_nat n /\
  slots_trimmed slots c /\
  forall i : Z, c <= i < Z.of_nat n -> ~ occupied slots i.
Proof.
  revert c. induction n as [|n IH]; intros c H; cbn [trim_trailing] in H.
  - injection H as <-. split; [lia |]. split; [left; reflexivity |].
    intros i Hi. lia.
  - destruct (slots !! n) as [[x|]|] eqn:Hn; [| | discriminate H].
    + injection H as <-. split; [lia |]. split.
      * right. split; [lia |]. exists x.
        replace (Z.to_nat (Z.of_nat (S n) - 1)) with n by lia.
        exact Hn.
      * intros i Hi. lia.
    + destruct (IH c H) as (Hc & Ht & Hempty).
      split; [lia |]. split; [exact Ht |].
      intros i Hi [_ (x & Hx)].
      destruct (Z.eq_dec i (Z.of_nat n)) as [->|Hne].
      * rewrite Nat2Z.id in Hx. congruence.
      * apply (Hempty i); [lia |]. split; [lia |]. exists x. exact Hx.
Qed.

(** The three loops of the replace-range mode, on any array: clear
    [[0, start)], copy into [[start, n)], clear up to the old count; the
    new count is [n]. *)
Lemma replace_range_slots {S A : Type} (proj : S -> list (option A))
    (val : Z -> option A -> Prop) (clear copy : Z -> S -> result S)
    (start n old i1 i2 i3 : Z) (s0 s1 s2 s3 : S) :
  writes_slot proj 0 (fun _ v => v = None) clear ->
  writes_slot proj 0 val copy ->
  for_lt 0 start clear s0 = Ok (i1, s1) ->
  for_lt i1 n copy s1 = Ok (i2, s2) ->
  for_lt i2 old clear s2 = Ok (i3, s3) ->
  0 <= start -> 0 <= n <= Elements (proj s0) ->
  slots_bounded (proj s0) old ->
  slots_bounded (proj s3) n /\
  (n = 0 \/ (start < n /\ forall v, val (n - 1) v -> v <> None) ->
   slots_trimmed (proj s3) n).
Proof.
  intros Hclear Hcopy H1 H2 H3 Hstart Hn (Hold & Hsize & Hempty).
  destruct (for_lt_writes proj 0 _ clear _ _ _ _ _ Hclear H1)
    as (Hi1 & Hlen1 & Hout1 & Hin1 & _); [lia |].
  assert (Ei1 : i1 = start) by lia. subst i1.
  destruct (for_lt_writes proj 0 _ copy _ _ _ _ _ Hcopy H2)
    as (Hi2 & Hlen2 & Hout2 & Hin2 & _); [lia |].
  destruct (for_lt_writes proj 0 _ clear _ _ _ _ _ Hclear H3)
    as (Hi3 & Hlen3 & Hout3 & Hin3 & _); [lia |].
  unfold slots_bounded, Elements in *.
  split.
  - split; [rewrite Hlen3, Hlen2, Hlen1; exact Hn |].
    split; [rewrite Hlen3, Hlen2, Hlen1; exact Hsize |].
    intros x Hx [Hx0 (h & Hh)].
    destruct (Z_lt_le_dec x (Z.max i2 old)) as [Hlt|Hge].
    + destruct (Z_lt_le_dec x i2) as [Hlt2|Hge2].
      * (* below the third loop: only possible under the first *)
        rewrite Hout3 in Hh by lia.
        destruct (Z_lt_le_dec x start) as [Hlts|Hges]; [| lia].
        rewrite Hout2 in Hh by lia.
        destruct (Hin1 x ltac:(lia)) as (v & -> & Hv).
        rewrite Z.add_0_l in Hv. congruence.
      * destruct (Hin3 x ltac:(lia)) as (v & -> & Hv).
        rewrite Z.add_0_l in Hv. congruence.
    + rewrite Hout3 in Hh by lia. rewrite Hout2 in Hh by lia.
      destruct (Z_lt_le_dec x start) as [Hlts|Hges].
      * destruct (Hin1 x ltac:(lia)) as (v & -> & Hv).
        rewrite Z.add_0_l in Hv. congruence.
      * rewrite Hout1 in Hh by lia.
        apply (Hempty x); [lia |]. split; [lia |]. exists h. exact Hh.
  - intros [->|[Hlt Hval]]; [left; reflexivity |].
    right. split; [lia |].
    destruct (Hin2 (n - 1) ltac:(lia)) as (v & Hv & Hl).
    rewrite Z.add_0_l in Hl.
    destruct v as [h|]; [| exfalso; apply (Hval None Hv); reflexivity].
    exists h. rewrite Hout3 by lia. exact Hl.
Qed.

(** The loop and the trim of the sparse-update mode, on any array. *)
Lemma sparse_update_slots {S A : Type} (proj : S -> list (option A))
    (val : Z -> option A -> Prop) (body : Z -> S -> result S)
    (start count old k : Z) (s0 s1 : S) :
  writes_slot proj start val body ->
  for_lt 0 count body s0 = Ok (k, s1) ->
  is_uint start -> is_uint count ->
  uadd start count <= Elements (proj s0) ->
  slots_bounded (proj s0) old ->
  uadd start count = start + count /\
  (forall c,
      old <= start + count ->
      trim_trailing (proj s1) (Z.to_nat (start + count)) = Ok c ->
      slots_bounded (proj s1) c /\ slots_trimmed (proj s1) c) /\
  (start + count < old ->
   slots_bounded (proj s1) old /\
   (slots_trimmed (proj s0) old -> slots_trimmed (proj s1) old)).
Proof.
  intros Hw H [Hs0 Hs1] [Hc0 Hc1] Hassert (Hold & Hsize & Hempty).
  destruct (for_lt_writes proj start _ body _ _ _ _ _ Hw H)
    as (_ & Hlen & Hout & _ & Hbound); [lia |].
  unfold slots_bounded, Elements in *.
  assert (Hwrap : uadd start count = start + count).
  { unfold uadd, wrap32. apply Z.mod_small. lia. }
  rewrite Hwrap in Hassert.
  split; [exact Hwrap |]. split.
  - intros c Hle Htrim.
    destruct (trim_trailing_Ok _ _ _ Htrim) as (Hc & Ht & Hgap).
    split; [| exact Ht].
    split; [rewrite Hlen; lia |]. split; [rewrite Hlen; exact Hsize |].
    intros x Hx Hocc.
    destruct (Z_lt_le_dec x (start + count)) as [Hlt|Hge].
    + apply (Hgap x); [lia | exact Hocc].
    + destruct Hocc as [Hx0 (h & Hh)].
      rewrite Hout in Hh by lia.
      apply (Hempty x); [lia |]. split; [lia |]. exists h. exact Hh.
  - intros Hlt. split.
    + split; [rewrite Hlen; lia |]. split; [rewrite Hlen; exact Hsize |].
      intros x Hx [Hx0 (h & Hh)].
      rewrite Hout in Hh by lia.
      apply (Hempty x); [lia |]. split; [lia |]. exists h. exact Hh.
    + intros [->|[Hp (h & Hh)]]; [left; reflexivity |].
      right. split; [exact Hp |]. exists h.
      rewrite Hout by lia. exact Hh.
Qed.

Lemma uadd_range (a b : Z) : 0 <= uadd a b < UINT_RANGE.
Proof. unfold uadd, wrap32, UINT_RANGE. apply Z.mod_pos_bound. lia. Qed.

Lemma uadd_comm (a b : Z) : uadd a b = uadd b a.
Proof. unfold uadd. rewrite Z.add_comm. reflexivity. Qed.

Lemma replace_ends_on_handle_cond {A : Type} (start count : Z)
    (src : list (option A)) :
  is_uint start ->
  replace_ends_on_handle start count (Some src) ->
  uadd start count = 0 \/
  (start < uadd start count /\
   forall v, load src (uadd start count - 1 - start) = Ok v -> v <> None).
Proof.
  intros [Hs0 Hs1] [Hz|(Hsum & Hc & x & Hx)]; [left; exact Hz |].
  right.
  assert (Hw : uadd start count = start + count).
  { unfold uadd, wrap32. apply Z.mod_small. lia. }
  rewrite Hw. split; [lia |].
  intros v Hv. apply load_Ok in Hv. destruct Hv as [_ Hv].
  replace (start + count - 1 - start) with (count - 1) in Hv by lia.
  congruence.
Qed.

Lemma bind_samplers_slots (ilo ilo' : ilo_context) (shader : pipe_shader_type)
    (start count : Z) (samplers : option (list (option ilo_sampler_cso)))
    (unbind_old : bool) :
  is_uint start -> is_uint count ->
  bind_samplers ilo shader start count samplers unbind_old = Ok ilo' ->
  let old := sh_get (ilo_sampler ilo) shader in
  slots_bounded (sampler_cso old) (sampler_count old) ->
  exists new,
    ilo' = set_sampler (sh_set (ilo_sampler ilo) shader new) ilo /\
    slots_bounded (sampler_cso new) (sampler_count new) /\
    ((unbind_old = true -> replace_ends_on_handle start count samplers) ->
     slots_trimmed (sampler_cso old) (sampler_count old) ->
     slots_trimmed (sampler_cso new) (sampler_count new)).
Proof.
  intros Hstart Hcount H old Hb. unfold bind_samplers in H. fold old in H.
  apply bind_Ok in H. destruct H as (u & Hassert & H).
  apply assert_Ok, Z.leb_le in Hassert.
  pose proof (uadd_range start count) as Hn.
  destruct unbind_old.
  - (* replace-range *)
    destruct samplers as [src|].
    + apply bind_Ok in H. destruct H as ([i1 s1] & H1 & H).
      apply bind_Ok in H. destruct H as ([i2 s2] & H2 & H).
      apply bind_Ok in H. destruct H as ([i3 s3] & H3 & H).
      injection H as <-. eexists. split; [reflexivity |]. simpl.
      destruct (replace_range_slots (fun l => l)
                  (fun j v => load src (j - start) = Ok v) _ _ _ _ _ _ _ _ _ _ _ _
                  (slot_assign_writes 0 None)
                  (slot_assign_load_writes 0 (fun j => j - start) src)
                  H1 H2 H3 (proj1 Hstart) (conj (proj1 Hn) Hassert) Hb)
        as (Hb' & Ht').
      split; [exact Hb' |].
      intros Hends _. apply Ht'.
      apply replace_ends_on_handle_cond; [exact Hstart | apply Hends; reflexivity].
    + apply bind_Ok in H. destruct H as ([i1 s1] & H1 & H).
      apply bind_Ok in H. destruct H as ([i2 s2] & H2 & H).
      apply bind_Ok in H. destruct H as ([i3 s3] & H3 & H).
      injection H as <-. eexists. split; [reflexivity |]. simpl.
      assert (Hz : 0 <= uadd 0 0 <= Elements (sampler_cso old))
        by (change (uadd 0 0) with 0; unfold Elements; lia).
      destruct (replace_range_slots (fun l => l)
                  (fun j v => load [] (j - 0) = Ok v) _ _ _ _ _ _ _ _ _ _ _ _
                  (slot_assign_writes 0 None)
                  (slot_assign_load_writes 0 (fun j => j - 0) [])
                  H1 H2 H3 (Z.le_refl 0) Hz Hb)
        as (Hb' & Ht').
      split; [exact Hb' |].
      intros _ _. apply Ht'. left. reflexivity.
  - (* sparse-update *)
    apply bind_Ok in H. destruct H as ([k s1] & H1 & H).
    assert (Hsparse :
              exists val body,
                writes_slot (fun l : list (option ilo_sampler_cso) => l)
                  start val body /\
                for_lt 0 count body (sampler_cso old) = Ok (k, s1)).
    { destruct samplers as [src|].
      - exists (fun j v => load src j = Ok v). eexists.
        split; [| exact H1].
        apply (slot_assign_load_writes start (fun j => j) src).
      - exists (fun _ v => v = None). eexists.
        split; [| exact H1].
        apply (slot_assign_writes start None). }
    destruct Hsparse as (val & body & Hw & Hloop).
    destruct (sparse_update_slots _ val body start count (sampler_count old) k
                _ s1 Hw Hloop Hstart Hcount Hassert Hb)
      as (Hwrap & Htrim & Hkeep).
    rewrite (uadd_comm count start) in H. rewrite Hwrap in H.
    destruct (Z.leb_spec (sampler_count old) (start + count)) as [Hle|Hgt].
    + apply bind_Ok in H. destruct H as (c & Hc & H). injection H as <-.
      eexists. split; [reflexivity |]. simpl.
      destruct (Htrim c Hle Hc) as [Hb' Ht'].
      split; [exact Hb' |]. intros _ _. exact Ht'.
    + injection H as <-. eexists. split; [reflexivity |]. simpl.
      destruct (Hkeep Hgt) as [Hb' Ht'].
      split; [exact Hb' |]. intros _. exact Ht'.
Qed.

Lemma set_sampler_views_slots (ilo ilo' : ilo_context) (shader : pipe_shader_type)
    (start count : Z) (views : option (list (option pipe_sampler_view)))
    (unset_old : bool) :
  is_uint start -> is_uint count ->
  set_sampler_views ilo shader start count views unset_old = Ok ilo' ->
  let old := sh_get (ilo_view ilo) shader in
  slots_bounded (view_states old) (view_count old) ->
  exists new refs,
    ilo' = set_view (sh_set (ilo_view ilo) shader new) (set_refcnt refs ilo) /\
    slots_bounded (view_states new) (view_count new) /\
    ((unset_old = true -> replace_ends_on_handle start count views) ->
     slots_trimmed (view_states old) (view_count old) ->
     slots_trimmed (view_states new) (view_count new)).
Proof.
  intros Hstart Hcount H old Hb. unfold set_sampler_views in H. fold old in H.
  apply bind_Ok in H. destruct H as (u & Hassert & H).
  apply assert_Ok, Z.leb_le in Hassert.
  pose proof (uadd_range start count) as Hn.
  destruct unset_old.
  - (* replace-range *)
    destruct views as [src|].
    + apply bind_Ok in H. destruct H as ([i1 s1] & H1 & H).
      apply bind_Ok in H. destruct H as ([i2 s2] & H2 & H).
      apply bind_Ok in H. destruct H as ([i3 s3] & H3 & H).
      injection H as <-. eexists. eexists. split; [reflexivity |]. simpl.
      destruct (replace_range_slots fst
                  (fun j v => load src (j - start) = Ok v) _ _ _ _ _ _ _ _ _ _ _ _
                  (slot_reference_writes ObjSamplerView 0 None)
                  (slot_reference_load_writes ObjSamplerView 0
                     (fun j => j - start) src)
                  H1 H2 H3 (proj1 Hstart) (conj (proj1 Hn) Hassert) Hb)
        as (Hb' & Ht').
      split; [exact Hb' |].
      intros Hends _. apply Ht'.
      apply replace_ends_on_handle_cond; [exact Hstart | apply Hends; reflexivity].
    + apply bind_Ok in H. destruct H as ([i1 s1] & H1 & H).
      apply bind_Ok in H. destruct H as ([i2 s2] & H2 & H).
      apply bind_Ok in H. destruct H as ([i3 s3] & H3 & H).
      injection H as <-. eexists. eexists. split; [reflexivity |]. simpl.
      assert (Hz : 0 <= uadd 0 0 <= Elements (view_states old))
        by (change (uadd 0 0) with 0; unfold Elements; lia).
      destruct (replace_range_slots fst
                  (fun j v => load [] (j - 0) = Ok v) _ _ _ _ _ _ _ _ _ _ _ _
                  (slot_reference_writes ObjSamplerView 0 None)
                  (slot_reference_load_writes ObjSamplerView 0
                     (fun j => j - 0) [])
                  H1 H2 H3 (Z.le_refl 0) Hz Hb)
        as (Hb' & Ht').
      split; [exact Hb' |].
      intros _ _. apply Ht'. left. reflexivity.
  - (* sparse-update *)
    apply bind_Ok in H. destruct H as ([k s1] & H1 & H).
    assert (Hsparse :
              exists val body,
                writes_slot
                  (fun st : list (option pipe_sampler_view) * refcounts => fst st)
                  start val body /\
                for_lt 0 count body (view_states old, ilo_refcnt ilo) = Ok (k, s1)).
    { destruct views as [src|].
      - exists (fun j v => load src j = Ok v). eexists.
        split; [| exact H1].
        apply (slot_reference_load_writes ObjSamplerView start (fun j => j) src).
      - exists (fun _ v => v = None). eexists.
        split; [| exact H1].
        apply (slot_reference_writes ObjSamplerView start None). }
    destruct Hsparse as (val & body & Hw & Hloop).
    destruct (sparse_update_slots _ val body start count (view_count old) k
                _ s1 Hw Hloop Hstart Hcount Hassert Hb)
      as (Hwrap & Htrim & Hkeep).
    rewrite (uadd_comm count start) in H. rewrite Hwrap in H.
    destruct (Z.leb_spec (view_count old) (start + count)) as [Hle|Hgt].
    + apply bind_Ok in H. destruct H as (c & Hc & H). injection H as <-.
      eexists. eexists. split; [reflexivity |]. simpl.
      destruct (Htrim c Hle Hc) as [Hb' Ht'].
      split; [exact Hb' |]. intros _ _. exact Ht'.
    + injection H as <-. eexists. eexists. split; [reflexivity |]. simpl.
      destruct (Hkeep Hgt) as [Hb' Ht'].
      split; [exact Hb' |]. intros _. exact Ht'.
Qed.

Lemma sparse_update_Ok {A : Type} (obj : A -> object) (states states' : list (option A))
    (cur_count count' : Z) (refs refs' : refcounts) (start count : Z)
    (src : option (list (option A))) :
  is_uint start -> is_uint count ->
  sparse_update obj states cur_count refs start count src
  = Ok (states', count', refs') ->
  slots_bounded states cur_count ->
  slots_bounded states' count' /\
  (slots_trimmed states cur_count -> slots_trimmed states' count').
Proof.
  intros Hstart Hcount H Hb. unfold sparse_update in H.
  apply bind_Ok in H. destruct H as (u & Hassert & H).
  apply assert_Ok, Z.leb_le in Hassert.
  apply bind_Ok in H. destruct H as ([k s1] & H1 & H).
  assert (Hsparse :
            exists val body,
              writes_slot (fun st : list (option A) * refcounts => fst st)
                start val body /\
              for_lt 0 count body (states, refs) = Ok (k, s1)).
  { destruct src as [src|].
    - exists (fun j v => load src j = Ok v). eexists.
      split; [| exact H1].
      apply (slot_reference_load_writes obj start (fun j => j) src).
    - exists (fun _ v => v = None). eexists.
      split; [| exact H1].
      apply (slot_reference_writes obj start None). }
  destruct Hsparse as (val & body & Hw & Hloop).
  destruct (sparse_update_slots _ val body start count cur_count k
              _ s1 Hw Hloop Hstart Hcount Hassert Hb)
    as (Hwrap & Htrim & Hkeep).
  rewrite (uadd_comm count start) in H. rewrite Hwrap in H.
  destruct (Z.leb_spec cur_count (start + count)) as [Hle|Hgt].
  - apply bind_Ok in H. destruct H as (c & Hc & H). injection H as <- <- <-.
    destruct (Htrim c Hle Hc) as [Hb' Ht'].
    split; [exact Hb' |]. intros _. exact Ht'.
  - injection H as <- <- <-. apply (Hkeep Hgt).
Qed.

Lemma slot_run_step (call : slot_call) (ilo ilo' : ilo_context) :
  unsigned_args call ->
  slot_run call ilo = Ok ilo' ->
  slot_categories (@slots_bounded) ilo ->
  slot_categories (@slots_bounded) ilo' /\
  (ends_on_handle call ->
   slot_categories (@slots_trimmed) ilo -> slot_categories (@slots_trimmed) ilo').
Proof.
  intros Hargs H (Bs & Bv & Br & Bc & Bg).
  destruct call as [shader start count samplers unbind_old
                   |shader start count views unset_old
                   |start count surfaces|start count surfaces
                   |start count resources];
    simpl in Hargs, H; destruct Hargs as [Hstart Hcount].
  - destruct (bind_samplers_slots _ _ _ _ _ _ _ Hstart Hcount H (Bs shader))
      as (new & -> & Hb & Ht).
    split.
    + refine (conj _ (conj Bv (conj Br (conj Bc Bg)))).
      intros sh. simpl. destruct (decide (sh = shader)) as [->|Hne].
      * rewrite sh_get_set_eq. exact Hb.
      * rewrite sh_get_set_ne by exact Hne. apply Bs.
    + intros Hends (Ts & Tv & Tr & Tc & Tg).
      refine (conj _ (conj Tv (conj Tr (conj Tc Tg)))).
      intros sh. simpl. destruct (decide (sh = shader)) as [->|Hne].
      * rewrite sh_get_set_eq. apply Ht; [| apply Ts].
        intros ->. exact Hends.
      * rewrite sh_get_set_ne by exact Hne. apply Ts.
  - destruct (set_sampler_views_slots _ _ _ _ _ _ _ Hstart Hcount H (Bv shader))
      as (new & refs & -> & Hb & Ht).
    split.
    + refine (conj Bs (conj _ (conj Br (conj Bc Bg)))).
      intros sh. simpl. destruct (decide (sh = shader)) as [->|Hne].
      * rewrite sh_get_set_eq. exact Hb.
      * rewrite sh_get_set_ne by exact Hne. apply Bv.
    + intros Hends (Ts & Tv & Tr & Tc & Tg).
      refine (conj Ts (conj _ (conj Tr (conj Tc Tg)))).
      intros sh. simpl. destruct (decide (sh = shader)) as [->|Hne].
      * rewrite sh_get_set_eq. apply Ht; [| apply Tv].
        intros ->. exact Hends.
      * rewrite sh_get_set_ne by exact Hne. apply Tv.
  - unfold ilo_set_shader_resources in H.
    apply bind_Ok in H. destruct H as ([[states c] refs] & Hup & H).
    injection H as <-.
    destruct (sparse_update_Ok _ _ _ _ _ _ _ _ _ _ Hstart Hcount Hup Br)
      as [Hb Ht].
    split.
    + exact (conj Bs (conj Bv (conj Hb (conj Bc Bg)))).
    + intros _ (Ts & Tv & Tr & Tc & Tg).
      exact (conj Ts (conj Tv (conj (Ht Tr) (conj Tc Tg)))).
  - unfold ilo_set_compute_resources in H.
    apply bind_Ok in H. destruct H as ([[states c] refs] & Hup & H).
    injection H as <-.
    destruct (sparse_update_Ok _ _ _ _ _ _ _ _ _ _ Hstart Hcount Hup Bc)
      as [Hb Ht].
    split.
    + exact (conj Bs (conj Bv (conj Br (conj Hb Bg)))).
    + intros _ (Ts & Tv & Tr & Tc & Tg).
      exact (conj Ts (conj Tv (conj Tr (conj (Ht Tc) Tg)))).
  - unfold ilo_set_global_binding in H.
    apply bind_Ok in H. destruct H as ([[states c] refs] & Hup & H).
    injection H as <-.
    destruct (sparse_update_Ok _ _ _ _ _ _ _ _ _ _ Hstart Hcount Hup Bg)
      as [Hb Ht].
    split.
    + exact (conj Bs (conj Bv (conj Br (conj Bc Hb)))).
    + intros _ (Ts & Tv & Tr & Tc & Tg).
      exact (conj Ts (conj Tv (conj Tr (conj Tc (Ht Tg))))).
Qed.

(** C3, amended: over every sequence of replace-range and sparse-update
    calls that complete, with [unsigned] arguments, on contexts whose slot
    arrays start out well formed: after each call no slot at an index at or
    above the count is occupied; and after each call the count is 0 or the
    slot just below it is occupied, provided every replace-range call of
    the sequence ends on a handle (a null array, a new count of 0, or a
    non-null last handle). *)
Theorem slot_counts_invariant (calls : list slot_call) (ilo ilo' : ilo_context) :
  slot_categories (@slots_bounded) ilo ->
  Forall unsigned_args calls ->
  for_each calls slot_run ilo = Ok ilo' ->
  slot_categories (@slots_bounded) ilo' /\
  (slot_categories (@slots_trimmed) ilo ->
   Forall ends_on_handle calls ->
   slot_categories (@slots_trimmed) ilo').
Proof.
  revert ilo. induction calls as [|call calls IH]; intros ilo Hb Hargs H.
  - simpl in H. injection H as <-. auto.
  - simpl in H. apply bind_Ok in H. destruct H as (ilo1 & Hcall & H).
    apply Forall_cons in Hargs. destruct Hargs as [Harg Hargs].
    destruct (slot_run_step call ilo ilo1 Harg Hcall Hb) as [Hb1 Ht1].
    destruct (IH ilo1 Hb1 Hargs H) as [Hb' Ht'].
    split; [exact Hb' |].
    intros Ht Hends. apply Forall_cons in Hends. destruct Hends as [Hend Hends].
    apply Ht'; [apply Ht1; assumption | exact Hends].
Qed.

Lemma replicate_not_occupied {A : Type} (n : nat) (i : Z) :
  ~ occupied (replicate n (@None A)) i.
Proof.
  intros [_ (x & Hx)]. apply lookup_replicate in Hx. destruct Hx as [Hx _].
  discriminate Hx.
Qed.

Lemma replicate_slots_bounded {A : Type} (n : nat) :
  Z.of_nat n < UINT_RANGE -> slots_bounded (replicate n (@None A)) 0.
Proof.
  intros Hn. unfold slots_bounded, Elements. rewrite length_replicate.
  split; [lia |]. split; [exact Hn |].
  intros i _. apply replicate_not_occupied.
Qed.

(** A context fresh from [CALLOC_STRUCT] satisfies both invariants. *)
Lemma calloc_context_bounded (cap : nat) :
  Z.of_nat cap < UINT_RANGE -> slot_categories (@slots_bounded) (calloc_context cap).
Proof.
  intros Hcap. unfold slot_categories. simpl.
  split; [intros sh; destruct sh; apply replicate_slots_bounded, Hcap |].
  split; [intros sh; destruct sh; apply replicate_slots_bounded, Hcap |].
  repeat (split; [apply replicate_slots_bounded, Hcap |]).
  apply replicate_slots_bounded, Hcap.
Qed.

Lemma calloc_context_trimmed (cap : nat) :
  slot_categories (@slots_trimmed) (calloc_context cap).
Proof.
  unfold slot_categories. simpl.
  split; [intros sh; destruct sh; left; reflexivity |].
  split; [intros sh; destruct sh; left; reflexivity |].
  repeat (split; [left; reflexivity |]). left. reflexivity.
Qed.

Lemma four_fits : Z.of_nat 4 < UINT_RANGE.
Proof. reflexivity. Qed.

Lemma eight_fits : Z.of_nat 8 < UINT_RANGE.
Proof. reflexivity. Qed.

(** C3 does not hold as stated: binding the two fragment samplers
    [{s, NULL}] in replace-range mode (what
    [ilo_bind_fragment_sampler_states(2, {s, NULL})] does) on a fresh
    context leaves the count at 2 with slot 1 empty. *)
Lemma bind_samplers_null_tail_untrimmed :
  let call :=
    CallBindSamplers PIPE_SHADER_FRAGMENT 0 2 (Some [Some 7; None]) true in
  slot_categories (@slots_bounded) (calloc_context 4) /\
  slot_categories (@slots_trimmed) (calloc_context 4) /\
  unsigned_args call /\
  exists ilo',
    for_each [call] slot_run (calloc_context 4) = Ok ilo' /\
    sampler_count (sh_get (ilo_sampler ilo') PIPE_SHADER_FRAGMENT) = 2 /\
    sampler_cso (sh_get (ilo_sampler ilo') PIPE_SHADER_FRAGMENT) !! 1%nat
    = Some None /\
    ~ slot_categories (@slots_trimmed) ilo'.
Proof.
  cbv zeta.
  split; [apply calloc_context_bounded, four_fits |].
  split; [apply calloc_context_trimmed |].
  split; [unfold unsigned_args, is_uint, UINT_RANGE; lia |].
  eexists. split; [reflexivity |]. split; [reflexivity |].
  split; [reflexivity |].
  intros (Ts & _). specialize (Ts PIPE_SHADER_FRAGMENT).
  destruct Ts as [Hz|[_ (x & Hx)]]; [discriminate Hz | discriminate Hx].
Qed.

Lemma slot_demo_calls_unsigned : Forall unsigned_args slot_demo_calls.
Proof.
  unfold slot_demo_calls.
  repeat (apply Forall_cons; split;
          [unfold unsigned_args, is_uint, UINT_RANGE; lia |]).
  apply Forall_nil. exact I.
Qed.

Lemma slot_demo_calls_end_on_handle : Forall ends_on_handle slot_demo_calls.
Proof.
  unfold slot_demo_calls.
  apply Forall_cons. split; [exact I |].
  apply Forall_cons. split.
  - simpl. right.
    split; [reflexivity |]. split; [reflexivity |]. exists 7. reflexivity.
  - apply Forall_cons. split; [exact I |]. apply Forall_nil. exact I.
Qed.

Lemma slot_counts_invariant_witness :
  exists ilo',
    slot_categories (@slots_bounded) (calloc_context 8) /\
    Forall unsigned_args slot_demo_calls /\
    for_each slot_demo_calls slot_run (calloc_context 8) = Ok ilo' /\
    slot_categories (@slots_bounded) ilo' /\
    (slot_categories (@slots_trimmed) (calloc_context 8) ->
     Forall ends_on_handle slot_demo_calls ->
     slot_categories (@slots_trimmed) ilo').
Proof.
  eexists.
  split; [exact (calloc_context_bounded 8 eight_fits) |].
  split; [exact slot_demo_calls_unsigned |].
  match goal with
  | |- ?run /\ _ => assert (Hrun : run) by (vm_compute; reflexivity)
  end.
  split; [exact Hrun |].
  exact (slot_counts_invariant slot_demo_calls (calloc_context 8) _
           (calloc_context_bounded 8 eight_fits) slot_demo_calls_unsigned
           Hrun).
Defined.

(** On that scenario the compute resources end with count 3: slots 0 and 1
    empty, slot 2 occupied, slot 3 cleared again. *)
Example slot_demo_counts :
  exists ilo',
    for_each slot_demo_calls slot_run (calloc_context 8) = Ok ilo' /\
    resource_count (ilo_cs_resource ilo') = 3 /\
    sampler_count (sh_get (ilo_sampler ilo') PIPE_SHADER_FRAGMENT) = 2.
Proof. eexists. split; [vm_compute; reflexivity |]. split; reflexivity. Qed.

(** The first call alone is the scenario of the spec: the count becomes 4,
    slots 0 and 1 are empty, slots 2 and 3 hold the two handles. *)
Example sparse_update_scenario :
  exists ilo',
    slot_run
      (CallSetComputeResources 2 2
         (Some [Some {| surf_id := 1; surf_texture := Some (texture_resource 5) |};
                Some {| surf_id := 2; surf_texture := Some (texture_resource 6) |}]))
      (calloc_context 8) = Ok ilo' /\
    resource_count (ilo_cs_resource ilo') = 4 /\
    take 4 (resource_states (ilo_cs_resource ilo')) =
    [None; None;
     Some {| surf_id := 1; surf_texture := Some (texture_resource 5) |};
     Some {| surf_id := 2; surf_texture := Some (texture_resource 6) |}].
Proof. eexists. split; [vm_compute; reflexivity |]. split; reflexivity. Qed.

(** ** What a binding call leaves in the slots *)

(** The three loops of the replace-range mode, slot by slot. *)
Lemma replace_range_lookup {S A : Type} (proj : S -> list (option A))
    (val : Z -> option A -> Prop) (clear copy : Z -> S -> result S)
    (start n old i1 i2 i3 : Z) (s0 s1 s2 s3 : S) :
  writes_slot proj 0 (fun _ v => v = None) clear ->
  writes_slot proj 0 val copy ->
  for_lt 0 start clear s0 = Ok (i1, s1) ->
  for_lt i1 n copy s1 = Ok (i2, s2) ->
  for_lt i2 old clear s2 = Ok (i3, s3) ->
  0 <= start ->
  length (proj s3) = length (proj s0) /\
  (forall i, 0 <= i < start -> proj s3 !! Z.to_nat i = Some None) /\
  (forall i, start <= i < n ->
     exists v, val i v /\ proj s3 !! Z.to_nat i = Some v) /\
  (forall i, Z.max start n <= i < old -> proj s3 !! Z.to_nat i = Some None) /\
  (forall i, Z.max (Z.max start n) old <= i ->
     proj s3 !! Z.to_nat i = proj s0 !! Z.to_nat i).
Proof.
  intros Hclear Hcopy H1 H2 H3 Hstart.
  destruct (for_lt_writes proj 0 _ clear _ _ _ _ _ Hclear H1)
    as (Hi1 & Hlen1 & Hout1 & Hin1 & _); [lia |].
  assert (Ei1 : i1 = start) by lia. subst i1.
  destruct (for_lt_writes proj 0 _ copy _ _ _ _ _ Hcopy H2)
    as (Hi2 & Hlen2 & Hout2 & Hin2 & _); [lia |].
  destruct (for_lt_writes proj 0 _ clear _ _ _ _ _ Hclear H3)
    as (Hi3 & Hlen3 & Hout3 & Hin3 & _); [lia |].
  split; [congruence |]. split; [| split; [| split]].
  - intros i Hi. rewrite Hout3 by lia. rewrite Hout2 by lia.
    destruct (Hin1 i ltac:(lia)) as (v & -> & Hv).
    rewrite Z.add_0_l in Hv. exact Hv.
  - intros i Hi. rewrite Hout3 by lia.
    destruct (Hin2 i ltac:(lia)) as (v & Hv & Hl).
    rewrite Z.add_0_l in Hl. exists v. auto.
  - intros i Hi. destruct (Hin3 i ltac:(lia)) as (v & -> & Hv).
    rewrite Z.add_0_l in Hv. exact Hv.
  - intros i Hi. rewrite Hout3 by lia. rewrite Hout2 by lia.
    apply Hout1; lia.
Qed.

(** X1: [bind_samplers] in replace-range mode with a sampler array.  A
    call that completes leaves the count at the unsigned sum
    [start + count]; the slots below [start] are null, slot [i] of the
    range holds [samplers[i - start]], the slots from the end of the range
    up to the old count are null, and the slots above both are untouched.
    The samplers of the other shader stages, and everything else of the
    context, are as before. *)
Theorem bind_samplers_replaces_range (ilo ilo' : ilo_context)
    (shader : pipe_shader_type) (start count : Z)
    (src : list (option ilo_sampler_cso)) :
  is_uint start ->
  bind_samplers ilo shader start count (Some src) true = Ok ilo' ->
  let old := sh_get (ilo_sampler ilo) shader in
  let new := sh_get (ilo_sampler ilo') shader in
  let n := uadd start count in
  sampler_count new = n /\
  length (sampler_cso new) = length (sampler_cso old) /\
  (forall i, 0 <= i < start -> sampler_cso new !! Z.to_nat i = Some None) /\
  (forall i, start <= i < n ->
     exists s, src !! Z.to_nat (i - start) = Some s /\
               sampler_cso new !! Z.to_nat i = Some s) /\
  (forall i, Z.max start n <= i < sampler_count old ->
     sampler_cso new !! Z.to_nat i = Some None) /\
  (forall i, Z.max (Z.max start n) (sampler_count old) <= i ->
     sampler_cso new !! Z.to_nat i = sampler_cso old !! Z.to_nat i) /\
  ilo' = set_sampler (sh_set (ilo_sampler ilo) shader new) ilo.
Proof.
  intros Hstart H old new n. unfold bind_samplers in H. fold old in H.
  apply bind_Ok in H. destruct H as (u & _ & H).
  apply bind_Ok in H. destruct H as ([i1 s1] & H1 & H).
  apply bind_Ok in H. destruct H as ([i2 s2] & H2 & H).
  apply bind_Ok in H. destruct H as ([i3 s3] & H3 & H).
  injection H as <-.
  destruct (replace_range_lookup (fun l => l)
              (fun j v => load src (j - start) = Ok v) _ _ _ _ _ _ _ _ _ _ _ _
              (slot_assign_writes 0 None)
              (slot_assign_load_writes 0 (fun j => j - start) src)
              H1 H2 H3 (proj1 Hstart))
    as (Hlen & Hlow & Hin & Hhigh & Hout).
  subst new. simpl. rewrite sh_get_set_eq. simpl.
  split; [reflexivity |]. split; [exact Hlen |]. split; [exact Hlow |].
  split; [| split; [exact Hhigh | split; [exact Hout | reflexivity]]].
  intros i Hi. destruct (Hin i Hi) as (v & Hv & Hl).
  apply load_Ok in Hv. exists v. split; [apply Hv | exact Hl].
Qed.

Lemma bind_samplers_replaces_range_witness :
  exists ilo',
    bind_samplers (calloc_context 4) PIPE_SHADER_FRAGMENT 1 2
      (Some [Some 7; Some 8]) true = Ok ilo' /\
    sampler_count (sh_get (ilo_sampler ilo') PIPE_SHADER_FRAGMENT) = 3 /\
    sampler_cso (sh_get (ilo_sampler ilo') PIPE_SHADER_FRAGMENT)
    = [None; Some 7; Some 8; None].
Proof.
  assert (H1 : is_uint 1) by (unfold is_uint, UINT_RANGE; lia).
  eexists. split; [reflexivity |].
  pose proof (bind_samplers_replaces_range (calloc_context 4) _
                PIPE_SHADER_FRAGMENT 1 2 [Some 7; Some 8] H1 eq_refl) as H.
  split; [exact (proj1 H) | reflexivity].
Defined.

(** A loop that clears plain slots completes within the array. *)
Lemma clear_slots_completes {A : Type} (n : nat) (i : Z) (l : list (option A)) :
  0 <= i -> i + Z.of_nat n <= Elements l ->
  exists l', iterate n i (slot_assign None) l = Ok (i + Z.of_nat n, l').
Proof.
  revert i l. induction n as [|n IH]; intros i l Hi Hn.
  - exists l. cbn [iterate]. f_equal. f_equal. lia.
  - cbn [iterate]. unfold slot_assign at 1, store.
    destruct (Z.leb_spec 0 i); [| lia].
    destruct (Z.ltb_spec i (Elements l)); [| lia].
    cbn [andb bind].
    destruct (IH (i + 1) (<[Z.to_nat i := None]> l) ltac:(lia)) as (l' & Hl').
    { unfold Elements in *. rewrite length_insert. lia. }
    exists l'. rewrite Hl'. f_equal. f_equal. lia.
Qed.

Lemma bind_samplers_null_Ok (ilo ilo' : ilo_context)
    (shader : pipe_shader_type) (start count : Z) :
  bind_samplers ilo shader start count None true = Ok ilo' ->
  let old := sh_get (ilo_sampler ilo) shader in
  let new := sh_get (ilo_sampler ilo') shader in
  sampler_count new = 0 /\
  length (sampler_cso new) = length (sampler_cso old) /\
  (forall i, 0 <= i < sampler_count old ->
     sampler_cso new !! Z.to_nat i = Some None) /\
  (forall i, 0 <= i -> sampler_count old <= i ->
     sampler_cso new !! Z.to_nat i = sampler_cso old !! Z.to_nat i) /\
  ilo' = set_sampler (sh_set (ilo_sampler ilo) shader new) ilo.
Proof.
  intros H old new. unfold bind_samplers in H. fold old in H.
  apply bind_Ok in H. destruct H as (u & _ & H).
  apply bind_Ok in H. destruct H as ([i1 s1] & H1 & H).
  apply bind_Ok in H. destruct H as ([i2 s2] & H2 & H).
  apply bind_Ok in H. destruct H as ([i3 s3] & H3 & H).
  injection H as <-.
  destruct (replace_range_lookup (fun l => l)
              (fun j v => load [] (j - 0) = Ok v) _ _ _ _ _ _ _ _ _ _ _ _
              (slot_assign_writes 0 None)
              (slot_assign_load_writes 0 (fun j => j - 0) [])
              H1 H2 H3 (Z.le_refl 0))
    as (Hlen & _ & _ & Hhigh & Hout).
  change (uadd 0 0) with 0 in *.
  subst new. simpl. rewrite sh_get_set_eq. simpl.
  split; [reflexivity |]. split; [exact Hlen |].
  split; [intros i Hi; apply Hhigh; lia |].
  split; [intros i Hi Hge; apply Hout; lia | reflexivity].
Qed.

(** X2: [bind_samplers] in replace-range mode with a null array.  The
    assertion is on the range the caller named: the call stops on it when
    the unsigned sum [start + count] exceeds the array.  Otherwise, with
    the count of the stage within the array, the call completes and
    unbinds the stage, wherever the range lay: the count becomes 0, every
    slot below the old count is null, and the slots from the old count
    on, the other stages and the rest of the context are untouched. *)
Theorem bind_samplers_null_unbinds_all (ilo : ilo_context)
    (shader : pipe_shader_type) (start count : Z) :
  let old := sh_get (ilo_sampler ilo) shader in
  (Elements (sampler_cso old) < uadd start count ->
   bind_samplers ilo shader start count None true = Abort AssertionFailed) /\
  (uadd start count <= Elements (sampler_cso old) ->
   sampler_count old <= Elements (sampler_cso old) ->
   exists ilo',
     bind_samplers ilo shader start count None true = Ok ilo' /\
     let new := sh_get (ilo_sampler ilo') shader in
     sampler_count new = 0 /\
     length (sampler_cso new) = length (sampler_cso old) /\
     (forall i, 0 <= i < sampler_count old ->
        sampler_cso new !! Z.to_nat i = Some None) /\
     (forall i, 0 <= i -> sampler_count old <= i ->
        sampler_cso new !! Z.to_nat i = sampler_cso old !! Z.to_nat i) /\
     ilo' = set_sampler (sh_set (ilo_sampler ilo) shader new) ilo).
Proof.
  intros old. split.
  - intros Hlt. unfold bind_samplers. fold old.
    destruct (Z.leb_spec (uadd start count) (Elements (sampler_cso old)));
      [lia | reflexivity].
  - intros Hfit Hcount.
    assert (Hrun : exists ilo',
               bind_samplers ilo shader start count None true = Ok ilo').
    { unfold bind_samplers. fold old.
      destruct (Z.leb_spec (uadd start count) (Elements (sampler_cso old)));
        [| lia].
      cbn [assert bind]. change (uadd 0 0) with 0.
      unfold for_lt. change (Z.to_nat (0 - 0)) with 0%nat.
      cbn [iterate bind]. change (Z.to_nat (0 - 0)) with 0%nat.
      cbn [iterate bind]. rewrite Z.sub_0_r.
      destruct (Z.le_gt_cases 0 (sampler_count old)) as [Hnn|Hneg].
      - destruct (clear_slots_completes (Z.to_nat (sampler_count old)) 0
                    (sampler_cso old) (Z.le_refl 0) ltac:(lia)) as (l' & Hl').
        rewrite Hl'. cbn [bind]. eexists. reflexivity.
      - replace (Z.to_nat (sampler_count old)) with 0%nat by lia.
        cbn [iterate bind]. eexists. reflexivity. }
    destruct Hrun as (ilo' & Hrun). exists ilo'. split; [exact Hrun |].
    exact (bind_samplers_null_Ok ilo ilo' shader start count Hrun).
Qed.

Lemma bind_samplers_null_unbinds_all_witness :
  exists ilo',
    bind_samplers fragment_samplers_context PIPE_SHADER_FRAGMENT 3 1 None true
    = Ok ilo' /\
    sampler_count (sh_get (ilo_sampler ilo') PIPE_SHADER_FRAGMENT) = 0 /\
    sampler_cso (sh_get (ilo_sampler ilo') PIPE_SHADER_FRAGMENT)
    = [None; None; None; None].
Proof.
  destruct (proj2 (bind_samplers_null_unbinds_all fragment_samplers_context
                     PIPE_SHADER_FRAGMENT 3 1))
    as (ilo' & Hrun & Hcount & _).
  - vm_compute. discriminate.
  - vm_compute. discriminate.
  - exists ilo'. split; [exact Hrun |]. split; [exact Hcount |].
    vm_compute in Hrun. injection Hrun as <-. reflexivity.
Defined.

(** The same call with a range that ends beyond the four slots stops on
    the assertion. *)
Example bind_samplers_null_asserts :
  bind_samplers fragment_samplers_context PIPE_SHADER_FRAGMENT 3 5 None true
  = Abort AssertionFailed.
Proof. reflexivity. Qed.

(** ** Counted slots *)

Lemma held_by_range {A : Type} (obj : A -> object) (p : option A) (o : object) :
  0 <= held_by obj p o <= 1.
Proof. unfold held_by. destruct (decide _); lia. Qed.

Lemma count_held_nonneg {A : Type} (obj : A -> object) (slots : list (option A))
    (o : object) :
  0 <= count_held obj slots o.
Proof.
  induction slots as [|p rest IH]; simpl; [lia |].
  pose proof (held_by_range obj p o). lia.
Qed.

Lemma count_held_insert {A : Type} (obj : A -> object) (slots : list (option A))
    (i : nat) (old new : option A) (o : object) :
  slots !! i = Some old ->
  count_held obj (<[i := new]> slots) o
  = count_held obj slots o - held_by obj old o + held_by obj new o.
Proof.
  revert i. induction slots as [|p rest IH]; intros i Hi; [discriminate Hi |].
  destruct i as [|i]; simpl in *.
  - injection Hi as ->. lia.
  - rewrite (IH i Hi). lia.
Qed.

Lemma count_held_replicate {A : Type} (obj : A -> object) (n : nat) (o : object) :
  count_held obj (replicate n None) o = 0.
Proof. induction n as [|n IH]; simpl; [reflexivity |]. rewrite IH. reflexivity. Qed.

Lemma pipe_reference_count {A : Type} (obj : A -> object) (refs : refcounts)
    (old new : option A) (o : object) :
  pipe_reference refs (obj <$> old) (obj <$> new) o
  = refs o - held_by obj old o + held_by obj new o.
Proof.
  unfold pipe_reference, ref_release, ref_acquire, ref_adjust, held_by.
  destruct old as [x|], new as [y|]; cbn [fmap option_fmap option_map];
    repeat match goal with
           | |- context [decide (?a = ?b)] => destruct (decide (a = b))
           end;
    try lia; congruence.
Qed.

(** A counted write keeps, for every object, the difference between its
    reference count and the number of slots that hold it. *)
Lemma slot_reference_balance {A : Type} (obj : A -> object) (new : option A)
    (i : Z) (st st' : list (option A) * refcounts) (o : object) :
  slot_reference obj new i st = Ok st' ->
  snd st' o - count_held obj (fst st') o = snd st o - count_held obj (fst st) o.
Proof.
  unfold slot_reference. intros H.
  apply bind_Ok in H. destruct H as (old & Hold & H).
  apply bind_Ok in H. destruct H as (dst & Hst & H).
  injection H as <-. simpl.
  apply load_Ok in Hold. destruct Hold as [_ Hold].
  apply store_Ok in Hst. destruct Hst as [_ ->].
  rewrite pipe_reference_count, (count_held_insert _ _ _ old) by exact Hold.
  lia.
Qed.

Lemma for_lt_preserves {S : Type} (P : S -> Prop) (body : Z -> S -> result S)
    (i hi k : Z) (s s' : S) :
  (forall j t t', body j t = Ok t' -> P t -> P t') ->
  for_lt i hi body s = Ok (k, s') -> P s -> P s'.
Proof. unfold for_lt. apply iterate_preserves. Qed.

(** The same for a loop of counted writes. *)
Lemma for_lt_balance {A : Type} (obj : A -> object)
    (body : Z -> list (option A) * refcounts -> result (list (option A) * refcounts))
    (i hi k : Z) (st st' : list (option A) * refcounts) (o : object) :
  (forall j t t', body j t = Ok t' ->
     snd t' o - count_held obj (fst t') o = snd t o - count_held obj (fst t) o) ->
  for_lt i hi body st = Ok (k, st') ->
  snd st' o - count_held obj (fst st') o = snd st o - count_held obj (fst st) o.
Proof.
  intros Hbody H.
  apply (for_lt_preserves
           (fun t => snd t o - count_held obj (fst t) o
                     = snd st o - count_held obj (fst st) o) _ _ _ _ _ _
           ltac:(intros j t t' Ht Pt; rewrite <- Pt; apply (Hbody j t t' Ht)) H).
  reflexivity.
Qed.

Lemma slot_reference_load_balance {A : Type} (obj : A -> object)
    (src : list (option A)) (f g : Z -> Z) (j : Z)
    (t t' : list (option A) * refcounts) (o : object) :
  (let* s := load src (f j) in slot_reference obj s (g j) t) = Ok t' ->
  snd t' o - count_held obj (fst t') o = snd t o - count_held obj (fst t) o.
Proof.
  intros H. apply bind_Ok in H. destruct H as (v & _ & H).
  apply (slot_reference_balance _ _ _ _ _ _ H).
Qed.

(** What a sparse update leaves: the range written, the rest untouched, the
    count next to the last occupied slot whenever the range reached it, and
    the reference counts in step with the slots. *)
Lemma sparse_update_spec {A : Type} (obj : A -> object)
    (states states' : list (option A)) (cur_count count' : Z)
    (refs refs' : refcounts) (start count : Z) (src : option (list (option A))) :
  is_uint start -> is_uint count -> Elements states < UINT_RANGE ->
  sparse_update obj states cur_count refs start count src
  = Ok (states', count', refs') ->
  start + count <= Elements states /\
  length states' = length states /\
  (forall j, 0 <= j < count ->
     match src with
     | Some l =>
         exists v, l !! Z.to_nat j = Some v /\
                   states' !! Z.to_nat (start + j) = Some v
     | None => states' !! Z.to_nat (start + j) = Some None
     end) /\
  (forall x, 0 <= x -> x < start \/ start + count <= x ->
     states' !! Z.to_nat x = states !! Z.to_nat x) /\
  (start + count < cur_count -> count' = cur_count) /\
  (cur_count <= start + count ->
     0 <= count' <= start + count /\
     forall i, count' <= i < start + count -> ~ occupied states' i) /\
  (forall o, refs' o - count_held obj states' o
             = refs o - count_held obj states o).
Proof.
  intros Hstart Hcount Hfits H. unfold sparse_update in H.
  apply bind_Ok in H. destruct H as (u & Hassert & H).
  apply assert_Ok, Z.leb_le in Hassert.
  apply bind_Ok in H. destruct H as ([k s1] & H1 & H).
  assert (Hloop :
            length (fst s1) = length states /\
            (forall x, 0 <= x -> x < start \/ start + count <= x ->
               fst s1 !! Z.to_nat x = states !! Z.to_nat x) /\
            (forall j, 0 <= j < count ->
               match src with
               | Some l =>
                   exists v, l !! Z.to_nat j = Some v /\
                             fst s1 !! Z.to_nat (start + j) = Some v
               | None => fst s1 !! Z.to_nat (start + j) = Some None
               end) /\
            (0 < count -> start + count <= Elements states) /\
            (forall o, snd s1 o - count_held obj (fst s1) o
                       = refs o - count_held obj states o)).
  { destruct Hstart as [Hs0 _], Hcount as [Hc0 _].
    destruct src as [l|].
    - destruct (for_lt_writes fst start _ _ _ _ _ _ _
                  (slot_reference_load_writes obj start (fun j => j) l) H1)
        as (_ & Hlen & Hout & Hin & Hbound); [lia |].
      simpl in Hlen, Hout, Hin, Hbound.
      split; [exact Hlen |]. split; [| split; [| split]].
      + intros x Hx Hr. apply Hout; lia.
      + intros j Hj. destruct (Hin j Hj) as (v & Hv & Hl).
        apply load_Ok in Hv. exists v. split; [apply Hv | exact Hl].
      + exact Hbound.
      + intros o.
        apply (for_lt_balance obj _ _ _ _ _ _ o
                 ltac:(intros j t t' Ht;
                       apply (slot_reference_load_balance obj l (fun j => j)
                                (fun j => start + j) j t t' o Ht)) H1).
    - destruct (for_lt_writes fst start _ _ _ _ _ _ _
                  (slot_reference_writes obj start None) H1)
        as (_ & Hlen & Hout & Hin & Hbound); [lia |].
      simpl in Hlen, Hout, Hin, Hbound.
      split; [exact Hlen |]. split; [| split; [| split]].
      + intros x Hx Hr. apply Hout; lia.
      + intros j Hj. destruct (Hin j Hj) as (v & -> & Hl). exact Hl.
      + exact Hbound.
      + intros o.
        apply (for_lt_balance obj _ _ _ _ _ _ o
                 ltac:(intros j t t' Ht;
                       apply (slot_reference_balance obj None (start + j)
                                t t' o Ht)) H1). }
  destruct Hloop as (Hlen & Hout & Hin & Hbound & Hbal).
  assert (Hsum : start + count <= Elements states).
  { destruct (Z.eq_dec count 0) as [->|Hne].
    - unfold uadd, wrap32 in Hassert. rewrite Z.add_0_r in *.
      rewrite Z.mod_small in Hassert by exact Hstart. exact Hassert.
    - apply Hbound. destruct Hcount. lia. }
  assert (Hsize : 0 <= start + count).
  { destruct Hstart, Hcount. lia. }
  assert (Hwrap : uadd start count = start + count).
  { unfold uadd, wrap32. apply Z.mod_small. lia. }
  rewrite (uadd_comm count start), Hwrap in H.
  split; [exact Hsum |].
  destruct (Z.leb_spec cur_count (start + count)) as [Hle|Hgt].
  - apply bind_Ok in H. destruct H as (c & Hc & H). injection H as <- <- <-.
    destruct (trim_trailing_Ok _ _ _ Hc) as (Hcr & _ & Hgap).
    split; [exact Hlen |]. split; [exact Hin |]. split; [exact Hout |].
    split; [lia |]. split; [| exact Hbal].
    intros _. split; [lia |]. intros i Hi. apply Hgap. lia.
  - injection H as <- <- <-.
    split; [exact Hlen |]. split; [exact Hin |]. split; [exact Hout |].
    split; [reflexivity |]. split; [lia | exact Hbal].
Qed.

(** X3: [ilo_set_shader_resources] writes its range and nothing else.  For
    [unsigned] arguments, a call that completes had its range within the
    array; slot [start + j] holds [surfaces[j]] (null for a null array);
    every slot outside the range is untouched; the count is unchanged when
    it lay above the range and otherwise lies at or below the end of the
    range, with no occupied slot from it to the end of the range; for every
    object the reference count moved by exactly the change in the number of
    slots that hold it; and the shader-resources bit is raised. *)
Theorem ilo_set_shader_resources_writes_range (ilo ilo' : ilo_context)
    (start count : Z) (surfaces : option (list (option pipe_surface))) :
  is_uint start -> is_uint count ->
  Elements (resource_states (ilo_resource ilo)) < UINT_RANGE ->
  ilo_set_shader_resources ilo start count surfaces = Ok ilo' ->
  let old := ilo_resource ilo in
  let new := ilo_resource ilo' in
  start + count <= Elements (resource_states old) /\
  length (resource_states new) = length (resource_states old) /\
  (forall j, 0 <= j < count ->
     match surfaces with
     | Some l =>
         exists v, l !! Z.to_nat j = Some v /\
                   resource_states new !! Z.to_nat (start + j) = Some v
     | None => resource_states new !! Z.to_nat (start + j) = Some None
     end) /\
  (forall x, 0 <= x -> x < start \/ start + count <= x ->
     resource_states new !! Z.to_nat x = resource_states old !! Z.to_nat x) /\
  (start + count < resource_count old -> resource_count new = resource_count old) /\
  (resource_count old <= start + count ->
     0 <= resource_count new <= start + count /\
     forall i, resource_count new <= i < start + count ->
               ~ occupied (resource_states new) i) /\
  (forall o,
     ilo_refcnt ilo' o - count_held ObjSurface (resource_states new) o
     = ilo_refcnt ilo o - count_held ObjSurface (resource_states old) o) /\
  is_dirty (ilo_dirty ilo') ILO_STATE_SHADER_RESOURCES = true.
Proof.
  intros Hstart Hcount Hfits H old new.
  unfold ilo_set_shader_resources in H.
  apply bind_Ok in H. destruct H as ([[states c] refs] & Hup & H).
  injection H as <-. subst old new. simpl.
  destruct (sparse_update_spec _ _ _ _ _ _ _ _ _ _ Hstart Hcount Hfits Hup)
    as (Hsum & Hlen & Hin & Hout & Hkeep & Htrim & Hbal).
  repeat (split; [assumption |]). apply is_dirty_mark.
Qed.

Lemma ilo_set_shader_resources_writes_range_witness :
  exists ilo',
    ilo_set_shader_resources (calloc_context 4) 1 2
      (Some [Some surface_a; Some surface_b]) = Ok ilo' /\
    resource_states (ilo_resource ilo')
    = [None; Some surface_a; Some surface_b; None] /\
    ilo_refcnt ilo' (ObjSurface surface_a)
    - count_held ObjSurface (resource_states (ilo_resource ilo'))
        (ObjSurface surface_a)
    = 0.
Proof.
  assert (H1 : is_uint 1) by (unfold is_uint, UINT_RANGE; lia).
  assert (H2 : is_uint 2) by (unfold is_uint, UINT_RANGE; lia).
  assert (H3 : Elements (resource_states (ilo_resource (calloc_context 4)))
               < UINT_RANGE) by reflexivity.
  eexists. split; [reflexivity |]. split; [reflexivity |].
  pose proof (ilo_set_shader_resources_writes_range (calloc_context 4) _ 1 2
                (Some [Some surface_a; Some surface_b]) H1 H2 H3 eq_refl) as H.
  exact (proj1 (proj2 (proj2 (proj2 (proj2 (proj2 (proj2 H)))))) (ObjSurface surface_a)).
Defined.

(** A count that bounds the occupied slots and sits next to the last of
    them is determined by the slots. *)
Lemma trimmed_count_unique {A : Type} (slots : list (option A)) (c c' : Z) :
  slots_bounded slots c -> slots_trimmed slots c ->
  slots_bounded slots c' -> slots_trimmed slots c' ->
  c = c'.
Proof.
  intros (Hc & _ & Hb) Ht (Hc' & _ & Hb') Ht'.
  destruct (Z.lt_trichotomy c c') as [Hlt|[He|Hgt]]; [| exact He |].
  - destruct Ht' as [->|Hocc]; [lia |].
    exfalso. apply (Hb (c' - 1)); [lia | exact Hocc].
  - destruct Ht as [->|Hocc]; [lia |].
    exfalso. apply (Hb' (c - 1)); [lia | exact Hocc].
Qed.

(** X4: binding a range of global resources and unbinding it again is a
    round trip.  On a binding whose count bounds its occupied slots and
    sits next to the last of them, and whose range [[start, start + count)]
    is empty, [ilo_set_global_binding(start, count, resources)] followed by
    [ilo_set_global_binding(start, count, NULL)] restores the slots, the
    count and every reference count. *)
Theorem ilo_set_global_binding_round_trip (ilo ilo1 ilo2 : ilo_context)
    (start count : Z) (resources : list (option pipe_resource)) :
  is_uint start -> is_uint count ->
  let gb := ilo_global_binding ilo in
  slots_bounded (gb_resources gb) (gb_count gb) ->
  slots_trimmed (gb_resources gb) (gb_count gb) ->
  (forall i, start <= i < start + count -> ~ occupied (gb_resources gb) i) ->
  ilo_set_global_binding ilo start count (Some resources) = Ok ilo1 ->
  ilo_set_global_binding ilo1 start count None = Ok ilo2 ->
  gb_resources (ilo_global_binding ilo2) = gb_resources gb /\
  gb_count (ilo_global_binding ilo2) = gb_count gb /\
  forall o, ilo_refcnt ilo2 o = ilo_refcnt ilo o.
Proof.
  intros Hstart Hcount gb Hb Ht Hempty H1 H2.
  unfold ilo_set_global_binding in H1, H2.
  apply bind_Ok in H1. destruct H1 as ([[states1 c1] refs1] & Hup1 & H1).
  injection H1 as <-. simpl in H2.
  apply bind_Ok in H2. destruct H2 as ([[states2 c2] refs2] & Hup2 & H2).
  injection H2 as <-. simpl. fold gb in Hup1.
  assert (Hfits : Elements (gb_resources gb) < UINT_RANGE) by apply Hb.
  destruct (sparse_update_spec _ _ _ _ _ _ _ _ _ _ Hstart Hcount Hfits Hup1)
    as (Hsum & Hlen1 & _ & Hout1 & _ & _ & Hbal1).
  assert (Hfits1 : Elements states1 < UINT_RANGE)
    by (unfold Elements in *; rewrite Hlen1; exact Hfits).
  destruct (sparse_update_spec _ _ _ _ _ _ _ _ _ _ Hstart Hcount Hfits1 Hup2)
    as (_ & Hlen2 & Hin2 & Hout2 & _ & _ & Hbal2).
  destruct (sparse_update_Ok _ _ _ _ _ _ _ _ _ _ Hstart Hcount Hup1 Hb)
    as [Hb1 Ht1].
  destruct (sparse_update_Ok _ _ _ _ _ _ _ _ _ _ Hstart Hcount Hup2 Hb1)
    as [Hb2 Ht2].
  assert (Hslots : states2 = gb_resources gb).
  { apply list_eq. intros n.
    destruct (Z_lt_le_dec (Z.of_nat n) start) as [Hlow|Hge];
      [| destruct (Z_lt_le_dec (Z.of_nat n) (start + count)) as [Hin|Hhigh]].
    - pose proof (Hout2 (Z.of_nat n) ltac:(lia) ltac:(lia)) as E2.
      pose proof (Hout1 (Z.of_nat n) ltac:(lia) ltac:(lia)) as E1.
      rewrite Nat2Z.id in E1, E2. congruence.
    - pose proof (Hin2 (Z.of_nat n - start) ltac:(lia)) as E2.
      replace (start + (Z.of_nat n - start)) with (Z.of_nat n) in E2 by lia.
      rewrite Nat2Z.id in E2. rewrite E2.
      destruct (gb_resources gb !! n) as [[x|]|] eqn:Hn.
      + exfalso. apply (Hempty (Z.of_nat n)); [lia |].
        split; [lia |]. exists x. rewrite Nat2Z.id. exact Hn.
      + reflexivity.
      + apply lookup_ge_None in Hn. unfold Elements in Hsum. lia.
    - pose proof (Hout2 (Z.of_nat n) ltac:(lia) ltac:(lia)) as E2.
      pose proof (Hout1 (Z.of_nat n) ltac:(lia) ltac:(lia)) as E1.
      rewrite Nat2Z.id in E1, E2. congruence. }
  subst states2.
  split; [reflexivity |]. split.
  - apply (trimmed_count_unique (gb_resources gb)); auto.
  - intros o. specialize (Hbal1 o). specialize (Hbal2 o). lia.
Qed.

Lemma ilo_set_global_binding_round_trip_witness :
  exists ilo1 ilo2,
    ilo_set_global_binding global_binding_context 3 1
      (Some [Some (buffer_resource 11)]) = Ok ilo1 /\
    gb_count (ilo_global_binding ilo1) = 4 /\
    ilo_set_global_binding ilo1 3 1 None = Ok ilo2 /\
    gb_resources (ilo_global_binding ilo2)
    = gb_resources (ilo_global_binding global_binding_context) /\
    gb_count (ilo_global_binding ilo2) = 3 /\
    forall o, ilo_refcnt ilo2 o = ilo_refcnt global_binding_context o.
Proof.
  assert (H3 : is_uint 3) by (unfold is_uint, UINT_RANGE; lia).
  assert (H1 : is_uint 1) by (unfold is_uint, UINT_RANGE; lia).
  eexists. eexists. split; [reflexivity |]. split; [reflexivity |].
  split; [reflexivity |].
  eapply (ilo_set_global_binding_round_trip global_binding_context _ _ 3 1
            [Some (buffer_resource 11)] H3 H1).
  - split; [simpl; unfold Elements; simpl; lia |].
    split; [reflexivity |].
    intros i Hi [_ (x & Hx)]. simpl in Hi, Hx.
    destruct (Z.to_nat i) as [|[|[|[|n]]]] eqn:Hn; simpl in Hx;
      try discriminate Hx; lia.
  - right. split; [simpl; lia |]. exists (buffer_resource 10). reflexivity.
  - intros i Hi [_ (x & Hx)]. simpl in Hx.
    replace (Z.to_nat i) with 3%nat in Hx by lia. discriminate Hx.
  - reflexivity.
  - reflexivity.
Defined.

(** X5: [set_sampler_views] in replace-range mode, with an array or
    without.  A call that completes leaves the count at the unsigned sum
    [start + count] (0 for a null array); the slots below the range are
    null, slot [i] of the range holds [views[i - start]], the slots from
    the end of the range up to the old count are null and the slots above
    are untouched; the views of the other stages are as before; and for
    every object the reference count moved by exactly the change in the
    number of slots of the stage that hold it. *)
Theorem set_sampler_views_replaces_range (ilo ilo' : ilo_context)
    (shader : pipe_shader_type) (start count : Z)
    (views : option (list (option pipe_sampler_view))) :
  is_uint start ->
  set_sampler_views ilo shader start count views true = Ok ilo' ->
  let old := sh_get (ilo_view ilo) shader in
  let new := sh_get (ilo_view ilo') shader in
  let first := match views with Some _ => start | None => 0 end in
  let n := match views with Some _ => uadd start count | None => 0 end in
  view_count new = n /\
  length (view_states new) = length (view_states old) /\
  (forall i, 0 <= i < first -> view_states new !! Z.to_nat i = Some None) /\
  (forall i, first <= i < n ->
     exists v, default [] views !! Z.to_nat (i - first) = Some v /\
               view_states new !! Z.to_nat i = Some v) /\
  (forall i, Z.max first n <= i < view_count old ->
     view_states new !! Z.to_nat i = Some None) /\
  (forall i, Z.max (Z.max first n) (view_count old) <= i ->
     view_states new !! Z.to_nat i = view_states old !! Z.to_nat i) /\
  (forall sh, sh <> shader -> sh_get (ilo_view ilo') sh = sh_get (ilo_view ilo) sh) /\
  (forall o,
     ilo_refcnt ilo' o - count_held ObjSamplerView (view_states new) o
     = ilo_refcnt ilo o - count_held ObjSamplerView (view_states old) o).
Proof.
  intros Hstart H old new first n. unfold set_sampler_views in H. fold old in H.
  apply bind_Ok in H. destruct H as (u & _ & H).
  assert (Hloops :
            exists i1 i2 i3 s1 s2 s3,
              for_lt 0 first (slot_reference ObjSamplerView None)
                (view_states old, ilo_refcnt ilo) = Ok (i1, s1) /\
              for_lt i1 n
                (fun i dst =>
                   let* v := load (default [] views) (i - first) in
                   slot_reference ObjSamplerView v i dst) s1 = Ok (i2, s2) /\
              for_lt i2 (view_count old) (slot_reference ObjSamplerView None) s2
              = Ok (i3, s3) /\
              ilo' = set_view
                       (sh_set (ilo_view ilo) shader
                          {| view_states := fst s3; view_count := n |})
                       (set_refcnt (snd s3) ilo)).
  { subst first n. destruct views as [src|];
      (apply bind_Ok in H; destruct H as ([i1 s1] & H1 & H);
       apply bind_Ok in H; destruct H as ([i2 s2] & H2 & H);
       apply bind_Ok in H; destruct H as ([i3 s3] & H3 & H);
       injection H as <-;
       exists i1, i2, i3, s1, s2, s3; auto). }
  destruct Hloops as (i1 & i2 & i3 & s1 & s2 & s3 & H1 & H2 & H3 & ->).
  assert (Hfirst : 0 <= first) by (subst first; destruct views, Hstart; lia).
  destruct (replace_range_lookup fst
              (fun j v => load (default [] views) (j - first) = Ok v)
              _ _ _ _ _ _ _ _ _ _ _ _
              (slot_reference_writes ObjSamplerView 0 None)
              (slot_reference_load_writes ObjSamplerView 0
                 (fun j => j - first) (default [] views))
              H1 H2 H3 Hfirst)
    as (Hlen & Hlow & Hin & Hhigh & Hout).
  subst new. simpl. rewrite sh_get_set_eq. simpl in *.
  split; [reflexivity |]. split; [exact Hlen |]. split; [exact Hlow |].
  split; [| split; [exact Hhigh | split; [exact Hout | split]]].
  - intros i Hi. destruct (Hin i Hi) as (v & Hv & Hl).
    apply load_Ok in Hv. exists v. split; [apply Hv | exact Hl].
  - intros sh Hne. apply sh_get_set_ne. exact Hne.
  - intros o.
    pose proof (for_lt_balance ObjSamplerView _ _ _ _ _ _ o
                  ltac:(intros j t t' Ht;
                        apply (slot_reference_balance ObjSamplerView None j t t'
                                 o Ht)) H1) as B1.
    pose proof (for_lt_balance ObjSamplerView _ _ _ _ _ _ o
                  ltac:(intros j t t' Ht;
                        apply (slot_reference_load_balance ObjSamplerView
                                 (default [] views) (fun j => j - first)
                                 (fun j => j) j t t' o Ht)) H2) as B2.
    pose proof (for_lt_balance ObjSamplerView _ _ _ _ _ _ o
                  ltac:(intros j t t' Ht;
                        apply (slot_reference_balance ObjSamplerView None j t t'
                                 o Ht)) H3) as B3.
    simpl in B1. lia.
Qed.

Lemma set_sampler_views_replaces_range_witness :
  exists ilo',
    set_sampler_views fragment_views_context PIPE_SHADER_FRAGMENT 0 1
      (Some [Some view_b]) true = Ok ilo' /\
    view_states (sh_get (ilo_view ilo') PIPE_SHADER_FRAGMENT)
    = [Some view_b; None; None; None] /\
    view_count (sh_get (ilo_view ilo') PIPE_SHADER_FRAGMENT) = 1 /\
    ilo_refcnt ilo' (ObjSamplerView view_a) = 0 /\
    ilo_refcnt ilo' (ObjSamplerView view_b) = 1.
Proof.
  assert (H0 : is_uint 0) by (unfold is_uint, UINT_RANGE; lia).
  eexists. split; [reflexivity |]. split; [reflexivity |].
  split; [| split; reflexivity].
  exact (proj1 (set_sampler_views_replaces_range fragment_views_context _
                  PIPE_SHADER_FRAGMENT 0 1 (Some [Some view_b]) H0 eq_refl)).
Defined.

(** X6: [ilo_bind_compute_sampler_states] updates its range only.  For
    [unsigned] arguments and an array of fewer than 2^32 slots, a call that
    completes had its range within the array; slot [start_slot + j] holds
    [samplers[j]] (null for a null array); every slot outside the range and
    the samplers of the graphics stages are untouched; the count is
    unchanged when it lay above the range, and otherwise lies at or below
    the end of the range with no occupied slot in between; the compute
    samplers bit is raised. *)
Theorem ilo_bind_compute_sampler_states_writes_range (ilo ilo' : ilo_context)
    (start_slot num_samplers : Z)
    (samplers : option (list (option ilo_sampler_cso))) :
  is_uint start_slot -> is_uint num_samplers ->
  let old := sh_get (ilo_sampler ilo) PIPE_SHADER_COMPUTE in
  let new := sh_get (ilo_sampler ilo') PIPE_SHADER_COMPUTE in
  Elements (sampler_cso old) < UINT_RANGE ->
  ilo_bind_compute_sampler_states ilo start_slot num_samplers samplers = Ok ilo' ->
  start_slot + num_samplers <= Elements (sampler_cso old) /\
  length (sampler_cso new) = length (sampler_cso old) /\
  (forall j, 0 <= j < num_samplers ->
     match samplers with
     | Some l =>
         exists s, l !! Z.to_nat j = Some s /\
                   sampler_cso new !! Z.to_nat (start_slot + j) = Some s
     | None => sampler_cso new !! Z.to_nat (start_slot + j) = Some None
     end) /\
  (forall x, 0 <= x -> x < start_slot \/ start_slot + num_samplers <= x ->
     sampler_cso new !! Z.to_nat x = sampler_cso old !! Z.to_nat x) /\
  (start_slot + num_samplers < sampler_count old ->
     sampler_count new = sampler_count old) /\
  (sampler_count old <= start_slot + num_samplers ->
     0 <= sampler_count new <= start_slot + num_samplers /\
     forall i, sampler_count new <= i < start_slot + num_samplers ->
               ~ occupied (sampler_cso new) i) /\
  (forall sh, sh <> PIPE_SHADER_COMPUTE ->
     sh_get (ilo_sampler ilo') sh = sh_get (ilo_sampler ilo) sh) /\
  is_dirty (ilo_dirty ilo') ILO_STATE_COMPUTE_SAMPLERS = true.
Proof.
  intros Hstart Hcount old new Hfits H.
  unfold ilo_bind_compute_sampler_states in H.
  apply bind_Ok in H. destruct H as (ilo1 & H & Hmark). injection Hmark as <-.
  unfold bind_samplers in H. fold old in H.
  apply bind_Ok in H. destruct H as (u & Hassert & H).
  apply assert_Ok, Z.leb_le in Hassert.
  apply bind_Ok in H. destruct H as ([k s1] & H1 & H).
  assert (Hloop :
            length s1 = length (sampler_cso old) /\
            (forall x, 0 <= x -> x < start_slot \/ start_slot + num_samplers <= x ->
               s1 !! Z.to_nat x = sampler_cso old !! Z.to_nat x) /\
            (forall j, 0 <= j < num_samplers ->
               match samplers with
               | Some l =>
                   exists s, l !! Z.to_nat j = Some s /\
                             s1 !! Z.to_nat (start_slot + j) = Some s
               | None => s1 !! Z.to_nat (start_slot + j) = Some None
               end) /\
            (0 < num_samplers ->
             start_slot + num_samplers <= Elements (sampler_cso old))).
  { destruct Hstart as [Hs0 _], Hcount as [Hc0 _].
    destruct samplers as [l|].
    - destruct (for_lt_writes (fun l => l) start_slot _ _ _ _ _ _ _
                  (slot_assign_load_writes start_slot (fun j => j) l) H1)
        as (_ & Hlen & Hout & Hin & Hbound); [lia |].
      split; [exact Hlen |]. split; [| split].
      + intros x Hx Hr. apply Hout; lia.
      + intros j Hj. destruct (Hin j Hj) as (v & Hv & Hl).
        apply load_Ok in Hv. exists v. split; [apply Hv | exact Hl].
      + exact Hbound.
    - destruct (for_lt_writes (fun l => l) start_slot _ _ _ _ _ _ _
                  (slot_assign_writes start_slot None) H1)
        as (_ & Hlen & Hout & Hin & Hbound); [lia |].
      split; [exact Hlen |]. split; [| split].
      + intros x Hx Hr. apply Hout; lia.
      + intros j Hj. destruct (Hin j Hj) as (v & -> & Hl). exact Hl.
      + exact Hbound. }
  destruct Hloop as (Hlen & Hout & Hin & Hbound).
  assert (Hsum : start_slot + num_samplers <= Elements (sampler_cso old)).
  { destruct (Z.eq_dec num_samplers 0) as [->|Hne].
    - unfold uadd, wrap32 in Hassert. rewrite Z.add_0_r in *.
      rewrite Z.mod_small in Hassert by exact Hstart. exact Hassert.
    - apply Hbound. destruct Hcount. lia. }
  assert (Hwrap : uadd start_slot num_samplers = start_slot + num_samplers).
  { unfold uadd, wrap32. apply Z.mod_small. destruct Hstart, Hcount. lia. }
  rewrite (uadd_comm num_samplers start_slot), Hwrap in H.
  assert (Hsize : 0 <= start_slot + num_samplers)
    by (destruct Hstart, Hcount; lia).
  split; [exact Hsum |].
  destruct (Z.leb_spec (sampler_count old) (start_slot + num_samplers))
    as [Hle|Hgt].
  - apply bind_Ok in H. destruct H as (c & Hc & H). injection H as <-.
    destruct (trim_trailing_Ok _ _ _ Hc) as (Hcr & _ & Hgap).
    subst new. simpl.
    split; [exact Hlen |]. split; [exact Hin |]. split; [exact Hout |].
    split; [lia |]. split; [| split; [| apply is_dirty_mark]].
    + intros _. split; [lia |]. intros i Hi. apply Hgap. lia.
    + intros sh Hne. destruct sh; try reflexivity. exfalso. apply Hne. reflexivity.
  - injection H as <-.
    subst new. simpl.
    split; [exact Hlen |]. split; [exact Hin |]. split; [exact Hout |].
    split; [reflexivity |]. split; [lia |]. split; [| apply is_dirty_mark].
    intros sh Hne. destruct sh; try reflexivity. exfalso. apply Hne. reflexivity.
Qed.

Lemma ilo_bind_compute_sampler_states_writes_range_witness :
  exists ilo',
    ilo_bind_compute_sampler_states (calloc_context 4) 1 2
      (Some [Some 7; None]) = Ok ilo' /\
    sampler_cso (sh_get (ilo_sampler ilo') PIPE_SHADER_COMPUTE)
    = [None; Some 7; None; None] /\
    sampler_count (sh_get (ilo_sampler ilo') PIPE_SHADER_COMPUTE) = 2 /\
    1 + 2 <= 4.
Proof.
  assert (H1 : is_uint 1) by (unfold is_uint, UINT_RANGE; lia).
  assert (H2 : is_uint 2) by (unfold is_uint, UINT_RANGE; lia).
  assert (H3 : Elements (sampler_cso (sh_get (ilo_sampler (calloc_context 4))
                                        PIPE_SHADER_COMPUTE))
               < UINT_RANGE) by reflexivity.
  eexists. split; [reflexivity |]. split; [reflexivity |].
  split; [reflexivity |].
  exact (proj1 (ilo_bind_compute_sampler_states_writes_range (calloc_context 4)
                  _ 1 2 (Some [Some 7; None]) H1 H2 H3 eq_refl)).
Defined.

(** ** Setting constant buffers *)

Lemma shader_type_of_index_Some (i : Z) (sh : pipe_shader_type) :
  shader_type_of_index i = Some sh <-> i = shader_type_index sh.
Proof.
  unfold shader_type_of_index. split.
  - repeat match goal with
           | |- context [?a =? ?b] => destruct (Z.eqb_spec a b)
           end; intros H; try discriminate H; injection H as <-; assumption.
  - intros ->. destruct sh; reflexivity.
Qed.

Lemma uint_of_bits (mask : Z) : 0 <= mask -> bits_in mask 0 32 -> is_uint mask.
Proof.
  intros Hnn Hbits. split; [exact Hnn |].
  assert (Ha : mask = 0 \/ 0 < mask) by lia.
  destruct Ha as [->|Ha]; [reflexivity |].
  unfold UINT_RANGE. apply Z.log2_lt_pow2; [exact Ha |].
  apply (Hbits (Z.log2 mask)). apply Z.bit_log2. exact Ha.
Qed.

Lemma testbit_bit (index j : Z) :
  0 <= index < 32 -> Z.testbit (bit index) j = (j =? index).
Proof.
  intros Hi. rewrite bit_pow2 by exact Hi.
  rewrite Z.pow2_bits_eqb by lia. apply Z.eqb_sym.
Qed.

(** The enabled mask after its bit [index] was set or cleared. *)
Lemma cbuf_wf_update (cso cso' : list ilo_cbuf_cso) (mask mask' index count count' : Z)
    (on : bool) :
  cbuf_wf {| cbuf_cso := cso; cbuf_enabled_mask := mask; cbuf_count := count |} ->
  length cso' = length cso ->
  0 <= index < Elements cso -> Elements cso <= 32 ->
  0 <= mask' ->
  (forall j, Z.testbit mask' j = if j =? index then on else Z.testbit mask j) ->
  cbuf_wf {| cbuf_cso := cso'; cbuf_enabled_mask := mask'; cbuf_count := count' |}.
Proof.
  intros [Hu Hbits] Hlen Hi H32 Hnn Hspec. unfold cbuf_wf in *. simpl in *.
  assert (Hin : bits_in mask' 0 (Elements cso')).
  { intros j Hj. rewrite Hspec in Hj. unfold Elements. rewrite Hlen.
    destruct (Z.eqb_spec j index) as [He|Hne]; [rewrite He; exact Hi |].
    apply Hbits. exact Hj. }
  split; [| exact Hin].
  apply uint_of_bits; [exact Hnn |].
  intros j Hj. apply Hin in Hj. unfold Elements in *. rewrite Hlen in Hj. lia.
Qed.

(** X7: what [ilo_set_constant_buffer] does to a stage.  On a context whose
    enabled masks are [unsigned]s with bits only at existing slots, of at
    most 32 slots per stage, a call that completes names a stage and a slot
    that exist; bit [index] of the enabled mask of the stage is set exactly
    when [state] is non-null and the other bits are as before; the slot
    holds the buffer of [state] with no pending span, or the client span of
    [state] when it has no buffer, or nothing for a null [state]; the other
    slots, the count of the stage (which only finalization recomputes) and
    the other stages are untouched; the masks are still well formed; the
    constant-buffer bit is raised. *)
Theorem ilo_set_constant_buffer_enabled_mask (ilo ilo' : ilo_context)
    (shader index : Z) (state : option pipe_constant_buffer) :
  (forall sh, cbuf_wf (sh_get (ilo_cbuf ilo) sh)) ->
  (forall sh, Elements (cbuf_cso (sh_get (ilo_cbuf ilo) sh)) <= 32) ->
  ilo_set_constant_buffer ilo shader index state = Ok ilo' ->
  exists sh,
    let old := sh_get (ilo_cbuf ilo) sh in
    let new := sh_get (ilo_cbuf ilo') sh in
    shader = shader_type_index sh /\
    0 <= index < Elements (cbuf_cso old) /\
    (forall j, Z.testbit (cbuf_enabled_mask new) j
               = if j =? index
                 then match state with Some _ => true | None => false end
                 else Z.testbit (cbuf_enabled_mask old) j) /\
    (exists cb, cbuf_cso new !! Z.to_nat index = Some cb /\ cbuf_slot_set state cb) /\
    (forall j : nat, j <> Z.to_nat index -> cbuf_cso new !! j = cbuf_cso old !! j) /\
    cbuf_count new = cbuf_count old /\
    (forall sh', sh' <> sh ->
       sh_get (ilo_cbuf ilo') sh' = sh_get (ilo_cbuf ilo) sh') /\
    (forall sh', cbuf_wf (sh_get (ilo_cbuf ilo') sh')) /\
    is_dirty (ilo_dirty ilo') ILO_STATE_CONSTANT_BUFFER = true.
Proof.
  intros Hwf H32 H. unfold ilo_set_constant_buffer in H.
  destruct (shader_type_of_index shader) as [sh|] eqn:Hsh; [| discriminate H].
  apply shader_type_of_index_Some in Hsh.
  exists sh. cbv zeta.
  set (old := sh_get (ilo_cbuf ilo) sh) in *.
  apply bind_Ok in H. destruct H as (u & Hassert & H).
  apply assert_Ok, Z.ltb_lt in Hassert.
  apply bind_Ok in H. destruct H as (cbuf & Hload & H).
  apply load_Ok in Hload. destruct Hload as [Hi0 Hload].
  pose proof (H32 sh) as Hsize. fold old in Hsize.
  assert (Hi : 0 <= index < 32) by lia.
  assert (Hnn : 0 <= cbuf_enabled_mask old) by exact (proj1 (proj1 (Hwf sh))).
  assert (Hfinish :
            forall cb cso mask on,
              store (cbuf_cso old) index cb = Ok cso ->
              cbuf_slot_set state cb ->
              0 <= mask ->
              (forall j, Z.testbit mask j
                         = if j =? index then on
                           else Z.testbit (cbuf_enabled_mask old) j) ->
              on = match state with Some _ => true | None => false end ->
              forall refs,
                let new :=
                  {| cbuf_cso := cso; cbuf_enabled_mask := mask;
                     cbuf_count := cbuf_count old |} in
                let ilo' :=
                  mark_dirty (ILO_DIRTY ILO_STATE_CONSTANT_BUFFER)
                    (set_cbuf (sh_set (ilo_cbuf ilo) sh new) (set_refcnt refs ilo)) in
                shader = shader_type_index sh /\
                0 <= index < Elements (cbuf_cso old) /\
                (forall j, Z.testbit (cbuf_enabled_mask (sh_get (ilo_cbuf ilo') sh)) j
                           = if j =? index
                             then match state with Some _ => true | None => false end
                             else Z.testbit (cbuf_enabled_mask old) j) /\
                (exists cb, cbuf_cso (sh_get (ilo_cbuf ilo') sh) !! Z.to_nat index
                            = Some cb /\ cbuf_slot_set state cb) /\
                (forall j : nat, j <> Z.to_nat index ->
                   cbuf_cso (sh_get (ilo_cbuf ilo') sh) !! j = cbuf_cso old !! j) /\
                cbuf_count (sh_get (ilo_cbuf ilo') sh) = cbuf_count old /\
                (forall sh', sh' <> sh ->
                   sh_get (ilo_cbuf ilo') sh' = sh_get (ilo_cbuf ilo) sh') /\
                (forall sh', cbuf_wf (sh_get (ilo_cbuf ilo') sh')) /\
                is_dirty (ilo_dirty ilo') ILO_STATE_CONSTANT_BUFFER = true).
  { intros cb cso mask on Hst Hslot Hmnn Hmask Hon refs new ilo1.
    apply store_Ok in Hst. destruct Hst as [Hr ->].
    subst ilo1. simpl. rewrite sh_get_set_eq. subst new. simpl.
    split; [exact Hsh |]. split; [exact Hr |].
    split; [intros j; rewrite Hmask, Hon; reflexivity |].
    split.
    { exists cb. split; [| exact Hslot].
      apply list_lookup_insert_eq. unfold Elements in Hr. lia. }
    split; [intros j Hj; apply list_lookup_insert_ne; congruence |].
    split; [reflexivity |].
    split; [intros sh' Hne; apply sh_get_set_ne; exact Hne |].
    split; [| apply is_dirty_mark].
    intros sh'. destruct (decide (sh' = sh)) as [->|Hne].
    - rewrite sh_get_set_eq.
      apply (cbuf_wf_update (cbuf_cso old) _ (cbuf_enabled_mask old) mask index
               (cbuf_count old) _ on).
      + pose proof (Hwf sh) as W. fold old in W. destruct old. exact W.
      + apply length_insert.
      + exact Hr.
      + apply H32.
      + exact Hmnn.
      + exact Hmask.
    - rewrite sh_get_set_ne by exact Hne. apply Hwf. }
  destruct state as [st|].
  - apply bind_Ok in H. destruct H as (cb & Hcb & H).
    apply bind_Ok in H. destruct H as (cso & Hst & H).
    injection H as <-.
    apply (Hfinish cb cso _ true Hst).
    + unfold cbuf_slot_set. destruct (cb_buffer st) as [b|] eqn:Hb.
      * injection Hcb as <-. simpl. auto.
      * apply bind_Ok in Hcb. destruct Hcb as (u' & _ & Hcb).
        injection Hcb as <-. simpl. auto.
    + apply Z.lor_nonneg. split; [exact Hnn |].
      rewrite bit_pow2 by exact Hi. apply Z.pow_nonneg. lia.
    + intros j. rewrite Z.lor_spec, testbit_bit by exact Hi.
      destruct (j =? index); [apply orb_true_r | apply orb_false_r].
    + reflexivity.
  - apply bind_Ok in H. destruct H as (cso & Hst & H).
    injection H as <-.
    apply (Hfinish _ cso _ false Hst).
    + simpl. auto.
    + apply Z.ldiff_nonneg. left. exact Hnn.
    + intros j. rewrite Z.ldiff_spec, testbit_bit by exact Hi.
      destruct (j =? index); [apply andb_false_r | apply andb_true_r].
    + reflexivity.
Qed.

Lemma calloc_context_cbuf_wf (cap : nat) (sh : pipe_shader_type) :
  cbuf_wf (sh_get (ilo_cbuf (calloc_context cap)) sh).
Proof.
  destruct sh; (split; [unfold is_uint, UINT_RANGE; simpl; lia |]);
    intros j Hj; simpl in Hj; rewrite Z.bits_0 in Hj; discriminate Hj.
Qed.

Lemma ilo_set_constant_buffer_enabled_mask_witness :
  exists ilo',
    ilo_set_constant_buffer (calloc_context 4) 1 2 (Some client_span) = Ok ilo' /\
    cbuf_enabled_mask (sh_get (ilo_cbuf ilo') PIPE_SHADER_FRAGMENT) = 4 /\
    exists sh, 1 = shader_type_index sh /\
               Z.testbit (cbuf_enabled_mask (sh_get (ilo_cbuf ilo') sh)) 2 = true.
Proof.
  assert (H32 : forall sh,
             Elements (cbuf_cso (sh_get (ilo_cbuf (calloc_context 4)) sh)) <= 32)
    by (intros sh; destruct sh; vm_compute; discriminate).
  eexists. split; [reflexivity |]. split; [reflexivity |].
  destruct (ilo_set_constant_buffer_enabled_mask (calloc_context 4) _ 1 2
              (Some client_span) (calloc_context_cbuf_wf 4) H32 eq_refl)
    as (sh & Hsh & _ & Hbits & _).
  exists sh. split; [exact Hsh |]. rewrite Hbits. reflexivity.
Defined.

(** X8: the three assertions of [ilo_set_constant_buffer].  For an index
    that is not negative, the call completes when the shader type is one of
    the four, the slot exists and a non-null [state] has a buffer or a
    client pointer; in every other case it stops on a failed assertion. *)
Theorem ilo_set_constant_buffer_asserts (ilo : ilo_context) (shader index : Z)
    (state : option pipe_constant_buffer) :
  0 <= index ->
  (cbuf_args_ok ilo shader index state ->
   exists ilo', ilo_set_constant_buffer ilo shader index state = Ok ilo') /\
  (~ cbuf_args_ok ilo shader index state ->
   ilo_set_constant_buffer ilo shader index state = Abort AssertionFailed).
Proof.
  intros Hidx. unfold cbuf_args_ok, ilo_set_constant_buffer.
  destruct (shader_type_of_index shader) as [sh|].
  2:{ split; [intros (sh & Hsh & _); discriminate Hsh | reflexivity]. }
  set (old := sh_get (ilo_cbuf ilo) sh).
  destruct (Z.ltb_spec index (Elements (cbuf_cso old))) as [Hlt|Hge].
  2:{ split; [| reflexivity].
      intros (sh' & Hsh & Hi & _). injection Hsh as <-. fold old in Hi. lia. }
  simpl.
  assert (Hslot : exists cb, cbuf_cso old !! Z.to_nat index = Some cb).
  { apply lookup_lt_is_Some. unfold Elements in Hlt. lia. }
  destruct Hslot as (cb & Hcb).
  assert (Hload : load (cbuf_cso old) index = Ok cb)
    by (apply load_Ok; auto).
  rewrite Hload. cbn [assert bind].
  assert (Hstore : forall x, exists cso, store (cbuf_cso old) index x = Ok cso).
  { intros x. unfold store.
    destruct (Z.leb_spec 0 index) as [_|Hneg]; [| lia].
    destruct (Z.ltb_spec index (Elements (cbuf_cso old))) as [_|Hge]; [| lia].
    eexists. reflexivity. }
  destruct state as [st|].
  - destruct (cb_buffer st) as [b|] eqn:Hb.
    + cbn [bind].
      match goal with
      | |- context [store ?l ?i ?x] => destruct (Hstore x) as (cso & ->)
      end.
      cbn [bind]. split; [intros _; eexists; reflexivity |].
      intros Hno. exfalso. apply Hno. exists sh.
      split; [reflexivity |]. split; [exact Hlt | discriminate].
    + destruct (cb_user_buffer st) as [p|] eqn:Hp.
      * rewrite bool_decide_eq_true_2 by discriminate. cbn [assert bind].
        match goal with
        | |- context [store ?l ?i ?x] => destruct (Hstore x) as (cso & ->)
        end.
        cbn [bind]. split; [intros _; eexists; reflexivity |].
        intros Hno. exfalso. apply Hno. exists sh.
        split; [reflexivity |]. split; [exact Hlt | discriminate].
      * rewrite bool_decide_eq_false_2 by (intros Hc; apply Hc; reflexivity).
        cbn [assert bind]. split; [| reflexivity].
        intros (sh' & _ & _ & Hok). exfalso. apply Hok; reflexivity.
  - cbv zeta.
    match goal with
    | |- context [store ?l ?i ?x] => destruct (Hstore x) as (cso & ->)
    end.
    cbn [bind]. split; [intros _; eexists; reflexivity |].
    intros Hno. exfalso. apply Hno. exists sh.
    split; [reflexivity |]. split; [exact Hlt | exact I].
Qed.

Lemma ilo_set_constant_buffer_asserts_witness :
  ilo_set_constant_buffer (calloc_context 4) 1 4 None = Abort AssertionFailed /\
  ilo_set_constant_buffer (calloc_context 4) 4 0 None = Abort AssertionFailed /\
  ilo_set_constant_buffer (calloc_context 4) 1 2
    (Some {| cb_buffer := None; cb_buffer_offset := 0; cb_buffer_size := 64;
             cb_user_buffer := None |}) = Abort AssertionFailed /\
  exists ilo', ilo_set_constant_buffer (calloc_context 4) 3 3 None = Ok ilo'.
Proof.
  split; [reflexivity |]. split; [reflexivity |]. split; [reflexivity |].
  apply (proj1 (ilo_set_constant_buffer_asserts (calloc_context 4) 3 3 None
                  ltac:(lia))).
  exists PIPE_SHADER_COMPUTE. split; [reflexivity |].
  split; [reflexivity | exact I].
Defined.

(** ** A second constant-buffer phase *)

(** A scan whose body changes nothing at the set bits changes nothing. *)
Lemma bit_scan_loop_identity {St : Type} (body : Z -> St -> result St) (n : nat)
    (lo mask : Z) (s : St) :
  0 <= lo -> lo + Z.of_nat n <= 32 -> 0 <= mask ->
  bits_in mask lo (lo + Z.of_nat n) ->
  (forall i, Z.testbit mask i = true -> body i s = Ok s) ->
  bit_scan_loop n mask body s = Ok s.
Proof.
  revert lo mask. induction n as [|n IH]; intros lo mask Hlo Hhi Hnn Hin Hbody.
  - replace (lo + Z.of_nat 0) with lo in Hin by lia.
    apply bits_in_empty in Hin; [| exact Hnn]. subst mask. reflexivity.
  - rewrite bit_scan_loop_S.
    destruct (Z.eqb_spec mask 0) as [->|Hnz]; [reflexivity |].
    destruct (u_bit_scan_spec mask lo (lo + Z.of_nat (S n)) Hnn Hnz Hlo Hhi Hin)
      as (Hi & Hset & Hnn' & Hin' & Hbits).
    destruct (u_bit_scan mask) as [i mask']. cbn [fst snd] in *.
    rewrite (Hbody i Hset). cbn [bind].
    apply (IH (lo + 1)); [lia | lia | exact Hnn' | |].
    + replace (lo + 1 + Z.of_nat n) with (lo + Z.of_nat (S n)) by lia.
      exact Hin'.
    + intros j Hj. apply Hbody. rewrite Hbits in Hj.
      apply andb_true_iff in Hj. apply Hj.
Qed.

Lemma for_each_identity {X S : Type} (xs : list X) (body : X -> S -> result S)
    (s : S) :
  (forall x, In x xs -> body x s = Ok s) -> for_each xs body s = Ok s.
Proof.
  induction xs as [|x xs IH]; intros H; [reflexivity |].
  simpl. rewrite (H x) by (left; reflexivity). cbn [bind].
  apply IH. intros y Hy. apply H. right. exact Hy.
Qed.

Lemma set_cbuf_same (ilo : ilo_context) (sh : pipe_shader_type) :
  set_cbuf
    (sh_set (ilo_cbuf ilo) sh
       {| cbuf_cso := cbuf_cso (sh_get (ilo_cbuf ilo) sh);
          cbuf_enabled_mask := cbuf_enabled_mask (sh_get (ilo_cbuf ilo) sh);
          cbuf_count := cbuf_count (sh_get (ilo_cbuf ilo) sh) |})
    ilo
  = ilo.
Proof.
  destruct ilo as [? ? ? ? ? ? ? ? ? ? ? ? ? ? ? ? ? ? ? ? ? ? ? ? ? ? cb ? ? ?].
  unfold set_cbuf. simpl. f_equal.
  destruct cb as [v f g c], sh; simpl;
    [destruct v | destruct f | destruct g | destruct c]; reflexivity.
Qed.

Section SettledConstantBuffers.

Variable staged : list upload_call -> upload_call -> Z * pipe_resource.

(** No enabled slot holds a pending span, and the counts are the ones the
    phase computes: the phase has nothing to do. *)
Lemma finalize_constant_buffers_settled (ilo : ilo_context) :
  (forall sh, cbuf_wf (sh_get (ilo_cbuf ilo) sh)) ->
  (forall sh (j : nat) cb,
     Z.testbit (cbuf_enabled_mask (sh_get (ilo_cbuf ilo) sh)) (Z.of_nat j) = true ->
     cbuf_cso (sh_get (ilo_cbuf ilo) sh) !! j = Some cb ->
     cbuf_user_buffer cb = None) ->
  (forall sh,
     cbuf_count (sh_get (ilo_cbuf ilo) sh)
     = util_last_bit (cbuf_enabled_mask (sh_get (ilo_cbuf ilo) sh))) ->
  finalize_constant_buffers staged ilo = Ok ilo.
Proof.
  intros Hwf Hnone Hcount. unfold finalize_constant_buffers.
  destruct (negb _); [reflexivity |].
  apply for_each_identity. intros sh _. cbv zeta.
  destruct (Hwf sh) as [Hu Hslots].
  assert (H32 : 0 + Z.of_nat UINT_BITS <= 32) by (unfold UINT_BITS; lia).
  rewrite (bit_scan_loop_identity _ UINT_BITS 0 _ ilo (Z.le_refl 0) H32
             (proj1 Hu) (is_uint_bits_in _ Hu)).
  - cbn [bind]. rewrite <- Hcount. rewrite set_cbuf_same. reflexivity.
  - intros i Hi. unfold upload_user_cbuf.
    pose proof (Hslots i Hi) as Hr. unfold Elements in Hr.
    destruct (cbuf_cso (sh_get (ilo_cbuf ilo) sh) !! Z.to_nat i) as [cb|] eqn:Hcb;
      [| apply lookup_ge_None in Hcb; lia].
    assert (Hload : load (cbuf_cso (sh_get (ilo_cbuf ilo) sh)) i = Ok cb)
      by (apply load_Ok; split; [lia | exact Hcb]).
    rewrite Hload. cbn [bind].
    rewrite (Hnone sh (Z.to_nat i) cb); [reflexivity | | exact Hcb].
    rewrite Z2Nat.id by lia. exact Hi.
Qed.

(** X9: the constant-buffer phase is idempotent.  On a context whose
    enabled masks are [unsigned]s with bits only at existing slots, a
    phase that completes leaves a context on which running the phase again
    changes nothing: no slot is staged twice and no request reaches the
    upload manager the second time. *)
Theorem finalize_constant_buffers_idempotent (ilo ilo1 : ilo_context) :
  (forall sh, cbuf_wf (sh_get (ilo_cbuf ilo) sh)) ->
  finalize_constant_buffers staged ilo = Ok ilo1 ->
  finalize_constant_buffers staged ilo1 = Ok ilo1.
Proof.
  intros Hwf H.
  destruct (is_dirty (ilo_dirty ilo) ILO_STATE_CONSTANT_BUFFER) eqn:Hdirty.
  2:{ unfold finalize_constant_buffers in H.
      rewrite dirty_test_ILO_DIRTY, Hdirty in H. cbn [negb] in H.
      injection H as <-. unfold finalize_constant_buffers.
      rewrite dirty_test_ILO_DIRTY, Hdirty. reflexivity. }
  unfold finalize_constant_buffers in H.
  rewrite dirty_test_ILO_DIRTY, Hdirty in H. cbn [negb] in H.
  destruct (for_each_stage_spec staged PIPE_SHADER_TYPES ilo)
    as (ilo' & Hrun & Hin & _).
  { unfold PIPE_SHADER_TYPES.
    repeat (apply NoDup_cons_2;
            [rewrite list_elem_of_In; simpl; intuition discriminate |]).
    apply NoDup_nil_2. }
  { exact Hwf. }
  assert (E : Ok ilo' = Ok ilo1) by (rewrite <- Hrun; exact H).
  injection E as ->.
  assert (Hall : forall sh, In sh PIPE_SHADER_TYPES)
    by (intros sh; destruct sh; simpl; auto).
  apply finalize_constant_buffers_settled.
  - intros sh. destruct (Hin sh (Hall sh)) as (Hmask & _ & Hlen & _).
    destruct (Hwf sh) as [Hu Hslots].
    unfold cbuf_wf. rewrite Hmask. split; [exact Hu |].
    unfold Elements. rewrite Hlen. exact Hslots.
  - intros sh j cb' Hbit Hj.
    destruct (Hin sh (Hall sh)) as (Hmask & _ & Hlen & Hres).
    rewrite Hmask in Hbit.
    destruct (cbuf_cso (sh_get (ilo_cbuf ilo) sh) !! j) as [cb|] eqn:Hold.
    + destruct (Hres j cb Hold) as (cb0 & Hj0 & Hslot).
      rewrite Hbit in Hslot.
      assert (cb0 = cb') as -> by congruence.
      unfold cbuf_slot_resolved in Hslot.
      destruct (cbuf_user_buffer cb) eqn:Huser.
      * apply Hslot.
      * subst cb'. exact Huser.
    + apply lookup_ge_None in Hold. apply lookup_lt_Some in Hj. lia.
  - intros sh. destruct (Hin sh (Hall sh)) as (Hmask & Hcount & _).
    rewrite Hcount, Hmask. reflexivity.
Qed.

End SettledConstantBuffers.

Lemma finalize_constant_buffers_idempotent_witness :
  exists ilo1,
    finalize_constant_buffers (staged_at 0) pending_cbuf_context = Ok ilo1 /\
    ilo_uploader ilo1 = [UploadData 0 64 4096] /\
    finalize_constant_buffers (staged_at 0) ilo1 = Ok ilo1.
Proof.
  eexists. split; [vm_compute; reflexivity |]. split; [reflexivity |].
  apply (finalize_constant_buffers_idempotent (staged_at 0) pending_cbuf_context).
  - exact pending_cbuf_context_wf.
  - vm_compute. reflexivity.
Defined.

(** ** The index buffer at a draw *)

Section IndexBufferPaths.

Variable staged : list upload_call -> upload_call -> Z * pipe_resource.

(** X10: an index buffer in client memory is staged window by window.  For
    an indexed draw with a pending client pointer, a [finalize_index_buffer]
    that completes has sent one [u_upload_data] request, for the
    [index_size * count] bytes at [user_buffer + index_size * start] (the
    products on 32 bits); the resolved resource is the staged one, the
    resolved draw-start offset is the returned offset over the index size
    minus the start of the draw, an exact division; the binding itself
    keeps its client pointer, so the next draw stages again; and the
    index-buffer bit is raised. *)
Theorem finalize_index_buffer_uploads_user_indices (ilo ilo' : ilo_context)
    (draw : pipe_draw_info) (user_buffer : user_pointer) :
  ilo_draw ilo = Some draw ->
  indexed draw = true ->
  ib_user_buffer (ib_state (ilo_ib ilo)) = Some user_buffer ->
  finalize_index_buffer staged ilo = Ok ilo' ->
  let st := ib_state (ilo_ib ilo) in
  let call :=
    UploadData 0 (umul (index_size st) (draw_count draw))
      (user_buffer + umul (index_size st) (draw_start draw)) in
  let offset := fst (staged (ilo_uploader ilo) call) in
  let res := snd (staged (ilo_uploader ilo) call) in
  ilo_uploader ilo' = ilo_uploader ilo ++ [call] /\
  index_size st <> 0 /\
  offset mod index_size st = 0 /\
  ilo_ib ilo' =
    {| ib_state := st; ib_resource := Some res;
       draw_start_offset := offset / index_size st - draw_start draw |} /\
  index_size st * (draw_start_offset (ilo_ib ilo') + draw_start draw) = offset /\
  is_dirty (ilo_dirty ilo') ILO_STATE_INDEX_BUFFER = true.
Proof.
  intros Hdraw Hidx Huser H. cbv zeta.
  unfold finalize_index_buffer in H.
  rewrite Hdraw in H. simpl in H. rewrite Hidx in H. simpl in H.
  rewrite Huser in H. simpl in H.
  unfold u_upload_data, upload in H. cbv zeta in H.
  set (call := UploadData 0
                 (umul (index_size (ib_state (ilo_ib ilo))) (draw_count draw))
                 (user_buffer
                  + umul (index_size (ib_state (ilo_ib ilo))) (draw_start draw)))
    in *.
  destruct (staged (ilo_uploader ilo) call) as [offset res].
  unfold umod, udiv in H. simpl fst in *. simpl snd in *.
  destruct (Z.eqb_spec (index_size (ib_state (ilo_ib ilo))) 0) as [Hz|Hnz];
    [discriminate H |].
  simpl in H.
  destruct (Z.eqb_spec (offset mod index_size (ib_state (ilo_ib ilo))) 0)
    as [Hrest|Hrest]; [| discriminate H].
  simpl in H. injection H as <-. simpl.
  split; [reflexivity |]. split; [exact Hnz |]. split; [exact Hrest |].
  split; [reflexivity |]. split; [| apply is_dirty_mark].
  replace (offset / index_size (ib_state (ilo_ib ilo)) - draw_start draw
           + draw_start draw)
    with (offset / index_size (ib_state (ilo_ib ilo))) by lia.
  symmetry. apply Z.div_exact; assumption.
Qed.

(** When there is nothing to stage, [finalize_index_buffer] is the
    identity: for a draw that is not indexed, and for an indexed draw over
    a device buffer whose index size is not 0 and divides the bound
    offset. *)
Lemma finalize_index_buffer_nothing_to_stage (ilo : ilo_context)
    (draw : pipe_draw_info) :
  ilo_draw ilo = Some draw ->
  indexed draw = false \/
  (ib_user_buffer (ib_state (ilo_ib ilo)) = None /\
   index_size (ib_state (ilo_ib ilo)) <> 0 /\
   ib_offset (ib_state (ilo_ib ilo)) mod index_size (ib_state (ilo_ib ilo)) = 0) ->
  finalize_index_buffer staged ilo = Ok ilo.
Proof.
  intros Hdraw Hcase. unfold finalize_index_buffer.
  rewrite Hdraw. simpl.
  destruct (indexed draw) eqn:Hidx; [| reflexivity].
  destruct Hcase as [Hc|(Huser & Hnz & Hal)]; [discriminate Hc |].
  simpl. rewrite Huser. unfold umod.
  destruct (Z.eqb_spec (index_size (ib_state (ilo_ib ilo))) 0) as [Hz|_];
    [contradiction |].
  simpl. rewrite Hal. reflexivity.
Qed.

(** With an index size of 0 and no client pointer, an indexed draw stops in
    [offset % index_size]. *)
Lemma finalize_index_buffer_unbound_traps (ilo : ilo_context)
    (draw : pipe_draw_info) :
  ilo_draw ilo = Some draw ->
  indexed draw = true ->
  ib_user_buffer (ib_state (ilo_ib ilo)) = None ->
  index_size (ib_state (ilo_ib ilo)) = 0 ->
  finalize_index_buffer staged ilo = Abort DivisionByZero.
Proof.
  intros Hdraw Hidx Huser Hz. unfold finalize_index_buffer.
  rewrite Hdraw. simpl. rewrite Hidx. simpl. rewrite Huser, Hz. reflexivity.
Qed.

End IndexBufferPaths.

Lemma finalize_index_buffer_uploads_user_indices_witness :
  exists ilo',
    finalize_index_buffer (staged_at 64) user_index_context = Ok ilo' /\
    ilo_uploader ilo' = [UploadData 0 10 8212] /\
    draw_start_offset (ilo_ib ilo') = 22.
Proof.
  eexists. split; [reflexivity |].
  pose proof (finalize_index_buffer_uploads_user_indices (staged_at 64)
                user_index_context _
                {| indexed := true; draw_start := 10; draw_count := 5 |} 8192
                eq_refl eq_refl eq_refl eq_refl) as H.
  split; [exact (proj1 H) | reflexivity].
Defined.

(** ** Binding an index buffer *)

(** A call with a descriptor completes only for an index size other than
    0, and leaves the descriptor as the binding. *)
Lemma ilo_set_index_buffer_Some_Ok (ilo ilo1 : ilo_context)
    (state : pipe_index_buffer) :
  ilo_set_index_buffer ilo (Some state) = Ok ilo1 ->
  index_size state <> 0 /\
  ilo_ib ilo1 =
    {| ib_state := state; ib_resource := ib_buffer state;
       draw_start_offset := ib_offset state / index_size state |}.
Proof.
  unfold ilo_set_index_buffer, udiv. intros H.
  destruct (Z.eqb_spec (index_size state) 0) as [Hz|Hnz].
  - rewrite Hz in H. discriminate H.
  - split; [exact Hnz |]. simpl in H. injection H as <-. simpl.
    destruct state; reflexivity.
Qed.

(** X11: what [ilo_set_index_buffer] does with a descriptor.  The call
    completes exactly when the index size of the descriptor is not 0 (the
    resolved draw-start offset is [offset / index_size]); then the binding
    is the descriptor, the resolved resource is its buffer, each of the two
    pointers gave up the reference it held and took one on the buffer, and
    the index-buffer bit is raised. *)
Theorem ilo_set_index_buffer_binds (ilo : ilo_context) (state : pipe_index_buffer) :
  (index_size state = 0 ->
   ilo_set_index_buffer ilo (Some state) = Abort DivisionByZero) /\
  (index_size state <> 0 ->
   exists ilo',
     ilo_set_index_buffer ilo (Some state) = Ok ilo' /\
     ilo_ib ilo' =
       {| ib_state := state; ib_resource := ib_buffer state;
          draw_start_offset := ib_offset state / index_size state |} /\
     (forall o,
        ilo_refcnt ilo' o
        = ilo_refcnt ilo o
          - held_by ObjResource (ib_buffer (ib_state (ilo_ib ilo))) o
          - held_by ObjResource (ib_resource (ilo_ib ilo)) o
          + 2 * held_by ObjResource (ib_buffer state) o) /\
     is_dirty (ilo_dirty ilo') ILO_STATE_INDEX_BUFFER = true).
Proof.
  unfold ilo_set_index_buffer, udiv. split.
  - intros ->. reflexivity.
  - intros Hnz.
    destruct (Z.eqb_spec (index_size state) 0) as [Hz|_]; [contradiction |].
    simpl. eexists. split; [reflexivity |]. simpl.
    split; [destruct state; reflexivity |]. split; [| apply is_dirty_mark].
    intros o. rewrite !pipe_reference_count. lia.
Qed.

Section IndexBufferAtDraw.

Variable staged : list upload_call -> upload_call -> Z * pipe_resource.

(** X12: a device buffer bound at an aligned offset is never staged.
    After [ilo_set_index_buffer] of a descriptor with a buffer, no client
    pointer and an offset that its index size divides, the resolved
    resource is the buffer, the resolved draw-start offset times the index
    size is the bound offset, and [finalize_index_buffer] leaves the
    context of every draw as it is: what the mutator resolved is final. *)
Theorem ilo_set_index_buffer_aligned_is_final (ilo ilo1 : ilo_context)
    (state : pipe_index_buffer) (draw : pipe_draw_info) :
  ib_user_buffer state = None ->
  ib_offset state mod index_size state = 0 ->
  ilo_set_index_buffer ilo (Some state) = Ok ilo1 ->
  ib_resource (ilo_ib ilo1) = ib_buffer state /\
  index_size state * draw_start_offset (ilo_ib ilo1) = ib_offset state /\
  finalize_index_buffer staged (set_draw (Some draw) ilo1)
  = Ok (set_draw (Some draw) ilo1).
Proof.
  intros Huser Hal H.
  destruct (ilo_set_index_buffer_Some_Ok ilo ilo1 state H) as [Hnz Hib].
  rewrite Hib. simpl.
  split; [reflexivity |]. split.
  - symmetry. apply Z.div_exact; assumption.
  - apply (finalize_index_buffer_nothing_to_stage staged _ draw);
      [reflexivity |].
    right. simpl. rewrite Hib. simpl. auto.
Qed.

End IndexBufferAtDraw.

Lemma ilo_set_index_buffer_binds_witness :
  exists ilo',
    ilo_set_index_buffer (calloc_context 4)
      (Some {| index_size := 4; ib_offset := 8;
               ib_buffer := Some (buffer_resource 9);
               ib_user_buffer := None |}) = Ok ilo' /\
    draw_start_offset (ilo_ib ilo') = 2 /\
    ilo_refcnt ilo' (ObjResource (buffer_resource 9)) = 2.
Proof.
  destruct (proj2 (ilo_set_index_buffer_binds (calloc_context 4)
                     {| index_size := 4; ib_offset := 8;
                        ib_buffer := Some (buffer_resource 9);
                        ib_user_buffer := None |}) ltac:(discriminate))
    as (ilo' & H & Hib & Href & _).
  exists ilo'. split; [exact H |]. split; [rewrite Hib; reflexivity |].
  rewrite Href. reflexivity.
Defined.

Lemma ilo_set_index_buffer_aligned_is_final_witness :
  exists ilo1,
    ilo_set_index_buffer (calloc_context 4)
      (Some {| index_size := 4; ib_offset := 8;
               ib_buffer := Some (buffer_resource 9);
               ib_user_buffer := None |}) = Ok ilo1 /\
    ib_resource (ilo_ib ilo1) = Some (buffer_resource 9) /\
    4 * draw_start_offset (ilo_ib ilo1) = 8.
Proof.
  eexists. split; [reflexivity |].
  pose proof (ilo_set_index_buffer_aligned_is_final (staged_at 64)
                (calloc_context 4) _
                {| index_size := 4; ib_offset := 8;
                   ib_buffer := Some (buffer_resource 9);
                   ib_user_buffer := None |}
                {| indexed := true; draw_start := 0; draw_count := 3 |}
                eq_refl eq_refl eq_refl) as H.
  split; [exact (proj1 H) | exact (proj1 (proj2 H))].
Defined.

(** ** What finalization leaves alone *)

Section FinalizeFrame.

Variable kernel_changed : ilo_context -> ilo_shader_state -> Z -> bool.
Variable routing_changed :
  ilo_context -> ilo_shader_state -> option ilo_shader_state ->
  option cso_pointer -> bool.
Variable staged : list upload_call -> upload_call -> Z * pipe_resource.

(** The requests made since [ilo0] stage data: none is the unmap. *)
Let staging_since (ilo0 ilo : ilo_context) : Prop :=
  exists calls,
    ilo_uploader ilo = ilo_uploader ilo0 ++ calls /\
    Forall is_staging_call calls.

Lemma staging_since_refl (ilo : ilo_context) : staging_since ilo ilo.
Proof. exists []. split; [symmetry; apply app_nil_r | constructor]. Qed.

Lemma staging_since_step (ilo0 ilo : ilo_context) (call : upload_call)
    (up : list upload_call) :
  staging_since ilo0 ilo -> is_staging_call call ->
  up = ilo_uploader ilo ++ [call] ->
  exists calls, up = ilo_uploader ilo0 ++ calls /\ Forall is_staging_call calls.
Proof.
  intros (calls & Hup & Hall) Hcall ->. exists (calls ++ [call]). split.
  - rewrite Hup. symmetry. apply app_assoc.
  - apply Forall_app. split; [exact Hall |]. constructor; [exact Hcall | constructor].
Qed.

Lemma finalize_shader_state_frame (type : pipe_shader_type) (ilo : ilo_context) :
  let ilo' := finalize_shader_state kernel_changed routing_changed type ilo in
  client_bindings ilo' = client_bindings ilo /\
  ilo_ib ilo' = ilo_ib ilo /\ ilo_cbuf ilo' = ilo_cbuf ilo /\
  ilo_uploader ilo' = ilo_uploader ilo /\ ilo_draw ilo' = ilo_draw ilo /\
  ilo_refcnt ilo' = ilo_refcnt ilo.
Proof.
  unfold finalize_shader_state.
  destruct type; simpl;
    repeat match goal with
           | |- context [match ?x with _ => _ end] => destruct x eqn:?; simpl
           end;
    repeat split; reflexivity.
Qed.

Lemma finalize_shader_states_frame (ilo : ilo_context) :
  let ilo' := finalize_shader_states kernel_changed routing_changed ilo in
  client_bindings ilo' = client_bindings ilo /\
  ilo_ib ilo' = ilo_ib ilo /\ ilo_cbuf ilo' = ilo_cbuf ilo /\
  ilo_uploader ilo' = ilo_uploader ilo /\ ilo_draw ilo' = ilo_draw ilo /\
  ilo_refcnt ilo' = ilo_refcnt ilo.
Proof.
  unfold finalize_shader_states. generalize PIPE_SHADER_TYPES. intros types.
  revert ilo. induction types as [|t ts IH]; intros ilo; simpl.
  - repeat split; reflexivity.
  - destruct (IH (finalize_shader_state kernel_changed routing_changed t ilo))
      as (B & Hib & C & U & D & R).
    destruct (finalize_shader_state_frame t ilo) as (B' & Hib' & C' & U' & D' & R').
    repeat split; congruence.
Qed.

Lemma upload_user_cbuf_frame (sh : pipe_shader_type) (i : Z)
    (ilo0 ilo ilo' : ilo_context) :
  upload_user_cbuf staged sh i ilo = Ok ilo' ->
  (client_bindings ilo = client_bindings ilo0 /\
   ilo_ib ilo = ilo_ib ilo0 /\ ilo_draw ilo = ilo_draw ilo0 /\
   staging_since ilo0 ilo) ->
  client_bindings ilo' = client_bindings ilo0 /\
  ilo_ib ilo' = ilo_ib ilo0 /\ ilo_draw ilo' = ilo_draw ilo0 /\
  staging_since ilo0 ilo'.
Proof.
  unfold upload_user_cbuf, u_upload_data, upload. intros H (B & Hib & D & S).
  apply bind_Ok in H. destruct H as (cb & _ & H).
  destruct (cbuf_user_buffer cb) as [p|]; [| injection H as <-; auto].
  cbv zeta in H. apply bind_Ok in H. destruct H as (cso & _ & H).
  injection H as <-.
  split; [| split; [exact Hib | split; [exact D |]]].
  - rewrite <- B. destruct sh; reflexivity.
  - apply (staging_since_step ilo0 ilo (UploadData 0 (cbuf_user_buffer_size cb) p));
      [exact S | exact I | reflexivity].
Qed.

Lemma finalize_constant_buffers_frame (ilo ilo' : ilo_context) :
  finalize_constant_buffers staged ilo = Ok ilo' ->
  client_bindings ilo' = client_bindings ilo /\
  ilo_ib ilo' = ilo_ib ilo /\ ilo_draw ilo' = ilo_draw ilo /\
  staging_since ilo ilo'.
Proof.
  unfold finalize_constant_buffers. intros H.
  destruct (negb _).
  { injection H as <-. repeat split; try reflexivity. apply staging_since_refl. }
  apply (for_each_preserves
           (fun c => client_bindings c = client_bindings ilo /\
                     ilo_ib c = ilo_ib ilo /\ ilo_draw c = ilo_draw ilo /\
                     staging_since ilo c) _ _ _ _) in H; [exact H | |].
  - intros sh t t' Ht Pt.
    apply bind_Ok in Ht. destruct Ht as (u & Hu & Ht). injection Ht as <-.
    apply (bit_scan_loop_preserves
             (fun c => client_bindings c = client_bindings ilo /\
                       ilo_ib c = ilo_ib ilo /\ ilo_draw c = ilo_draw ilo /\
                       staging_since ilo c) _ _ _ _ _) in Hu.
    + destruct Hu as (B & Hib & D & S).
      split; [| split; [exact Hib | split; [exact D | exact S]]].
      rewrite <- B. destruct sh; reflexivity.
    + intros j v v' Hv Pv. apply (upload_user_cbuf_frame sh j ilo v v' Hv Pv).
    + exact Pt.
  - repeat split; try reflexivity. apply staging_since_refl.
Qed.






Lemma ilo_set_index_buffer_null_state (ilo ilo1 : ilo_context) :
  ilo_set_index_buffer ilo None = Ok ilo1 ->
  index_size (ib_state (ilo_ib ilo1)) = 0 /\
  ib_user_buffer (ib_state (ilo_ib ilo1)) = None.
Proof.
  unfold ilo_set_index_buffer. intros H. injection H as <-.
  split; reflexivity.
Qed.

(** X14: with no index buffer bound, an indexed draw cannot be finalized.
    After [ilo_set_index_buffer(NULL)], [ilo_finalize_3d_states] of every
    indexed draw stops before it completes: the index size is 0 and the
    index-buffer phase divides by it. *)
Theorem ilo_finalize_3d_states_unbound_indexed (ilo ilo1 ilo' : ilo_context)
    (draw : pipe_draw_info) :
  ilo_set_index_buffer ilo None = Ok ilo1 ->
  indexed draw = true ->
  ilo_finalize_3d_states kernel_changed routing_changed staged ilo1 draw
  <> Ok ilo'.
Proof.
  intros Hset Hidx H.
  apply ilo_set_index_buffer_null_state in Hset. destruct Hset as [Hz Huser].
  unfold ilo_finalize_3d_states in H.
  apply bind_Ok in H. destruct H as (c1 & H1 & H).
  apply bind_Ok in H. destruct H as (c2 & H2 & _).
  destruct (finalize_shader_states_frame (set_draw (Some draw) ilo1))
    as (_ & I0 & _ & _ & D0 & _).
  destruct (finalize_constant_buffers_frame _ _ H1) as (_ & I1 & D1 & _).
  rewrite (finalize_index_buffer_unbound_traps staged c1 draw) in H2;
    [discriminate H2 | | exact Hidx | |].
  - rewrite D1, D0. reflexivity.
  - rewrite I1, I0. exact Huser.
  - rewrite I1, I0. exact Hz.
Qed.

End FinalizeFrame.


Lemma ilo_finalize_3d_states_unbound_indexed_witness :
  exists ilo1,
    ilo_set_index_buffer aligned_index_context None = Ok ilo1 /\
    forall ilo',
      ilo_finalize_3d_states steady_kernel steady_routing (staged_at 64) ilo1
        {| indexed := true; draw_start := 10; draw_count := 5 |} <> Ok ilo'.
Proof.
  eexists. split; [reflexivity |].
  intros ilo'.
  exact (ilo_finalize_3d_states_unbound_indexed steady_kernel steady_routing
           (staged_at 64) aligned_index_context _ ilo'
           {| indexed := true; draw_start := 10; draw_count := 5 |}
           eq_refl eq_refl).
Defined.

(** ** The framebuffer and the vertex buffers *)

Section UtilityCollaborators.

Variable util_copy_framebuffer_state :
  pipe_framebuffer_state -> pipe_framebuffer_state -> refcounts ->
  pipe_framebuffer_state * refcounts.
Variable util_set_vertex_buffers_mask :
  list pipe_vertex_buffer -> Z -> option (list pipe_vertex_buffer) -> Z -> Z ->
  refcounts -> list pipe_vertex_buffer * Z * refcounts.

(** X15: the sample count of the framebuffer is never 0.  A call of
    [ilo_set_framebuffer_state] that completes has read a sample count from
    the texture of the first colour buffer when [nr_cbufs] is not 0 (even
    if there is a depth buffer), otherwise from the texture of the depth
    buffer, otherwise it takes 1; [fb.num_samples] is that count, or 1 when
    the count read is 0.  The null depth surface is untouched and the
    framebuffer bit is raised. *)
Theorem ilo_set_framebuffer_state_num_samples (ilo ilo' : ilo_context)
    (state : pipe_framebuffer_state) :
  ilo_set_framebuffer_state util_copy_framebuffer_state ilo state = Ok ilo' ->
  let n := fb_num_samples (ilo_fb ilo') in
  n <> 0 /\
  (exists samples,
     (if nr_cbufs state =? 0 then
        match zsbuf state with
        | Some surf =>
            exists tex, surf_texture surf = Some tex /\ nr_samples tex = samples
        | None => samples = 1
        end
      else
        exists surf tex,
          cbufs state !! 0%nat = Some (Some surf) /\
          surf_texture surf = Some tex /\ nr_samples tex = samples) /\
     n = if samples =? 0 then 1 else samples) /\
  fb_null_zs (ilo_fb ilo') = fb_null_zs (ilo_fb ilo) /\
  is_dirty (ilo_dirty ilo') ILO_STATE_FRAMEBUFFER = true.
Proof.
  unfold ilo_set_framebuffer_state. intros H.
  destruct (util_copy_framebuffer_state _ _ _) as [fbs refs].
  apply bind_Ok in H. destruct H as (samples & Hs & H).
  injection H as <-. simpl.
  split; [destruct (Z.eqb_spec samples 0); [discriminate | assumption] |].
  split; [| split; [reflexivity | apply is_dirty_mark]].
  exists samples. split; [| reflexivity].
  destruct (nr_cbufs state =? 0); simpl in Hs.
  - destruct (zsbuf state) as [surf|].
    + apply bind_Ok in Hs. destruct Hs as (tex & Htex & Hs).
      injection Hs as <-.
      destruct (surf_texture surf) as [t|]; [| discriminate Htex].
      injection Htex as <-. exists t. auto.
    + injection Hs as <-. reflexivity.
  - apply bind_Ok in Hs. destruct Hs as (slot & Hslot & Hs).
    apply bind_Ok in Hs. destruct Hs as (surf & Hsurf & Hs).
    apply bind_Ok in Hs. destruct Hs as (tex & Htex & Hs).
    injection Hs as <-.
    apply load_Ok in Hslot. destruct Hslot as [_ Hslot].
    destruct slot as [s|]; [| discriminate Hsurf]. injection Hsurf as ->.
    destruct (surf_texture surf) as [t|] eqn:Ht; [| discriminate Htex].
    injection Htex as <-. exists surf, t. auto.
Qed.

(** The loop of assertions over the vertex buffers. *)
Lemma no_user_buffers_loop (bufs : list pipe_vertex_buffer) (n : nat) (i : Z) :
  0 <= i -> i + Z.of_nat n <= Elements bufs ->
  let body :=
    fun i (_ : unit) =>
      let* b := load bufs i in assert (bool_decide (vb_user_buffer b = None)) in
  ((forall j b, i <= j < i + Z.of_nat n -> bufs !! Z.to_nat j = Some b ->
               vb_user_buffer b = None) ->
   iterate n i body tt = Ok (i + Z.of_nat n, tt)) /\
  ((exists j b, i <= j < i + Z.of_nat n /\ bufs !! Z.to_nat j = Some b /\
                vb_user_buffer b <> None) ->
   iterate n i body tt = Abort AssertionFailed).
Proof.
  intros Hi Hn body. subst body. revert i Hi Hn.
  induction n as [|n IH]; intros i Hi Hn.
  - split.
    + intros _. simpl. f_equal. f_equal. lia.
    + intros (j & b & Hj & _). lia.
  - unfold Elements in Hn.
    destruct (bufs !! Z.to_nat i) as [b|] eqn:Hb;
      [| apply lookup_ge_None in Hb; lia].
    assert (Hload : load bufs i = Ok b) by (apply load_Ok; auto).
    destruct (IH (i + 1)) as [IHok IHbad]; [lia | unfold Elements; lia |].
    cbn [iterate]. rewrite Hload. cbn [bind].
    destruct (vb_user_buffer b) as [p|] eqn:Hp.
    + rewrite bool_decide_eq_false_2 by discriminate. cbn [assert bind].
      split; [| intros _; reflexivity].
      intros Hall. specialize (Hall i b ltac:(lia) Hb). congruence.
    + rewrite bool_decide_eq_true_2 by reflexivity. cbn [assert bind].
      split.
      * intros Hall. rewrite IHok.
        -- f_equal. f_equal. lia.
        -- intros j c Hj Hc. apply (Hall j c); [lia | exact Hc].
      * intros (j & c & Hj & Hc & Hbad). apply IHbad.
        exists j, c. split; [| auto].
        destruct (Z.eq_dec j i) as [->|Hne]; [congruence | lia].
Qed.

(** X16: [ilo_set_vertex_buffers] takes no client memory.  For a buffer
    array with at least [num_buffers] entries, the call stops on a failed
    assertion when one of the first [num_buffers] entries has a client
    pointer; otherwise, and for a null array, it completes with the
    buffers and the enabled mask that [util_set_vertex_buffers_mask] gives,
    and with the vertex-buffer bit raised. *)
Theorem ilo_set_vertex_buffers_no_user_buffers (ilo : ilo_context)
    (start_slot num_buffers : Z) (buffers : option (list pipe_vertex_buffer)) :
  0 <= num_buffers ->
  match buffers with
  | Some bufs => num_buffers <= Elements bufs
  | None => True
  end ->
  let pending :=
    exists bufs j b,
      buffers = Some bufs /\ 0 <= j < num_buffers /\
      bufs !! Z.to_nat j = Some b /\ vb_user_buffer b <> None in
  (pending ->
   ilo_set_vertex_buffers util_set_vertex_buffers_mask ilo start_slot num_buffers
     buffers = Abort AssertionFailed) /\
  (~ pending ->
   exists ilo',
     ilo_set_vertex_buffers util_set_vertex_buffers_mask ilo start_slot
       num_buffers buffers = Ok ilo' /\
     (vb_states (ilo_vb ilo'), vb_enabled_mask (ilo_vb ilo'), ilo_refcnt ilo')
     = util_set_vertex_buffers_mask (vb_states (ilo_vb ilo))
         (vb_enabled_mask (ilo_vb ilo)) buffers start_slot num_buffers
         (ilo_refcnt ilo) /\
     is_dirty (ilo_dirty ilo') ILO_STATE_VERTEX_BUFFERS = true).
Proof.
  intros Hnum Hlen pending. unfold ilo_set_vertex_buffers.
  assert (Hdone :
            exists ilo',
              (let '(states, enabled_mask, refs) :=
                 util_set_vertex_buffers_mask (vb_states (ilo_vb ilo))
                   (vb_enabled_mask (ilo_vb ilo)) buffers start_slot num_buffers
                   (ilo_refcnt ilo) in
               Ok (mark_dirty (ILO_DIRTY ILO_STATE_VERTEX_BUFFERS)
                     (set_vb {| vb_states := states;
                                vb_enabled_mask := enabled_mask |}
                        (set_refcnt refs ilo)))) = Ok ilo' /\
              (vb_states (ilo_vb ilo'), vb_enabled_mask (ilo_vb ilo'),
               ilo_refcnt ilo')
              = util_set_vertex_buffers_mask (vb_states (ilo_vb ilo))
                  (vb_enabled_mask (ilo_vb ilo)) buffers start_slot num_buffers
                  (ilo_refcnt ilo) /\
              is_dirty (ilo_dirty ilo') ILO_STATE_VERTEX_BUFFERS = true).
  { destruct (util_set_vertex_buffers_mask _ _ _ _ _ _) as [[states mask] refs].
    eexists. split; [reflexivity |]. split; [reflexivity | apply is_dirty_mark]. }
  destruct buffers as [bufs|].
  - unfold for_lt. rewrite Z.sub_0_r.
    destruct (no_user_buffers_loop bufs (Z.to_nat num_buffers) 0 (Z.le_refl 0))
      as [Hok Hbad]; [lia |].
    split.
    + intros (bufs' & j & b & Hb & Hj & Hjb & Huser). injection Hb as <-.
      rewrite Hbad; [reflexivity |].
      exists j, b. split; [lia | auto].
    + intros Hnone. rewrite Hok; [exact Hdone |].
      intros j b Hj Hjb.
      destruct (vb_user_buffer b) as [p|] eqn:Hp; [| reflexivity].
      exfalso. apply Hnone. exists bufs, j, b.
      split; [reflexivity |]. split; [lia |]. split; [exact Hjb |].
      rewrite Hp. discriminate.
  - cbn [bind]. split; [| intros _; exact Hdone].
    intros (bufs & j & b & Hb & _). discriminate Hb.
Qed.

End UtilityCollaborators.

Lemma ilo_set_framebuffer_state_num_samples_witness :
  exists ilo',
    ilo_set_framebuffer_state copy_fb_plain (calloc_context 4)
      multisampled_framebuffer = Ok ilo' /\
    fb_num_samples (ilo_fb ilo') = 4 /\
    fb_num_samples (ilo_fb ilo') <> 0.
Proof.
  eexists. split; [reflexivity |]. split; [reflexivity |].
  exact (proj1 (ilo_set_framebuffer_state_num_samples copy_fb_plain
                  (calloc_context 4) _ multisampled_framebuffer eq_refl)).
Defined.

Lemma ilo_set_vertex_buffers_no_user_buffers_witness :
  ilo_set_vertex_buffers set_vb_plain (calloc_context 4) 0 2
    (Some [zero_vertex_buffer;
           {| vb_stride := 16; vb_buffer_offset := 0; vb_buffer := None;
              vb_user_buffer := Some 4096 |}])
  = Abort AssertionFailed.
Proof.
  apply (ilo_set_vertex_buffers_no_user_buffers set_vb_plain (calloc_context 4)
           0 2 _ ltac:(lia)).
  - unfold Elements. simpl. lia.
  - eexists. exists 1, {| vb_stride := 16; vb_buffer_offset := 0;
                           vb_buffer := None; vb_user_buffer := Some 4096 |}.
    split; [reflexivity |]. split; [lia |]. split; [reflexivity | discriminate].
Defined.

(** ** Stream output targets and viewports *)

Lemma iterate_ext {St : Type} (body body' : Z -> St -> result St) (n : nat)
    (i : Z) (s : St) :
  (forall j t, body j t = body' j t) ->
  iterate n i body s = iterate n i body' s.
Proof.
  intros Hext. revert i s. induction n as [|n IH]; intros i s; [reflexivity |].
  cbn [iterate]. rewrite Hext. destruct (body' i s) as [s'|f]; [| reflexivity].
  cbn [bind]. apply IH.
Qed.

(** X17: [ilo_set_stream_output_targets] replaces the targets.  With [n]
    the number of targets given (0 for a null array), a call that completes
    leaves the count at [n], the append mask as given and the stream output
    enabled exactly when [n] is positive; slot [i] below [n] holds
    [targets[i]], the slots from [n] up to the old count are null and the
    slots above are untouched; for every object the reference count moved
    by exactly the change in the number of slots that hold it; and the
    stream-output bit is raised. *)
Theorem ilo_set_stream_output_targets_replaces (ilo ilo' : ilo_context)
    (num_targets : Z) (targets : option (list (option pipe_stream_output_target)))
    (append_bitmask : Z) :
  ilo_set_stream_output_targets ilo num_targets targets append_bitmask = Ok ilo' ->
  let old := ilo_so ilo in
  let new := ilo_so ilo' in
  let n := match targets with Some _ => num_targets | None => 0 end in
  so_count new = n /\
  so_append_bitmask new = append_bitmask /\
  so_enabled new = (0 <? n) /\
  length (so_states new) = length (so_states old) /\
  (forall i, 0 <= i < n ->
     exists t, default [] targets !! Z.to_nat i = Some t /\
               so_states new !! Z.to_nat i = Some t) /\
  (forall i, Z.max 0 n <= i < so_count old ->
     so_states new !! Z.to_nat i = Some None) /\
  (forall i, Z.max (Z.max 0 n) (so_count old) <= i ->
     so_states new !! Z.to_nat i = so_states old !! Z.to_nat i) /\
  (forall o,
     ilo_refcnt ilo' o - count_held ObjSoTarget (so_states new) o
     = ilo_refcnt ilo o - count_held ObjSoTarget (so_states old) o) /\
  is_dirty (ilo_dirty ilo') ILO_STATE_STREAM_OUTPUT_TARGETS = true.
Proof.
  intros H old new n. unfold ilo_set_stream_output_targets in H.
  fold old in H. cbv zeta in H. fold n in H.
  apply bind_Ok in H. destruct H as ([i2 s2] & H2 & H).
  apply bind_Ok in H. destruct H as ([i3 s3] & H3 & H).
  injection H as <-.
  assert (H1 : for_lt 0 0 (slot_reference ObjSoTarget None)
                 (so_states old, ilo_refcnt ilo)
               = Ok (0, (so_states old, ilo_refcnt ilo))) by reflexivity.
  assert (H2' : for_lt 0 n
                  (fun i st =>
                     let* t := load (default [] targets) (i - 0) in
                     slot_reference ObjSoTarget t i st)
                  (so_states old, ilo_refcnt ilo) = Ok (i2, s2)).
  { rewrite <- H2. unfold for_lt. apply iterate_ext.
    intros j st. rewrite Z.sub_0_r. reflexivity. }
  destruct (replace_range_lookup fst
              (fun j v => load (default [] targets) (j - 0) = Ok v)
              _ _ _ _ _ _ _ _ _ _ _ _
              (slot_reference_writes ObjSoTarget 0 None)
              (slot_reference_load_writes ObjSoTarget 0
                 (fun j => j - 0) (default [] targets))
              H1 H2' H3 (Z.le_refl 0))
    as (Hlen & _ & Hin & Hhigh & Hout).
  subst new. simpl in *.
  split; [reflexivity |]. split; [reflexivity |]. split; [reflexivity |].
  split; [exact Hlen |]. split; [| split; [exact Hhigh | split; [exact Hout |]]].
  - intros i Hi. destruct (Hin i Hi) as (v & Hv & Hl).
    apply load_Ok in Hv. rewrite Z.sub_0_r in Hv.
    exists v. split; [apply Hv | exact Hl].
  - split; [| apply is_dirty_mark]. intros o.
    pose proof (for_lt_balance ObjSoTarget _ _ _ _ _ _ o
                  ltac:(intros j t t' Ht;
                        apply (slot_reference_load_balance ObjSoTarget
                                 (default [] targets) (fun j => j - 0)
                                 (fun j => j) j t t' o Ht)) H2') as B2.
    pose proof (for_lt_balance ObjSoTarget _ _ _ _ _ _ o
                  ltac:(intros j t t' Ht;
                        apply (slot_reference_balance ObjSoTarget None j t t'
                                 o Ht)) H3) as B3.
    simpl in B2. lia.
Qed.

Lemma ilo_set_stream_output_targets_replaces_witness :
  exists ilo',
    ilo_set_stream_output_targets stream_output_context 1 (Some [Some target_b]) 0
    = Ok ilo' /\
    so_states (ilo_so ilo') = [Some target_b; None; None; None] /\
    so_count (ilo_so ilo') = 1 /\
    ilo_refcnt ilo' (ObjSoTarget target_a) = 0 /\
    ilo_refcnt ilo' (ObjSoTarget target_b) = 1.
Proof.
  eexists. split; [reflexivity |]. split; [reflexivity |].
  split; [| split; reflexivity].
  exact (proj1 (ilo_set_stream_output_targets_replaces stream_output_context _
                  1 (Some [Some target_b]) 0 eq_refl)).
Defined.

(** The loop over the viewports, slot by slot. *)
Lemma viewport_loop_writes (vps : list pipe_viewport_state) (start_slot : Z)
    (n : nat) (i k : Z) (cso cso' : list ilo_viewport_cso) :
  iterate n i
    (fun i cso =>
       let* v := load vps i in
       store cso (uadd start_slot i) (ilo_gpe_set_viewport_cso v))
    cso = Ok (k, cso') ->
  0 <= i -> 0 <= start_slot -> start_slot + i < UINT_RANGE ->
  Elements cso < UINT_RANGE ->
  length cso' = length cso /\
  (forall x, 0 <= x -> x < start_slot + i \/ start_slot + i + Z.of_nat n <= x ->
     cso' !! Z.to_nat x = cso !! Z.to_nat x) /\
  (forall j, i <= j < i + Z.of_nat n ->
     exists v, vps !! Z.to_nat j = Some v /\
               cso' !! Z.to_nat (start_slot + j)
               = Some (ilo_gpe_set_viewport_cso v)).
Proof.
  revert i cso. induction n as [|n IH]; intros i cso H Hi Hs Hw Hsize.
  - simpl in H. injection H as _ <-.
    split; [reflexivity |]. split; [reflexivity |]. intros j Hj. lia.
  - cbn [iterate] in H.
    apply bind_Ok in H. destruct H as (cso1 & Hbody & H).
    apply bind_Ok in Hbody. destruct Hbody as (v & Hv & Hst).
    apply load_Ok in Hv. destruct Hv as [_ Hv].
    apply store_Ok in Hst. destruct Hst as [Hr ->].
    assert (Hsum : uadd start_slot i = start_slot + i)
      by (unfold uadd, wrap32; apply Z.mod_small; lia).
    rewrite Hsum in *.
    assert (Hlen1 : length (<[Z.to_nat (start_slot + i) :=
                              ilo_gpe_set_viewport_cso v]> cso) = length cso)
      by apply length_insert.
    destruct (IH (i + 1) _ H) as (Hlen & Hout & Hin);
      [lia | lia | unfold Elements in *; lia
       | unfold Elements in *; rewrite Hlen1; lia |].
    split; [congruence |]. split.
    + intros x Hx Hrange. rewrite Hout by lia.
      apply list_lookup_insert_ne. lia.
    + intros j Hj. destruct (Z.eq_dec j i) as [->|Hne].
      * exists v. split; [exact Hv |]. rewrite Hout by lia.
        apply list_lookup_insert_eq. unfold Elements in Hr. lia.
      * apply Hin. lia.
Qed.

(** X18: what [ilo_set_viewport_states] writes.  For [unsigned] arguments,
    an array of fewer than 2^32 slots and a viewport array, a call that
    completes has written the state computed from [viewports[j]] to slot
    [start_slot + j] for every [j] below [num_viewports] and has left every
    other slot alone; viewport 0 is saved (for the blitter) exactly when
    [start_slot] is 0 and [num_viewports] is not.  With a null array the
    slots and the saved viewport are untouched. *)
Theorem ilo_set_viewport_states_writes (ilo ilo' : ilo_context)
    (start_slot num_viewports : Z) (viewports : option (list pipe_viewport_state)) :
  is_uint start_slot -> is_uint num_viewports ->
  Elements (viewport_cso (ilo_viewport ilo)) < UINT_RANGE ->
  ilo_set_viewport_states ilo start_slot num_viewports viewports = Ok ilo' ->
  let old := ilo_viewport ilo in
  let new := ilo_viewport ilo' in
  match viewports with
  | Some vps =>
      length (viewport_cso new) = length (viewport_cso old) /\
      (forall j, 0 <= j < num_viewports ->
         exists v, vps !! Z.to_nat j = Some v /\
                   viewport_cso new !! Z.to_nat (start_slot + j)
                   = Some (ilo_gpe_set_viewport_cso v)) /\
      (forall x, 0 <= x -> x < start_slot \/ start_slot + num_viewports <= x ->
         viewport_cso new !! Z.to_nat x = viewport_cso old !! Z.to_nat x) /\
      (start_slot = 0 -> num_viewports <> 0 ->
       vps !! 0%nat = Some (viewport0 new)) /\
      (start_slot <> 0 \/ num_viewports = 0 -> viewport0 new = viewport0 old)
  | None =>
      viewport_cso new = viewport_cso old /\ viewport0 new = viewport0 old
  end.
Proof.
  intros Hstart Hnum Hsize H old new. unfold ilo_set_viewport_states in H.
  fold old in H.
  apply bind_Ok in H. destruct H as (vp & Hvp & H).
  injection H as <-. subst new. simpl.
  destruct viewports as [vps|].
  - apply bind_Ok in Hvp. destruct Hvp as ([i cso] & Hloop & Hvp).
    unfold for_lt in Hloop. rewrite Z.sub_0_r in Hloop.
    destruct (viewport_loop_writes _ _ _ _ _ _ _ Hloop (Z.le_refl 0)
                (proj1 Hstart) ltac:(destruct Hstart; lia) Hsize)
      as (Hlen & Hout & Hin).
    assert (Hcso : viewport_cso vp = cso /\
                   (start_slot = 0 -> num_viewports <> 0 ->
                    vps !! 0%nat = Some (viewport0 vp)) /\
                   (start_slot <> 0 \/ num_viewports = 0 ->
                    viewport0 vp = viewport0 old)).
    { destruct (Z.eqb_spec start_slot 0) as [Hs|Hs];
        destruct (Z.eqb_spec num_viewports 0) as [Hn|Hn]; simpl in Hvp.
      - injection Hvp as <-. simpl. split; [reflexivity |].
        split; [contradiction | reflexivity].
      - apply bind_Ok in Hvp. destruct Hvp as (v0 & Hv0 & Hvp).
        injection Hvp as <-. simpl. apply load_Ok in Hv0.
        split; [reflexivity |]. split; [intros _ _; apply Hv0 |].
        intros [Hc|Hc]; contradiction.
      - injection Hvp as <-. simpl. split; [reflexivity |].
        split; [contradiction | reflexivity].
      - injection Hvp as <-. simpl. split; [reflexivity |].
        split; [contradiction | reflexivity]. }
    destruct Hcso as (-> & Hsave & Hkeep).
    split; [exact Hlen |]. split; [| split; [| split; assumption]].
    + intros j Hj. apply Hin. destruct Hnum. lia.
    + intros x Hx Hr. apply Hout; [exact Hx |]. destruct Hnum. lia.
  - destruct ((viewport_count old <=? uadd start_slot num_viewports)
              && (start_slot <? viewport_count old));
      injection Hvp as <-; split; reflexivity.
Qed.

Lemma ilo_set_viewport_states_writes_witness :
  exists ilo',
    ilo_set_viewport_states (calloc_context 4) 0 2
      (Some [zero_viewport; {| vp_scale := [1; 1; 1; 1];
                               vp_translate := [0; 0; 0; 0] |}]) = Ok ilo' /\
    viewport0 (ilo_viewport ilo') = zero_viewport /\
    length (viewport_cso (ilo_viewport ilo')) = 4%nat.
Proof.
  assert (H0 : is_uint 0) by (unfold is_uint, UINT_RANGE; lia).
  assert (H2 : is_uint 2) by (unfold is_uint, UINT_RANGE; lia).
  assert (H3 : Elements (viewport_cso (ilo_viewport (calloc_context 4)))
               < UINT_RANGE) by reflexivity.
  eexists. split; [reflexivity |]. split; [reflexivity |].
  exact (proj1 (ilo_set_viewport_states_writes (calloc_context 4) _ 0 2
                  (Some [zero_viewport;
                         {| vp_scale := [1; 1; 1; 1];
                            vp_translate := [0; 0; 0; 0] |}])
                  H0 H2 H3 eq_refl)).
Defined.

(** ** Resource tracking: every category *)

Lemma view_dirty_bits_state (sh : pipe_shader_type) :
  view_dirty_bits sh = ILO_DIRTY (view_state_of sh).
Proof. destruct sh; reflexivity. Qed.

Lemma is_dirty_raise_if_iff (hit : bool) (s t : ilo_state) (states : Z) :
  is_dirty (raise_if hit (ILO_DIRTY s) states) t = true <->
  is_dirty states t = true \/ (t = s /\ hit = true).
Proof.
  rewrite is_dirty_raise_if. rewrite orb_true_iff, andb_true_iff.
  rewrite bool_decide_eq_true. split; intros [H|[H1 H2]]; auto.
Qed.

(** A scan with [break]: when it completes, it has hit exactly when some
    entry of its range tests true. *)
Lemma scan_until_pure_Ok (test : Z -> result bool) (n : nat) (i : Z) (hit : bool)
    (u : unit) :
  scan_until n i (fun i (_ : unit) => let* b := test i in Ok (b, tt)) tt
  = Ok (hit, u) ->
  (hit = true <-> exists j, i <= j < i + Z.of_nat n /\ test j = Ok true).
Proof.
  revert i. induction n as [|n IH]; intros i H.
  - simpl in H. injection H as <- _. split; [discriminate |].
    intros (j & Hj & _). lia.
  - cbn [scan_until] in H.
    apply bind_Ok in H. destruct H as ([h v] & Hbody & H).
    apply bind_Ok in Hbody. destruct Hbody as (b & Hb & Hbody).
    injection Hbody as <- <-.
    destruct b.
    + injection H as <- _. split; [| reflexivity].
      intros _. exists i. split; [lia | exact Hb].
    + apply IH in H. rewrite H. split.
      * intros (j & Hj & Ht). exists j. split; [lia | exact Ht].
      * intros (j & Hj & Ht). exists j. split; [| exact Ht].
        destruct (Z.eq_dec j i) as [->|Hne]; [congruence | lia].
Qed.

Lemma any_lt_pure_Ok (hi : Z) (test : Z -> result bool) (hit : bool) :
  any_lt_pure hi test = Ok hit ->
  (hit = true <-> exists j, 0 <= j < hi /\ test j = Ok true).
Proof.
  unfold any_lt_pure, any_lt. intros H.
  apply bind_Ok in H. destruct H as ([h u] & Hscan & H). injection H as <-.
  apply scan_until_pure_Ok in Hscan. rewrite Hscan.
  split; intros (j & Hj & Ht); exists j; (split; [lia | exact Ht]).
Qed.

(** The test of a scan over counted slots. *)
Lemma slot_test_true {A : Type} `{EqDecision A}
    (resource_of : A -> option pipe_resource) (slots : list (option A))
    (res : pipe_resource) (j : Z) :
  (let* slot := load slots j in
   let* x := deref slot in
   Ok (bool_decide (resource_of x = Some res))) = Ok true <->
  0 <= j /\ exists x, slots !! Z.to_nat j = Some (Some x) /\ resource_of x = Some res.
Proof.
  split.
  - intros H. apply bind_Ok in H. destruct H as (slot & Hslot & H).
    apply bind_Ok in H. destruct H as (x & Hx & H).
    apply load_Ok in Hslot. destruct Hslot as [Hj Hslot].
    destruct slot as [y|]; [| discriminate Hx]. injection Hx as ->.
    injection H as H. apply bool_decide_eq_true in H.
    split; [exact Hj |]. exists x. auto.
  - intros (Hj & x & Hslot & Hx).
    assert (Hl : load slots j = Ok (Some x)) by (apply load_Ok; auto).
    rewrite Hl. cbn [bind deref]. f_equal. apply bool_decide_eq_true. exact Hx.
Qed.

Lemma scan_slots_Ok {A : Type} `{EqDecision A}
    (resource_of : A -> option pipe_resource) (slots : list (option A))
    (count : Z) (res : pipe_resource) (hit : bool) :
  any_lt_pure count
    (fun i =>
       let* slot := load slots i in
       let* x := deref slot in
       Ok (bool_decide (resource_of x = Some res))) = Ok hit ->
  (hit = true <-> slot_over resource_of slots count res).
Proof.
  intros H. apply any_lt_pure_Ok in H. rewrite H. unfold slot_over. split.
  - intros (j & Hj & Ht). apply slot_test_true in Ht.
    destruct Ht as (_ & x & Hx & Hr). exists j, x. auto.
  - intros (j & x & Hj & Hx & Hr). exists j. split; [exact Hj |].
    apply slot_test_true. split; [lia |]. exists x. auto.
Qed.

Lemma scan_cbuf_Ok (cso : list ilo_cbuf_cso) (res : pipe_resource) (hit : bool) :
  any_lt_pure (Elements cso)
    (fun i =>
       let* cbuf := load cso i in
       Ok (bool_decide (cbuf_resource cbuf = Some res))) = Ok hit ->
  (hit = true <->
   exists (i : nat) cb, cso !! i = Some cb /\ cbuf_resource cb = Some res).
Proof.
  intros H. apply any_lt_pure_Ok in H. rewrite H. split.
  - intros (j & Hj & Ht). apply bind_Ok in Ht. destruct Ht as (cb & Hcb & Ht).
    apply load_Ok in Hcb. destruct Hcb as [_ Hcb].
    injection Ht as Ht. apply bool_decide_eq_true in Ht.
    exists (Z.to_nat j), cb. auto.
  - intros (i & cb & Hcb & Hr). exists (Z.of_nat i).
    pose proof (lookup_lt_Some _ _ _ Hcb) as Hlt.
    split; [unfold Elements; lia |].
    assert (Hl : load cso (Z.of_nat i) = Ok cb).
    { apply load_Ok. split; [lia |]. rewrite Nat2Z.id. exact Hcb. }
    rewrite Hl. cbn [bind]. f_equal. apply bool_decide_eq_true. exact Hr.
Qed.

(** The bits the loop over the shader stages adds. *)
Lemma mark_stages_spec (ilo : ilo_context) (res : pipe_resource)
    (shs : list pipe_shader_type) (st st' : Z) (s : ilo_state) :
  for_each shs
    (fun sh states =>
       let* hit :=
         any_lt_pure (view_count (sh_get (ilo_view ilo) sh))
           (fun i =>
              let* slot := load (view_states (sh_get (ilo_view ilo) sh)) i in
              let* view := deref slot in
              Ok (bool_decide (view_texture view = Some res))) in
       let states := raise_if hit (view_dirty_bits sh) states in
       if bool_decide (target res = PIPE_BUFFER) then
         let* hit :=
           any_lt_pure (Elements (cbuf_cso (sh_get (ilo_cbuf ilo) sh)))
             (fun i =>
                let* cbuf := load (cbuf_cso (sh_get (ilo_cbuf ilo) sh)) i in
                Ok (bool_decide (cbuf_resource cbuf = Some res))) in
         Ok (raise_if hit (ILO_DIRTY ILO_STATE_CONSTANT_BUFFER) states)
       else Ok states)
    st = Ok st' ->
  (is_dirty st' s = true <->
   is_dirty st s = true \/
   (exists sh, In sh shs /\ s = view_state_of sh /\
      slot_over view_texture (view_states (sh_get (ilo_view ilo) sh))
        (view_count (sh_get (ilo_view ilo) sh)) res) \/
   (s = ILO_STATE_CONSTANT_BUFFER /\ target res = PIPE_BUFFER /\
    exists sh, In sh shs /\ exists (i : nat) cb,
      cbuf_cso (sh_get (ilo_cbuf ilo) sh) !! i = Some cb /\
      cbuf_resource cb = Some res)).
Proof.
  revert st. induction shs as [|sh shs IH]; intros st H.
  - simpl in H. injection H as <-. split; [auto |].
    intros [H|[(sh & [] & _)|(_ & _ & sh & [] & _)]]. exact H.
  - cbn [for_each] in H. apply bind_Ok in H. destruct H as (st1 & Hbody & H).
    apply IH in H. rewrite H. clear H IH.
    apply bind_Ok in Hbody. destruct Hbody as (hit & Hview & Hbody).
    apply scan_slots_Ok in Hview.
    assert (E1 : is_dirty st1 s = true <->
                 is_dirty st s = true \/
                 (s = view_state_of sh /\
                  slot_over view_texture (view_states (sh_get (ilo_view ilo) sh))
                    (view_count (sh_get (ilo_view ilo) sh)) res) \/
                 (s = ILO_STATE_CONSTANT_BUFFER /\ target res = PIPE_BUFFER /\
                  exists (i : nat) cb,
                    cbuf_cso (sh_get (ilo_cbuf ilo) sh) !! i = Some cb /\
                    cbuf_resource cb = Some res)).
    { destruct (decide (target res = PIPE_BUFFER)) as [Hbuf|Hnbuf].
      - rewrite bool_decide_eq_true_2 in Hbody by exact Hbuf.
        apply bind_Ok in Hbody. destruct Hbody as (hit' & Hcb & Hbody).
        injection Hbody as <-. apply scan_cbuf_Ok in Hcb.
        rewrite is_dirty_raise_if_iff, view_dirty_bits_state,
          is_dirty_raise_if_iff, Hview, Hcb. tauto.
      - rewrite bool_decide_eq_false_2 in Hbody by exact Hnbuf.
        injection Hbody as <-.
        rewrite view_dirty_bits_state, is_dirty_raise_if_iff, Hview. tauto. }
    rewrite E1. clear E1. split.
    + intros [[H|[H|H]]|[H|H]].
      * auto.
      * right; left. exists sh. split; [left; reflexivity | exact H].
      * right; right. destruct H as (Hs & Hb & Hx).
        split; [exact Hs |]. split; [exact Hb |]. exists sh.
        split; [left; reflexivity | exact Hx].
      * right; left. destruct H as (sh' & Hin & Hx). exists sh'.
        split; [right; exact Hin | exact Hx].
      * right; right. destruct H as (Hs & Hb & sh' & Hin & Hx).
        split; [exact Hs |]. split; [exact Hb |]. exists sh'.
        split; [right; exact Hin | exact Hx].
    + intros [H|[(sh' & [<-|Hin] & Hx)|(Hs & Hb & sh' & [<-|Hin] & Hx)]].
      * auto.
      * left; right; left. exact Hx.
      * right; left. exists sh'. auto.
      * left; right; right. auto.
      * right; right. split; [exact Hs |]. split; [exact Hb |]. exists sh'. auto.
Qed.

Lemma In_PIPE_SHADER_TYPES (sh : pipe_shader_type) : In sh PIPE_SHADER_TYPES.
Proof. destruct sh; simpl; auto. Qed.

(** The bits a completed call has collected. *)
Lemma mark_states_collected (ilo ilo' : ilo_context) (res : pipe_resource) :
  is_uint (vb_enabled_mask (ilo_vb ilo)) ->
  ilo_mark_states_with_resource_dirty ilo res = Ok ilo' ->
  exists states : Z,
    ilo' = mark_dirty states ilo /\
    resource_count (ilo_cs_resource ilo) <= 0 /\
    forall s, is_dirty states s = true <-> resource_referenced ilo res s.
Proof.
  intros Hu H. unfold ilo_mark_states_with_resource_dirty in H.
  apply bind_Ok in H. destruct H as (st1 & H1 & H).
  apply bind_Ok in H. destruct H as (st2 & H2 & H).
  apply bind_Ok in H. destruct H as (hit3 & H3 & H).
  apply bind_Ok in H. destruct H as (st4 & H4 & H).
  apply bind_Ok in H. destruct H as ([hit5 c5] & H5 & H).
  apply bind_Ok in H. destruct H as (hit6 & H6 & H).
  injection H as <-.
  apply mark_compute_resources_Ok in H5. destruct H5 as (Hcount & -> & ->).
  eexists. split; [reflexivity |]. split; [exact Hcount |].
  intros s.
  apply scan_slots_Ok in H3.
  assert (H6' : hit6 = true <->
                slot_over Some (gb_resources (ilo_global_binding ilo))
                  (gb_count (ilo_global_binding ilo)) res).
  { apply any_lt_pure_Ok in H6. rewrite H6. unfold slot_over. split.
    - intros (j & Hj & Ht). apply bind_Ok in Ht. destruct Ht as (slot & Hl & Ht).
      apply load_Ok in Hl. destruct Hl as [_ Hl].
      injection Ht as Ht. apply bool_decide_eq_true in Ht. subst slot.
      exists j, res. auto.
    - intros (j & x & Hj & Hl & Hx). injection Hx as ->. exists j.
      split; [exact Hj |].
      assert (Hld : load (gb_resources (ilo_global_binding ilo)) j = Ok (Some res))
        by (apply load_Ok; split; [lia | exact Hl]).
      rewrite Hld. cbn [bind]. f_equal. apply bool_decide_eq_true. reflexivity. }
  apply (mark_stages_spec ilo res PIPE_SHADER_TYPES st1 st2 s) in H2.
  assert (E1 : is_dirty st1 s = true <->
               (s = ILO_STATE_VERTEX_BUFFERS /\ target res = PIPE_BUFFER /\
                vertex_buffer_bound ilo res) \/
               (s = ILO_STATE_INDEX_BUFFER /\ target res = PIPE_BUFFER /\
                ib_buffer (ib_state (ilo_ib ilo)) = Some res) \/
               (s = ILO_STATE_STREAM_OUTPUT_TARGETS /\ target res = PIPE_BUFFER /\
                slot_over target_buffer (so_states (ilo_so ilo))
                  (so_count (ilo_so ilo)) res)).
  { destruct (decide (target res = PIPE_BUFFER)) as [Hbuf|Hnbuf].
    - rewrite bool_decide_eq_true_2 in H1 by exact Hbuf.
      apply bind_Ok in H1. destruct H1 as (hit & Hhit & H1).
      apply bind_Ok in H1. destruct H1 as (hit' & Hso & H1). injection H1 as <-.
      apply scan_slots_Ok in Hso.
      rewrite !is_dirty_raise_if_iff, is_dirty_0, Hso,
        (mark_vertex_buffers_spec ilo res hit Hu Hhit), bool_decide_eq_true.
      intuition discriminate.
    - rewrite bool_decide_eq_false_2 in H1 by exact Hnbuf.
      injection H1 as <-. rewrite is_dirty_0. intuition discriminate. }
  assert (E4 : is_dirty st4 s = true <->
               is_dirty (raise_if hit3 (ILO_DIRTY ILO_STATE_SHADER_RESOURCES) st2) s
               = true \/
               (s = ILO_STATE_FRAMEBUFFER /\ target res <> PIPE_BUFFER /\
                (slot_over surf_texture (cbufs (fb_state (ilo_fb ilo)))
                   (nr_cbufs (fb_state (ilo_fb ilo))) res \/
                 exists surf, zsbuf (fb_state (ilo_fb ilo)) = Some surf /\
                              surf_texture surf = Some res))).
  { destruct (decide (target res = PIPE_BUFFER)) as [Hbuf|Hnbuf].
    - rewrite bool_decide_eq_true_2 in H4 by exact Hbuf. cbn [negb] in H4.
      injection H4 as <-. tauto.
    - rewrite bool_decide_eq_false_2 in H4 by exact Hnbuf. cbn [negb] in H4.
      apply bind_Ok in H4. destruct H4 as (hit & Hfb & H4). injection H4 as <-.
      apply scan_slots_Ok in Hfb.
      rewrite !is_dirty_raise_if_iff, Hfb.
      destruct (zsbuf (fb_state (ilo_fb ilo))) as [surf|].
      + rewrite bool_decide_eq_true. split.
        * intros [[H|[Hs Hx]]|[Hs Hx]]; [left; exact H | right .. ];
            (split; [exact Hs |]; split; [exact Hnbuf |]); [left; exact Hx |].
          right. exists surf. auto.
        * intros [H|(Hs & _ & [Hx|(surf' & Hz & Hx)])]; [tauto | tauto |].
          injection Hz as <-. tauto.
      + split.
        * intros [[H|[Hs Hx]]|[_ Hx]]; [left; exact H | | discriminate Hx].
          right. tauto.
        * intros [H|(Hs & _ & [Hx|(surf' & Hz & _)])];
            [tauto | tauto | discriminate Hz]. }
  rewrite !is_dirty_raise_if_iff, E4, is_dirty_raise_if_iff, H2, E1, H3, H6'.
  unfold resource_referenced. split.
  - intros [[[[[H|[H|H]]|H]|H]|H]|H].
    + tauto.
    + destruct H as (sh & _ & Hx). right; right; right; left. exists sh. exact Hx.
    + destruct H as (Hs & Hb & sh & _ & Hx).
      right; right; right; right; left. split; [exact Hs |].
      split; [exact Hb |]. exists sh. exact Hx.
    + tauto.
    + tauto.
    + destruct H as [_ H]. discriminate H.
    + tauto.
  - intros [H|[H|[H|[(sh & H)|[(Hs & Hb & sh & Hx)|[H|[H|H]]]]]]].
    + tauto.
    + tauto.
    + tauto.
    + left; left; left; left. right; left. exists sh.
      split; [apply In_PIPE_SHADER_TYPES | exact H].
    + left; left; left; left. right; right. split; [exact Hs |].
      split; [exact Hb |]. exists sh.
      split; [apply In_PIPE_SHADER_TYPES | exact Hx].
    + tauto.
    + tauto.
    + tauto.
Qed.

(** X19: a call of the propagator that completes changes nothing of the
    context but the dirty set, can complete only when no compute resource
    is counted, and leaves a category dirty exactly when it was dirty
    before or the category references the resource: the buffer categories
    (vertex, index, stream output, constant buffers) only for a buffer, the
    framebuffer only for a resource that is not a buffer, and the compute
    resources never. *)
Theorem ilo_mark_states_with_resource_dirty_exact
    (ilo ilo' : ilo_context) (res : pipe_resource) :
  is_uint (vb_enabled_mask (ilo_vb ilo)) ->
  ilo_mark_states_with_resource_dirty ilo res = Ok ilo' ->
  ilo' = set_dirty (ilo_dirty ilo') ilo /\
  resource_count (ilo_cs_resource ilo) <= 0 /\
  forall s,
    is_dirty (ilo_dirty ilo') s = true <->
    is_dirty (ilo_dirty ilo) s = true \/ resource_referenced ilo res s.
Proof.
  intros Hu H.
  destruct (mark_states_collected ilo ilo' res Hu H) as (states & -> & Hc & Hs).
  split; [reflexivity |]. split; [exact Hc |].
  intros s. unfold mark_dirty. cbn [ilo_dirty set_dirty].
  rewrite is_dirty_lor, orb_true_iff, Hs. reflexivity.
Qed.

Lemma ilo_mark_states_with_resource_dirty_exact_witness :
  exists ilo',
    ilo_mark_states_with_resource_dirty textured_context (texture_resource 5)
    = Ok ilo' /\
    ilo' = set_dirty (ilo_dirty ilo') textured_context /\
    resource_count (ilo_cs_resource textured_context) <= 0 /\
    forall s,
      is_dirty (ilo_dirty ilo') s = true <->
      is_dirty (ilo_dirty textured_context) s = true \/
      resource_referenced textured_context (texture_resource 5) s.
Proof.
  eexists. split; [vm_compute; reflexivity |].
  refine (ilo_mark_states_with_resource_dirty_exact textured_context _
            (texture_resource 5) _ _).
  - vm_compute. split; [discriminate | reflexivity].
  - vm_compute. reflexivity.
Defined.

(** ** Teardown *)

Lemma held_by_None {A : Type} (obj : A -> object) (o : object) :
  held_by obj None o = 0.
Proof. reflexivity. Qed.

Lemma pipe_release_count {A : Type} (obj : A -> object) (refs : refcounts)
    (old : option A) (o : object) :
  pipe_reference refs (obj <$> old) None o = refs o - held_by obj old o.
Proof.
  change (@None object) with (obj <$> @None A).
  rewrite pipe_reference_count, held_by_None. lia.
Qed.

Lemma sum_range_ext (n : nat) (i : Z) (f g : Z -> Z) :
  (forall j, i <= j < i + Z.of_nat n -> f j = g j) ->
  sum_range n i f = sum_range n i g.
Proof.
  revert i. induction n as [|n IH]; intros i H; [reflexivity |].
  cbn [sum_range]. rewrite (H i) by lia. f_equal. apply IH.
  intros j Hj. apply H. lia.
Qed.

Lemma sum_range_0 (n : nat) (i : Z) (f : Z -> Z) :
  (forall j, i <= j < i + Z.of_nat n -> f j = 0) -> sum_range n i f = 0.
Proof.
  revert i. induction n as [|n IH]; intros i H; [reflexivity |].
  cbn [sum_range]. rewrite (H i) by lia. rewrite IH; [reflexivity |].
  intros j Hj. apply H. lia.
Qed.

(** A loop that gives up, at each turn [j], the reference of the pointer
    [ptr j x] of the entry [x] it finds at [j], and leaves [upd j x] there:
    it completes within the array, and the counts drop by what the entries
    held. *)
Lemma release_loop {A B : Type} (obj : B -> object) (ptr : Z -> A -> option B)
    (upd : Z -> A -> A)
    (body : Z -> list A * refcounts -> result (list A * refcounts))
    (len : nat) :
  (forall i l refs x,
     length l = len -> 0 <= i -> l !! Z.to_nat i = Some x ->
     exists refs',
       body i (l, refs) = Ok (<[Z.to_nat i := upd i x]> l, refs') /\
       forall o, refs' o = refs o - held_by obj (ptr i x) o) ->
  forall (n : nat) (i : Z) (l : list A) (refs : refcounts),
    length l = len -> 0 <= i -> i + Z.of_nat n <= Elements l ->
    exists l' refs',
      iterate n i body (l, refs) = Ok (i + Z.of_nat n, (l', refs')) /\
      length l' = length l /\
      (forall j x, 0 <= j -> l !! Z.to_nat j = Some x ->
         l' !! Z.to_nat j
         = Some (if (i <=? j) && (j <? i + Z.of_nat n) then upd j x else x)) /\
      (forall o,
         refs' o
         = refs o
           - sum_range n i
               (fun j =>
                  match l !! Z.to_nat j with
                  | Some x => held_by obj (ptr j x) o
                  | None => 0
                  end)).
Proof.
  intros Hbody. induction n as [|n IH]; intros i l refs Hl Hi Hn.
  - exists l, refs. cbn [iterate sum_range].
    split; [f_equal; f_equal; lia |]. split; [reflexivity |]. split.
    + intros j x _ Hx. rewrite Hx.
      destruct (Z.leb_spec i j), (Z.ltb_spec j (i + Z.of_nat 0));
        try reflexivity; lia.
    + intros o. lia.
  - unfold Elements in Hn.
    destruct (lookup_lt_is_Some_2 l (Z.to_nat i) ltac:(lia)) as [x Hx].
    destruct (Hbody i l refs x Hl Hi Hx) as (refs1 & Hb & Hrefs1).
    cbn [iterate]. rewrite Hb. cbn [bind].
    destruct (IH (i + 1) (<[Z.to_nat i := upd i x]> l) refs1
                ltac:(rewrite length_insert; exact Hl) ltac:(lia))
      as (l' & refs' & Hit & Hlen & Hl' & Hrefs').
    { unfold Elements. rewrite length_insert. lia. }
    exists l', refs'. split; [rewrite Hit; f_equal; f_equal; lia |].
    rewrite length_insert in Hlen. split; [exact Hlen |]. split.
    + intros j y Hj Hy.
      destruct (Z.eq_dec j i) as [->|Hne].
      * rewrite Hx in Hy. injection Hy as <-.
        rewrite (Hl' i (upd i x) Hi).
        -- destruct (Z.leb_spec (i + 1) i), (Z.leb_spec i i),
             (Z.ltb_spec i (i + Z.of_nat (S n))); try lia. reflexivity.
        -- apply list_lookup_insert_eq. apply lookup_lt_Some in Hx. exact Hx.
      * rewrite (Hl' j y Hj).
        -- destruct (Z.leb_spec (i + 1) j), (Z.leb_spec i j),
             (Z.ltb_spec j (i + 1 + Z.of_nat n)),
             (Z.ltb_spec j (i + Z.of_nat (S n))); try lia; reflexivity.
        -- rewrite list_lookup_insert_ne by lia. exact Hy.
    + intros o. rewrite Hrefs', Hrefs1. cbn [sum_range]. rewrite Hx.
      rewrite (sum_range_ext n (i + 1) _
                 (fun j =>
                    match l !! Z.to_nat j with
                    | Some x => held_by obj (ptr j x) o
                    | None => 0
                    end)); [lia |].
      intros j Hj. rewrite list_lookup_insert_ne by lia. reflexivity.
Qed.

Lemma load_at {A : Type} (l : list A) (i : Z) (x : A) :
  0 <= i -> l !! Z.to_nat i = Some x -> load l i = Ok x.
Proof. intros Hi Hx. apply load_Ok. auto. Qed.

Lemma store_at {A : Type} (l : list A) (i : Z) (x y : A) :
  0 <= i -> l !! Z.to_nat i = Some x ->
  store l i y = Ok (<[Z.to_nat i := y]> l).
Proof.
  intros Hi Hx. apply lookup_lt_Some in Hx. unfold store, Elements.
  destruct (Z.leb_spec 0 i); [| lia].
  destruct (Z.ltb_spec i (Z.of_nat (length l))); [reflexivity | lia].
Qed.

(** The loop that clears counted slots. *)
Lemma release_slots_spec {A : Type} (obj : A -> object) (count : Z)
    (slots : list (option A)) (refs : refcounts) :
  0 <= count <= Elements slots ->
  exists slots' refs',
    release_slots obj count (slots, refs) = Ok (slots', refs') /\
    length slots' = length slots /\
    (forall j, 0 <= j < count -> slots' !! Z.to_nat j = Some None) /\
    (forall j, count <= j -> slots' !! Z.to_nat j = slots !! Z.to_nat j) /\
    (forall o, refs' o = refs o - slots_held obj slots count o) /\
    (forall o, slots_held obj slots' count o = 0).
Proof.
  intros Hc.
  assert (Hbody : forall i l r (x : option A),
            length l = length slots -> 0 <= i -> l !! Z.to_nat i = Some x ->
            exists r',
              slot_reference obj None i (l, r)
              = Ok (<[Z.to_nat i := None]> l, r') /\
              forall o, r' o = r o - held_by obj x o).
  { intros i l r x _ Hi Hx. eexists. split.
    - unfold slot_reference. cbn [fst snd].
      rewrite (load_at l i x Hi Hx). cbn [bind].
      rewrite (store_at l i x None Hi Hx). reflexivity.
    - intros o. apply pipe_release_count. }
  destruct (release_loop obj (fun _ (p : option A) => p) (fun _ _ => None)
              (slot_reference obj None) (length slots) Hbody
              (Z.to_nat count) 0 slots refs eq_refl (Z.le_refl 0) ltac:(lia))
    as (l' & refs' & Hit & Hlen & Hl' & Hrefs').
  exists l', refs'. unfold release_slots, for_lt.
  rewrite Z.sub_0_r, Hit. cbn [bind].
  assert (Hnull : forall j, 0 <= j < count -> l' !! Z.to_nat j = Some None).
  { intros j Hj.
    destruct (lookup_lt_is_Some_2 slots (Z.to_nat j)
                ltac:(unfold Elements in Hc; lia)) as [x Hx].
    rewrite (Hl' j x (proj1 Hj) Hx).
    destruct (Z.leb_spec 0 j), (Z.ltb_spec j (0 + Z.of_nat (Z.to_nat count)));
      try lia; reflexivity. }
  split; [reflexivity |]. split; [exact Hlen |]. split; [exact Hnull |].
  split; [| split].
  - intros j Hj.
    destruct (slots !! Z.to_nat j) as [x|] eqn:Hx.
    + rewrite (Hl' j x ltac:(lia) Hx).
      destruct (Z.leb_spec 0 j), (Z.ltb_spec j (0 + Z.of_nat (Z.to_nat count)));
        try lia; reflexivity.
    + apply lookup_ge_None. rewrite Hlen. apply lookup_ge_None in Hx. exact Hx.
  - intros o. rewrite Hrefs'. unfold slots_held. f_equal.
    apply sum_range_ext. intros j Hj.
    destruct (slots !! Z.to_nat j); reflexivity.
  - intros o. unfold slots_held. apply sum_range_0. intros j Hj.
    rewrite (Hnull j ltac:(lia)). reflexivity.
Qed.

(** [mask & (1 << i)] tests bit [i] of the mask. *)
Lemma land_bit_testbit (mask i : Z) :
  0 <= i < 32 -> (Z.land mask (bit i) =? 0) = negb (Z.testbit mask i).
Proof.
  intros Hi. destruct (Z.testbit mask i) eqn:Hb; cbn [negb].
  - apply Z.eqb_neq. intros Hz.
    assert (Ht : Z.testbit (Z.land mask (bit i)) i = true).
    { rewrite Z.land_spec, Hb, (testbit_bit i i Hi), Z.eqb_refl. reflexivity. }
    rewrite Hz, Z.bits_0 in Ht. discriminate Ht.
  - apply Z.eqb_eq. apply Z.bits_inj'. intros j Hj.
    rewrite Z.land_spec, (testbit_bit i j Hi), Z.bits_0.
    destruct (Z.eqb_spec j i) as [->|Hne];
      [rewrite Hb; reflexivity | apply andb_false_r].
Qed.

(** The loop over the sampler-view slots of a stage: the counts move, the
    slots are not written. *)
Lemma release_views_loop (views : list (option pipe_sampler_view))
    (n : nat) (i : Z) (refs : refcounts) :
  0 <= i -> i + Z.of_nat n <= Elements views ->
  exists refs',
    iterate n i
      (fun i refs =>
         let* view := load views i in
         Ok (pipe_reference refs (ObjSamplerView <$> view) None))
      refs = Ok (i + Z.of_nat n, refs') /\
    forall o,
      refs' o
      = refs o
        - sum_range n i
            (fun j =>
               held_by ObjSamplerView (default None (views !! Z.to_nat j)) o).
Proof.
  revert i refs. induction n as [|n IH]; intros i refs Hi Hn.
  - exists refs. cbn [iterate sum_range].
    split; [f_equal; f_equal; lia | intros o; lia].
  - unfold Elements in Hn.
    destruct (lookup_lt_is_Some_2 views (Z.to_nat i) ltac:(lia)) as [x Hx].
    cbn [iterate]. rewrite (load_at views i x Hi Hx). cbn [bind].
    destruct (IH (i + 1) (pipe_reference refs (ObjSamplerView <$> x) None)
                ltac:(lia) ltac:(unfold Elements; lia))
      as (refs' & Hit & Hrefs').
    exists refs'. split; [rewrite Hit; f_equal; f_equal; lia |].
    intros o. rewrite Hrefs', pipe_release_count. cbn [sum_range].
    rewrite Hx. unfold default. cbn [from_option id]. lia.
Qed.

(** The constant buffer with its resource pointer cleared. *)
Lemma cleanup_shader_stage_spec (sh : pipe_shader_type) (ilo : ilo_context) :
  0 <= view_count (sh_get (ilo_view ilo) sh)
    <= Elements (view_states (sh_get (ilo_view ilo) sh)) ->
  exists cso refs,
    cleanup_shader_stage sh ilo
    = Ok (set_cbuf
            (sh_set (ilo_cbuf ilo) sh
               {| cbuf_cso := cso;
                  cbuf_enabled_mask := cbuf_enabled_mask (sh_get (ilo_cbuf ilo) sh);
                  cbuf_count := cbuf_count (sh_get (ilo_cbuf ilo) sh) |})
            (set_refcnt refs ilo)) /\
    (forall o, fields_held (fun _ => cbuf_resource) cso o = 0) /\
    (forall o,
       refs o
       = ilo_refcnt ilo o
         - slots_held ObjSamplerView (view_states (sh_get (ilo_view ilo) sh))
             (view_count (sh_get (ilo_view ilo) sh)) o
         - fields_held (fun _ => cbuf_resource)
             (cbuf_cso (sh_get (ilo_cbuf ilo) sh)) o).
Proof.
  intros Hv. unfold cleanup_shader_stage, for_lt. rewrite !Z.sub_0_r.
  destruct (release_views_loop (view_states (sh_get (ilo_view ilo) sh))
              (Z.to_nat (view_count (sh_get (ilo_view ilo) sh))) 0
              (ilo_refcnt ilo) (Z.le_refl 0) ltac:(lia))
    as (refs1 & Hviews & Hrefs1).
  rewrite Hviews. cbn [bind].
  set (cso0 := cbuf_cso (sh_get (ilo_cbuf ilo) sh)).
  set (clear := fun (_ : Z) (cbuf : ilo_cbuf_cso) =>
                  {| cbuf_resource := None;
                     cbuf_surface := cbuf_surface cbuf;
                     cbuf_user_buffer := cbuf_user_buffer cbuf;
                     cbuf_user_buffer_size := cbuf_user_buffer_size cbuf |}).
  match goal with
  | |- context [iterate _ 0 ?body (cso0, refs1)] =>
      destruct (release_loop ObjResource (fun _ => cbuf_resource) clear body
                  (length cso0)) with
        (n := Z.to_nat (Elements cso0)) (i := 0) (l := cso0) (refs := refs1)
        as (cso & refs & Hit & Hlen & Hcso & Hrefs)
  end.
  - intros i l r x _ Hi Hx. eexists. split.
    + cbn [fst snd]. rewrite (load_at l i x Hi Hx). cbn [bind].
      rewrite (store_at l i x _ Hi Hx). reflexivity.
    + intros o. apply pipe_release_count.
  - reflexivity.
  - lia.
  - unfold Elements. lia.
  - rewrite Hit. cbn [bind]. exists cso, refs.
    split; [reflexivity |]. split.
    + intros o. unfold fields_held. apply sum_range_0. intros j Hj.
      rewrite Hlen in Hj.
      destruct (lookup_lt_is_Some_2 cso0 (Z.to_nat j) ltac:(lia)) as [x Hx].
      rewrite (Hcso j x ltac:(lia) Hx).
      destruct (Z.leb_spec 0 j); [| lia].
      destruct (Z.ltb_spec j (0 + Z.of_nat (Z.to_nat (Elements cso0))));
        [| unfold Elements in *; lia].
      reflexivity.
    + intros o. rewrite Hrefs, Hrefs1. unfold slots_held, fields_held.
      unfold Elements. rewrite Nat2Z.id. reflexivity.
Qed.

Lemma sum_over_ext {X : Type} (xs : list X) (f g : X -> Z) :
  (forall x, In x xs -> f x = g x) -> sum_over xs f = sum_over xs g.
Proof.
  induction xs as [|x xs IH]; intros H; [reflexivity |].
  cbn [sum_over foldr]. rewrite (H x) by (left; reflexivity).
  f_equal. apply IH. intros y Hy. apply H. right. exact Hy.
Qed.

Lemma sum_over_0 {X : Type} (xs : list X) (f : X -> Z) :
  (forall x, In x xs -> f x = 0) -> sum_over xs f = 0.
Proof.
  induction xs as [|x xs IH]; intros H; [reflexivity |].
  cbn [sum_over foldr]. rewrite (H x) by (left; reflexivity).
  fold (sum_over xs f). rewrite IH; [reflexivity |].
  intros y Hy. apply H. right. exact Hy.
Qed.

(** The loop over the shader stages. *)
Lemma cleanup_shader_stages_spec (shs : list pipe_shader_type)
    (ilo : ilo_context) :
  NoDup shs ->
  (forall sh,
     0 <= view_count (sh_get (ilo_view ilo) sh)
       <= Elements (view_states (sh_get (ilo_view ilo) sh))) ->
  exists cbuf refs,
    for_each shs cleanup_shader_stage ilo
    = Ok (set_cbuf cbuf (set_refcnt refs ilo)) /\
    (forall sh o, In sh shs ->
       fields_held (fun _ => cbuf_resource) (cbuf_cso (sh_get cbuf sh)) o = 0) /\
    (forall sh, ~ In sh shs -> sh_get cbuf sh = sh_get (ilo_cbuf ilo) sh) /\
    (forall o,
       refs o
       = ilo_refcnt ilo o
         - sum_over shs
             (fun sh =>
                slots_held ObjSamplerView
                  (view_states (sh_get (ilo_view ilo) sh))
                  (view_count (sh_get (ilo_view ilo) sh)) o)
         - sum_over shs
             (fun sh =>
                fields_held (fun _ => cbuf_resource)
                  (cbuf_cso (sh_get (ilo_cbuf ilo) sh)) o)).
Proof.
  intros Hnd. revert ilo. induction Hnd as [|sh shs Hnin Hnd IH]; intros ilo Hv.
  - exists (ilo_cbuf ilo), (ilo_refcnt ilo). cbn [for_each sum_over foldr].
    split; [destruct ilo; reflexivity |]. split; [intros sh o [] |].
    split; [reflexivity | intros o; lia].
  - destruct (cleanup_shader_stage_spec sh ilo (Hv sh))
      as (cso & refs1 & Hstage & Hnull & Hrefs1).
    cbn [for_each]. rewrite Hstage. cbn [bind].
    match goal with
    | |- context [for_each shs cleanup_shader_stage ?c] =>
        destruct (IH c Hv) as (cbuf & refs & Hrest & Hnull' & Hframe & Hrefs)
    end.
    rewrite Hrest. exists cbuf, refs.
    split; [reflexivity |]. split; [| split].
    + intros sh' o [<-|Hin].
      * rewrite (Hframe sh).
        -- cbn [ilo_cbuf set_cbuf]. rewrite sh_get_set_eq. apply Hnull.
        -- intros Hin. apply Hnin. apply list_elem_of_In. exact Hin.
      * apply Hnull'. exact Hin.
    + intros sh' Hnin'. rewrite (Hframe sh').
      * cbn [ilo_cbuf set_cbuf]. apply sh_get_set_ne.
        intros Heq. apply Hnin'. left. symmetry. exact Heq.
      * intros Hin. apply Hnin'. right. exact Hin.
    + intros o. rewrite Hrefs. cbn [ilo_refcnt set_cbuf set_refcnt].
      rewrite Hrefs1. cbn [sum_over foldr].
      fold (sum_over shs
              (fun sh0 =>
                 slots_held ObjSamplerView
                   (view_states (sh_get (ilo_view ilo) sh0))
                   (view_count (sh_get (ilo_view ilo) sh0)) o)).
      fold (sum_over shs
              (fun sh0 =>
                 fields_held (fun _ => cbuf_resource)
                   (cbuf_cso (sh_get (ilo_cbuf ilo) sh0)) o)).
      rewrite (sum_over_ext shs
                 (fun sh0 =>
                    fields_held (fun _ => cbuf_resource)
                      (cbuf_cso
                         (sh_get
                            (ilo_cbuf
                               (set_cbuf
                                  (sh_set (ilo_cbuf ilo) sh
                                     {| cbuf_cso := cso;
                                        cbuf_enabled_mask :=
                                          cbuf_enabled_mask (sh_get (ilo_cbuf ilo) sh);
                                        cbuf_count :=
                                          cbuf_count (sh_get (ilo_cbuf ilo) sh) |})
                                  (set_refcnt refs1 ilo))) sh0)) o)
                 (fun sh0 =>
                    fields_held (fun _ => cbuf_resource)
                      (cbuf_cso (sh_get (ilo_cbuf ilo) sh0)) o)).
      * cbn [ilo_view set_cbuf set_refcnt]. lia.
      * intros sh0 Hin. cbn [ilo_cbuf set_cbuf].
        rewrite sh_get_set_ne; [reflexivity |].
        intros Heq. apply Hnin. apply list_elem_of_In. rewrite <- Heq. exact Hin.
Qed.

(** The loop over the vertex buffers: the enabled slots give up their
    buffers. *)
Lemma cleanup_vertex_buffers_loop (mask : Z) (states : list pipe_vertex_buffer)
    (refs : refcounts) :
  Elements states <= 32 ->
  exists k states' refs',
    for_lt 0 (Elements states)
      (fun i (st : list pipe_vertex_buffer * refcounts) =>
         if negb (Z.land mask (bit i) =? 0) then
           let* b := load (fst st) i in
           let* states :=
             store (fst st) i
               {| vb_stride := vb_stride b;
                  vb_buffer_offset := vb_buffer_offset b;
                  vb_buffer := None;
                  vb_user_buffer := vb_user_buffer b |} in
           Ok (states, pipe_reference (snd st) (ObjResource <$> vb_buffer b) None)
         else Ok st)
      (states, refs) = Ok (k, (states', refs')) /\
    length states' = length states /\
    (forall o, fields_held (enabled_buffer mask) states' o = 0) /\
    (forall o, refs' o = refs o - fields_held (enabled_buffer mask) states o).
Proof.
  intros H32. unfold for_lt. rewrite Z.sub_0_r.
  set (clear := fun (i : Z) (b : pipe_vertex_buffer) =>
                  if Z.testbit mask i then
                    {| vb_stride := vb_stride b;
                       vb_buffer_offset := vb_buffer_offset b;
                       vb_buffer := None;
                       vb_user_buffer := vb_user_buffer b |}
                  else b).
  match goal with
  | |- context [iterate _ 0 ?body (states, refs)] =>
      destruct (release_loop ObjResource (enabled_buffer mask) clear body
                  (length states)) with
        (n := Z.to_nat (Elements states)) (i := 0) (l := states) (refs := refs)
        as (states' & refs' & Hit & Hlen & Hst & Hrefs)
  end.
  - intros i l r x Hl Hi Hx.
    assert (Hi32 : 0 <= i < 32).
    { apply lookup_lt_Some in Hx. unfold Elements in H32. lia. }
    rewrite (land_bit_testbit mask i Hi32), negb_involutive.
    unfold enabled_buffer, clear.
    destruct (Z.testbit mask i).
    + eexists. split.
      * cbn [fst snd]. rewrite (load_at l i x Hi Hx). cbn [bind].
        rewrite (store_at l i x _ Hi Hx). reflexivity.
      * intros o. apply pipe_release_count.
    + exists r. split.
      * rewrite list_insert_id by exact Hx. reflexivity.
      * intros o. rewrite held_by_None. lia.
  - reflexivity.
  - lia.
  - unfold Elements. lia.
  - exists (0 + Z.of_nat (Z.to_nat (Elements states))), states', refs'.
    split; [exact Hit |]. split; [exact Hlen |]. split.
    + intros o. unfold fields_held. apply sum_range_0. intros j Hj.
      rewrite Hlen in Hj.
      destruct (lookup_lt_is_Some_2 states (Z.to_nat j) ltac:(lia)) as [x Hx].
      rewrite (Hst j x ltac:(lia) Hx).
      destruct (Z.leb_spec 0 j); [| lia].
      destruct (Z.ltb_spec j (0 + Z.of_nat (Z.to_nat (Elements states))));
        [| unfold Elements in *; lia].
      cbn [andb]. unfold clear, enabled_buffer.
      destruct (Z.testbit mask j) eqn:Hb; [reflexivity |].
      apply held_by_None.
    + intros o. rewrite Hrefs. unfold fields_held, Elements.
      rewrite Nat2Z.id. reflexivity.
Qed.

Lemma NoDup_PIPE_SHADER_TYPES : NoDup PIPE_SHADER_TYPES.
Proof.
  unfold PIPE_SHADER_TYPES.
  repeat (apply NoDup_cons; split;
          [rewrite list_elem_of_In; simpl; intuition discriminate |]).
  apply NoDup_nil. exact I.
Qed.

(** Teardown, phase by phase. *)
Lemma cleanup_states_spec (ilo : ilo_context) :
  counts_bounded ilo ->
  exists ilo',
    ilo_cleanup_states ilo = Ok ilo' /\
    (forall o,
       ilo_refcnt ilo' o = ilo_refcnt ilo o - bindings_held ilo o - views_held ilo o) /\
    (forall o, bindings_held ilo' o = 0) /\
    ilo_view ilo' = ilo_view ilo /\
    ilo_dirty ilo' = ilo_dirty ilo /\
    counts_bounded ilo'.
Proof.
  intros (Hvb & Hso & Hview & Hres & Hfb & Hcs & Hgb).
  unfold ilo_cleanup_states.
  destruct (cleanup_vertex_buffers_loop (vb_enabled_mask (ilo_vb ilo))
              (vb_states (ilo_vb ilo)) (ilo_refcnt ilo) Hvb)
    as (k & vbs & r1 & Hloop1 & Hlen1 & Hnull1 & Hr1).
  rewrite Hloop1. cbn [bind].
  cbn [ilo_ib ilo_so ilo_refcnt set_vb set_refcnt set_ib].
  destruct (release_slots_spec ObjSoTarget (so_count (ilo_so ilo))
              (so_states (ilo_so ilo))
              (pipe_reference
                 (pipe_reference r1
                    (ObjResource <$> ib_buffer (ib_state (ilo_ib ilo))) None)
                 (ObjResource <$> ib_resource (ilo_ib ilo)) None) Hso)
    as (sos & r3 & Hloop3 & Hlen3 & _ & _ & Hr3 & Hnull3).
  rewrite Hloop3. cbn [bind].
  match goal with
  | |- context [for_each PIPE_SHADER_TYPES cleanup_shader_stage ?c] =>
      destruct (cleanup_shader_stages_spec PIPE_SHADER_TYPES c
                  NoDup_PIPE_SHADER_TYPES Hview)
        as (cb & r4 & Hloop4 & Hnull4 & _ & Hr4)
  end.
  rewrite Hloop4. cbn [bind].
  cbn [ilo_resource ilo_refcnt ilo_fb ilo_cs_resource ilo_global_binding
       set_cbuf set_so set_vb set_refcnt set_ib set_resource set_fb
       set_cs_resource].
  destruct (release_slots_spec ObjSurface (resource_count (ilo_resource ilo))
              (resource_states (ilo_resource ilo)) r4 Hres)
    as (rs & r5 & Hloop5 & Hlen5 & _ & _ & Hr5 & Hnull5).
  rewrite Hloop5. cbn [bind].
  destruct (release_slots_spec ObjSurface (nr_cbufs (fb_state (ilo_fb ilo)))
              (cbufs (fb_state (ilo_fb ilo))) r5 Hfb)
    as (fbs & r6 & Hloop6 & Hlen6 & _ & _ & Hr6 & Hnull6).
  rewrite Hloop6. cbn [bind].
  set (zr := match zsbuf (fb_state (ilo_fb ilo)) with
             | Some surf => (None, pipe_reference r6 (Some (ObjSurface surf)) None)
             | None => (zsbuf (fb_state (ilo_fb ilo)), r6)
             end).
  assert (Hzs : fst zr = None /\
                forall o, snd zr o
                          = r6 o - held_by ObjSurface (zsbuf (fb_state (ilo_fb ilo))) o).
  { unfold zr. destruct (zsbuf (fb_state (ilo_fb ilo))) as [surf|].
    - split; [reflexivity |]. intros o.
      apply (pipe_release_count ObjSurface r6 (Some surf)).
    - split; [reflexivity |]. intros o. cbn [snd]. rewrite held_by_None. lia. }
  destruct zr as [zs r7]. cbn [fst snd] in Hzs. destruct Hzs as [-> Hr7].
  cbn [ilo_resource ilo_refcnt ilo_fb ilo_cs_resource ilo_global_binding
       set_cbuf set_so set_vb set_refcnt set_ib set_resource set_fb
       set_cs_resource].
  destruct (release_slots_spec ObjSurface (resource_count (ilo_cs_resource ilo))
              (resource_states (ilo_cs_resource ilo)) r7 Hcs)
    as (cs & r8 & Hloop8 & Hlen8 & _ & _ & Hr8 & Hnull8).
  rewrite Hloop8. cbn [bind].
  destruct (release_slots_spec ObjResource (gb_count (ilo_global_binding ilo))
              (gb_resources (ilo_global_binding ilo)) r8 Hgb)
    as (gbs & r9 & Hloop9 & Hlen9 & _ & _ & Hr9 & Hnull9).
  rewrite Hloop9. cbn [bind].
  eexists. split; [reflexivity |].
  split; [| split; [| split; [| split]]].
  - intros o. cbn. rewrite Hr9, Hr8, Hr7, Hr6, Hr5, Hr4. cbn.
    rewrite Hr3, !pipe_release_count, Hr1.
    unfold bindings_held, views_held, sum_over, PIPE_SHADER_TYPES.
    cbn [foldr sh_get]. lia.
  - intros o. unfold bindings_held.
    cbn [ilo_vb ilo_ib ilo_so ilo_cbuf ilo_resource ilo_fb ilo_cs_resource
         ilo_global_binding set_global_binding set_cs_resource set_fb
         set_resource set_cbuf set_so set_ib set_vb set_refcnt
         vb_states vb_enabled_mask ib_state ib_buffer ib_resource
         so_states so_count resource_states resource_count fb_state cbufs
         nr_cbufs zsbuf gb_resources gb_count].
    rewrite Hnull1, Hnull3, Hnull5, Hnull6, Hnull8, Hnull9.
    rewrite (sum_over_0 PIPE_SHADER_TYPES) by (intros sh Hin; apply Hnull4, Hin).
    rewrite !held_by_None. reflexivity.
  - reflexivity.
  - reflexivity.
  - unfold counts_bounded, Elements in *. cbn.
    rewrite Hlen1, Hlen3, Hlen5, Hlen6, Hlen8, Hlen9.
    repeat split; try lia; apply Hview.
Qed.

(** X20: teardown gives back what the context holds.  When every count is
    within its array and the vertex-buffer array has at most 32 slots,
    [ilo_cleanup_states] completes; each object loses one
    reference for every pointer the context held on it (enabled vertex
    buffers, the two index-buffer pointers, stream-output targets, sampler
    views, constant buffers, shader and compute resources, framebuffer
    surfaces, global bindings); every one of those pointers except the
    sampler views is null afterwards; and the dirty set is not touched. *)
Theorem ilo_cleanup_states_releases (ilo : ilo_context) :
  counts_bounded ilo ->
  exists ilo',
    ilo_cleanup_states ilo = Ok ilo' /\
    (forall o,
       ilo_refcnt ilo' o
       = ilo_refcnt ilo o - bindings_held ilo o - views_held ilo o) /\
    (forall o, bindings_held ilo' o = 0) /\
    ilo_dirty ilo' = ilo_dirty ilo.
Proof.
  intros Hb.
  destruct (cleanup_states_spec ilo Hb) as (ilo' & H & Hr & Hn & _ & Hd & _).
  exists ilo'. auto.
Qed.

Lemma counts_bounded_textured : counts_bounded textured_context.
Proof.
  unfold counts_bounded. repeat split; try (vm_compute; discriminate);
    destruct sh; vm_compute; discriminate.
Qed.

Lemma ilo_cleanup_states_releases_witness :
  exists ilo',
    ilo_cleanup_states textured_context = Ok ilo' /\
    (forall o,
       ilo_refcnt ilo' o
       = ilo_refcnt textured_context o - bindings_held textured_context o
         - views_held textured_context o) /\
    (forall o, bindings_held ilo' o = 0) /\
    ilo_dirty ilo' = ilo_dirty textured_context.
Proof.
  exact (ilo_cleanup_states_releases textured_context counts_bounded_textured).
Defined.

Lemma held_by_other {A : Type} (obj : A -> object) (p : option A) (o : object) :
  (forall x, obj x <> o) -> held_by obj p o = 0.
Proof.
  intros Hne. unfold held_by. destruct (decide _) as [He|]; [| reflexivity].
  destruct p as [x|]; [| discriminate He].
  injection He as He. destruct (Hne x He).
Qed.

Lemma slots_held_other {A : Type} (obj : A -> object) (slots : list (option A))
    (count : Z) (o : object) :
  (forall x, obj x <> o) -> slots_held obj slots count o = 0.
Proof.
  intros Hne. unfold slots_held. apply sum_range_0. intros j _.
  apply held_by_other, Hne.
Qed.

Lemma fields_held_other {A : Type} (ptr : Z -> A -> option pipe_resource)
    (l : list A) (o : object) :
  (forall r, ObjResource r <> o) -> fields_held ptr l o = 0.
Proof.
  intros Hne. unfold fields_held. apply sum_range_0. intros j _.
  destruct (l !! Z.to_nat j); [apply held_by_other, Hne | reflexivity].
Qed.

(** Only the sampler-view slots hold references on a sampler view. *)
Lemma bindings_held_view (ilo : ilo_context) (v : pipe_sampler_view) :
  bindings_held ilo (ObjSamplerView v) = 0.
Proof.
  unfold bindings_held.
  rewrite !slots_held_other, !fields_held_other, !held_by_other
    by (intros x; discriminate).
  rewrite (sum_over_0 PIPE_SHADER_TYPES)
    by (intros sh _; apply fields_held_other; intros x; discriminate).
  reflexivity.
Qed.

(** X21: teardown leaves the sampler-view slots as they are.  The views
    are released through a copy of the slot: after a teardown that
    completes, every view has lost one reference for each counted slot
    that held it, and the slots and the counts of the views are exactly
    as before; the slots still point at the views they no longer hold a
    reference on. *)
Theorem ilo_cleanup_states_keeps_views (ilo ilo' : ilo_context) :
  counts_bounded ilo ->
  ilo_cleanup_states ilo = Ok ilo' ->
  ilo_view ilo' = ilo_view ilo /\
  (forall o, views_held ilo' o = views_held ilo o) /\
  forall v,
    ilo_refcnt ilo' (ObjSamplerView v)
    = ilo_refcnt ilo (ObjSamplerView v) - views_held ilo (ObjSamplerView v).
Proof.
  intros Hb H.
  destruct (cleanup_states_spec ilo Hb) as (c1 & H1 & Hr & _ & Hv & _).
  rewrite H in H1. injection H1 as <-.
  split; [exact Hv |]. split.
  - intros o. unfold views_held. rewrite Hv. reflexivity.
  - intros v. rewrite Hr, bindings_held_view. lia.
Qed.

Lemma counts_bounded_fragment_views : counts_bounded fragment_views_context.
Proof.
  unfold counts_bounded. repeat split; try (vm_compute; discriminate);
    destruct sh; vm_compute; discriminate.
Qed.

Lemma ilo_cleanup_states_keeps_views_witness :
  exists ilo',
    ilo_cleanup_states fragment_views_context = Ok ilo' /\
    ilo_view ilo' = ilo_view fragment_views_context /\
    ilo_refcnt fragment_views_context (ObjSamplerView view_a) = 1 /\
    ilo_refcnt ilo' (ObjSamplerView view_a) = 0.
Proof.
  eexists. split; [vm_compute; reflexivity |].
  refine ((fun H => _)
            (ilo_cleanup_states_keeps_views fragment_views_context _
               counts_bounded_fragment_views _));
    [| vm_compute; reflexivity].
  destruct H as (Hv & _ & Hr).
  split; [exact Hv |]. split; [vm_compute; reflexivity |].
  rewrite (Hr view_a). vm_compute. reflexivity.
Defined.
